(** * Verification engine of the bKash personal payment channel worker

    A shallow embedding of the worker's verification and reconciliation code:
    [services/smsParser.ts] (reference normalisation and the SMS parser),
    [services/db.ts] (the D1 tables behind the repository classes),
    [services/verification.ts] (the rule chain and the two resolution
    paths), [routes/track.ts] (the session route and, in its second part,
    the submit-trx handler [submitTrxID]), [routes/webhook-sms.ts] (the SMS
    webhook) and [scheduled/cron.ts] (the sweep).

    Conventions of the embedding.
    - A JS string is a [string]: the sequence of its UTF-16 code units,
      each a number below 2^16.  [trim] strips the WhiteSpace and
      LineTerminator code points of ECMAScript, [toUpperCase] applies the
      full uppercase mappings of the Unicode Character Database to the code
      points of the string, and the regular expressions work on code units,
      as they do without the [u] flag.
    - An ISO-8601 timestamp column is the [Z] number of milliseconds that
      [new Date(column).getTime()] yields.  Every timestamp the worker writes
      comes out of [toISOString()], for which the textual order used by SQL
      and the numeric order coincide.
    - [amount_cents] columns are SQL INTEGERs, modelled in [Z].
    - [offered_receivers] is the array that [JSON.parse] gives back for the
      text [TrackingService.create] stored with [JSON.stringify].
    - A D1 table is the [list] of its rows in insertion order.  An INSERT
      raises on the constraints of its table, and D1 refuses a statement
      with more than 100 bound parameters, which [expireSessions] reaches
      with its one parameter per id; the other statements do not raise.
    - [ulid()] and [new Date()] are inputs of the operation that calls them;
      all clock reads of one handler invocation see the same instant.
    - An operation of the verification service returns the store it leaves,
      the calls it made on its collaborators, and its result. *)

From Stdlib Require Import List Ascii ZArith NArith Bool Lia Arith.
From Stdlib Require Strings.Byte.
Import ListNotations.

(** ** JS strings *)

(** A UTF-16 code unit. *)
Abbreviation codeunit := N (only parsing).

(** A JS string: the sequence of its code units. *)
Inductive string : Set :=
| EmptyString
| String (c : codeunit) (s : string).

Declare Scope string_scope.
Delimit Scope string_scope with string.
Bind Scope string_scope with string.

(** String literals are written for ASCII text, one code unit per
    character. *)
Fixpoint ofBytes (l : list Byte.byte) : option string :=
  match l with
  | [] => Some EmptyString
  | b :: l' =>
      if (Byte.to_N b <? 128)%N
      then option_map (String (Byte.to_N b)) (ofBytes l')
      else None
  end.

Fixpoint toBytes (s : string) : option (list Byte.byte) :=
  match s with
  | EmptyString => Some []
  | String c s' =>
      if (c <? 128)%N
      then match Byte.of_N c, toBytes s' with
           | Some b, Some l => Some (b :: l)
           | _, _ => None
           end
      else None
  end.

String Notation string ofBytes toBytes : string_scope.

Module String.

(** [s.length] *)
Fixpoint length (s : string) : nat :=
  match s with
  | EmptyString => 0
  | String _ s' => S (length s')
  end.

(** [a + b] *)
Fixpoint append (a b : string) : string :=
  match a with
  | EmptyString => b
  | String c a' => String c (append a' b)
  end.

(** [a === b] *)
Fixpoint eqb (a b : string) : bool :=
  match a, b with
  | EmptyString, EmptyString => true
  | String c a', String d b' => (c =? d)%N && eqb a' b'
  | _, _ => false
  end.

(** [s.substring(0, m)]: the first [m] code units of [s]. *)
Fixpoint leading (m : nat) (s : string) : string :=
  match s with
  | EmptyString => EmptyString
  | String c s' =>
      match m with
      | O => EmptyString
      | S m' => String c (leading m' s')
      end
  end.

(** The code units of a string, and back. *)
Fixpoint units (s : string) : list codeunit :=
  match s with
  | EmptyString => []
  | String c s' => c :: units s'
  end.

Fixpoint ofUnits (l : list codeunit) : string :=
  match l with
  | [] => EmptyString
  | c :: l' => String c (ofUnits l')
  end.

End String.

Infix "++" := String.append (right associativity, at level 60) : string_scope.
Infix "=?" := String.eqb (at level 70) : string_scope.

Definition string_dec (a b : string) : {a = b} + {a <> b}.
Proof. decide equality. apply N.eq_dec. Defined.

Local Open Scope string_scope.
Local Open Scope Z_scope.

(** ** JS string primitives used by the worker *)

Module JS.

(** The [WhiteSpace] and [LineTerminator] code points of ECMAScript, all
    of them single code units: what [trim] strips and [\s] matches. *)
Definition whiteSpace : list codeunit :=
  [0x0009; 0x000A; 0x000B; 0x000C; 0x000D; 0x0020; 0x00A0; 0x1680;
   0x2000; 0x2001; 0x2002; 0x2003; 0x2004; 0x2005; 0x2006; 0x2007;
   0x2008; 0x2009; 0x200A; 0x2028; 0x2029; 0x202F; 0x205F; 0x3000;
   0xFEFF]%N.

Definition isWhiteSpace (c : codeunit) : bool := existsb (N.eqb c) whiteSpace.

Definition isHighSurrogate (c : codeunit) : bool := ((0xD800 <=? c) && (c <=? 0xDBFF))%N.

Definition isLowSurrogate (c : codeunit) : bool := ((0xDC00 <=? c) && (c <=? 0xDFFF))%N.

(** The code point of a surrogate pair, and the pair of a code point
    from U+10000 on. *)
Definition codePoint (hi lo : codeunit) : N :=
  (0x10000 + (hi - 0xD800) * 0x400 + (lo - 0xDC00))%N.

Definition surrogatePair (cp : N) : string :=
  String (0xD800 + (cp - 0x10000) / 0x400)%N
         (String (0xDC00 + (cp - 0x10000) mod 0x400)%N EmptyString).

(** The full uppercase mappings of the Unicode Character Database
    (UnicodeData.txt and the unconditional entries of SpecialCasing.txt,
    Unicode 14.0) that change a code point, from U+0080 to U+FFFF: the code
    point and the code points it becomes. *)
Definition upperCaseMapping : list (N * list N) :=
  [(0x00B5, [0x039C]); (0x00DF, [0x0053; 0x0053]); (0x00E0, [0x00C0]); (0x00E1, [0x00C1]);
   (0x00E2, [0x00C2]); (0x00E3, [0x00C3]); (0x00E4, [0x00C4]); (0x00E5, [0x00C5]);
   (0x00E6, [0x00C6]); (0x00E7, [0x00C7]); (0x00E8, [0x00C8]); (0x00E9, [0x00C9]);
   (0x00EA, [0x00CA]); (0x00EB, [0x00CB]); (0x00EC, [0x00CC]); (0x00ED, [0x00CD]);
   (0x00EE, [0x00CE]); (0x00EF, [0x00CF]); (0x00F0, [0x00D0]); (0x00F1, [0x00D1]);
   (0x00F2, [0x00D2]); (0x00F3, [0x00D3]); (0x00F4, [0x00D4]); (0x00F5, [0x00D5]);
   (0x00F6, [0x00D6]); (0x00F8, [0x00D8]); (0x00F9, [0x00D9]); (0x00FA, [0x00DA]);
   (0x00FB, [0x00DB]); (0x00FC, [0x00DC]); (0x00FD, [0x00DD]); (0x00FE, [0x00DE]);
   (0x00FF, [0x0178]); (0x0101, [0x0100]); (0x0103, [0x0102]); (0x0105, [0x0104]);
   (0x0107, [0x0106]); (0x0109, [0x0108]); (0x010B, [0x010A]); (0x010D, [0x010C]);
   (0x010F, [0x010E]); (0x0111, [0x0110]); (0x0113, [0x0112]); (0x0115, [0x0114]);
   (0x0117, [0x0116]); (0x0119, [0x0118]); (0x011B, [0x011A]); (0x011D, [0x011C]);
   (0x011F, [0x011E]); (0x0121, [0x0120]); (0x0123, [0x0122]); (0x0125, [0x0124]);
   (0x0127, [0x0126]); (0x0129, [0x0128]); (0x012B, [0x012A]); (0x012D, [0x012C]);
   (0x012F, [0x012E]); (0x0131, [0x0049]); (0x0133, [0x0132]); (0x0135, [0x0134]);
   (0x0137, [0x0136]); (0x013A, [0x0139]); (0x013C, [0x013B]); (0x013E, [0x013D]);
   (0x0140, [0x013F]); (0x0142, [0x0141]); (0x0144, [0x0143]); (0x0146, [0x0145]);
   (0x0148, [0x0147]); (0x0149, [0x02BC; 0x004E]); (0x014B, [0x014A]); (0x014D, [0x014C]);
   (0x014F, [0x014E]); (0x0151, [0x0150]); (0x0153, [0x0152]); (0x0155, [0x0154]);
   (0x0157, [0x0156]); (0x0159, [0x0158]); (0x015B, [0x015A]); (0x015D, [0x015C]);
   (0x015F, [0x015E]); (0x0161, [0x0160]); (0x0163, [0x0162]); (0x0165, [0x0164]);
   (0x0167, [0x0166]); (0x0169, [0x0168]); (0x016B, [0x016A]); (0x016D, [0x016C]);
   (0x016F, [0x016E]); (0x0171, [0x0170]); (0x0173, [0x0172]); (0x0175, [0x0174]);
   (0x0177, [0x0176]); (0x017A, [0x0179]); (0x017C, [0x017B]); (0x017E, [0x017D]);
   (0x017F, [0x0053]); (0x0180, [0x0243]); (0x0183, [0x0182]); (0x0185, [0x0184]);
   (0x0188, [0x0187]); (0x018C, [0x018B]); (0x0192, [0x0191]); (0x0195, [0x01F6]);
   (0x0199, [0x0198]); (0x019A, [0x023D]); (0x019E, [0x0220]); (0x01A1, [0x01A0]);
   (0x01A3, [0x01A2]); (0x01A5, [0x01A4]); (0x01A8, [0x01A7]); (0x01AD, [0x01AC]);
   (0x01B0, [0x01AF]); (0x01B4, [0x01B3]); (0x01B6, [0x01B5]); (0x01B9, [0x01B8]);
   (0x01BD, [0x01BC]); (0x01BF, [0x01F7]); (0x01C5, [0x01C4]); (0x01C6, [0x01C4]);
   (0x01C8, [0x01C7]); (0x01C9, [0x01C7]); (0x01CB, [0x01CA]); (0x01CC, [0x01CA]);
   (0x01CE, [0x01CD]); (0x01D0, [0x01CF]); (0x01D2, [0x01D1]); (0x01D4, [0x01D3]);
   (0x01D6, [0x01D5]); (0x01D8, [0x01D7]); (0x01DA, [0x01D9]); (0x01DC, [0x01DB]);
   (0x01DD, [0x018E]); (0x01DF, [0x01DE]); (0x01E1, [0x01E0]); (0x01E3, [0x01E2]);
   (0x01E5, [0x01E4]); (0x01E7, [0x01E6]); (0x01E9, [0x01E8]); (0x01EB, [0x01EA]);
   (0x01ED, [0x01EC]); (0x01EF, [0x01EE]); (0x01F0, [0x004A; 0x030C]); (0x01F2, [0x01F1]);
   (0x01F3, [0x01F1]); (0x01F5, [0x01F4]); (0x01F9, [0x01F8]); (0x01FB, [0x01FA]);
   (0x01FD, [0x01FC]); (0x01FF, [0x01FE]); (0x0201, [0x0200]); (0x0203, [0x0202]);
   (0x0205, [0x0204]); (0x0207, [0x0206]); (0x0209, [0x0208]); (0x020B, [0x020A]);
   (0x020D, [0x020C]); (0x020F, [0x020E]); (0x0211, [0x0210]); (0x0213, [0x0212]);
   (0x0215, [0x0214]); (0x0217, [0x0216]); (0x0219, [0x0218]); (0x021B, [0x021A]);
   (0x021D, [0x021C]); (0x021F, [0x021E]); (0x0223, [0x0222]); (0x0225, [0x0224]);
   (0x0227, [0x0226]); (0x0229, [0x0228]); (0x022B, [0x022A]); (0x022D, [0x022C]);
   (0x022F, [0x022E]); (0x0231, [0x0230]); (0x0233, [0x0232]); (0x023C, [0x023B]);
   (0x023F, [0x2C7E]); (0x0240, [0x2C7F]); (0x0242, [0x0241]); (0x0247, [0x0246]);
   (0x0249, [0x0248]); (0x024B, [0x024A]); (0x024D, [0x024C]); (0x024F, [0x024E]);
   (0x0250, [0x2C6F]); (0x0251, [0x2C6D]); (0x0252, [0x2C70]); (0x0253, [0x0181]);
   (0x0254, [0x0186]); (0x0256, [0x0189]); (0x0257, [0x018A]); (0x0259, [0x018F]);
   (0x025B, [0x0190]); (0x025C, [0xA7AB]); (0x0260, [0x0193]); (0x0261, [0xA7AC]);
   (0x0263, [0x0194]); (0x0265, [0xA78D]); (0x0266, [0xA7AA]); (0x0268, [0x0197]);
   (0x0269, [0x0196]); (0x026A, [0xA7AE]); (0x026B, [0x2C62]); (0x026C, [0xA7AD]);
   (0x026F, [0x019C]); (0x0271, [0x2C6E]); (0x0272, [0x019D]); (0x0275, [0x019F]);
   (0x027D, [0x2C64]); (0x0280, [0x01A6]); (0x0282, [0xA7C5]); (0x0283, [0x01A9]);
   (0x0287, [0xA7B1]); (0x0288, [0x01AE]); (0x0289, [0x0244]); (0x028A, [0x01B1]);
   (0x028B, [0x01B2]); (0x028C, [0x0245]); (0x0292, [0x01B7]); (0x029D, [0xA7B2]);
   (0x029E, [0xA7B0]); (0x0345, [0x0399]); (0x0371, [0x0370]); (0x0373, [0x0372]);
   (0x0377, [0x0376]); (0x037B, [0x03FD]); (0x037C, [0x03FE]); (0x037D, [0x03FF]);
   (0x0390, [0x0399; 0x0308; 0x0301]); (0x03AC, [0x0386]); (0x03AD, [0x0388]);
   (0x03AE, [0x0389]); (0x03AF, [0x038A]); (0x03B0, [0x03A5; 0x0308; 0x0301]);
   (0x03B1, [0x0391]); (0x03B2, [0x0392]); (0x03B3, [0x0393]); (0x03B4, [0x0394]);
   (0x03B5, [0x0395]); (0x03B6, [0x0396]); (0x03B7, [0x0397]); (0x03B8, [0x0398]);
   (0x03B9, [0x0399]); (0x03BA, [0x039A]); (0x03BB, [0x039B]); (0x03BC, [0x039C]);
   (0x03BD, [0x039D]); (0x03BE, [0x039E]); (0x03BF, [0x039F]); (0x03C0, [0x03A0]);
   (0x03C1, [0x03A1]); (0x03C2, [0x03A3]); (0x03C3, [0x03A3]); (0x03C4, [0x03A4]);
   (0x03C5, [0x03A5]); (0x03C6, [0x03A6]); (0x03C7, [0x03A7]); (0x03C8, [0x03A8]);
   (0x03C9, [0x03A9]); (0x03CA, [0x03AA]); (0x03CB, [0x03AB]); (0x03CC, [0x038C]);
   (0x03CD, [0x038E]); (0x03CE, [0x038F]); (0x03D0, [0x0392]); (0x03D1, [0x0398]);
   (0x03D5, [0x03A6]); (0x03D6, [0x03A0]); (0x03D7, [0x03CF]); (0x03D9, [0x03D8]);
   (0x03DB, [0x03DA]); (0x03DD, [0x03DC]); (0x03DF, [0x03DE]); (0x03E1, [0x03E0]);
   (0x03E3, [0x03E2]); (0x03E5, [0x03E4]); (0x03E7, [0x03E6]); (0x03E9, [0x03E8]);
   (0x03EB, [0x03EA]); (0x03ED, [0x03EC]); (0x03EF, [0x03EE]); (0x03F0, [0x039A]);
   (0x03F1, [0x03A1]); (0x03F2, [0x03F9]); (0x03F3, [0x037F]); (0x03F5, [0x0395]);
   (0x03F8, [0x03F7]); (0x03FB, [0x03FA]); (0x0430, [0x0410]); (0x0431, [0x0411]);
   (0x0432, [0x0412]); (0x0433, [0x0413]); (0x0434, [0x0414]); (0x0435, [0x0415]);
   (0x0436, [0x0416]); (0x0437, [0x0417]); (0x0438, [0x0418]); (0x0439, [0x0419]);
   (0x043A, [0x041A]); (0x043B, [0x041B]); (0x043C, [0x041C]); (0x043D, [0x041D]);
   (0x043E, [0x041E]); (0x043F, [0x041F]); (0x0440, [0x0420]); (0x0441, [0x0421]);
   (0x0442, [0x0422]); (0x0443, [0x0423]); (0x0444, [0x0424]); (0x0445, [0x0425]);
   (0x0446, [0x0426]); (0x0447, [0x0427]); (0x0448, [0x0428]); (0x0449, [0x0429]);
   (0x044A, [0x042A]); (0x044B, [0x042B]); (0x044C, [0x042C]); (0x044D, [0x042D]);
   (0x044E, [0x042E]); (0x044F, [0x042F]); (0x0450, [0x0400]); (0x0451, [0x0401]);
   (0x0452, [0x0402]); (0x0453, [0x0403]); (0x0454, [0x0404]); (0x0455, [0x0405]);
   (0x0456, [0x0406]); (0x0457, [0x0407]); (0x0458, [0x0408]); (0x0459, [0x0409]);
   (0x045A, [0x040A]); (0x045B, [0x040B]); (0x045C, [0x040C]); (0x045D, [0x040D]);
   (0x045E, [0x040E]); (0x045F, [0x040F]); (0x0461, [0x0460]); (0x0463, [0x0462]);
   (0x0465, [0x0464]); (0x0467, [0x0466]); (0x0469, [0x0468]); (0x046B, [0x046A]);
   (0x046D, [0x046C]); (0x046F, [0x046E]); (0x0471, [0x0470]); (0x0473, [0x0472]);
   (0x0475, [0x0474]); (0x0477, [0x0476]); (0x0479, [0x0478]); (0x047B, [0x047A]);
   (0x047D, [0x047C]); (0x047F, [0x047E]); (0x0481, [0x0480]); (0x048B, [0x048A]);
   (0x048D, [0x048C]); (0x048F, [0x048E]); (0x0491, [0x0490]); (0x0493, [0x0492]);
   (0x0495, [0x0494]); (0x0497, [0x0496]); (0x0499, [0x0498]); (0x049B, [0x049A]);
   (0x049D, [0x049C]); (0x049F, [0x049E]); (0x04A1, [0x04A0]); (0x04A3, [0x04A2]);
   (0x04A5, [0x04A4]); (0x04A7, [0x04A6]); (0x04A9, [0x04A8]); (0x04AB, [0x04AA]);
   (0x04AD, [0x04AC]); (0x04AF, [0x04AE]); (0x04B1, [0x04B0]); (0x04B3, [0x04B2]);
   (0x04B5, [0x04B4]); (0x04B7, [0x04B6]); (0x04B9, [0x04B8]); (0x04BB, [0x04BA]);
   (0x04BD, [0x04BC]); (0x04BF, [0x04BE]); (0x04C2, [0x04C1]); (0x04C4, [0x04C3]);
   (0x04C6, [0x04C5]); (0x04C8, [0x04C7]); (0x04CA, [0x04C9]); (0x04CC, [0x04CB]);
   (0x04CE, [0x04CD]); (0x04CF, [0x04C0]); (0x04D1, [0x04D0]); (0x04D3, [0x04D2]);
   (0x04D5, [0x04D4]); (0x04D7, [0x04D6]); (0x04D9, [0x04D8]); (0x04DB, [0x04DA]);
   (0x04DD, [0x04DC]); (0x04DF, [0x04DE]); (0x04E1, [0x04E0]); (0x04E3, [0x04E2]);
   (0x04E5, [0x04E4]); (0x04E7, [0x04E6]); (0x04E9, [0x04E8]); (0x04EB, [0x04EA]);
   (0x04ED, [0x04EC]); (0x04EF, [0x04EE]); (0x04F1, [0x04F0]); (0x04F3, [0x04F2]);
   (0x04F5, [0x04F4]); (0x04F7, [0x04F6]); (0x04F9, [0x04F8]); (0x04FB, [0x04FA]);
   (0x04FD, [0x04FC]); (0x04FF, [0x04FE]); (0x0501, [0x0500]); (0x0503, [0x0502]);
   (0x0505, [0x0504]); (0x0507, [0x0506]); (0x0509, [0x0508]); (0x050B, [0x050A]);
   (0x050D, [0x050C]); (0x050F, [0x050E]); (0x0511, [0x0510]); (0x0513, [0x0512]);
   (0x0515, [0x0514]); (0x0517, [0x0516]); (0x0519, [0x0518]); (0x051B, [0x051A]);
   (0x051D, [0x051C]); (0x051F, [0x051E]); (0x0521, [0x0520]); (0x0523, [0x0522]);
   (0x0525, [0x0524]); (0x0527, [0x0526]); (0x0529, [0x0528]); (0x052B, [0x052A]);
   (0x052D, [0x052C]); (0x052F, [0x052E]); (0x0561, [0x0531]); (0x0562, [0x0532]);
   (0x0563, [0x0533]); (0x0564, [0x0534]); (0x0565, [0x0535]); (0x0566, [0x0536]);
   (0x0567, [0x0537]); (0x0568, [0x0538]); (0x0569, [0x0539]); (0x056A, [0x053A]);
   (0x056B, [0x053B]); (0x056C, [0x053C]); (0x056D, [0x053D]); (0x056E, [0x053E]);
   (0x056F, [0x053F]); (0x0570, [0x0540]); (0x0571, [0x0541]); (0x0572, [0x0542]);
   (0x0573, [0x0543]); (0x0574, [0x0544]); (0x0575, [0x0545]); (0x0576, [0x0546]);
   (0x0577, [0x0547]); (0x0578, [0x0548]); (0x0579, [0x0549]); (0x057A, [0x054A]);
   (0x057B, [0x054B]); (0x057C, [0x054C]); (0x057D, [0x054D]); (0x057E, [0x054E]);
   (0x057F, [0x054F]); (0x0580, [0x0550]); (0x0581, [0x0551]); (0x0582, [0x0552]);
   (0x0583, [0x0553]); (0x0584, [0x0554]); (0x0585, [0x0555]); (0x0586, [0x0556]);
   (0x0587, [0x0535; 0x0552]); (0x10D0, [0x1C90]); (0x10D1, [0x1C91]); (0x10D2, [0x1C92]);
   (0x10D3, [0x1C93]); (0x10D4, [0x1C94]); (0x10D5, [0x1C95]); (0x10D6, [0x1C96]);
   (0x10D7, [0x1C97]); (0x10D8, [0x1C98]); (0x10D9, [0x1C99]); (0x10DA, [0x1C9A]);
   (0x10DB, [0x1C9B]); (0x10DC, [0x1C9C]); (0x10DD, [0x1C9D]); (0x10DE, [0x1C9E]);
   (0x10DF, [0x1C9F]); (0x10E0, [0x1CA0]); (0x10E1, [0x1CA1]); (0x10E2, [0x1CA2]);
   (0x10E3, [0x1CA3]); (0x10E4, [0x1CA4]); (0x10E5, [0x1CA5]); (0x10E6, [0x1CA6]);
   (0x10E7, [0x1CA7]); (0x10E8, [0x1CA8]); (0x10E9, [0x1CA9]); (0x10EA, [0x1CAA]);
   (0x10EB, [0x1CAB]); (0x10EC, [0x1CAC]); (0x10ED, [0x1CAD]); (0x10EE, [0x1CAE]);
   (0x10EF, [0x1CAF]); (0x10F0, [0x1CB0]); (0x10F1, [0x1CB1]); (0x10F2, [0x1CB2]);
   (0x10F3, [0x1CB3]); (0x10F4, [0x1CB4]); (0x10F5, [0x1CB5]); (0x10F6, [0x1CB6]);
   (0x10F7, [0x1CB7]); (0x10F8, [0x1CB8]); (0x10F9, [0x1CB9]); (0x10FA, [0x1CBA]);
   (0x10FD, [0x1CBD]); (0x10FE, [0x1CBE]); (0x10FF, [0x1CBF]); (0x13F8, [0x13F0]);
   (0x13F9, [0x13F1]); (0x13FA, [0x13F2]); (0x13FB, [0x13F3]); (0x13FC, [0x13F4]);
   (0x13FD, [0x13F5]); (0x1C80, [0x0412]); (0x1C81, [0x0414]); (0x1C82, [0x041E]);
   (0x1C83, [0x0421]); (0x1C84, [0x0422]); (0x1C85, [0x0422]); (0x1C86, [0x042A]);
   (0x1C87, [0x0462]); (0x1C88, [0xA64A]); (0x1D79, [0xA77D]); (0x1D7D, [0x2C63]);
   (0x1D8E, [0xA7C6]); (0x1E01, [0x1E00]); (0x1E03, [0x1E02]); (0x1E05, [0x1E04]);
   (0x1E07, [0x1E06]); (0x1E09, [0x1E08]); (0x1E0B, [0x1E0A]); (0x1E0D, [0x1E0C]);
   (0x1E0F, [0x1E0E]); (0x1E11, [0x1E10]); (0x1E13, [0x1E12]); (0x1E15, [0x1E14]);
   (0x1E17, [0x1E16]); (0x1E19, [0x1E18]); (0x1E1B, [0x1E1A]); (0x1E1D, [0x1E1C]);
   (0x1E1F, [0x1E1E]); (0x1E21, [0x1E20]); (0x1E23, [0x1E22]); (0x1E25, [0x1E24]);
   (0x1E27, [0x1E26]); (0x1E29, [0x1E28]); (0x1E2B, [0x1E2A]); (0x1E2D, [0x1E2C]);
   (0x1E2F, [0x1E2E]); (0x1E31, [0x1E30]); (0x1E33, [0x1E32]); (0x1E35, [0x1E34]);
   (0x1E37, [0x1E36]); (0x1E39, [0x1E38]); (0x1E3B, [0x1E3A]); (0x1E3D, [0x1E3C]);
   (0x1E3F, [0x1E3E]); (0x1E41, [0x1E40]); (0x1E43, [0x1E42]); (0x1E45, [0x1E44]);
   (0x1E47, [0x1E46]); (0x1E49, [0x1E48]); (0x1E4B, [0x1E4A]); (0x1E4D, [0x1E4C]);
   (0x1E4F, [0x1E4E]); (0x1E51, [0x1E50]); (0x1E53, [0x1E52]); (0x1E55, [0x1E54]);
   (0x1E57, [0x1E56]); (0x1E59, [0x1E58]); (0x1E5B, [0x1E5A]); (0x1E5D, [0x1E5C]);
   (0x1E5F, [0x1E5E]); (0x1E61, [0x1E60]); (0x1E63, [0x1E62]); (0x1E65, [0x1E64]);
   (0x1E67, [0x1E66]); (0x1E69, [0x1E68]); (0x1E6B, [0x1E6A]); (0x1E6D, [0x1E6C]);
   (0x1E6F, [0x1E6E]); (0x1E71, [0x1E70]); (0x1E73, [0x1E72]); (0x1E75, [0x1E74]);
   (0x1E77, [0x1E76]); (0x1E79, [0x1E78]); (0x1E7B, [0x1E7A]); (0x1E7D, [0x1E7C]);
   (0x1E7F, [0x1E7E]); (0x1E81, [0x1E80]); (0x1E83, [0x1E82]); (0x1E85, [0x1E84]);
   (0x1E87, [0x1E86]); (0x1E89, [0x1E88]); (0x1E8B, [0x1E8A]); (0x1E8D, [0x1E8C]);
   (0x1E8F, [0x1E8E]); (0x1E91, [0x1E90]); (0x1E93, [0x1E92]); (0x1E95, [0x1E94]);
   (0x1E96, [0x0048; 0x0331]); (0x1E97, [0x0054; 0x0308]); (0x1E98, [0x0057; 0x030A]);
   (0x1E99, [0x0059; 0x030A]); (0x1E9A, [0x0041; 0x02BE]); (0x1E9B, [0x1E60]);
   (0x1EA1, [0x1EA0]); (0x1EA3, [0x1EA2]); (0x1EA5, [0x1EA4]); (0x1EA7, [0x1EA6]);
   (0x1EA9, [0x1EA8]); (0x1EAB, [0x1EAA]); (0x1EAD, [0x1EAC]); (0x1EAF, [0x1EAE]);
   (0x1EB1, [0x1EB0]); (0x1EB3, [0x1EB2]); (0x1EB5, [0x1EB4]); (0x1EB7, [0x1EB6]);
   (0x1EB9, [0x1EB8]); (0x1EBB, [0x1EBA]); (0x1EBD, [0x1EBC]); (0x1EBF, [0x1EBE]);
   (0x1EC1, [0x1EC0]); (0x1EC3, [0x1EC2]); (0x1EC5, [0x1EC4]); (0x1EC7, [0x1EC6]);
   (0x1EC9, [0x1EC8]); (0x1ECB, [0x1ECA]); (0x1ECD, [0x1ECC]); (0x1ECF, [0x1ECE]);
   (0x1ED1, [0x1ED0]); (0x1ED3, [0x1ED2]); (0x1ED5, [0x1ED4]); (0x1ED7, [0x1ED6]);
   (0x1ED9, [0x1ED8]); (0x1EDB, [0x1EDA]); (0x1EDD, [0x1EDC]); (0x1EDF, [0x1EDE]);
   (0x1EE1, [0x1EE0]); (0x1EE3, [0x1EE2]); (0x1EE5, [0x1EE4]); (0x1EE7, [0x1EE6]);
   (0x1EE9, [0x1EE8]); (0x1EEB, [0x1EEA]); (0x1EED, [0x1EEC]); (0x1EEF, [0x1EEE]);
   (0x1EF1, [0x1EF0]); (0x1EF3, [0x1EF2]); (0x1EF5, [0x1EF4]); (0x1EF7, [0x1EF6]);
   (0x1EF9, [0x1EF8]); (0x1EFB, [0x1EFA]); (0x1EFD, [0x1EFC]); (0x1EFF, [0x1EFE]);
   (0x1F00, [0x1F08]); (0x1F01, [0x1F09]); (0x1F02, [0x1F0A]); (0x1F03, [0x1F0B]);
   (0x1F04, [0x1F0C]); (0x1F05, [0x1F0D]); (0x1F06, [0x1F0E]); (0x1F07, [0x1F0F]);
   (0x1F10, [0x1F18]); (0x1F11, [0x1F19]); (0x1F12, [0x1F1A]); (0x1F13, [0x1F1B]);
   (0x1F14, [0x1F1C]); (0x1F15, [0x1F1D]); (0x1F20, [0x1F28]); (0x1F21, [0x1F29]);
   (0x1F22, [0x1F2A]); (0x1F23, [0x1F2B]); (0x1F24, [0x1F2C]); (0x1F25, [0x1F2D]);
   (0x1F26, [0x1F2E]); (0x1F27, [0x1F2F]); (0x1F30, [0x1F38]); (0x1F31, [0x1F39]);
   (0x1F32, [0x1F3A]); (0x1F33, [0x1F3B]); (0x1F34, [0x1F3C]); (0x1F35, [0x1F3D]);
   (0x1F36, [0x1F3E]); (0x1F37, [0x1F3F]); (0x1F40, [0x1F48]); (0x1F41, [0x1F49]);
   (0x1F42, [0x1F4A]); (0x1F43, [0x1F4B]); (0x1F44, [0x1F4C]); (0x1F45, [0x1F4D]);
   (0x1F50, [0x03A5; 0x0313]); (0x1F51, [0x1F59]); (0x1F52, [0x03A5; 0x0313; 0x0300]);
   (0x1F53, [0x1F5B]); (0x1F54, [0x03A5; 0x0313; 0x0301]); (0x1F55, [0x1F5D]);
   (0x1F56, [0x03A5; 0x0313; 0x0342]); (0x1F57, [0x1F5F]); (0x1F60, [0x1F68]);
   (0x1F61, [0x1F69]); (0x1F62, [0x1F6A]); (0x1F63, [0x1F6B]); (0x1F64, [0x1F6C]);
   (0x1F65, [0x1F6D]); (0x1F66, [0x1F6E]); (0x1F67, [0x1F6F]); (0x1F70, [0x1FBA]);
   (0x1F71, [0x1FBB]); (0x1F72, [0x1FC8]); (0x1F73, [0x1FC9]); (0x1F74, [0x1FCA]);
   (0x1F75, [0x1FCB]); (0x1F76, [0x1FDA]); (0x1F77, [0x1FDB]); (0x1F78, [0x1FF8]);
   (0x1F79, [0x1FF9]); (0x1F7A, [0x1FEA]); (0x1F7B, [0x1FEB]); (0x1F7C, [0x1FFA]);
   (0x1F7D, [0x1FFB]); (0x1F80, [0x1F08; 0x0399]); (0x1F81, [0x1F09; 0x0399]);
   (0x1F82, [0x1F0A; 0x0399]); (0x1F83, [0x1F0B; 0x0399]); (0x1F84, [0x1F0C; 0x0399]);
   (0x1F85, [0x1F0D; 0x0399]); (0x1F86, [0x1F0E; 0x0399]); (0x1F87, [0x1F0F; 0x0399]);
   (0x1F88, [0x1F08; 0x0399]); (0x1F89, [0x1F09; 0x0399]); (0x1F8A, [0x1F0A; 0x0399]);
   (0x1F8B, [0x1F0B; 0x0399]); (0x1F8C, [0x1F0C; 0x0399]); (0x1F8D, [0x1F0D; 0x0399]);
   (0x1F8E, [0x1F0E; 0x0399]); (0x1F8F, [0x1F0F; 0x0399]); (0x1F90, [0x1F28; 0x0399]);
   (0x1F91, [0x1F29; 0x0399]); (0x1F92, [0x1F2A; 0x0399]); (0x1F93, [0x1F2B; 0x0399]);
   (0x1F94, [0x1F2C; 0x0399]); (0x1F95, [0x1F2D; 0x0399]); (0x1F96, [0x1F2E; 0x0399]);
   (0x1F97, [0x1F2F; 0x0399]); (0x1F98, [0x1F28; 0x0399]); (0x1F99, [0x1F29; 0x0399]);
   (0x1F9A, [0x1F2A; 0x0399]); (0x1F9B, [0x1F2B; 0x0399]); (0x1F9C, [0x1F2C; 0x0399]);
   (0x1F9D, [0x1F2D; 0x0399]); (0x1F9E, [0x1F2E; 0x0399]); (0x1F9F, [0x1F2F; 0x0399]);
   (0x1FA0, [0x1F68; 0x0399]); (0x1FA1, [0x1F69; 0x0399]); (0x1FA2, [0x1F6A; 0x0399]);
   (0x1FA3, [0x1F6B; 0x0399]); (0x1FA4, [0x1F6C; 0x0399]); (0x1FA5, [0x1F6D; 0x0399]);
   (0x1FA6, [0x1F6E; 0x0399]); (0x1FA7, [0x1F6F; 0x0399]); (0x1FA8, [0x1F68; 0x0399]);
   (0x1FA9, [0x1F69; 0x0399]); (0x1FAA, [0x1F6A; 0x0399]); (0x1FAB, [0x1F6B; 0x0399]);
   (0x1FAC, [0x1F6C; 0x0399]); (0x1FAD, [0x1F6D; 0x0399]); (0x1FAE, [0x1F6E; 0x0399]);
   (0x1FAF, [0x1F6F; 0x0399]); (0x1FB0, [0x1FB8]); (0x1FB1, [0x1FB9]);
   (0x1FB2, [0x1FBA; 0x0399]); (0x1FB3, [0x0391; 0x0399]); (0x1FB4, [0x0386; 0x0399]);
   (0x1FB6, [0x0391; 0x0342]); (0x1FB7, [0x0391; 0x0342; 0x0399]); (0x1FBC, [0x0391; 0x0399]);
   (0x1FBE, [0x0399]); (0x1FC2, [0x1FCA; 0x0399]); (0x1FC3, [0x0397; 0x0399]);
   (0x1FC4, [0x0389; 0x0399]); (0x1FC6, [0x0397; 0x0342]); (0x1FC7, [0x0397; 0x0342; 0x0399]);
   (0x1FCC, [0x0397; 0x0399]); (0x1FD0, [0x1FD8]); (0x1FD1, [0x1FD9]);
   (0x1FD2, [0x0399; 0x0308; 0x0300]); (0x1FD3, [0x0399; 0x0308; 0x0301]);
   (0x1FD6, [0x0399; 0x0342]); (0x1FD7, [0x0399; 0x0308; 0x0342]); (0x1FE0, [0x1FE8]);
   (0x1FE1, [0x1FE9]); (0x1FE2, [0x03A5; 0x0308; 0x0300]); (0x1FE3, [0x03A5; 0x0308; 0x0301]);
   (0x1FE4, [0x03A1; 0x0313]); (0x1FE5, [0x1FEC]); (0x1FE6, [0x03A5; 0x0342]);
   (0x1FE7, [0x03A5; 0x0308; 0x0342]); (0x1FF2, [0x1FFA; 0x0399]); (0x1FF3, [0x03A9; 0x0399]);
   (0x1FF4, [0x038F; 0x0399]); (0x1FF6, [0x03A9; 0x0342]); (0x1FF7, [0x03A9; 0x0342; 0x0399]);
   (0x1FFC, [0x03A9; 0x0399]); (0x214E, [0x2132]); (0x2170, [0x2160]); (0x2171, [0x2161]);
   (0x2172, [0x2162]); (0x2173, [0x2163]); (0x2174, [0x2164]); (0x2175, [0x2165]);
   (0x2176, [0x2166]); (0x2177, [0x2167]); (0x2178, [0x2168]); (0x2179, [0x2169]);
   (0x217A, [0x216A]); (0x217B, [0x216B]); (0x217C, [0x216C]); (0x217D, [0x216D]);
   (0x217E, [0x216E]); (0x217F, [0x216F]); (0x2184, [0x2183]); (0x24D0, [0x24B6]);
   (0x24D1, [0x24B7]); (0x24D2, [0x24B8]); (0x24D3, [0x24B9]); (0x24D4, [0x24BA]);
   (0x24D5, [0x24BB]); (0x24D6, [0x24BC]); (0x24D7, [0x24BD]); (0x24D8, [0x24BE]);
   (0x24D9, [0x24BF]); (0x24DA, [0x24C0]); (0x24DB, [0x24C1]); (0x24DC, [0x24C2]);
   (0x24DD, [0x24C3]); (0x24DE, [0x24C4]); (0x24DF, [0x24C5]); (0x24E0, [0x24C6]);
   (0x24E1, [0x24C7]); (0x24E2, [0x24C8]); (0x24E3, [0x24C9]); (0x24E4, [0x24CA]);
   (0x24E5, [0x24CB]); (0x24E6, [0x24CC]); (0x24E7, [0x24CD]); (0x24E8, [0x24CE]);
   (0x24E9, [0x24CF]); (0x2C30, [0x2C00]); (0x2C31, [0x2C01]); (0x2C32, [0x2C02]);
   (0x2C33, [0x2C03]); (0x2C34, [0x2C04]); (0x2C35, [0x2C05]); (0x2C36, [0x2C06]);
   (0x2C37, [0x2C07]); (0x2C38, [0x2C08]); (0x2C39, [0x2C09]); (0x2C3A, [0x2C0A]);
   (0x2C3B, [0x2C0B]); (0x2C3C, [0x2C0C]); (0x2C3D, [0x2C0D]); (0x2C3E, [0x2C0E]);
   (0x2C3F, [0x2C0F]); (0x2C40, [0x2C10]); (0x2C41, [0x2C11]); (0x2C42, [0x2C12]);
   (0x2C43, [0x2C13]); (0x2C44, [0x2C14]); (0x2C45, [0x2C15]); (0x2C46, [0x2C16]);
   (0x2C47, [0x2C17]); (0x2C48, [0x2C18]); (0x2C49, [0x2C19]); (0x2C4A, [0x2C1A]);
   (0x2C4B, [0x2C1B]); (0x2C4C, [0x2C1C]); (0x2C4D, [0x2C1D]); (0x2C4E, [0x2C1E]);
   (0x2C4F, [0x2C1F]); (0x2C50, [0x2C20]); (0x2C51, [0x2C21]); (0x2C52, [0x2C22]);
   (0x2C53, [0x2C23]); (0x2C54, [0x2C24]); (0x2C55, [0x2C25]); (0x2C56, [0x2C26]);
   (0x2C57, [0x2C27]); (0x2C58, [0x2C28]); (0x2C59, [0x2C29]); (0x2C5A, [0x2C2A]);
   (0x2C5B, [0x2C2B]); (0x2C5C, [0x2C2C]); (0x2C5D, [0x2C2D]); (0x2C5E, [0x2C2E]);
   (0x2C5F, [0x2C2F]); (0x2C61, [0x2C60]); (0x2C65, [0x023A]); (0x2C66, [0x023E]);
   (0x2C68, [0x2C67]); (0x2C6A, [0x2C69]); (0x2C6C, [0x2C6B]); (0x2C73, [0x2C72]);
   (0x2C76, [0x2C75]); (0x2C81, [0x2C80]); (0x2C83, [0x2C82]); (0x2C85, [0x2C84]);
   (0x2C87, [0x2C86]); (0x2C89, [0x2C88]); (0x2C8B, [0x2C8A]); (0x2C8D, [0x2C8C]);
   (0x2C8F, [0x2C8E]); (0x2C91, [0x2C90]); (0x2C93, [0x2C92]); (0x2C95, [0x2C94]);
   (0x2C97, [0x2C96]); (0x2C99, [0x2C98]); (0x2C9B, [0x2C9A]); (0x2C9D, [0x2C9C]);
   (0x2C9F, [0x2C9E]); (0x2CA1, [0x2CA0]); (0x2CA3, [0x2CA2]); (0x2CA5, [0x2CA4]);
   (0x2CA7, [0x2CA6]); (0x2CA9, [0x2CA8]); (0x2CAB, [0x2CAA]); (0x2CAD, [0x2CAC]);
   (0x2CAF, [0x2CAE]); (0x2CB1, [0x2CB0]); (0x2CB3, [0x2CB2]); (0x2CB5, [0x2CB4]);
   (0x2CB7, [0x2CB6]); (0x2CB9, [0x2CB8]); (0x2CBB, [0x2CBA]); (0x2CBD, [0x2CBC]);
   (0x2CBF, [0x2CBE]); (0x2CC1, [0x2CC0]); (0x2CC3, [0x2CC2]); (0x2CC5, [0x2CC4]);
   (0x2CC7, [0x2CC6]); (0x2CC9, [0x2CC8]); (0x2CCB, [0x2CCA]); (0x2CCD, [0x2CCC]);
   (0x2CCF, [0x2CCE]); (0x2CD1, [0x2CD0]); (0x2CD3, [0x2CD2]); (0x2CD5, [0x2CD4]);
   (0x2CD7, [0x2CD6]); (0x2CD9, [0x2CD8]); (0x2CDB, [0x2CDA]); (0x2CDD, [0x2CDC]);
   (0x2CDF, [0x2CDE]); (0x2CE1, [0x2CE0]); (0x2CE3, [0x2CE2]); (0x2CEC, [0x2CEB]);
   (0x2CEE, [0x2CED]); (0x2CF3, [0x2CF2]); (0x2D00, [0x10A0]); (0x2D01, [0x10A1]);
   (0x2D02, [0x10A2]); (0x2D03, [0x10A3]); (0x2D04, [0x10A4]); (0x2D05, [0x10A5]);
   (0x2D06, [0x10A6]); (0x2D07, [0x10A7]); (0x2D08, [0x10A8]); (0x2D09, [0x10A9]);
   (0x2D0A, [0x10AA]); (0x2D0B, [0x10AB]); (0x2D0C, [0x10AC]); (0x2D0D, [0x10AD]);
   (0x2D0E, [0x10AE]); (0x2D0F, [0x10AF]); (0x2D10, [0x10B0]); (0x2D11, [0x10B1]);
   (0x2D12, [0x10B2]); (0x2D13, [0x10B3]); (0x2D14, [0x10B4]); (0x2D15, [0x10B5]);
   (0x2D16, [0x10B6]); (0x2D17, [0x10B7]); (0x2D18, [0x10B8]); (0x2D19, [0x10B9]);
   (0x2D1A, [0x10BA]); (0x2D1B, [0x10BB]); (0x2D1C, [0x10BC]); (0x2D1D, [0x10BD]);
   (0x2D1E, [0x10BE]); (0x2D1F, [0x10BF]); (0x2D20, [0x10C0]); (0x2D21, [0x10C1]);
   (0x2D22, [0x10C2]); (0x2D23, [0x10C3]); (0x2D24, [0x10C4]); (0x2D25, [0x10C5]);
   (0x2D27, [0x10C7]); (0x2D2D, [0x10CD]); (0xA641, [0xA640]); (0xA643, [0xA642]);
   (0xA645, [0xA644]); (0xA647, [0xA646]); (0xA649, [0xA648]); (0xA64B, [0xA64A]);
   (0xA64D, [0xA64C]); (0xA64F, [0xA64E]); (0xA651, [0xA650]); (0xA653, [0xA652]);
   (0xA655, [0xA654]); (0xA657, [0xA656]); (0xA659, [0xA658]); (0xA65B, [0xA65A]);
   (0xA65D, [0xA65C]); (0xA65F, [0xA65E]); (0xA661, [0xA660]); (0xA663, [0xA662]);
   (0xA665, [0xA664]); (0xA667, [0xA666]); (0xA669, [0xA668]); (0xA66B, [0xA66A]);
   (0xA66D, [0xA66C]); (0xA681, [0xA680]); (0xA683, [0xA682]); (0xA685, [0xA684]);
   (0xA687, [0xA686]); (0xA689, [0xA688]); (0xA68B, [0xA68A]); (0xA68D, [0xA68C]);
   (0xA68F, [0xA68E]); (0xA691, [0xA690]); (0xA693, [0xA692]); (0xA695, [0xA694]);
   (0xA697, [0xA696]); (0xA699, [0xA698]); (0xA69B, [0xA69A]); (0xA723, [0xA722]);
   (0xA725, [0xA724]); (0xA727, [0xA726]); (0xA729, [0xA728]); (0xA72B, [0xA72A]);
   (0xA72D, [0xA72C]); (0xA72F, [0xA72E]); (0xA733, [0xA732]); (0xA735, [0xA734]);
   (0xA737, [0xA736]); (0xA739, [0xA738]); (0xA73B, [0xA73A]); (0xA73D, [0xA73C]);
   (0xA73F, [0xA73E]); (0xA741, [0xA740]); (0xA743, [0xA742]); (0xA745, [0xA744]);
   (0xA747, [0xA746]); (0xA749, [0xA748]); (0xA74B, [0xA74A]); (0xA74D, [0xA74C]);
   (0xA74F, [0xA74E]); (0xA751, [0xA750]); (0xA753, [0xA752]); (0xA755, [0xA754]);
   (0xA757, [0xA756]); (0xA759, [0xA758]); (0xA75B, [0xA75A]); (0xA75D, [0xA75C]);
   (0xA75F, [0xA75E]); (0xA761, [0xA760]); (0xA763, [0xA762]); (0xA765, [0xA764]);
   (0xA767, [0xA766]); (0xA769, [0xA768]); (0xA76B, [0xA76A]); (0xA76D, [0xA76C]);
   (0xA76F, [0xA76E]); (0xA77A, [0xA779]); (0xA77C, [0xA77B]); (0xA77F, [0xA77E]);
   (0xA781, [0xA780]); (0xA783, [0xA782]); (0xA785, [0xA784]); (0xA787, [0xA786]);
   (0xA78C, [0xA78B]); (0xA791, [0xA790]); (0xA793, [0xA792]); (0xA794, [0xA7C4]);
   (0xA797, [0xA796]); (0xA799, [0xA798]); (0xA79B, [0xA79A]); (0xA79D, [0xA79C]);
   (0xA79F, [0xA79E]); (0xA7A1, [0xA7A0]); (0xA7A3, [0xA7A2]); (0xA7A5, [0xA7A4]);
   (0xA7A7, [0xA7A6]); (0xA7A9, [0xA7A8]); (0xA7B5, [0xA7B4]); (0xA7B7, [0xA7B6]);
   (0xA7B9, [0xA7B8]); (0xA7BB, [0xA7BA]); (0xA7BD, [0xA7BC]); (0xA7BF, [0xA7BE]);
   (0xA7C1, [0xA7C0]); (0xA7C3, [0xA7C2]); (0xA7C8, [0xA7C7]); (0xA7CA, [0xA7C9]);
   (0xA7D1, [0xA7D0]); (0xA7D7, [0xA7D6]); (0xA7D9, [0xA7D8]); (0xA7F6, [0xA7F5]);
   (0xAB53, [0xA7B3]); (0xAB70, [0x13A0]); (0xAB71, [0x13A1]); (0xAB72, [0x13A2]);
   (0xAB73, [0x13A3]); (0xAB74, [0x13A4]); (0xAB75, [0x13A5]); (0xAB76, [0x13A6]);
   (0xAB77, [0x13A7]); (0xAB78, [0x13A8]); (0xAB79, [0x13A9]); (0xAB7A, [0x13AA]);
   (0xAB7B, [0x13AB]); (0xAB7C, [0x13AC]); (0xAB7D, [0x13AD]); (0xAB7E, [0x13AE]);
   (0xAB7F, [0x13AF]); (0xAB80, [0x13B0]); (0xAB81, [0x13B1]); (0xAB82, [0x13B2]);
   (0xAB83, [0x13B3]); (0xAB84, [0x13B4]); (0xAB85, [0x13B5]); (0xAB86, [0x13B6]);
   (0xAB87, [0x13B7]); (0xAB88, [0x13B8]); (0xAB89, [0x13B9]); (0xAB8A, [0x13BA]);
   (0xAB8B, [0x13BB]); (0xAB8C, [0x13BC]); (0xAB8D, [0x13BD]); (0xAB8E, [0x13BE]);
   (0xAB8F, [0x13BF]); (0xAB90, [0x13C0]); (0xAB91, [0x13C1]); (0xAB92, [0x13C2]);
   (0xAB93, [0x13C3]); (0xAB94, [0x13C4]); (0xAB95, [0x13C5]); (0xAB96, [0x13C6]);
   (0xAB97, [0x13C7]); (0xAB98, [0x13C8]); (0xAB99, [0x13C9]); (0xAB9A, [0x13CA]);
   (0xAB9B, [0x13CB]); (0xAB9C, [0x13CC]); (0xAB9D, [0x13CD]); (0xAB9E, [0x13CE]);
   (0xAB9F, [0x13CF]); (0xABA0, [0x13D0]); (0xABA1, [0x13D1]); (0xABA2, [0x13D2]);
   (0xABA3, [0x13D3]); (0xABA4, [0x13D4]); (0xABA5, [0x13D5]); (0xABA6, [0x13D6]);
   (0xABA7, [0x13D7]); (0xABA8, [0x13D8]); (0xABA9, [0x13D9]); (0xABAA, [0x13DA]);
   (0xABAB, [0x13DB]); (0xABAC, [0x13DC]); (0xABAD, [0x13DD]); (0xABAE, [0x13DE]);
   (0xABAF, [0x13DF]); (0xABB0, [0x13E0]); (0xABB1, [0x13E1]); (0xABB2, [0x13E2]);
   (0xABB3, [0x13E3]); (0xABB4, [0x13E4]); (0xABB5, [0x13E5]); (0xABB6, [0x13E6]);
   (0xABB7, [0x13E7]); (0xABB8, [0x13E8]); (0xABB9, [0x13E9]); (0xABBA, [0x13EA]);
   (0xABBB, [0x13EB]); (0xABBC, [0x13EC]); (0xABBD, [0x13ED]); (0xABBE, [0x13EE]);
   (0xABBF, [0x13EF]); (0xFB00, [0x0046; 0x0046]); (0xFB01, [0x0046; 0x0049]);
   (0xFB02, [0x0046; 0x004C]); (0xFB03, [0x0046; 0x0046; 0x0049]);
   (0xFB04, [0x0046; 0x0046; 0x004C]); (0xFB05, [0x0053; 0x0054]); (0xFB06, [0x0053; 0x0054]);
   (0xFB13, [0x0544; 0x0546]); (0xFB14, [0x0544; 0x0535]); (0xFB15, [0x0544; 0x053B]);
   (0xFB16, [0x054E; 0x0546]); (0xFB17, [0x0544; 0x053D]); (0xFF41, [0xFF21]);
   (0xFF42, [0xFF22]); (0xFF43, [0xFF23]); (0xFF44, [0xFF24]); (0xFF45, [0xFF25]);
   (0xFF46, [0xFF26]); (0xFF47, [0xFF27]); (0xFF48, [0xFF28]); (0xFF49, [0xFF29]);
   (0xFF4A, [0xFF2A]); (0xFF4B, [0xFF2B]); (0xFF4C, [0xFF2C]); (0xFF4D, [0xFF2D]);
   (0xFF4E, [0xFF2E]); (0xFF4F, [0xFF2F]); (0xFF50, [0xFF30]); (0xFF51, [0xFF31]);
   (0xFF52, [0xFF32]); (0xFF53, [0xFF33]); (0xFF54, [0xFF34]); (0xFF55, [0xFF35]);
   (0xFF56, [0xFF36]); (0xFF57, [0xFF37]); (0xFF58, [0xFF38]); (0xFF59, [0xFF39]);
   (0xFF5A, [0xFF3A])]%N.

(** The same from U+10000 on, where each mapping is one code point. *)
Definition upperCaseMappingSupplementary : list (N * N) :=
  [(0x10428, 0x10400); (0x10429, 0x10401); (0x1042A, 0x10402); (0x1042B, 0x10403);
   (0x1042C, 0x10404); (0x1042D, 0x10405); (0x1042E, 0x10406); (0x1042F, 0x10407);
   (0x10430, 0x10408); (0x10431, 0x10409); (0x10432, 0x1040A); (0x10433, 0x1040B);
   (0x10434, 0x1040C); (0x10435, 0x1040D); (0x10436, 0x1040E); (0x10437, 0x1040F);
   (0x10438, 0x10410); (0x10439, 0x10411); (0x1043A, 0x10412); (0x1043B, 0x10413);
   (0x1043C, 0x10414); (0x1043D, 0x10415); (0x1043E, 0x10416); (0x1043F, 0x10417);
   (0x10440, 0x10418); (0x10441, 0x10419); (0x10442, 0x1041A); (0x10443, 0x1041B);
   (0x10444, 0x1041C); (0x10445, 0x1041D); (0x10446, 0x1041E); (0x10447, 0x1041F);
   (0x10448, 0x10420); (0x10449, 0x10421); (0x1044A, 0x10422); (0x1044B, 0x10423);
   (0x1044C, 0x10424); (0x1044D, 0x10425); (0x1044E, 0x10426); (0x1044F, 0x10427);
   (0x104D8, 0x104B0); (0x104D9, 0x104B1); (0x104DA, 0x104B2); (0x104DB, 0x104B3);
   (0x104DC, 0x104B4); (0x104DD, 0x104B5); (0x104DE, 0x104B6); (0x104DF, 0x104B7);
   (0x104E0, 0x104B8); (0x104E1, 0x104B9); (0x104E2, 0x104BA); (0x104E3, 0x104BB);
   (0x104E4, 0x104BC); (0x104E5, 0x104BD); (0x104E6, 0x104BE); (0x104E7, 0x104BF);
   (0x104E8, 0x104C0); (0x104E9, 0x104C1); (0x104EA, 0x104C2); (0x104EB, 0x104C3);
   (0x104EC, 0x104C4); (0x104ED, 0x104C5); (0x104EE, 0x104C6); (0x104EF, 0x104C7);
   (0x104F0, 0x104C8); (0x104F1, 0x104C9); (0x104F2, 0x104CA); (0x104F3, 0x104CB);
   (0x104F4, 0x104CC); (0x104F5, 0x104CD); (0x104F6, 0x104CE); (0x104F7, 0x104CF);
   (0x104F8, 0x104D0); (0x104F9, 0x104D1); (0x104FA, 0x104D2); (0x104FB, 0x104D3);
   (0x10597, 0x10570); (0x10598, 0x10571); (0x10599, 0x10572); (0x1059A, 0x10573);
   (0x1059B, 0x10574); (0x1059C, 0x10575); (0x1059D, 0x10576); (0x1059E, 0x10577);
   (0x1059F, 0x10578); (0x105A0, 0x10579); (0x105A1, 0x1057A); (0x105A3, 0x1057C);
   (0x105A4, 0x1057D); (0x105A5, 0x1057E); (0x105A6, 0x1057F); (0x105A7, 0x10580);
   (0x105A8, 0x10581); (0x105A9, 0x10582); (0x105AA, 0x10583); (0x105AB, 0x10584);
   (0x105AC, 0x10585); (0x105AD, 0x10586); (0x105AE, 0x10587); (0x105AF, 0x10588);
   (0x105B0, 0x10589); (0x105B1, 0x1058A); (0x105B3, 0x1058C); (0x105B4, 0x1058D);
   (0x105B5, 0x1058E); (0x105B6, 0x1058F); (0x105B7, 0x10590); (0x105B8, 0x10591);
   (0x105B9, 0x10592); (0x105BB, 0x10594); (0x105BC, 0x10595); (0x10CC0, 0x10C80);
   (0x10CC1, 0x10C81); (0x10CC2, 0x10C82); (0x10CC3, 0x10C83); (0x10CC4, 0x10C84);
   (0x10CC5, 0x10C85); (0x10CC6, 0x10C86); (0x10CC7, 0x10C87); (0x10CC8, 0x10C88);
   (0x10CC9, 0x10C89); (0x10CCA, 0x10C8A); (0x10CCB, 0x10C8B); (0x10CCC, 0x10C8C);
   (0x10CCD, 0x10C8D); (0x10CCE, 0x10C8E); (0x10CCF, 0x10C8F); (0x10CD0, 0x10C90);
   (0x10CD1, 0x10C91); (0x10CD2, 0x10C92); (0x10CD3, 0x10C93); (0x10CD4, 0x10C94);
   (0x10CD5, 0x10C95); (0x10CD6, 0x10C96); (0x10CD7, 0x10C97); (0x10CD8, 0x10C98);
   (0x10CD9, 0x10C99); (0x10CDA, 0x10C9A); (0x10CDB, 0x10C9B); (0x10CDC, 0x10C9C);
   (0x10CDD, 0x10C9D); (0x10CDE, 0x10C9E); (0x10CDF, 0x10C9F); (0x10CE0, 0x10CA0);
   (0x10CE1, 0x10CA1); (0x10CE2, 0x10CA2); (0x10CE3, 0x10CA3); (0x10CE4, 0x10CA4);
   (0x10CE5, 0x10CA5); (0x10CE6, 0x10CA6); (0x10CE7, 0x10CA7); (0x10CE8, 0x10CA8);
   (0x10CE9, 0x10CA9); (0x10CEA, 0x10CAA); (0x10CEB, 0x10CAB); (0x10CEC, 0x10CAC);
   (0x10CED, 0x10CAD); (0x10CEE, 0x10CAE); (0x10CEF, 0x10CAF); (0x10CF0, 0x10CB0);
   (0x10CF1, 0x10CB1); (0x10CF2, 0x10CB2); (0x118C0, 0x118A0); (0x118C1, 0x118A1);
   (0x118C2, 0x118A2); (0x118C3, 0x118A3); (0x118C4, 0x118A4); (0x118C5, 0x118A5);
   (0x118C6, 0x118A6); (0x118C7, 0x118A7); (0x118C8, 0x118A8); (0x118C9, 0x118A9);
   (0x118CA, 0x118AA); (0x118CB, 0x118AB); (0x118CC, 0x118AC); (0x118CD, 0x118AD);
   (0x118CE, 0x118AE); (0x118CF, 0x118AF); (0x118D0, 0x118B0); (0x118D1, 0x118B1);
   (0x118D2, 0x118B2); (0x118D3, 0x118B3); (0x118D4, 0x118B4); (0x118D5, 0x118B5);
   (0x118D6, 0x118B6); (0x118D7, 0x118B7); (0x118D8, 0x118B8); (0x118D9, 0x118B9);
   (0x118DA, 0x118BA); (0x118DB, 0x118BB); (0x118DC, 0x118BC); (0x118DD, 0x118BD);
   (0x118DE, 0x118BE); (0x118DF, 0x118BF); (0x16E60, 0x16E40); (0x16E61, 0x16E41);
   (0x16E62, 0x16E42); (0x16E63, 0x16E43); (0x16E64, 0x16E44); (0x16E65, 0x16E45);
   (0x16E66, 0x16E46); (0x16E67, 0x16E47); (0x16E68, 0x16E48); (0x16E69, 0x16E49);
   (0x16E6A, 0x16E4A); (0x16E6B, 0x16E4B); (0x16E6C, 0x16E4C); (0x16E6D, 0x16E4D);
   (0x16E6E, 0x16E4E); (0x16E6F, 0x16E4F); (0x16E70, 0x16E50); (0x16E71, 0x16E51);
   (0x16E72, 0x16E52); (0x16E73, 0x16E53); (0x16E74, 0x16E54); (0x16E75, 0x16E55);
   (0x16E76, 0x16E56); (0x16E77, 0x16E57); (0x16E78, 0x16E58); (0x16E79, 0x16E59);
   (0x16E7A, 0x16E5A); (0x16E7B, 0x16E5B); (0x16E7C, 0x16E5C); (0x16E7D, 0x16E5D);
   (0x16E7E, 0x16E5E); (0x16E7F, 0x16E5F); (0x1E922, 0x1E900); (0x1E923, 0x1E901);
   (0x1E924, 0x1E902); (0x1E925, 0x1E903); (0x1E926, 0x1E904); (0x1E927, 0x1E905);
   (0x1E928, 0x1E906); (0x1E929, 0x1E907); (0x1E92A, 0x1E908); (0x1E92B, 0x1E909);
   (0x1E92C, 0x1E90A); (0x1E92D, 0x1E90B); (0x1E92E, 0x1E90C); (0x1E92F, 0x1E90D);
   (0x1E930, 0x1E90E); (0x1E931, 0x1E90F); (0x1E932, 0x1E910); (0x1E933, 0x1E911);
   (0x1E934, 0x1E912); (0x1E935, 0x1E913); (0x1E936, 0x1E914); (0x1E937, 0x1E915);
   (0x1E938, 0x1E916); (0x1E939, 0x1E917); (0x1E93A, 0x1E918); (0x1E93B, 0x1E919);
   (0x1E93C, 0x1E91A); (0x1E93D, 0x1E91B); (0x1E93E, 0x1E91C); (0x1E93F, 0x1E91D);
   (0x1E940, 0x1E91E); (0x1E941, 0x1E91F); (0x1E942, 0x1E920); (0x1E943, 0x1E921)]%N.

(** The uppercase mapping of a code point that is one code unit: a-z in
    the ASCII range, the table above it; anything else, a surrogate on
    its own included, is kept. *)
Definition uppercaseOfUnit (c : codeunit) : string :=
  if (c <? 128)%N
  then String (if ((97 <=? c) && (c <=? 122))%N then (c - 32)%N else c) EmptyString
  else match find (fun e => (fst e =? c)%N) upperCaseMapping with
       | Some e => String.ofUnits (snd e)
       | None => String c EmptyString
       end.

(** The uppercase mapping of the code point of a surrogate pair. *)
Definition uppercaseOfPair (hi lo : codeunit) : string :=
  match find (fun e => (fst e =? codePoint hi lo)%N) upperCaseMappingSupplementary with
  | Some e => surrogatePair (snd e)
  | None => String hi (String lo EmptyString)
  end.

(** [String.prototype.toUpperCase]: the string is read as code points (a
    high surrogate followed by a low one is one code point, any other code
    unit is one by itself) and each is replaced by its uppercase
    mapping. *)
Fixpoint toUpperCase (s : string) : string :=
  match s with
  | EmptyString => EmptyString
  | String c s1 =>
      match s1 with
      | String d s2 =>
          if isHighSurrogate c && isLowSurrogate d
          then uppercaseOfPair c d ++ toUpperCase s2
          else uppercaseOfUnit c ++ toUpperCase s1
      | EmptyString => uppercaseOfUnit c
      end
  end.

Fixpoint trimStart (s : string) : string :=
  match s with
  | EmptyString => EmptyString
  | String c r => if isWhiteSpace c then trimStart r else s
  end.

Fixpoint trimEnd (s : string) : string :=
  match s with
  | EmptyString => EmptyString
  | String c r =>
      match trimEnd r with
      | EmptyString => if isWhiteSpace c then EmptyString else String c EmptyString
      | r' => String c r'
      end
  end.

(** [String.prototype.trim]. *)
Definition trim (s : string) : string := trimEnd (trimStart s).

(** [o || d] for a [string | null] value. *)
Definition orElse (o : option string) (d : string) : string :=
  match o with
  | Some s => if (s =? "")%string then d else s
  | None => d
  end.

(** [s || null]: the value when it is truthy ([null] and [''] are falsy). *)
Definition orNull (o : option string) : option string :=
  match o with
  | Some s => if (s =? "")%string then None else Some s
  | None => None
  end.

(** [c] is a high surrogate and [s] starts with a low one: [c] and the
    head of [s] are read as one code point. *)
Definition leadsPair (c : codeunit) (s : string) : bool :=
  isHighSurrogate c
  && match s with
     | String d _ => isLowSurrogate d
     | EmptyString => false
     end.

(** A code unit that is no surrogate and no white space, and is its own
    uppercase mapping. *)
Definition fixedUnit (x : codeunit) : bool :=
  negb (isHighSurrogate x) && negb (isLowSurrogate x) && negb (isWhiteSpace x)
  && (uppercaseOfUnit x =? String x EmptyString)%string.

(** The tables map code points that are no white space and no
    surrogates to non-empty sequences of fixed code units, and code points
    from U+10000 on to code points from U+10000 on that are not mapped
    further. *)
Definition mappingChecked : bool :=
  forallb (fun e =>
             (128 <=? fst e)%N
             && negb (isHighSurrogate (fst e)) && negb (isLowSurrogate (fst e))
             && negb (isWhiteSpace (fst e))
             && match snd e with [] => false | _ => true end
             && forallb fixedUnit (snd e))
          upperCaseMapping.

Definition supplementaryChecked : bool :=
  forallb (fun e =>
             (0x10000 <=? snd e)%N && (snd e <? 0x110000)%N
             && match find (fun e' => (fst e' =? snd e)%N) upperCaseMappingSupplementary with
                | None => true
                | Some _ => false
                end)
          upperCaseMappingSupplementary.

End JS.

(** ** services/smsParser.ts *)

(** [normalizeTrxID]: [trxid.trim().toUpperCase()]. *)
Definition normalizeTrxID (trxid : string) : string :=
  JS.toUpperCase (JS.trim trxid).


(** ** types/database.ts *)

Inductive ReceiverStatus := active | disabled.

Module Receiver.
Record t := mk {
  phone : string;
  label : string;
  status : ReceiverStatus;
  notes : option string;
  created_at : Z
}.
End Receiver.

Module Transaction.
Record t := mk {
  id : string;
  trxid : string;
  amount_cents : Z;
  receiver_phone : string;
  sender_phone : option string;
  received_at : Z;
  created_at : Z
}.
End Transaction.

Inductive TrackingStatus :=
  pending | submitted_trx | verified | failed | expired | canceled.

Inductive VerificationMethod := auto | manual.

(** The texts the verification service builds from templates
    ([failure_reason]), kept as the template and its arguments. *)
Inductive Reason :=
| TrxIDMismatch (expected got : string)
| AmountMismatch (expected got : Z)
| ReceiverNotOffered (receiver : string) (offered : list string)
| OutsideTimeWindow (received earliest latest : Z)
| DuplicateTrxID (session : string)
| NoTrackingSession (tracking_id : string)
| TrxidIsNull
| NoTransactionWithTrxID (trxid : string)
| NoTransactionWithID (id : string)
| NoPendingSessions (trxid : string).

(** Contents of the free-text [notes] column. *)
Inductive Note :=
| NoteText (s : string)
| NoteReason (r : Reason).

Module Tracking.
Record t := mk {
  tracking_id : string;
  item_code : string;
  payment_amount_cents : Z;
  offered_receivers : list string;   (* JSON.parse of the stored array *)
  user_entered_trxid : option string;
  customer_info_json : string;
  form_data_json : option string;
  ticket_choice : string;
  verification_method : VerificationMethod;
  status : TrackingStatus;
  matched_transaction_id : option string;
  created_at : Z;
  updated_at : Z;
  expires_at : Z;
  notes : option Note
}.
End Tracking.

Definition TrackingStatus_eqb (a b : TrackingStatus) : bool :=
  match a, b with
  | pending, pending | submitted_trx, submitted_trx | verified, verified
  | failed, failed | expired, expired | canceled, canceled => true
  | _, _ => false
  end.

(** ** services/db.ts *)

(** The D1 database: the three tables of the migrations. *)
Record DB := mkDB {
  receivers_table : list Receiver.t;
  transactions_table : list Transaction.t;
  tracking_table : list Tracking.t
}.

(** Errors a D1 statement raises. *)
Inductive D1Error :=
| UniqueConstraintFailed (column : string)
| ForeignKeyConstraintFailed
| TooManySQLVariables.

(** [error.message], up to the offset and the SQLite result code that D1
    appends to it. *)
Definition errorMessage (e : D1Error) : string :=
  match e with
  | UniqueConstraintFailed column => "D1_ERROR: UNIQUE constraint failed: " ++ column
  | ForeignKeyConstraintFailed => "D1_ERROR: FOREIGN KEY constraint failed"
  | TooManySQLVariables => "D1_ERROR: too many SQL variables"
  end.

(** [error.message?.includes('UNIQUE constraint failed')] *)
Definition isUniqueViolation (e : D1Error) : bool :=
  match e with
  | UniqueConstraintFailed _ => true
  | ForeignKeyConstraintFailed => false
  | TooManySQLVariables => false
  end.

(** The number of bound parameters D1 accepts in one statement. *)
Definition maxBoundParameters : nat := 100.

Module ReceiversService.

Definition getActive (db : DB) : list Receiver.t :=
  filter (fun r => match Receiver.status r with active => true | disabled => false end)
         (receivers_table db).

Definition getByPhone (phone : string) (db : DB) : option Receiver.t :=
  find (fun r => (Receiver.phone r =? phone)%string) (receivers_table db).

Definition isValidReceiver (phone : string) (db : DB) : bool :=
  match getByPhone phone db with Some _ => true | None => false end.

End ReceiversService.

Module TransactionsService.

Record Data := mkData {
  d_trxid : string;
  d_amount_cents : Z;
  d_receiver_phone : string;
  d_sender_phone : string;
  d_received_at : Z
}.

Definition getByTrxID (trxid : string) (db : DB) : option Transaction.t :=
  find (fun x => (Transaction.trxid x =? trxid)%string) (transactions_table db).

Definition getByID (id : string) (db : DB) : option Transaction.t :=
  find (fun x => (Transaction.id x =? id)%string) (transactions_table db).

(** The INSERT statement: primary key on [id], UNIQUE on [trxid], foreign
    key from [receiver_phone] to [receivers_table]. *)
Definition insert (x : Transaction.t) (db : DB) : D1Error + DB :=
  if existsb (fun y => (Transaction.id y =? Transaction.id x)%string)
             (transactions_table db)
  then inl (UniqueConstraintFailed "transactions_table.id")
  else if existsb (fun y => (Transaction.trxid y =? Transaction.trxid x)%string)
                  (transactions_table db)
  then inl (UniqueConstraintFailed "transactions_table.trxid")
  else if negb (ReceiversService.isValidReceiver (Transaction.receiver_phone x) db)
  then inl ForeignKeyConstraintFailed
  else inr (mkDB (receivers_table db)
                 (transactions_table db ++ [x])
                 (tracking_table db)).

(** [create]: [id] is the value of [ulid()], [now] that of [new Date()].
    The result is the thrown error, or the store after the call with the
    returned [{ transaction, isNew }]. *)
Definition create (data : Data) (id : string) (now : Z) (db : DB)
  : D1Error + (DB * Transaction.t * bool) :=
  let transaction :=
    Transaction.mk id (d_trxid data) (d_amount_cents data)
                   (d_receiver_phone data) (Some (d_sender_phone data))
                   (d_received_at data) now in
  match insert transaction db with
  | inr db' => inr (db', transaction, true)
  | inl error =>
      if isUniqueViolation error then
        match getByTrxID (d_trxid data) db with
        | Some existing => inr (db, existing, false)
        | None => inl error
        end
      else inl error
  end.

End TransactionsService.

Module TrackingService.

Record Data := mkData {
  d_item_code : string;
  d_payment_amount_cents : Z;
  d_offered_receivers : list string;
  d_customer_info : string;          (* JSON.stringify(customer_info) *)
  d_form_data : string;              (* JSON.stringify(form_data || {}) *)
  d_ticket_choice : string;
  d_verification_method : option VerificationMethod
}.

Definition getByID (tracking_id : string) (db : DB) : option Tracking.t :=
  find (fun t => (Tracking.tracking_id t =? tracking_id)%string) (tracking_table db).

(** [create]: the session starts [pending] and expires one hour after
    its creation. *)
Definition create (data : Data) (tracking_id : string) (now : Z) (db : DB)
  : D1Error + (DB * Tracking.t) :=
  let expires_at := now + 60 * 60 * 1000 in
  let tracking :=
    Tracking.mk tracking_id (d_item_code data) (d_payment_amount_cents data)
                (d_offered_receivers data) None (d_customer_info data)
                (Some (d_form_data data)) (d_ticket_choice data)
                (match d_verification_method data with Some m => m | None => auto end)
                pending None now now expires_at None in
  match getByID tracking_id db with
  | Some _ => inl (UniqueConstraintFailed "tracking_table.tracking_id")
  | None => inr (mkDB (receivers_table db) (transactions_table db)
                      (tracking_table db ++ [tracking]), tracking)
  end.

(** An UPDATE ... WHERE tracking_id = ? statement. *)
Definition updateWhereID (tracking_id : string) (f : Tracking.t -> Tracking.t)
           (db : DB) : DB :=
  mkDB (receivers_table db) (transactions_table db)
       (map (fun t => if (Tracking.tracking_id t =? tracking_id)%string
                      then f t else t)
            (tracking_table db)).

(** The SET clause of [submitTrxID] on one row. *)
Definition submitRow (trxid : string) (now : Z) (t : Tracking.t) : Tracking.t :=
  Tracking.mk (Tracking.tracking_id t) (Tracking.item_code t)
              (Tracking.payment_amount_cents t) (Tracking.offered_receivers t)
              (Some trxid) (Tracking.customer_info_json t)
              (Tracking.form_data_json t) (Tracking.ticket_choice t)
              (Tracking.verification_method t)
              submitted_trx (Tracking.matched_transaction_id t)
              (Tracking.created_at t) now (Tracking.expires_at t)
              (Tracking.notes t).

Definition submitTrxID (tracking_id trxid : string) (now : Z) (db : DB) : DB :=
  updateWhereID tracking_id (submitRow trxid now) db.

(** [options?.notes || null] *)
Definition noteOrNull (o : option Note) : option Note :=
  match o with
  | Some (NoteText s) => if (s =? "")%string then None else o
  | _ => o
  end.

Definition updateStatus (tracking_id : string) (status : TrackingStatus)
           (matched_transaction_id : option string) (notes : option Note)
           (now : Z) (db : DB) : DB :=
  updateWhereID tracking_id
    (fun t => Tracking.mk (Tracking.tracking_id t) (Tracking.item_code t)
                (Tracking.payment_amount_cents t) (Tracking.offered_receivers t)
                (Tracking.user_entered_trxid t) (Tracking.customer_info_json t)
                (Tracking.form_data_json t) (Tracking.ticket_choice t)
                (Tracking.verification_method t)
                status (JS.orNull matched_transaction_id)
                (Tracking.created_at t) now (Tracking.expires_at t)
                (noteOrNull notes))
    db.

(** status IN ('pending', 'submitted_trx') *)
Definition awaiting (s : TrackingStatus) : bool :=
  match s with
  | pending | submitted_trx => true
  | _ => false
  end.

Definition findByTrxID (trxid : string) (db : DB) : list Tracking.t :=
  filter (fun t =>
            match Tracking.user_entered_trxid t with
            | Some u => (u =? trxid)%string
            | None => false
            end && awaiting (Tracking.status t))
         (tracking_table db).

Definition findExpired (now : Z) (db : DB) : list Tracking.t :=
  filter (fun t => awaiting (Tracking.status t) && (Tracking.expires_at t <? now))
         (tracking_table db).

Definition findPendingVerification (db : DB) : list Tracking.t :=
  filter (fun t =>
            TrackingStatus_eqb (Tracking.status t) submitted_trx
            && match Tracking.user_entered_trxid t with
               | Some _ => true
               | None => false
               end)
         (tracking_table db).

(** The SET clause of [expireSessions] on one row. *)
Definition expireRow (now : Z) (t : Tracking.t) : Tracking.t :=
  Tracking.mk (Tracking.tracking_id t) (Tracking.item_code t)
              (Tracking.payment_amount_cents t) (Tracking.offered_receivers t)
              (Tracking.user_entered_trxid t) (Tracking.customer_info_json t)
              (Tracking.form_data_json t) (Tracking.ticket_choice t)
              (Tracking.verification_method t)
              expired (Tracking.matched_transaction_id t)
              (Tracking.created_at t) now (Tracking.expires_at t)
              (Tracking.notes t).

(** UPDATE ... SET status = 'expired' WHERE tracking_id IN (...), as
    the table is left when the statement is accepted. *)
Definition expireRows (tracking_ids : list string) (now : Z) (db : DB) : DB :=
  match tracking_ids with
  | [] => db
  | _ =>
      mkDB (receivers_table db) (transactions_table db)
           (map (fun t =>
                   if existsb (fun i => (Tracking.tracking_id t =? i)%string) tracking_ids
                   then expireRow now t
                   else t)
                (tracking_table db))
  end.

(** [expireSessions]: nothing is run for no id; the statement binds
    [updated_at] and one parameter per id. *)
Definition expireSessions (tracking_ids : list string) (now : Z) (db : DB)
  : D1Error + DB :=
  match tracking_ids with
  | [] => inr db
  | _ =>
      if (maxBoundParameters <? 1 + List.length tracking_ids)%nat
      then inl TooManySQLVariables
      else inr (expireRows tracking_ids now db)
  end.

End TrackingService.

(** ** services/verification.ts *)

Inductive ResultStatus := r_verified | r_failed | r_pending.

Record VerificationResult := mkResult {
  success : bool;
  status : ResultStatus;
  message : string;
  matched_transaction_id : option string;
  failure_reason : option Reason
}.

(** The calls the verification service makes on its collaborators, in the
    order it makes them.  [CallTriggerFulfillment] stands for a call of
    [triggerFulfillment] of services/fulfillment.ts. *)
Inductive Call :=
| CallVerifyPayment (tracking_id transaction_id : string)
| CallUpdateStatus (tracking_id : string) (status : TrackingStatus)
| CallTriggerFulfillment (tracking_id transaction_id : string).

(** [verifyPayment(tracking, transaction, db)]: reads the store, writes
    nothing. *)
Definition verifyPayment (tracking : Tracking.t) (transaction : Transaction.t)
           (db : DB) : VerificationResult :=
  (* Rule 1: TrxID match *)
  let trackingTrxID := normalizeTrxID (JS.orElse (Tracking.user_entered_trxid tracking) "") in
  let transactionTrxID := normalizeTrxID (Transaction.trxid transaction) in
  if negb (trackingTrxID =? transactionTrxID)%string then
    mkResult false r_failed "Transaction ID does not match" None
             (Some (TrxIDMismatch trackingTrxID transactionTrxID))
  (* Rule 2: amount match *)
  else if negb (Tracking.payment_amount_cents tracking =? Transaction.amount_cents transaction) then
    mkResult false r_failed "Payment amount does not match" None
             (Some (AmountMismatch (Tracking.payment_amount_cents tracking)
                                   (Transaction.amount_cents transaction)))
  else
  (* Rule 3: receiver match *)
  let offeredReceivers := Tracking.offered_receivers tracking in
  if negb (existsb (fun r => (r =? Transaction.receiver_phone transaction)%string)
                   offeredReceivers) then
    mkResult false r_failed "Payment sent to wrong number" None
             (Some (ReceiverNotOffered (Transaction.receiver_phone transaction)
                                       offeredReceivers))
  else
  (* Rule 4: time window *)
  let trackingCreatedAt := Tracking.created_at tracking in
  let trackingExpiresAt := Tracking.expires_at tracking in
  let transactionReceivedAt := Transaction.received_at transaction in
  let earliestAllowed := trackingCreatedAt - 60 * 60 * 1000 in
  let latestAllowed := trackingExpiresAt + 15 * 60 * 1000 in
  if (transactionReceivedAt <? earliestAllowed) || (transactionReceivedAt >? latestAllowed) then
    mkResult false r_failed "Payment outside valid time window" None
             (Some (OutsideTimeWindow transactionReceivedAt earliestAllowed latestAllowed))
  else
  (* Rule 5: duplicate TrxID usage *)
  let existingMatch := TrackingService.findByTrxID transactionTrxID db in
  let alreadyMatched :=
    find (fun t => TrackingStatus_eqb (Tracking.status t) verified
                   && negb (Tracking.tracking_id t =? Tracking.tracking_id tracking)%string)
         existingMatch in
  match alreadyMatched with
  | Some other =>
      mkResult false r_failed "This Transaction ID has already been used" None
               (Some (DuplicateTrxID (Tracking.tracking_id other)))
  | None =>
      mkResult true r_verified "Payment verified successfully"
               (Some (Transaction.id transaction)) None
  end.

(** The status write both resolution paths perform after [verifyPayment]. *)
Definition applyResult (trackingId : string) (result : VerificationResult)
           (now : Z) (db : DB) : DB * list Call :=
  if success result then
    (TrackingService.updateStatus trackingId verified
       (matched_transaction_id result) (Some (NoteText "Verified successfully")) now db,
     [CallUpdateStatus trackingId verified])
  else
    match status result with
    | r_failed =>
        (TrackingService.updateStatus trackingId failed None
           (option_map NoteReason (failure_reason result)) now db,
         [CallUpdateStatus trackingId failed])
    | _ => (db, [])
    end.

(** [attemptVerification(trackingId, db)]: the store after the call, the
    calls made, and the returned result. *)
Definition attemptVerification (trackingId : string) (now : Z) (db : DB)
  : DB * list Call * VerificationResult :=
  match TrackingService.getByID trackingId db with
  | None =>
      (db, [], mkResult false r_failed "Tracking session not found" None
                        (Some (NoTrackingSession trackingId)))
  | Some tracking =>
      match JS.orNull (Tracking.user_entered_trxid tracking) with
      | None =>
          (db, [], mkResult false r_pending "No Transaction ID submitted yet" None
                            (Some TrxidIsNull))
      | Some user_entered_trxid =>
          if TrackingStatus_eqb (Tracking.status tracking) verified then
            (db, [], mkResult true r_verified "Already verified"
                              (JS.orNull (Tracking.matched_transaction_id tracking)) None)
          else
            let normalizedTrxID := normalizeTrxID user_entered_trxid in
            match TransactionsService.getByTrxID normalizedTrxID db with
            | None =>
                (db, [], mkResult false r_pending "Transaction not found yet" None
                                  (Some (NoTransactionWithTrxID normalizedTrxID)))
            | Some transaction =>
                let result := verifyPayment tracking transaction db in
                let '(db', writes) := applyResult trackingId result now db in
                (db', CallVerifyPayment (Tracking.tracking_id tracking)
                                        (Transaction.id transaction) :: writes,
                 result)
            end
      end
  end.

(** The loop of [verifyIncomingTransaction] over the sessions selected
    before it starts. *)
Fixpoint verifyEach (pendingSessions : list Tracking.t) (transaction : Transaction.t)
         (now : Z) (db : DB) : DB * list Call * list VerificationResult :=
  match pendingSessions with
  | [] => (db, [], [])
  | tracking :: rest =>
      let result := verifyPayment tracking transaction db in
      let '(db1, writes) := applyResult (Tracking.tracking_id tracking) result now db in
      let '(db2, calls, results) := verifyEach rest transaction now db1 in
      (db2,
       CallVerifyPayment (Tracking.tracking_id tracking) (Transaction.id transaction)
         :: writes ++ calls,
       result :: results)
  end.

(** [verifyIncomingTransaction(transactionId, db)]. *)
Definition verifyIncomingTransaction (transactionId : string) (now : Z) (db : DB)
  : DB * list Call * list VerificationResult :=
  match TransactionsService.getByID transactionId db with
  | None =>
      (db, [], [mkResult false r_failed "Transaction not found" None
                         (Some (NoTransactionWithID transactionId))])
  | Some transaction =>
      let normalizedTrxID := normalizeTrxID (Transaction.trxid transaction) in
      let pendingSessions := TrackingService.findByTrxID normalizedTrxID db in
      match pendingSessions with
      | [] =>
          (db, [], [mkResult false r_pending "No matching tracking sessions found" None
                             (Some (NoPendingSessions normalizedTrxID))])
      | _ => verifyEach pendingSessions transaction now db
      end
  end.

(** ** routes/submitTrx.ts *)

Inductive SubmitResponse :=
| BadRequest (error : string)   (* 400 *)
| NotFound                      (* 404 *)
| Gone                          (* 410, session expired *)
| AlreadyVerified               (* 200, status 'verified', nothing done *)
| AlreadySubmitted              (* 200, status 'submitted', nothing done *)
| Verified                      (* 200, status 'verified' *)
| Submitted.                    (* 200, status 'submitted' *)

(** [submitTrxID(c)]: [tracking_id] is the route parameter, [trxid] the
    [trxid] field of the body when it is a string. *)
Definition submitTrxID (tracking_id : string) (trxid : option string)
           (now : Z) (db : DB) : DB * list Call * SubmitResponse :=
  if (tracking_id =? "")%string then (db, [], BadRequest "Invalid tracking ID")
  else
    match JS.orNull trxid with
    | None => (db, [], BadRequest "TrxID is required")
    | Some trxid =>
        let normalizedTrxID := normalizeTrxID trxid in
        if (normalizedTrxID =? "")%string then (db, [], BadRequest "Invalid TrxID format")
        else
          match TrackingService.getByID tracking_id db with
          | None => (db, [], NotFound)
          | Some tracking =>
              if now >? Tracking.expires_at tracking then (db, [], Gone)
              else if TrackingStatus_eqb (Tracking.status tracking) verified
              then (db, [], AlreadyVerified)
              else if match JS.orNull (Tracking.user_entered_trxid tracking) with
                      | Some _ => true
                      | None => false
                      end
                      && TrackingStatus_eqb (Tracking.status tracking) submitted_trx
              then (db, [], AlreadySubmitted)
              else
                let db1 := TrackingService.submitTrxID tracking_id normalizedTrxID now db in
                let '(db2, calls, verificationResult) := attemptVerification tracking_id now db1 in
                (db2, calls, if success verificationResult then Verified else Submitted)
          end
    end.

(** ** scheduled/cron.ts *)

(** A value caught by a [catch] clause. *)
Inductive Exn := Thrown (message : string).

Record Counters := mkCounters {
  verifiedCount : nat;
  failedCount : nat;
  stillPendingCount : nat
}.

Record SweepReport := mkReport {
  rep_expired : nat;
  rep_verified : nat;
  rep_failed : nat;
  rep_still_pending : nat;
  rep_total_processed : nat
}.

Section Sweep.

(** The verifier the retry loop awaits inside its [try] block: it leaves a
    store behind and either returns a result or throws. *)
Variable attempt : string -> DB -> DB * list Call * (Exn + VerificationResult).

(** One iteration of the [for] loop: the [try] body and its [catch]. *)
Definition retryStep (session : Tracking.t) (db : DB) (c : Counters)
  : DB * list Call * Counters :=
  let '(db', calls, outcome) := attempt (Tracking.tracking_id session) db in
  (db', calls,
   match outcome with
   | inr result =>
       if success result then
         mkCounters (S (verifiedCount c)) (failedCount c) (stillPendingCount c)
       else
         match status result with
         | r_failed =>
             mkCounters (verifiedCount c) (S (failedCount c)) (stillPendingCount c)
         | _ =>
             mkCounters (verifiedCount c) (failedCount c) (S (stillPendingCount c))
         end
   | inl _ =>
       mkCounters (verifiedCount c) (S (failedCount c)) (stillPendingCount c)
   end).

Fixpoint retryLoop (pendingSessions : list Tracking.t) (db : DB) (c : Counters)
  : DB * list Call * Counters :=
  match pendingSessions with
  | [] => (db, [], c)
  | session :: rest =>
      let '(db1, calls1, c1) := retryStep session db c in
      let '(db2, calls2, c2) := retryLoop rest db1 c1 in
      (db2, (calls1 ++ calls2)%list, c2)
  end.

(** The body of [scheduledHandler], for a given verifier: the store it
    leaves, the calls it made, and the report it logs or the error it
    rethrows. *)
Definition sweepWith (now : Z) (db : DB) : DB * list Call * (Exn + SweepReport) :=
  (* Step 1: expire old sessions *)
  let expiredSessions := TrackingService.findExpired now db in
  match
    match expiredSessions with
    | [] => inr db
    | _ => TrackingService.expireSessions
             (map Tracking.tracking_id expiredSessions) now db
    end
  with
  | inl error => (db, [], inl (Thrown (errorMessage error)))
  | inr db1 =>
      (* Step 2: retry verification of submitted sessions *)
      let pendingSessions := TrackingService.findPendingVerification db1 in
      let '(db2, calls, c) := retryLoop pendingSessions db1 (mkCounters 0 0 0) in
      (db2, calls,
       inr (mkReport (List.length expiredSessions) (verifiedCount c) (failedCount c)
                     (stillPendingCount c) (List.length pendingSessions)))
  end.

End Sweep.

(** [scheduledHandler(event, env)]: the sweep over [attemptVerification]. *)
Definition scheduledHandler (now : Z) (db : DB)
  : DB * list Call * (Exn + SweepReport) :=
  sweepWith (fun trackingId db =>
               let '(db', calls, result) := attemptVerification trackingId now db in
               (db', calls, inr result))
            now db.

(** ** Observations used by the statements *)

(** The status of the session with a given id, when there is one. *)
Definition statusOf (tracking_id : string) (db : DB) : option TrackingStatus :=
  option_map Tracking.status (TrackingService.getByID tracking_id db).

(** Calls of [triggerFulfillment] in a trace. *)
Definition isFulfillment (c : Call) : bool :=
  match c with
  | CallTriggerFulfillment _ _ => true
  | _ => false
  end.

Definition fulfillmentCount (calls : list Call) : nat :=
  List.length (filter isFulfillment calls).

(** The primary key of [tracking_table]. *)
Definition uniqueTrackingIDs (db : DB) : Prop :=
  NoDup (map Tracking.tracking_id (tracking_table db)).

(** The five rules of the verification algorithm, each on its own. *)
Module Rules.

(** Rule 1: the normalised references are equal. *)
Definition reference (t : Tracking.t) (x : Transaction.t) : bool :=
  (normalizeTrxID (JS.orElse (Tracking.user_entered_trxid t) "")
   =? normalizeTrxID (Transaction.trxid x))%string.

(** Rule 2: the amounts are the same integer. *)
Definition amount (t : Tracking.t) (x : Transaction.t) : bool :=
  Tracking.payment_amount_cents t =? Transaction.amount_cents x.

(** Rule 3: the receiver is one of the offered receivers. *)
Definition receiver (t : Tracking.t) (x : Transaction.t) : bool :=
  if in_dec string_dec (Transaction.receiver_phone x) (Tracking.offered_receivers t)
  then true else false.

(** Rule 4: the event time lies in
    [[created_at - 1 h, expires_at + 15 min]], bounds included. *)
Definition timeWindow (t : Tracking.t) (x : Transaction.t) : bool :=
  (Tracking.created_at t - 3600000 <=? Transaction.received_at x)
  && (Transaction.received_at x <=? Tracking.expires_at t + 900000).

(** Rule 5, as the code evaluates it: among the sessions [findByTrxID]
    returns for the receipt's reference, none is verified under another
    tracking id. *)
Definition exclusive (t : Tracking.t) (x : Transaction.t) (db : DB) : bool :=
  forallb (fun o => negb (TrackingStatus_eqb (Tracking.status o) verified)
                    || (Tracking.tracking_id o =? Tracking.tracking_id t)%string)
          (TrackingService.findByTrxID (normalizeTrxID (Transaction.trxid x)) db).

(** Rule 5 in the words of the specification, for comparison with
    [exclusive]: no session other than [t] is verified with this receipt
    as its resolved receipt. *)
Definition exclusiveSpec (t : Tracking.t) (x : Transaction.t) (db : DB) : bool :=
  forallb (fun o => negb (TrackingStatus_eqb (Tracking.status o) verified
                          && negb (Tracking.tracking_id o =? Tracking.tracking_id t)%string
                          && match Tracking.matched_transaction_id o with
                             | Some m => (m =? Transaction.id x)%string
                             | None => false
                             end))
          (tracking_table db).

Definition all (t : Tracking.t) (x : Transaction.t) (db : DB) : list bool :=
  [reference t x; amount t x; receiver t x; timeWindow t x; exclusive t x db].

(** Position (from 1) of the first rule that does not hold. *)
Fixpoint firstFailing (n : nat) (rules : list bool) : option nat :=
  match rules with
  | [] => None
  | true :: rest => firstFailing (S n) rest
  | false :: _ => Some n
  end.

(** The rule a failure reason belongs to. *)
Definition ofReason (r : Reason) : option nat :=
  match r with
  | TrxIDMismatch _ _ => Some 1%nat
  | AmountMismatch _ _ => Some 2%nat
  | ReceiverNotOffered _ _ => Some 3%nat
  | OutsideTimeWindow _ _ _ => Some 4%nat
  | DuplicateTrxID _ => Some 5%nat
  | _ => None
  end.

(** The rule a result reports as failed, if any. *)
Definition reported (r : VerificationResult) : option nat :=
  match failure_reason r with
  | Some reason => ofReason reason
  | None => None
  end.

End Rules.

(** A string that does not start with white space. *)
Definition headed (s : string) : Prop :=
  match s with
  | EmptyString => True
  | String c _ => JS.isWhiteSpace c = false
  end.

(** A receipt with its provider-reported event time replaced. *)
Definition receivedAt (time : Z) (x : Transaction.t) : Transaction.t :=
  Transaction.mk (Transaction.id x) (Transaction.trxid x) (Transaction.amount_cents x)
                 (Transaction.receiver_phone x) (Transaction.sender_phone x)
                 time (Transaction.created_at x).

(** The store an operation leaves, the calls it made, what it returned. *)
Definition storeAfter {A} (o : DB * list Call * A) : DB := fst (fst o).
Definition callsOf {A} (o : DB * list Call * A) : list Call := snd (fst o).
Definition valueOf {A} (o : DB * list Call * A) : A := snd o.

(** The session a call is about. *)
Definition callTarget (c : Call) : string :=
  match c with
  | CallVerifyPayment tracking_id _ => tracking_id
  | CallUpdateStatus tracking_id _ => tracking_id
  | CallTriggerFulfillment tracking_id _ => tracking_id
  end.

(** Sessions a sweep has accounted for in its three tallies. *)
Definition processed (c : Counters) : nat :=
  (verifiedCount c + failedCount c + stillPendingCount c)%nat.

(** ** Sample stores

    The seeded receiver, sessions as [TrackingService.create] makes them
    (one hour of validity) and receipts as the webhook stores them. *)
Module Sample.

Definition receiver : Receiver.t :=
  Receiver.mk "01785863769" "Primary Payment Number" active None 0.

Definition t0 : Z := 1761836400000.      (* 2025-10-30T15:00:00.000Z *)

Definition session (tracking_id : string) (amount : Z) (trxid : option string)
           (status : TrackingStatus) (matched : option string)
           (notes : option Note) : Tracking.t :=
  Tracking.mk tracking_id "TICKET_VIP" amount ["01785863769"] trxid
              "{}" (Some "{}") "VIP Premium Pass" auto status matched
              t0 t0 (t0 + 3600000) notes.

Definition receipt (id trxid : string) (amount : Z) (received_at : Z)
  : Transaction.t :=
  Transaction.mk id trxid amount "01785863769" (Some "01444444444")
                 received_at received_at.

(** Two sessions declare the same reference; one receipt carries it. *)
Definition sharedReference : DB :=
  mkDB [receiver]
       [receipt "TX1" "DUPTEST999" 20000 (t0 + 60000)]
       [session "S1" 20000 (Some "DUPTEST999") submitted_trx None None;
        session "S2" 20000 (Some "DUPTEST999") submitted_trx None None].

(** One session has declared the reference of a stored, matching receipt. *)
Definition happyPath : DB :=
  mkDB [receiver]
       [receipt "TX1" "HAPPY1" 100000 (t0 + 60000)]
       [session "S1" 100000 (Some "HAPPY1") submitted_trx None None].

(** A session that failed on an amount mismatch, still within its hour. *)
Definition failedSession : DB :=
  mkDB [receiver]
       [receipt "TX1" "AMTFAIL001" 60000 (t0 + 60000)]
       [session "S1" 50000 (Some "AMTFAIL001") failed None
                (Some (NoteReason (AmountMismatch 50000 60000)))].

(** A canceled session, still within its hour. *)
Definition canceledSession : DB :=
  mkDB [receiver] []
       [session "S1" 50000 None canceled None None].

(** A verified session next to an open one with the same reference. *)
Definition verifiedAndOpen : DB :=
  mkDB [receiver]
       [receipt "TX1" "DUPTEST999" 20000 (t0 + 60000)]
       [session "S1" 20000 (Some "DUPTEST999") verified (Some "TX1")
                (Some (NoteText "Verified successfully"));
        session "S2" 20000 (Some "DUPTEST999") submitted_trx None None].

(** [n] pending sessions, with ids S000, S001, ... *)
Definition numbered (k : nat) : string :=
  String.ofUnits (map N.of_nat [83; 48 + k / 100; 48 + (k / 10) mod 10; 48 + k mod 10]%nat).

Definition crowd (n : nat) : DB :=
  mkDB [receiver] []
       (map (fun k => session (numbered k) 20000 None pending None None) (seq 0 n)).

(** Three submitted sessions; only the first has its receipt. *)
Definition batch : DB :=
  mkDB [receiver]
       [receipt "TX1" "FIRST1" 20000 (t0 + 60000)]
       [session "S1" 20000 (Some "FIRST1") submitted_trx None None;
        session "S2" 20000 (Some "SECOND2") submitted_trx None None;
        session "S3" 20000 (Some "THIRD3") submitted_trx None None].

(** A verifier that throws for the session "S2". *)
Definition faultyAttempt (now : Z) (trackingId : string) (db : DB)
  : DB * list Call * (Exn + VerificationResult) :=
  if (trackingId =? "S2")%string
  then (db, [], inl (Thrown "D1_ERROR: storage unavailable"))
  else let '(db', calls, result) := attemptVerification trackingId now db in
       (db', calls, inr result).

End Sample.

(** ** Relations between stores and store invariants *)

(** A session is settled once it has left the pending and submitted
    statuses. *)
Definition settled (t : Tracking.t) : Prop :=
  TrackingService.awaiting (Tracking.status t) = false.

(** [db'] comes from [db] by settling sessions: every row keeps its place
    and its id, and either stays as it is or ends settled. *)
Definition settles (db db' : DB) : Prop :=
  Forall2 (fun r r' => Tracking.tracking_id r' = Tracking.tracking_id r
                       /\ (r' = r \/ settled r'))
          (tracking_table db) (tracking_table db').

(** One row under a step that settles the sessions named in [ids]: it keeps
    its id, stays as it is or ends settled, and ends settled when named. *)
Definition moves (ids : list string) (r r' : Tracking.t) : Prop :=
  Tracking.tracking_id r' = Tracking.tracking_id r
  /\ (r' = r \/ settled r')
  /\ (In (Tracking.tracking_id r) ids -> settled r').

(** A session row has a matched receipt exactly when it is verified. *)
Definition rowConsistent (t : Tracking.t) : Prop :=
  Tracking.matched_transaction_id t <> None <-> Tracking.status t = verified.

(** Consistent session rows and receipts with an id. *)
Definition rowsConsistent (db : DB) : Prop :=
  Forall rowConsistent (tracking_table db)
  /\ Forall (fun x => Transaction.id x <> "") (transactions_table db).

(** Unique tracking ids, consistent session rows, receipts with an id. *)
Definition storeConsistent (db : DB) : Prop :=
  uniqueTrackingIDs db
  /\ Forall rowConsistent (tracking_table db)
  /\ Forall (fun x => Transaction.id x <> "") (transactions_table db).

(** The constraints of [transactions_table]: primary key, unique
    reference, foreign key to the receivers. *)
Definition receiptsKeyed (db : DB) : Prop :=
  NoDup (map Transaction.id (transactions_table db))
  /\ NoDup (map Transaction.trxid (transactions_table db))
  /\ Forall (fun x => ReceiversService.isValidReceiver
                        (Transaction.receiver_phone x) db = true)
            (transactions_table db).

(** [db'] has the receipts and receivers of [db], and the same sessions by
    id, in the same order. *)
Definition keepsKeys (db db' : DB) : Prop :=
  transactions_table db' = transactions_table db
  /\ receivers_table db' = receivers_table db
  /\ map Tracking.tracking_id (tracking_table db')
     = map Tracking.tracking_id (tracking_table db).

(** ** The regular expressions of services/smsParser.ts

    The fragment of ECMAScript regular expressions the worker's patterns
    are written in: literal characters and character classes, a class
    under a greedy [+] or a fixed count, concatenation and capturing
    groups (not nested).  [run] is the backtracking matcher in
    continuation-passing style; [search] is [String.prototype.match]
    without the [g] flag: the leftmost match, of which the captured groups
    are kept. *)
Module Regex.

Inductive t :=
| Eps
| Chr (p : codeunit -> bool)
| Plus (p : codeunit -> bool)
| Times (n : nat) (p : codeunit -> bool)
| Cat (a b : t)
| Grp (a : t).

(** [p+]: as many characters as possible, giving back one at a time. *)
Fixpoint plus {R} (p : codeunit -> bool) (s : string) (k : string -> option R) : option R :=
  match s with
  | String c s' =>
      if p c then
        match plus p s' k with
        | Some x => Some x
        | None => k s'
        end
      else None
  | EmptyString => None
  end.

(** [p{n}] *)
Fixpoint times {R} (n : nat) (p : codeunit -> bool) (s : string) (k : string -> option R)
  : option R :=
  match n with
  | O => k s
  | S n' =>
      match s with
      | String c s' => if p c then times n' p s' k else None
      | EmptyString => None
      end
  end.

(** The text between [s] and its suffix [s']. *)
Definition consumed (s s' : string) : string :=
  String.leading (String.length s - String.length s') s.

Fixpoint run {R} (r : t) (s : string) (caps : list string)
         (k : string -> list string -> option R) : option R :=
  match r with
  | Eps => k s caps
  | Chr p =>
      match s with
      | String c s' => if p c then k s' caps else None
      | EmptyString => None
      end
  | Plus p => plus p s (fun s' => k s' caps)
  | Times n p => times n p s (fun s' => k s' caps)
  | Cat a b => run a s caps (fun s' caps' => run b s' caps' k)
  | Grp a => run a s caps (fun s' caps' => k s' (caps' ++ [consumed s s'])%list)
  end.

(** The groups of the match starting at the head of [s], if there is one. *)
Definition matchHere (r : t) (s : string) : option (list string) :=
  run r s [] (fun _ caps => Some caps).

(** The groups of the leftmost match. *)
Fixpoint search (r : t) (s : string) : option (list string) :=
  match matchHere r s with
  | Some caps => Some caps
  | None =>
      match s with
      | String _ s' => search r s'
      | EmptyString => None
      end
  end.

(** [match[n]] for a group number [n >= 1]. *)
Definition group (n : nat) (caps : list string) : string := nth (n - 1) caps "".

(** [\d] *)
Definition digit (c : codeunit) : bool := ((48 <=? c) && (c <=? 57))%N.

(** [A-Z] *)
Definition upper (c : codeunit) : bool := ((65 <=? c) && (c <=? 90))%N.

(** [\s] *)
Definition space (c : codeunit) : bool := JS.isWhiteSpace c.

(** One literal code unit. *)
Definition unit (x : codeunit) (c : codeunit) : bool := (c =? x)%N.

(** One literal character, written as such. *)
Definition char (x : ascii) (c : codeunit) : bool := unit (N_of_ascii x) c.

(** [Canonicalize(ch)] under the [i] flag, without the [u] flag: the
    uppercase mapping of the code unit when that is one code unit, except
    that a code unit from U+0080 on is never taken into the ASCII range. *)
Definition canonicalize (c : codeunit) : codeunit :=
  match JS.uppercaseOfUnit c with
  | String u EmptyString => if ((128 <=? c) && (u <? 128))%N then c else u
  | _ => c
  end.

(** A class or literal under the [i] flag, for a class whose members are
    their own canonical forms: the code unit is canonicalized and then
    looked up. *)
Definition ignoreCase (p : codeunit -> bool) (c : codeunit) : bool := p (canonicalize c).

(** The canonical forms of the code units of a string. *)
Fixpoint canonical (s : string) : string :=
  match s with
  | EmptyString => EmptyString
  | String x s' => String (canonicalize x) (canonical s')
  end.

(** A literal string. *)
Fixpoint lit (s : string) : t :=
  match s with
  | EmptyString => Eps
  | String x s' => Cat (Chr (unit x)) (lit s')
  end.

(** A literal string under the [i] flag. *)
Fixpoint litIgnoreCase (s : string) : t :=
  match s with
  | EmptyString => Eps
  | String x s' => Cat (Chr (ignoreCase (unit (canonicalize x)))) (litIgnoreCase s')
  end.

End Regex.

(** ** services/smsParser.ts: the parser *)

Module SMS_PATTERNS.

(** [/Tk\s+([\d,]+\.\d{2})/] *)
Definition amount : Regex.t :=
  Regex.Cat (Regex.lit "Tk")
    (Regex.Cat (Regex.Plus Regex.space)
       (Regex.Grp
          (Regex.Cat (Regex.Plus (fun c => Regex.digit c || Regex.char "," c))
             (Regex.Cat (Regex.Chr (Regex.char "."))
                (Regex.Times 2 Regex.digit))))).

(** [/from\s+(\d{11})/] *)
Definition sender : Regex.t :=
  Regex.Cat (Regex.lit "from")
    (Regex.Cat (Regex.Plus Regex.space)
       (Regex.Grp (Regex.Times 11 Regex.digit))).

(** [/TrxID\s+([A-Z0-9]+)/i] *)
Definition trxid : Regex.t :=
  Regex.Cat (Regex.litIgnoreCase "TrxID")
    (Regex.Cat (Regex.Plus Regex.space)
       (Regex.Grp
          (Regex.Plus (Regex.ignoreCase (fun c => Regex.upper c || Regex.digit c))))).

(** [/at\s+(\d{2}\/\d{2}\/\d{4}\s+\d{2}:\d{2})/] *)
Definition timestamp : Regex.t :=
  Regex.Cat (Regex.lit "at")
    (Regex.Cat (Regex.Plus Regex.space)
       (Regex.Grp
          (Regex.Cat (Regex.Times 2 Regex.digit)
             (Regex.Cat (Regex.Chr (Regex.char "/"))
                (Regex.Cat (Regex.Times 2 Regex.digit)
                   (Regex.Cat (Regex.Chr (Regex.char "/"))
                      (Regex.Cat (Regex.Times 4 Regex.digit)
                         (Regex.Cat (Regex.Plus Regex.space)
                            (Regex.Cat (Regex.Times 2 Regex.digit)
                               (Regex.Cat (Regex.Chr (Regex.char ":"))
                                  (Regex.Times 2 Regex.digit))))))))))).

End SMS_PATTERNS.

(** The [{ value, error }] a field parser returns: a value, or [null] with
    an error message. *)
Inductive Parsed (A : Type) :=
| Value (v : A)
| Failure (error : string).
Arguments Value {A} v.
Arguments Failure {A} error.

Record ParsedSMS := mkParsedSMS {
  p_amount_cents : Z;
  p_trxid : string;
  p_sender_phone : string;
  p_received_at : Z
}.

(** [ParseResult]: the data, or the error with its field, message and raw
    value. *)
Inductive ParseResult :=
| ParseOk (data : ParsedSMS)
| ParseError (field message : string) (raw_value : option string).

(** [parseSenderPhone] *)
Definition parseSenderPhone (sms : string) : Parsed string :=
  match Regex.search SMS_PATTERNS.sender sms with
  | None => Failure "Sender phone number not found in SMS"
  | Some caps =>
      let phone := Regex.group 1 caps in
      if negb (String.length phone =? 11)%nat
      then Failure ("Invalid phone number length: " ++ phone)
      else Value phone
  end.

(** [parseTrxID] *)
Definition parseTrxID (sms : string) : Parsed string :=
  match Regex.search SMS_PATTERNS.trxid sms with
  | None => Failure "TrxID not found in SMS"
  | Some caps =>
      let trxid := JS.toUpperCase (JS.trim (Regex.group 1 caps)) in
      if (String.length trxid =? 0)%nat
      then Failure "TrxID is empty"
      else Value trxid
  end.

Section Parser.

(** The arithmetic of [parseAmount] on the captured text: [parseFloat]
    after the commas are removed, the [isNaN] and [<= 0] checks, and
    [Math.round(amountFloat * 100)] in double precision. *)
Variable amountCents : string -> Parsed Z.

(** The calendar arithmetic of [parseTimestamp] on the captured text:
    [new Date(year, month - 1, day, hour, minute, 0)] in the time zone of
    the runtime, the [isNaN] check, and the instant of [toISOString()]. *)
Variable eventTime : string -> Parsed Z.

(** [parseAmount] *)
Definition parseAmount (sms : string) : Parsed Z :=
  match Regex.search SMS_PATTERNS.amount sms with
  | None => Failure "Amount not found in SMS"
  | Some caps => amountCents (Regex.group 1 caps)
  end.

(** [parseTimestamp] *)
Definition parseTimestamp (sms : string) : Parsed Z :=
  match Regex.search SMS_PATTERNS.timestamp sms with
  | None => Failure "Timestamp not found in SMS"
  | Some caps => eventTime (Regex.group 1 caps)
  end.

(** [parseBkashSMS] *)
Definition parseBkashSMS (rawSMS : string) : ParseResult :=
  let sms := JS.trim rawSMS in
  if (sms =? "")%string then ParseError "raw_sms" "SMS text is empty" None
  else
    match parseAmount sms with
    | Failure e => ParseError "amount" e (Some sms)
    | Value amount =>
        match parseSenderPhone sms with
        | Failure e => ParseError "sender_phone" e (Some sms)
        | Value sender =>
            match parseTrxID sms with
            | Failure e => ParseError "trxid" e (Some sms)
            | Value trxid =>
                match parseTimestamp sms with
                | Failure e => ParseError "timestamp" e (Some sms)
                | Value received_at =>
                    ParseOk (mkParsedSMS amount trxid sender received_at)
                end
            end
        end
    end.

(** ** routes/webhook-sms.ts *)

Inductive WebhookResponse :=
| WebhookBadRequest (error : string)                     (* 400 *)
| WebhookParseFailed (field message : string) (raw_value : option string)
                                                         (* 400, 'Failed to parse SMS' *)
| WebhookAccepted (is_new : bool) (transaction : Transaction.t) (parsed_data : ParsedSMS)
                  (attempted verified : nat)             (* 201 when new, 200 otherwise *)
| WebhookServerError.                                    (* 500 *)

(** [handleWebhookSMS(c)]: [raw_sms] and [receiver_phone] are the fields of
    the JSON body; [id] is the value of [ulid()] inside
    [transactions.create]. *)
Definition handleWebhookSMS (raw_sms receiver_phone : option string)
           (id : string) (now : Z) (db : DB) : DB * list Call * WebhookResponse :=
  match JS.orNull raw_sms, JS.orNull receiver_phone with
  | Some raw_sms, Some receiver_phone =>
      if negb (ReceiversService.isValidReceiver receiver_phone db)
      then (db, [], WebhookBadRequest ("Invalid or inactive receiver phone: " ++ receiver_phone))
      else
        match parseBkashSMS raw_sms with
        | ParseError field message raw_value =>
            (db, [], WebhookParseFailed field message raw_value)
        | ParseOk parsed =>
            if p_amount_cents parsed <=? 0
            then (db, [], WebhookBadRequest "Invalid amount: must be greater than 0")
            else
              match TransactionsService.create
                      (TransactionsService.mkData (p_trxid parsed) (p_amount_cents parsed)
                                                  receiver_phone (p_sender_phone parsed)
                                                  (p_received_at parsed))
                      id now db with
              | inl _ => (db, [], WebhookServerError)
              | inr (db1, transaction, isNew) =>
                  let '(db2, calls, verificationResults) :=
                    verifyIncomingTransaction (Transaction.id transaction) now db1 in
                  let verifiedCount :=
                    List.length (filter success verificationResults) in
                  (db2, calls,
                   WebhookAccepted isNew transaction parsed
                                   (List.length verificationResults) verifiedCount)
              end
        end
  | _, _ => (db, [], WebhookBadRequest "Missing required fields: raw_sms and receiver_phone")
  end.

End Parser.

(** ** routes/track.ts *)

Record CustomerInfo := mkCustomerInfo {
  c_name : option string;
  c_phone : option string;
  c_email : option string
}.

(** The JSON body of [POST /track]; an absent field is [None].
    [q_form_data] is [JSON.stringify(form_data)] when the field is there. *)
Record TrackRequest := mkTrackRequest {
  q_item_code : option string;
  q_payment_amount_cents : option Z;
  q_customer_info : option CustomerInfo;
  q_form_data : option string;
  q_ticket_choice : option string;
  q_verification_method : option VerificationMethod
}.

Inductive TrackResponse :=
| TrackBadRequest (error : string)                                  (* 400 *)
| TrackUnavailable                                                  (* 503 *)
| TrackCreated (tracking_id redirect_url : string) (expires_at : Z) (* 201 *)
| TrackServerError.                                                 (* 500 *)

Section Track.

(** [JSON.stringify] on the customer's details. *)
Variable stringify : CustomerInfo -> string.

(** [createTrackingSession(c)]: [origin] is [new URL(c.req.url).origin],
    [id] the value of [ulid()] and [now] that of [new Date()] inside
    [tracking.create]. *)
Definition createTrackingSession (body : TrackRequest) (origin : string)
           (id : string) (now : Z) (db : DB) : DB * list Call * TrackResponse :=
  match JS.orNull (q_item_code body) with
  | None => (db, [], TrackBadRequest "item_code is required")
  | Some item_code =>
      match q_payment_amount_cents body with
      | None => (db, [], TrackBadRequest "payment_amount_cents must be greater than 0")
      | Some amount =>
          if (amount =? 0) || (amount <=? 0)
          then (db, [], TrackBadRequest "payment_amount_cents must be greater than 0")
          else
            match q_customer_info body with
            | None =>
                (db, [], TrackBadRequest "customer_info (name, phone, email) is required")
            | Some customer_info =>
                match JS.orNull (c_name customer_info),
                      JS.orNull (c_phone customer_info),
                      JS.orNull (c_email customer_info) with
                | Some _, Some _, Some _ =>
                    match JS.orNull (q_ticket_choice body) with
                    | None => (db, [], TrackBadRequest "ticket_choice is required")
                    | Some ticket_choice =>
                        let activeReceivers := ReceiversService.getActive db in
                        if (List.length activeReceivers =? 0)%nat
                        then (db, [], TrackUnavailable)
                        else
                          let offeredReceivers := map Receiver.phone activeReceivers in
                          match TrackingService.create
                                  (TrackingService.mkData
                                     item_code amount offeredReceivers
                                     (stringify customer_info)
                                     (match q_form_data body with
                                      | Some json => json
                                      | None => "{}"
                                      end)
                                     ticket_choice (q_verification_method body))
                                  id now db with
                          | inl _ => (db, [], TrackServerError)
                          | inr (db', tracking) =>
                              (db', [],
                               TrackCreated (Tracking.tracking_id tracking)
                                            (origin ++ "/bkash-personal/"
                                                    ++ Tracking.tracking_id tracking)
                                            (Tracking.expires_at tracking))
                          end
                    end
                | _, _, _ =>
                    (db, [], TrackBadRequest "customer_info (name, phone, email) is required")
                end
            end
      end
  end.

End Track.

(** ** The stores the worker reaches

    The migrations create the three tables and seed the receivers: a
    deployment starts with no receipt and no session.  From then on the
    store is written by the three POST handlers of index.ts and by the
    scheduled sweep (which GET /test/cron runs as well), and by nothing
    else. *)
Inductive Reachable : DB -> Prop :=
| reach_migrated (receivers : list Receiver.t) :
    Reachable (mkDB receivers [] [])
| reach_track (stringify : CustomerInfo -> string) (body : TrackRequest)
              (origin id : string) (now : Z) (db : DB) :
    Reachable db ->
    Reachable (storeAfter (createTrackingSession stringify body origin id now db))
| reach_submit (tracking_id : string) (trxid : option string) (now : Z) (db : DB) :
    Reachable db ->
    Reachable (storeAfter (submitTrxID tracking_id trxid now db))
| reach_webhook (amountCents eventTime : string -> Parsed Z)
                (raw_sms receiver_phone : option string) (id : string) (now : Z) (db : DB) :
    Reachable db ->
    Reachable (storeAfter (handleWebhookSMS amountCents eventTime
                                            raw_sms receiver_phone id now db))
| reach_sweep (now : Z) (db : DB) :
    Reachable db ->
    Reachable (storeAfter (scheduledHandler now db)).

(** A verified session has a declared reference whose receipt is stored. *)
Definition receiptBacked (db : DB) (t : Tracking.t) : Prop :=
  Tracking.status t = verified ->
  exists u, Tracking.user_entered_trxid t = Some u
            /\ TransactionsService.getByTrxID (normalizeTrxID u) db <> None.

(** Receipts are stored under a normalised reference. *)
Definition receiptsNormalised (db : DB) : Prop :=
  Forall (fun x => normalizeTrxID (Transaction.trxid x) = Transaction.trxid x)
         (transactions_table db).

(** Unique tracking ids, normalised receipts, and a stored receipt behind
    every verified session. *)
Definition verifiedBacked (db : DB) : Prop :=
  uniqueTrackingIDs db
  /\ receiptsNormalised db
  /\ Forall (receiptBacked db) (tracking_table db).

(** A store the worker reaches: a session is created, and its customer
    declares a reference before any receipt has arrived. *)
Definition declaredFirst : DB :=
  storeAfter
    (submitTrxID "S9" (Some " cju0pzq3u6 ") (Sample.t0 + 120000)
       (storeAfter
          (createTrackingSession
             (fun _ => "{}")
             (mkTrackRequest (Some "TICKET_VIP") (Some 100000)
                (Some (mkCustomerInfo (Some "A") (Some "01700000000") (Some "a@b.c")))
                None (Some "VIP Premium Pass") None)
             "https://pay.example" "S9" Sample.t0
             (mkDB [Sample.receiver] [] [])))).

(** ** What a regular expression matches

    The words of a pattern, for stating what [Regex.run] finds. *)
Module RegexSpec.

(** Every character of [w] is in the class [p]. *)
Fixpoint all (p : codeunit -> bool) (w : string) : bool :=
  match w with
  | EmptyString => true
  | String c w' => p c && all p w'
  end.

(** [matches r s s' caps caps']: [r] matches a prefix of [s] that leaves
    [s'], and extends the captured groups [caps] to [caps']. *)
Fixpoint matches (r : Regex.t) (s s' : string) (caps caps' : list string) : Prop :=
  match r with
  | Regex.Eps => s' = s /\ caps' = caps
  | Regex.Chr p => exists c, s = String c s' /\ p c = true /\ caps' = caps
  | Regex.Plus p =>
      exists w, w <> "" /\ all p w = true /\ s = w ++ s' /\ caps' = caps
  | Regex.Times n p =>
      exists w, String.length w = n /\ all p w = true /\ s = w ++ s' /\ caps' = caps
  | Regex.Cat a b =>
      exists s1 caps1, matches a s s1 caps caps1 /\ matches b s1 s' caps1 caps'
  | Regex.Grp a =>
      exists w caps1, s = w ++ s' /\ matches a s s' caps caps1
                      /\ caps' = (caps1 ++ [w])%list
  end.

End RegexSpec.

(** * Properties *)

(** ** Strings *)

Module StringFacts.

Lemma eqb_refl s : (s =? s)%string = true.
Proof. induction s as [|c s IH]; simpl; [reflexivity|]. now rewrite N.eqb_refl. Qed.

Lemma eqb_eq a b : (a =? b)%string = true <-> a = b.
Proof.
  split; [|intros ->; apply eqb_refl].
  revert b. induction a as [|c a IH]; intros [|d b]; simpl; try discriminate; [reflexivity|].
  intros H. apply andb_true_iff in H. destruct H as [E H].
  apply N.eqb_eq in E. subst d. now rewrite (IH b H).
Qed.

Lemma eqb_neq a b : (a =? b)%string = false <-> a <> b.
Proof.
  split.
  - intros H E. apply eqb_eq in E. congruence.
  - intros N. destruct (a =? b)%string eqn:E; [|reflexivity].
    apply eqb_eq in E. now elim N.
Qed.

Lemma eqb_spec a b : reflect (a = b) (a =? b)%string.
Proof.
  destruct (a =? b)%string eqn:E; constructor.
  - now apply eqb_eq.
  - now apply eqb_neq.
Qed.

Lemma append_nil_r s : (s ++ "")%string = s.
Proof. induction s as [|c s IH]; simpl; [reflexivity | now rewrite IH]. Qed.

Lemma units_ofUnits l : String.units (String.ofUnits l) = l.
Proof. induction l as [|c l IH]; simpl; [reflexivity | now rewrite IH]. Qed.

End StringFacts.

(** ** Reference normalisation *)

Section Normalisation.

Lemma isWhiteSpace_In c : JS.isWhiteSpace c = true <-> In c JS.whiteSpace.
Proof.
  unfold JS.isWhiteSpace. rewrite existsb_exists. split.
  - intros (x & I & E). apply N.eqb_eq in E. now subst.
  - intros I. exists c. split; [exact I | apply N.eqb_refl].
Qed.

Lemma not_whiteSpace c : ~ In c JS.whiteSpace -> JS.isWhiteSpace c = false.
Proof.
  intros H. destruct (JS.isWhiteSpace c) eqn:W; [|reflexivity].
  apply isWhiteSpace_In in W. now elim H.
Qed.

Lemma whiteSpace_unmapped c :
  JS.isWhiteSpace c = true ->
  JS.uppercaseOfUnit c = String c ""
  /\ JS.isHighSurrogate c = false /\ JS.isLowSurrogate c = false.
Proof.
  intros W. apply isWhiteSpace_In in W. unfold JS.whiteSpace in W.
  repeat (destruct W as [<-|W]; [now vm_compute|]). contradiction.
Qed.

Lemma surrogate_not_whiteSpace c :
  JS.isHighSurrogate c = true \/ JS.isLowSurrogate c = true -> JS.isWhiteSpace c = false.
Proof.
  intros H. destruct (JS.isWhiteSpace c) eqn:W; [|reflexivity].
  apply whiteSpace_unmapped in W. destruct W as (_ & A & B). destruct H; congruence.
Qed.

Lemma high_not_low c : JS.isHighSurrogate c = true -> JS.isLowSurrogate c = false.
Proof.
  unfold JS.isHighSurrogate, JS.isLowSurrogate. intros H.
  apply andb_true_iff in H. destruct H as [_ H]. apply N.leb_le in H.
  apply andb_false_iff. left. apply N.leb_gt. lia.
Qed.

Lemma mapping_checked : JS.mappingChecked = true.
Proof. vm_compute. reflexivity. Qed.

Lemma supplementary_checked : JS.supplementaryChecked = true.
Proof. vm_compute. reflexivity. Qed.

Lemma fixedUnit_true x :
  JS.fixedUnit x = true ->
  JS.isHighSurrogate x = false /\ JS.isLowSurrogate x = false
  /\ JS.isWhiteSpace x = false /\ JS.uppercaseOfUnit x = String x "".
Proof.
  unfold JS.fixedUnit. rewrite !andb_true_iff, !negb_true_iff.
  intros (((A & B) & C) & D). apply StringFacts.eqb_eq in D. now repeat split.
Qed.

(** The uppercase mapping of one code unit: the unit itself, or, for a
    unit that is no white space and no surrogate, a non-empty sequence of
    fixed units. *)
Lemma uppercaseOfUnit_cases c :
  JS.uppercaseOfUnit c = String c ""
  \/ (JS.isWhiteSpace c = false
      /\ JS.isHighSurrogate c = false /\ JS.isLowSurrogate c = false
      /\ JS.uppercaseOfUnit c <> ""
      /\ forallb JS.fixedUnit (String.units (JS.uppercaseOfUnit c)) = true).
Proof.
  unfold JS.uppercaseOfUnit.
  destruct (N.ltb_spec c 128) as [A|A].
  - destruct ((97 <=? c)%N && (c <=? 122)%N) eqn:L; [right | now left].
    apply andb_true_iff in L. destruct L as [L1 L2].
    apply N.leb_le in L1, L2.
    split; [apply not_whiteSpace; simpl; lia|].
    split; [unfold JS.isHighSurrogate; apply andb_false_iff; left; apply N.leb_gt; lia|].
    split; [unfold JS.isLowSurrogate; apply andb_false_iff; left; apply N.leb_gt; lia|].
    split; [discriminate|].
    simpl. rewrite andb_true_r. unfold JS.fixedUnit.
    rewrite !andb_true_iff, !negb_true_iff. repeat split.
    + unfold JS.isHighSurrogate; apply andb_false_iff; left; apply N.leb_gt; lia.
    + unfold JS.isLowSurrogate; apply andb_false_iff; left; apply N.leb_gt; lia.
    + apply not_whiteSpace; simpl; lia.
    + unfold JS.uppercaseOfUnit.
      destruct (N.ltb_spec (c - 32) 128) as [_|B]; [|lia].
      replace ((97 <=? c - 32)%N) with false by (symmetry; apply N.leb_gt; lia).
      apply StringFacts.eqb_refl.
  - destruct (find _ JS.upperCaseMapping) as [e|] eqn:F; [right | now left].
    apply find_some in F. destruct F as [I E]. apply N.eqb_eq in E.
    pose proof mapping_checked as M. unfold JS.mappingChecked in M.
    rewrite forallb_forall in M. specialize (M e I). cbv beta in M. rewrite E in M.
    rewrite !andb_true_iff, !negb_true_iff in M.
    destruct M as (((((_ & H1) & H2) & H3) & H4) & H5).
    split; [exact H3|]. split; [exact H1|]. split; [exact H2|]. split.
    + destruct (snd e); [discriminate H4 | discriminate].
    + now rewrite StringFacts.units_ofUnits.
Qed.

(** The uppercase mapping of a surrogate pair is a surrogate pair that
    is mapped to itself. *)
Lemma uppercaseOfPair_cases h l :
  JS.isHighSurrogate h = true -> JS.isLowSurrogate l = true ->
  exists h' l',
    JS.uppercaseOfPair h l = String h' (String l' "")
    /\ JS.isHighSurrogate h' = true /\ JS.isLowSurrogate l' = true
    /\ JS.uppercaseOfPair h' l' = String h' (String l' "").
Proof.
  intros Hh Hl. unfold JS.uppercaseOfPair at 1.
  destruct (find _ JS.upperCaseMappingSupplementary) as [e|] eqn:F.
  - apply find_some in F. destruct F as [I _].
    pose proof supplementary_checked as M. unfold JS.supplementaryChecked in M.
    rewrite forallb_forall in M. specialize (M e I). cbv beta in M.
    rewrite !andb_true_iff in M. destruct M as ((A & B) & C).
    apply N.leb_le in A. apply N.ltb_lt in B.
    destruct (find (fun e' => (fst e' =? snd e)%N) JS.upperCaseMappingSupplementary) eqn:G;
      [discriminate|].
    unfold JS.surrogatePair.
    set (q := ((snd e - 0x10000) / 0x400)%N).
    set (r := ((snd e - 0x10000) mod 0x400)%N).
    assert (D : (snd e - 0x10000 = 0x400 * q + r)%N) by (apply N.div_mod; discriminate).
    assert (R : (r < 0x400)%N) by (apply N.mod_lt; discriminate).
    exists (0xD800 + q)%N, (0xDC00 + r)%N.
    split; [reflexivity|]. split; [|split].
    + unfold JS.isHighSurrogate. apply andb_true_iff. split; apply N.leb_le; lia.
    + unfold JS.isLowSurrogate. apply andb_true_iff. split; apply N.leb_le; lia.
    + unfold JS.uppercaseOfPair.
      replace (JS.codePoint (0xD800 + q) (0xDC00 + r)) with (snd e)
        by (unfold JS.codePoint; lia).
      now rewrite G.
  - exists h, l. split; [reflexivity|]. split; [exact Hh|]. split; [exact Hl|].
    unfold JS.uppercaseOfPair. now rewrite F.
Qed.

Lemma toUpperCase_unit c s :
  JS.leadsPair c s = false ->
  JS.toUpperCase (String c s) = (JS.uppercaseOfUnit c ++ JS.toUpperCase s)%string.
Proof.
  unfold JS.leadsPair. destruct s as [|d s2]; cbn [JS.toUpperCase].
  - intros _. now rewrite StringFacts.append_nil_r.
  - now intros ->.
Qed.

Lemma toUpperCase_pair h l s :
  JS.isHighSurrogate h = true -> JS.isLowSurrogate l = true ->
  JS.toUpperCase (String h (String l s))
  = (JS.uppercaseOfPair h l ++ JS.toUpperCase s)%string.
Proof. intros Hh Hl. cbn [JS.toUpperCase]. now rewrite Hh, Hl. Qed.

(** Induction over the code points of a string. *)
Lemma codePoints_ind (P : string -> Prop) :
  P "" ->
  (forall c s, JS.leadsPair c s = false -> P s -> P (String c s)) ->
  (forall h l s, JS.isHighSurrogate h = true -> JS.isLowSurrogate l = true ->
                 P s -> P (String h (String l s))) ->
  forall s, P s.
Proof.
  intros H0 H1 H2 s.
  enough (A : P s /\ forall c, P (String c s)) by apply A.
  induction s as [|d s [IH1 IH2]].
  - split; [exact H0|]. intros c. apply H1; [|exact H0].
    unfold JS.leadsPair. apply andb_false_r.
  - split; [apply IH2|]. intros c.
    destruct (JS.leadsPair c (String d s)) eqn:E.
    + unfold JS.leadsPair in E. apply andb_true_iff in E. destruct E as [Eh El].
      now apply H2.
    + apply H1; [exact E | apply IH2].
Qed.

Lemma toUpperCase_fixed_app w t :
  forallb JS.fixedUnit (String.units w) = true ->
  JS.toUpperCase (w ++ t) = (w ++ JS.toUpperCase t)%string.
Proof.
  induction w as [|x w IH]; [reflexivity|].
  cbn [String.units forallb String.append]. intros F.
  apply andb_true_iff in F. destruct F as [Fx F].
  apply fixedUnit_true in Fx. destruct Fx as (Hh & _ & _ & E).
  rewrite toUpperCase_unit by (unfold JS.leadsPair; now rewrite Hh).
  now rewrite E, IH.
Qed.

Lemma toUpperCase_fixed w :
  forallb JS.fixedUnit (String.units w) = true -> JS.toUpperCase w = w.
Proof.
  intros F. rewrite <- (StringFacts.append_nil_r w) at 1.
  rewrite toUpperCase_fixed_app by exact F. apply StringFacts.append_nil_r.
Qed.

(** The first code unit of the upper-cased string is a low surrogate
    exactly when the first unit of the string is, and white space exactly
    when the first unit of the string is. *)
Lemma toUpperCase_head c s :
  exists x r,
    JS.toUpperCase (String c s) = String x r
    /\ JS.isLowSurrogate x = JS.isLowSurrogate c
    /\ JS.isWhiteSpace x = JS.isWhiteSpace c.
Proof.
  destruct (JS.leadsPair c s) eqn:P.
  - unfold JS.leadsPair in P. apply andb_true_iff in P. destruct P as [Hh P].
    destruct s as [|d s2]; [discriminate|].
    rewrite toUpperCase_pair by assumption.
    destruct (uppercaseOfPair_cases c d Hh P) as (h' & l' & -> & Hh' & _).
    eexists _, _. split; [reflexivity|]. split.
    + now rewrite !high_not_low.
    + rewrite !surrogate_not_whiteSpace; auto.
  - rewrite toUpperCase_unit by exact P.
    destruct (uppercaseOfUnit_cases c) as [->|(W & Hh & Hl & N & F)].
    + eexists _, _. split; [reflexivity|]. now split.
    + destruct (JS.uppercaseOfUnit c) as [|x w]; [now elim N|].
      cbn [String.units forallb] in F. apply andb_true_iff in F. destruct F as [Fx _].
      apply fixedUnit_true in Fx. destruct Fx as (_ & Lx & Wx & _).
      eexists _, _. split; [reflexivity|]. split; congruence.
Qed.

Lemma leadsPair_toUpperCase c s : JS.leadsPair c (JS.toUpperCase s) = JS.leadsPair c s.
Proof.
  destruct s as [|d s]; [reflexivity|].
  destruct (toUpperCase_head d s) as (x & r & -> & L & _).
  unfold JS.leadsPair. now rewrite L.
Qed.

Lemma toUpperCase_idem s : JS.toUpperCase (JS.toUpperCase s) = JS.toUpperCase s.
Proof.
  induction s as [|c s P IH|h l s Hh Hl IH] using codePoints_ind; [reflexivity| |].
  - rewrite toUpperCase_unit by exact P.
    destruct (uppercaseOfUnit_cases c) as [E|(_ & _ & _ & _ & F)].
    + rewrite E. cbn [String.append].
      rewrite toUpperCase_unit by (now rewrite leadsPair_toUpperCase).
      now rewrite E, IH.
    + now rewrite toUpperCase_fixed_app, IH.
  - rewrite toUpperCase_pair by assumption.
    destruct (uppercaseOfPair_cases h l Hh Hl) as (h' & l' & -> & Hh' & Hl' & E).
    cbn [String.append]. rewrite toUpperCase_pair by assumption.
    now rewrite E, IH.
Qed.

Lemma toUpperCase_empty s : JS.toUpperCase s = "" -> s = "".
Proof.
  destruct s as [|c s]; [reflexivity|].
  destruct (toUpperCase_head c s) as (x & r & -> & _). discriminate.
Qed.

Lemma trimStart_headed s : headed (JS.trimStart s).
Proof.
  induction s as [|c r IH]; simpl; [exact I|].
  destruct (JS.isWhiteSpace c) eqn:W; [exact IH | exact W].
Qed.

Lemma trimStart_of_headed s : headed s -> JS.trimStart s = s.
Proof. destruct s as [|c r]; simpl; [reflexivity|]. now intros ->. Qed.

Lemma trimStart_toUpperCase s :
  JS.trimStart (JS.toUpperCase s) = JS.toUpperCase (JS.trimStart s).
Proof.
  induction s as [|c r IH]; [reflexivity|].
  cbn [JS.trimStart]. destruct (JS.isWhiteSpace c) eqn:W.
  - destruct (whiteSpace_unmapped c W) as (E & Hh & _).
    rewrite toUpperCase_unit by (unfold JS.leadsPair; now rewrite Hh).
    rewrite E. cbn [String.append JS.trimStart]. now rewrite W.
  - apply trimStart_of_headed.
    destruct (toUpperCase_head c r) as (x & r' & -> & _ & Wx).
    simpl. congruence.
Qed.

Lemma trimEnd_cons c r :
  JS.trimEnd (String c r) =
  match JS.trimEnd r with
  | EmptyString => if JS.isWhiteSpace c then EmptyString else String c EmptyString
  | r' => String c r'
  end.
Proof. reflexivity. Qed.

Lemma trimEnd_cons_unspaced c r :
  JS.isWhiteSpace c = false -> JS.trimEnd (String c r) = String c (JS.trimEnd r).
Proof. intros W. rewrite trimEnd_cons, W. now destruct (JS.trimEnd r). Qed.

Lemma trimEnd_app a b :
  JS.trimEnd (a ++ b) =
  match JS.trimEnd b with
  | EmptyString => JS.trimEnd a
  | b' => (a ++ b')%string
  end.
Proof.
  induction a as [|c a IH]; cbn [String.append].
  - now destruct (JS.trimEnd b).
  - rewrite !trimEnd_cons, IH. destruct (JS.trimEnd b); [reflexivity | now destruct a].
Qed.

Lemma trimEnd_head s c r : JS.trimEnd s = String c r -> exists r0, s = String c r0.
Proof.
  destruct s as [|d s]; [discriminate|]. rewrite trimEnd_cons.
  destruct (JS.trimEnd s).
  - destruct (JS.isWhiteSpace d); [discriminate|]. intros [= -> _]. now eexists.
  - intros [= -> _]. now eexists.
Qed.

Lemma trimEnd_fixed w :
  forallb JS.fixedUnit (String.units w) = true -> JS.trimEnd w = w.
Proof.
  induction w as [|x w IH]; [reflexivity|].
  cbn [String.units forallb]. intros F. apply andb_true_iff in F. destruct F as [Fx F].
  apply fixedUnit_true in Fx. destruct Fx as (_ & _ & W & _).
  now rewrite trimEnd_cons_unspaced, IH.
Qed.

Lemma trimEnd_toUpperCase s :
  JS.trimEnd (JS.toUpperCase s) = JS.toUpperCase (JS.trimEnd s).
Proof.
  induction s as [|c s P IH|h l s Hh Hl IH] using codePoints_ind; [reflexivity| |].
  - rewrite toUpperCase_unit by exact P.
    rewrite trimEnd_app, IH, trimEnd_cons.
    destruct (JS.trimEnd s) as [|x r] eqn:E.
    + cbn [JS.toUpperCase]. destruct (JS.isWhiteSpace c) eqn:W.
      * destruct (whiteSpace_unmapped c W) as (-> & _).
        rewrite trimEnd_cons, W. reflexivity.
      * cbn [JS.toUpperCase].
        destruct (uppercaseOfUnit_cases c) as [->|(_ & _ & _ & _ & F)].
        -- now rewrite trimEnd_cons, W.
        -- now apply trimEnd_fixed.
    + destruct (trimEnd_head s x r E) as (r0 & ->).
      rewrite (toUpperCase_unit c (String x r)) by exact P.
      destruct (toUpperCase_head x r) as (y & r' & -> & _). reflexivity.
  - rewrite toUpperCase_pair by assumption.
    assert (Wl : JS.isWhiteSpace l = false) by (apply surrogate_not_whiteSpace; auto).
    assert (Wh : JS.isWhiteSpace h = false) by (apply surrogate_not_whiteSpace; auto).
    rewrite (trimEnd_cons_unspaced h), (trimEnd_cons_unspaced l) by assumption.
    rewrite toUpperCase_pair by assumption.
    rewrite trimEnd_app, IH.
    destruct (JS.toUpperCase (JS.trimEnd s)) as [|y r'] eqn:E; [|reflexivity].
    rewrite StringFacts.append_nil_r.
    destruct (uppercaseOfPair_cases h l Hh Hl) as (h' & l' & -> & Hh' & Hl' & _).
    rewrite !trimEnd_cons_unspaced by (apply surrogate_not_whiteSpace; auto).
    reflexivity.
Qed.

Lemma trim_toUpperCase s : JS.trim (JS.toUpperCase s) = JS.toUpperCase (JS.trim s).
Proof. unfold JS.trim. now rewrite trimStart_toUpperCase, trimEnd_toUpperCase. Qed.

Lemma trimEnd_idem s : JS.trimEnd (JS.trimEnd s) = JS.trimEnd s.
Proof.
  induction s as [|c r IH]; [reflexivity|].
  rewrite trimEnd_cons.
  destruct (JS.trimEnd r) as [|c' r'] eqn:E.
  - destruct (JS.isWhiteSpace c) eqn:W; [reflexivity|].
    simpl. now rewrite W.
  - rewrite trimEnd_cons, IH. reflexivity.
Qed.

Lemma trimEnd_headed s : headed s -> headed (JS.trimEnd s).
Proof.
  destruct s as [|c r]; simpl; [trivial|]. intros W.
  destruct (JS.trimEnd r); [rewrite W|]; exact W.
Qed.

Lemma trim_idem s : JS.trim (JS.trim s) = JS.trim s.
Proof.
  unfold JS.trim.
  rewrite (trimStart_of_headed (JS.trimEnd (JS.trimStart s))).
  - apply trimEnd_idem.
  - apply trimEnd_headed, trimStart_headed.
Qed.

Lemma normalizeTrxID_idem s : normalizeTrxID (normalizeTrxID s) = normalizeTrxID s.
Proof.
  unfold normalizeTrxID.
  now rewrite trim_toUpperCase, trim_idem, toUpperCase_idem.
Qed.

Lemma orElse_empty_normalize o :
  normalizeTrxID (JS.orElse o "") =
  match o with Some s => normalizeTrxID s | None => "" end.
Proof.
  destruct o as [s|]; simpl; [|reflexivity].
  destruct (StringFacts.eqb_spec s ""); [subst|]; reflexivity.
Qed.

End Normalisation.

Example normalize_spec_samples :
  normalizeTrxID " cju0pzq3u6 " = "CJU0PZQ3U6" /\
  normalizeTrxID "CJU0PZQ3U6" = "CJU0PZQ3U6" /\
  normalizeTrxID "Cju0Pzq3U6" = "CJU0PZQ3U6".
Proof. repeat split; reflexivity. Qed.

(** Outside the ASCII range: a no-break space (U+00A0) and a byte order
    mark (U+FEFF) around the reference are trimmed, a reference of no-break
    spaces only is empty, a sharp s (U+00DF) becomes SS, a dotless i
    (U+0131) becomes I, and a Deseret small letter (U+10428, a surrogate
    pair) becomes its capital (U+10400). *)
Example normalize_unicode_samples :
  normalizeTrxID (String 0xA0 ("abc1" ++ String 0xFEFF "")) = "ABC1" /\
  normalizeTrxID (String 0xA0 (String 0xA0 "")) = "" /\
  normalizeTrxID (String 0xDF "1") = "SS1" /\
  normalizeTrxID (String 0x131 "d") = "ID" /\
  normalizeTrxID (String 0xD801 (String 0xDC28 "")) = String 0xD801 (String 0xDC00 "").
Proof. repeat split; vm_compute; reflexivity. Qed.


(** C10. [normalizeTrxID] is idempotent.  Hence, for a session whose
    reference was normalised when the submit handler wrote it, the operand
    rule 1 of [verifyPayment] computes is the stored reference itself, and
    rule 1 rejects exactly when the stored reference differs from the
    receipt's normalised reference. *)
Theorem normalizeTrxID_idempotent :
  (forall s, normalizeTrxID (normalizeTrxID s) = normalizeTrxID s) /\
  (forall s now t,
     let t' := TrackingService.submitRow (normalizeTrxID s) now t in
     normalizeTrxID (JS.orElse (Tracking.user_entered_trxid t') "") = normalizeTrxID s) /\
  (forall s now t x db,
     let t' := TrackingService.submitRow (normalizeTrxID s) now t in
     Rules.reported (verifyPayment t' x db) = Some 1%nat <->
     normalizeTrxID s <> normalizeTrxID (Transaction.trxid x)).
Proof.
  split; [exact normalizeTrxID_idem|].
  assert (H : forall s now t,
             normalizeTrxID
               (JS.orElse (Tracking.user_entered_trxid
                             (TrackingService.submitRow (normalizeTrxID s) now t)) "")
             = normalizeTrxID s).
  { intros s now t. rewrite orElse_empty_normalize. simpl. apply normalizeTrxID_idem. }
  split; [exact H|].
  intros s now t x db t'. unfold verifyPayment.
  unfold t' at 1. rewrite H.
  destruct (StringFacts.eqb_spec (normalizeTrxID s) (normalizeTrxID (Transaction.trxid x)))
    as [E|E]; simpl.
  - split; [|intros NE; now elim NE].
    repeat match goal with
           | |- context [if ?b then _ else _] => destruct b
           | |- context [match ?o with Some _ => _ | None => _ end] => destruct o
           end; simpl; discriminate.
  - split; [intros _; exact E | reflexivity].
Qed.

(** ** The rule chain of [verifyPayment] *)

Section RuleChain.

Variables (t : Tracking.t) (x : Transaction.t) (db : DB).

Lemma includes_receiver :
  existsb (fun r => (r =? Transaction.receiver_phone x)%string)
          (Tracking.offered_receivers t)
  = Rules.receiver t x.
Proof.
  unfold Rules.receiver.
  destruct (in_dec string_dec _ _) as [I|N].
  - apply existsb_exists. exists (Transaction.receiver_phone x).
    split; [exact I | apply StringFacts.eqb_refl].
  - apply not_true_is_false. intros E. apply N.
    apply existsb_exists in E. destruct E as (r & I & E).
    apply StringFacts.eqb_eq in E. now subst.
Qed.

Lemma outside_window :
  (Transaction.received_at x <? Tracking.created_at t - 60 * 60 * 1000)
  || (Transaction.received_at x >? Tracking.expires_at t + 15 * 60 * 1000)
  = negb (Rules.timeWindow t x).
Proof.
  unfold Rules.timeWindow.
  rewrite negb_andb, Z.gtb_ltb, !Z.leb_antisym, !negb_involutive.
  reflexivity.
Qed.

Lemma alreadyMatched_exclusive :
  find (fun o => TrackingStatus_eqb (Tracking.status o) verified
                 && negb (Tracking.tracking_id o =? Tracking.tracking_id t)%string)
       (TrackingService.findByTrxID (normalizeTrxID (Transaction.trxid x)) db)
  = None
  <-> Rules.exclusive t x db = true.
Proof.
  unfold Rules.exclusive.
  induction (TrackingService.findByTrxID _ db) as [|o l IH]; simpl.
  - tauto.
  - destruct (TrackingStatus_eqb (Tracking.status o) verified); simpl.
    + destruct (Tracking.tracking_id o =? Tracking.tracking_id t)%string; simpl.
      * exact IH.
      * split; discriminate.
    + exact IH.
Qed.

(** What [findByTrxID] returns is never verified, so the search of rule 5
    finds nothing. *)
Lemma findByTrxID_awaiting trxid o :
  In o (TrackingService.findByTrxID trxid db) ->
  TrackingService.awaiting (Tracking.status o) = true.
Proof.
  unfold TrackingService.findByTrxID. intros I.
  apply filter_In in I. destruct I as [_ I].
  now apply andb_true_iff in I.
Qed.

Lemma exclusive_always : Rules.exclusive t x db = true.
Proof.
  unfold Rules.exclusive. apply forallb_forall. intros o I.
  apply findByTrxID_awaiting in I.
  destruct (Tracking.status o); simpl in *; try discriminate; reflexivity.
Qed.

(** [verifyPayment] in terms of the rules. *)
Lemma verifyPayment_cases :
  let r := verifyPayment t x db in
  match Rules.firstFailing 1 (Rules.all t x db) with
  | None => success r = true /\ status r = r_verified
            /\ matched_transaction_id r = Some (Transaction.id x)
            /\ failure_reason r = None
  | Some n => success r = false /\ status r = r_failed
              /\ matched_transaction_id r = None
              /\ Rules.reported r = Some n
  end.
Proof.
  unfold verifyPayment, Rules.all.
  fold (Rules.reference t x) (Rules.amount t x).
  rewrite includes_receiver, outside_window.
  destruct (Rules.reference t x); simpl; [|now repeat split].
  destruct (Rules.amount t x); simpl; [|now repeat split].
  destruct (Rules.receiver t x); simpl; [|now repeat split].
  destruct (Rules.timeWindow t x); simpl; [|now repeat split].
  destruct (find _ _) eqn:F.
  - destruct (Rules.exclusive t x db) eqn:E.
    + apply alreadyMatched_exclusive in E. congruence.
    + now repeat split.
  - apply alreadyMatched_exclusive in F. rewrite F. now repeat split.
Qed.

End RuleChain.

Lemma firstFailing_None n rules :
  Rules.firstFailing n rules = None <-> Forall (fun b => b = true) rules.
Proof.
  revert n. induction rules as [|b l IH]; intros n; simpl.
  - split; [constructor | reflexivity].
  - destruct b.
    + rewrite IH. split; [now constructor | now inversion 1].
    + split; [discriminate | inversion 1; discriminate].
Qed.

Lemma firstFailing_Some n k rules :
  Rules.firstFailing n rules = Some (n + k)%nat <->
  Forall (fun b => b = true) (firstn k rules) /\ nth_error rules k = Some false.
Proof.
  revert n k. induction rules as [|b l IH]; intros n k; simpl.
  - split; [discriminate|]. destruct k; simpl; intros [_ H]; discriminate.
  - destruct b.
    + destruct k as [|k]; simpl.
      * split; [|intros [_ H]; discriminate].
        intros H. exfalso.
        assert (G : forall m rs j, Rules.firstFailing m rs = Some j -> (m <= j)%nat).
        { clear. intros m rs. revert m.
          induction rs as [|[] rs IHr]; intros m j; simpl; try discriminate.
          - intros H. apply IHr in H. lia.
          - intros [= <-]. lia. }
        apply G in H. lia.
      * replace (n + S k)%nat with (S n + k)%nat by lia. rewrite IH.
        split; intros [A B]; split; auto; now inversion A.
    + destruct k as [|k]; simpl.
      * replace (n + 0)%nat with n by lia. split; [now split | reflexivity].
      * split; [intros [= E]; lia | intros [A _]; inversion A; discriminate].
Qed.

(** [verifyPayment] evaluates its five checks in the order reference,
    amount, receiver, time window, duplicate search: the one it reports is
    the first that fails, with every earlier one holding, and its verdict is
    verified if and only if all five checks, as coded, hold. *)
Lemma verifyPayment_first_failing (t : Tracking.t) (x : Transaction.t) (db : DB) :
  let r := verifyPayment t x db in
  Rules.reported r = Rules.firstFailing 1 (Rules.all t x db)
  /\ (forall k, Rules.reported r = Some (S k) <->
                Forall (fun b => b = true) (firstn k (Rules.all t x db))
                /\ nth_error (Rules.all t x db) k = Some false)
  /\ (success r = true <->
      Rules.reference t x = true /\ Rules.amount t x = true
      /\ Rules.receiver t x = true /\ Rules.timeWindow t x = true
      /\ Rules.exclusive t x db = true)
  /\ (status r = r_verified <-> success r = true)
  /\ (status r = r_failed <-> success r = false).
Proof.
  intros r. pose proof (verifyPayment_cases t x db) as C. fold r in C. cbv zeta in C.
  assert (R : Rules.reported r = Rules.firstFailing 1 (Rules.all t x db)).
  { destruct (Rules.firstFailing 1 _) as [n|].
    - apply C.
    - destruct C as (_ & _ & _ & F). unfold Rules.reported. now rewrite F. }
  split; [exact R|]. split.
  { intros k. rewrite R. apply (firstFailing_Some 1 k). }
  assert (A : Rules.firstFailing 1 (Rules.all t x db) = None <->
              Rules.reference t x = true /\ Rules.amount t x = true
              /\ Rules.receiver t x = true /\ Rules.timeWindow t x = true
              /\ Rules.exclusive t x db = true).
  { rewrite firstFailing_None. unfold Rules.all. split.
    - intros F. repeat (inversion F as [|? ? ? F']; subst; clear F; rename F' into F).
      now repeat split.
    - intros (H1 & H2 & H3 & H4 & H5). now repeat constructor. }
  destruct (Rules.firstFailing 1 (Rules.all t x db)) as [n|].
  - destruct C as (S0 & S1 & _ & _). rewrite S0, S1. repeat split; try discriminate.
    intros H. apply A in H. discriminate.
  - destruct C as (S0 & S1 & _ & _). rewrite S0, S1. repeat split; try discriminate.
    all: apply A; reflexivity.
Qed.

(** C5 fails on the code in its last part.  The checks run in the stated
    order and the first failing one is reported
    ([verifyPayment_first_failing]), but the fifth never fails, so a
    verified verdict does not imply exclusivity: here rules 1 to 4 hold for
    session S2 and receipt TX1, session S1 is already verified with TX1 as
    its resolved receipt, and [verifyPayment] still returns verified. *)
Theorem verified_without_exclusivity :
  Rules.reference (Sample.session "S2" 20000 (Some "DUPTEST999") submitted_trx None None)
                  (Sample.receipt "TX1" "DUPTEST999" 20000 (Sample.t0 + 60000)) = true
  /\ Rules.amount (Sample.session "S2" 20000 (Some "DUPTEST999") submitted_trx None None)
                  (Sample.receipt "TX1" "DUPTEST999" 20000 (Sample.t0 + 60000)) = true
  /\ Rules.receiver (Sample.session "S2" 20000 (Some "DUPTEST999") submitted_trx None None)
                    (Sample.receipt "TX1" "DUPTEST999" 20000 (Sample.t0 + 60000)) = true
  /\ Rules.timeWindow (Sample.session "S2" 20000 (Some "DUPTEST999") submitted_trx None None)
                      (Sample.receipt "TX1" "DUPTEST999" 20000 (Sample.t0 + 60000)) = true
  /\ Rules.exclusiveSpec
       (Sample.session "S2" 20000 (Some "DUPTEST999") submitted_trx None None)
       (Sample.receipt "TX1" "DUPTEST999" 20000 (Sample.t0 + 60000))
       Sample.verifiedAndOpen = false
  /\ verifyPayment (Sample.session "S2" 20000 (Some "DUPTEST999") submitted_trx None None)
                   (Sample.receipt "TX1" "DUPTEST999" 20000 (Sample.t0 + 60000))
                   Sample.verifiedAndOpen
     = mkResult true r_verified "Payment verified successfully" (Some "TX1") None.
Proof. repeat split; reflexivity. Qed.

(** ** The time window *)

(** Sessions made by [TrackingService.create] have a window of 2 h 15 min. *)
Lemma create_window data tracking_id now db db' t :
  TrackingService.create data tracking_id now db = inr (db', t) ->
  Tracking.expires_at t + 900000 - (Tracking.created_at t - 3600000) = 8100000.
Proof.
  unfold TrackingService.create.
  destruct (TrackingService.getByID tracking_id db); [discriminate|].
  intros [= _ <-]. simpl. lia.
Qed.

(** C6. The time window of [verifyPayment] includes both of its bounds.
    For a session whose window is not empty and a receipt that satisfies
    rules 1 to 3: an event time of exactly [created_at - 1 h] is not
    rejected, one second earlier is rejected as outside the window,
    exactly [expires_at + 15 min] is not rejected, one second later is
    rejected as outside the window. *)
Theorem timeWindow_inclusive_bounds (t : Tracking.t) (x : Transaction.t) (db : DB) :
  Tracking.created_at t - 3600000 <= Tracking.expires_at t + 900000 ->
  Rules.reference t x = true ->
  Rules.amount t x = true ->
  Rules.receiver t x = true ->
  let lower := Tracking.created_at t - 3600000 in
  let upper := Tracking.expires_at t + 900000 in
  (Rules.timeWindow t (receivedAt lower x) = true
   /\ success (verifyPayment t (receivedAt lower x) db) = true)
  /\ (Rules.timeWindow t (receivedAt (lower - 1000) x) = false
      /\ failure_reason (verifyPayment t (receivedAt (lower - 1000) x) db)
         = Some (OutsideTimeWindow (lower - 1000) lower upper))
  /\ (Rules.timeWindow t (receivedAt upper x) = true
      /\ success (verifyPayment t (receivedAt upper x) db) = true)
  /\ (Rules.timeWindow t (receivedAt (upper + 1000) x) = false
      /\ failure_reason (verifyPayment t (receivedAt (upper + 1000) x) db)
         = Some (OutsideTimeWindow (upper + 1000) lower upper)).
Proof.
  intros W R1 R2 R3 lower upper.
  assert (P : forall time,
             lower <= time <= upper ->
             Rules.timeWindow t (receivedAt time x) = true
             /\ success (verifyPayment t (receivedAt time x) db) = true).
  { intros time [L U].
    assert (T : Rules.timeWindow t (receivedAt time x) = true).
    { unfold Rules.timeWindow. simpl. apply andb_true_iff.
      split; apply Z.leb_le; assumption. }
    split; [exact T|].
    pose proof (verifyPayment_cases t (receivedAt time x) db) as C.
    unfold Rules.all in C. rewrite T, exclusive_always in C.
    change (Rules.reference t (receivedAt time x)) with (Rules.reference t x) in C.
    change (Rules.amount t (receivedAt time x)) with (Rules.amount t x) in C.
    change (Rules.receiver t (receivedAt time x)) with (Rules.receiver t x) in C.
    rewrite R1, R2, R3 in C. apply C. }
  assert (Q : forall time,
             time < lower \/ upper < time ->
             Rules.timeWindow t (receivedAt time x) = false
             /\ failure_reason (verifyPayment t (receivedAt time x) db)
                = Some (OutsideTimeWindow time lower upper)).
  { intros time O.
    assert (T : Rules.timeWindow t (receivedAt time x) = false).
    { unfold Rules.timeWindow. simpl. apply andb_false_iff.
      destruct O; [left | right]; apply Z.leb_gt; assumption. }
    split; [exact T|].
    unfold verifyPayment.
    fold (Rules.reference t (receivedAt time x)) (Rules.amount t (receivedAt time x)).
    rewrite includes_receiver, outside_window, T.
    change (Rules.reference t (receivedAt time x)) with (Rules.reference t x).
    change (Rules.amount t (receivedAt time x)) with (Rules.amount t x).
    change (Rules.receiver t (receivedAt time x)) with (Rules.receiver t x).
    rewrite R1, R2, R3. reflexivity. }
  repeat split.
  - apply P; lia.
  - apply P; lia.
  - apply Q; lia.
  - apply Q; lia.
  - apply P; lia.
  - apply P; lia.
  - apply Q; lia.
  - apply Q; lia.
Qed.

Lemma timeWindow_inclusive_bounds_witness :
  success (verifyPayment
             (Sample.session "S1" 100000 (Some "HAPPY1") submitted_trx None None)
             (receivedAt (Sample.t0 - 3600000)
                         (Sample.receipt "TX1" "HAPPY1" 100000 (Sample.t0 + 60000)))
             Sample.happyPath) = true
  /\ failure_reason
       (verifyPayment
          (Sample.session "S1" 100000 (Some "HAPPY1") submitted_trx None None)
          (receivedAt (Sample.t0 + 3600000 + 900000 + 1000)
                      (Sample.receipt "TX1" "HAPPY1" 100000 (Sample.t0 + 60000)))
          Sample.happyPath)
     = Some (OutsideTimeWindow (Sample.t0 + 3600000 + 900000 + 1000)
                               (Sample.t0 - 3600000)
                               (Sample.t0 + 3600000 + 900000)).
Proof.
  assert (W : Sample.t0 - 3600000 <= Sample.t0 + 3600000 + 900000)
    by (vm_compute; discriminate).
  destruct (timeWindow_inclusive_bounds
              (Sample.session "S1" 100000 (Some "HAPPY1") submitted_trx None None)
              (Sample.receipt "TX1" "HAPPY1" 100000 (Sample.t0 + 60000))
              Sample.happyPath W eq_refl eq_refl eq_refl)
    as ((_ & A) & _ & _ & (_ & B)).
  split; [exact A | exact B].
Defined.

(** ** Frame properties of the store operations *)

Section Frames.

Lemma getByID_In id db t :
  TrackingService.getByID id db = Some t ->
  In t (tracking_table db) /\ Tracking.tracking_id t = id.
Proof.
  unfold TrackingService.getByID. intros F. apply find_some in F.
  destruct F as [I E]. apply StringFacts.eqb_eq in E. now split.
Qed.

(** Under the primary key, a row is the one its id looks up. *)
Lemma getByID_unique db s :
  uniqueTrackingIDs db ->
  In s (tracking_table db) ->
  TrackingService.getByID (Tracking.tracking_id s) db = Some s.
Proof.
  unfold uniqueTrackingIDs, TrackingService.getByID.
  induction (tracking_table db) as [|r l IH]; simpl; [contradiction|].
  intros U [->|I].
  - now rewrite StringFacts.eqb_refl.
  - inversion U as [|? ? N U']; subst.
    destruct (StringFacts.eqb_spec (Tracking.tracking_id r) (Tracking.tracking_id s)) as [E|E].
    + exfalso. apply N. rewrite E. now apply in_map.
    + now apply IH.
Qed.

Lemma other_status_other_id db id t s :
  uniqueTrackingIDs db ->
  TrackingService.getByID id db = Some t ->
  In s (tracking_table db) ->
  Tracking.status s <> Tracking.status t ->
  Tracking.tracking_id s <> id.
Proof.
  intros U G I N E. apply (getByID_unique db s U) in I.
  rewrite E, G in I. injection I as ->. now apply N.
Qed.

Lemma getByID_updateWhereID_other id id' f db :
  (forall r, Tracking.tracking_id (f r) = Tracking.tracking_id r) ->
  id' <> id ->
  TrackingService.getByID id (TrackingService.updateWhereID id' f db)
  = TrackingService.getByID id db.
Proof.
  intros P N. unfold TrackingService.getByID, TrackingService.updateWhereID. simpl.
  induction (tracking_table db) as [|r l IH]; simpl; [reflexivity|].
  destruct (StringFacts.eqb_spec (Tracking.tracking_id r) id') as [E|E].
  - rewrite P.
    destruct (StringFacts.eqb_spec (Tracking.tracking_id r) id) as [E'|_]; [congruence|].
    exact IH.
  - destruct (Tracking.tracking_id r =? id)%string; [reflexivity | exact IH].
Qed.

Lemma ids_updateWhereID id' f db :
  (forall r, Tracking.tracking_id (f r) = Tracking.tracking_id r) ->
  map Tracking.tracking_id (tracking_table (TrackingService.updateWhereID id' f db))
  = map Tracking.tracking_id (tracking_table db).
Proof.
  intros P. unfold TrackingService.updateWhereID. simpl.
  rewrite map_map. apply map_ext. intros r.
  destruct (Tracking.tracking_id r =? id')%string; [apply P | reflexivity].
Qed.

Lemma getByID_updateStatus_other id id' st m n now db :
  id' <> id ->
  TrackingService.getByID id (TrackingService.updateStatus id' st m n now db)
  = TrackingService.getByID id db.
Proof. intros N. now apply getByID_updateWhereID_other. Qed.

Lemma getByID_submitTrxID_other id id' trxid now db :
  id' <> id ->
  TrackingService.getByID id (TrackingService.submitTrxID id' trxid now db)
  = TrackingService.getByID id db.
Proof. intros N. now apply getByID_updateWhereID_other. Qed.

Lemma expireRows_table ids now db :
  tracking_table (TrackingService.expireRows ids now db)
  = map (fun t => if existsb (fun i => (Tracking.tracking_id t =? i)%string) ids
                  then TrackingService.expireRow now t
                  else t)
        (tracking_table db).
Proof.
  destruct ids; [|reflexivity]. simpl. now rewrite map_id.
Qed.

Lemma getByID_expireRows_other id ids now db :
  ~ In id ids ->
  TrackingService.getByID id (TrackingService.expireRows ids now db)
  = TrackingService.getByID id db.
Proof.
  intros N. unfold TrackingService.getByID. rewrite expireRows_table.
  induction (tracking_table db) as [|r l IH]; [reflexivity|].
  cbn [map find].
  destruct (existsb _ ids) eqn:X.
  - cbn [TrackingService.expireRow Tracking.tracking_id].
    destruct (StringFacts.eqb_spec (Tracking.tracking_id r) id) as [E|_]; [|exact IH].
    exfalso. apply N. apply existsb_exists in X. destruct X as (j & I & J).
    apply StringFacts.eqb_eq in J. congruence.
  - destruct (Tracking.tracking_id r =? id)%string; [reflexivity | exact IH].
Qed.

Lemma ids_expireRows ids now db :
  map Tracking.tracking_id (tracking_table (TrackingService.expireRows ids now db))
  = map Tracking.tracking_id (tracking_table db).
Proof.
  rewrite expireRows_table, map_map. apply map_ext. intros r.
  destruct (existsb _ ids); reflexivity.
Qed.

(** The status write touches the named session only, and calls nothing
    but [updateStatus] on it. *)
Lemma applyResult_frame id id' result now db :
  id' <> id ->
  TrackingService.getByID id (fst (applyResult id' result now db))
  = TrackingService.getByID id db.
Proof.
  intros N. unfold applyResult.
  destruct (success result); simpl.
  - now apply getByID_updateStatus_other.
  - destruct (status result); simpl; try reflexivity.
    now apply getByID_updateStatus_other.
Qed.

Lemma applyResult_calls id' result now db :
  Forall (fun c => callTarget c = id' /\ isFulfillment c = false)
         (snd (applyResult id' result now db)).
Proof.
  unfold applyResult.
  destruct (success result); simpl; [now repeat constructor|].
  destruct (status result); simpl; now repeat constructor.
Qed.

Lemma applyResult_unwritten id' result now db :
  success result = false -> status result <> r_failed ->
  applyResult id' result now db = (db, []).
Proof.
  unfold applyResult. intros -> N.
  destruct (status result); try reflexivity. now elim N.
Qed.

End Frames.

(** ** Frame properties of the resolution paths *)

Section Resolution.

Variable now : Z.

Lemma attemptVerification_frame id id' db :
  id' <> id ->
  TrackingService.getByID id (storeAfter (attemptVerification id' now db))
  = TrackingService.getByID id db.
Proof.
  intros N. unfold attemptVerification.
  destruct (TrackingService.getByID id' db) as [tracking|]; [|reflexivity].
  destruct (JS.orNull _) as [u|]; [|reflexivity].
  destruct (TrackingStatus_eqb _ verified); [reflexivity|].
  destruct (TransactionsService.getByTrxID _ db) as [transaction|]; [|reflexivity].
  pose proof (applyResult_frame id id' (verifyPayment tracking transaction db) now db N) as F.
  destruct (applyResult _ _ _ _) as [db' writes]. exact F.
Qed.

Lemma attemptVerification_calls id' db :
  Forall (fun c => callTarget c = id' /\ isFulfillment c = false)
         (callsOf (attemptVerification id' now db)).
Proof.
  unfold attemptVerification.
  destruct (TrackingService.getByID id' db) as [tracking|] eqn:G; [|constructor].
  destruct (JS.orNull _) as [u|]; [|constructor].
  destruct (TrackingStatus_eqb _ verified); [constructor|].
  destruct (TransactionsService.getByTrxID _ db) as [transaction|]; [|constructor].
  pose proof (applyResult_calls id' (verifyPayment tracking transaction db) now db) as F.
  destruct (applyResult _ _ _ _) as [db' writes]. unfold callsOf. simpl.
  constructor; [|exact F].
  apply getByID_In in G. simpl. now split.
Qed.

(** The guard on the verified status: nothing is read further, nothing is
    written, nothing is called. *)
Lemma attemptVerification_verified id t db :
  TrackingService.getByID id db = Some t ->
  Tracking.status t = verified ->
  storeAfter (attemptVerification id now db) = db
  /\ callsOf (attemptVerification id now db) = []
  /\ status (valueOf (attemptVerification id now db)) <> r_failed.
Proof.
  intros G V. unfold attemptVerification. rewrite G, V.
  destruct (JS.orNull _); repeat split; discriminate.
Qed.

Lemma verifyEach_frame id x sessions db :
  Forall (fun s => Tracking.tracking_id s <> id) sessions ->
  TrackingService.getByID id (storeAfter (verifyEach sessions x now db))
  = TrackingService.getByID id db.
Proof.
  intros F. revert db. induction F as [|s l N F IH]; intros db; [reflexivity|].
  cbn [verifyEach].
  pose proof (applyResult_frame id (Tracking.tracking_id s)
                                (verifyPayment s x db) now db N) as A.
  destruct (applyResult _ _ _ _) as [db1 writes]. simpl in A.
  specialize (IH db1).
  destruct (verifyEach l x now db1) as [[db2 calls] results].
  unfold storeAfter in *. simpl in *. congruence.
Qed.

Lemma verifyEach_calls x sessions db :
  Forall (fun c => In (callTarget c) (map Tracking.tracking_id sessions)
                   /\ isFulfillment c = false)
         (callsOf (verifyEach sessions x now db)).
Proof.
  revert db. induction sessions as [|s l IH]; intros db; [constructor|].
  cbn [verifyEach].
  pose proof (applyResult_calls (Tracking.tracking_id s)
                                (verifyPayment s x db) now db) as A.
  destruct (applyResult _ _ _ _) as [db1 writes]. simpl in A.
  specialize (IH db1).
  destruct (verifyEach l x now db1) as [[db2 calls] results].
  unfold callsOf in *. simpl in *.
  constructor; [simpl; auto|].
  apply Forall_app. split.
  - eapply Forall_impl; [|exact A]. simpl. intros c [-> ?]. auto.
  - eapply Forall_impl; [|exact IH]. simpl. intros c [? ?]. auto.
Qed.

(** [verifyIncomingTransaction] works on the sessions [findByTrxID]
    selects, which are pending or submitted. *)
Lemma verifyIncomingTransaction_frame id t transactionId db :
  uniqueTrackingIDs db ->
  TrackingService.getByID id db = Some t ->
  TrackingService.awaiting (Tracking.status t) = false ->
  let o := verifyIncomingTransaction transactionId now db in
  TrackingService.getByID id (storeAfter o) = Some t
  /\ Forall (fun c => callTarget c <> id /\ isFulfillment c = false) (callsOf o).
Proof.
  intros U G T. unfold verifyIncomingTransaction.
  destruct (TransactionsService.getByID transactionId db) as [x|];
    [|split; [exact G | constructor]].
  set (trxid := normalizeTrxID (Transaction.trxid x)).
  assert (F : Forall (fun s => Tracking.tracking_id s <> id)
                     (TrackingService.findByTrxID trxid db)).
  { apply Forall_forall. intros s I.
    pose proof (findByTrxID_awaiting db trxid s I) as W.
    apply filter_In in I. destruct I as [I _].
    apply (other_status_other_id db id t s U G I). congruence. }
  destruct (TrackingService.findByTrxID trxid db) as [|s l] eqn:E;
    [split; [exact G | constructor]|].
  cbv zeta. split.
  - rewrite verifyEach_frame; assumption.
  - pose proof (verifyEach_calls x (s :: l) db) as C.
    eapply Forall_impl; [|exact C]. cbv beta. intros c [I NF]. split; [|exact NF].
    intros K. rewrite Forall_forall in F.
    apply in_map_iff in I. destruct I as (s' & Es & Is).
    apply (F s' Is). congruence.
Qed.

(** The submit handler touches the session it is called for only. *)
Lemma submitTrxID_frame id id' trxid db :
  id' <> id ->
  TrackingService.getByID id (storeAfter (submitTrxID id' trxid now db))
  = TrackingService.getByID id db.
Proof.
  intros N. unfold submitTrxID.
  destruct (id' =? "")%string; [reflexivity|].
  destruct (JS.orNull trxid) as [u|]; [|reflexivity].
  destruct (normalizeTrxID u =? "")%string; [reflexivity|].
  destruct (TrackingService.getByID id' db) as [tracking|]; [|reflexivity].
  destruct (now >? _); [reflexivity|].
  destruct (TrackingStatus_eqb _ verified); [reflexivity|].
  destruct (_ && _); [reflexivity|].
  pose proof (attemptVerification_frame id id'
                (TrackingService.submitTrxID id' (normalizeTrxID u) now db) N) as A.
  destruct (attemptVerification _ _ _) as [[db2 calls] r].
  unfold storeAfter in *. simpl in *.
  rewrite A. now apply getByID_submitTrxID_other.
Qed.

(** Its guards: a session past its expiry, or verified, is left as it is. *)
Lemma submitTrxID_guarded id t trxid db :
  TrackingService.getByID id db = Some t ->
  Tracking.expires_at t < now \/ Tracking.status t = verified ->
  storeAfter (submitTrxID id trxid now db) = db
  /\ callsOf (submitTrxID id trxid now db) = [].
Proof.
  intros G H. unfold submitTrxID.
  destruct (id =? "")%string; [now split|].
  destruct (JS.orNull trxid) as [u|]; [|now split].
  destruct (normalizeTrxID u =? "")%string; [now split|].
  rewrite G.
  destruct (Z.gtb_spec now (Tracking.expires_at t)) as [L|L]; [now split|].
  destruct H as [H|H]; [lia|]. rewrite H. now split.
Qed.

End Resolution.

(** ** The sweep *)

Section SweepProperties.

Variable attempt : string -> DB -> DB * list Call * (Exn + VerificationResult).

Lemma retryStep_processed session db c :
  processed (valueOf (retryStep attempt session db c)) = S (processed c).
Proof.
  unfold retryStep, processed, valueOf.
  destruct (attempt _ db) as [[db' calls] [e|result]]; simpl; [lia|].
  destruct (success result); simpl; [lia|].
  destruct (status result); simpl; lia.
Qed.

Lemma retryLoop_processed sessions db c :
  processed (valueOf (retryLoop attempt sessions db c))
  = (processed c + List.length sessions)%nat.
Proof.
  revert db c. induction sessions as [|s l IH]; intros db c.
  - simpl. unfold valueOf. simpl. lia.
  - cbn [retryLoop].
    pose proof (retryStep_processed s db c) as P.
    destruct (retryStep attempt s db c) as [[db1 calls1] c1].
    specialize (IH db1 c1).
    destruct (retryLoop attempt l db1 c1) as [[db2 calls2] c2].
    unfold valueOf in *. simpl in *. lia.
Qed.

Lemma retryLoop_app l1 l2 db c :
  retryLoop attempt (l1 ++ l2) db c
  = let o1 := retryLoop attempt l1 db c in
    let o2 := retryLoop attempt l2 (storeAfter o1) (valueOf o1) in
    (storeAfter o2, (callsOf o1 ++ callsOf o2)%list, valueOf o2).
Proof.
  revert db c. induction l1 as [|s l IH]; intros db c.
  - cbn [retryLoop app]. unfold storeAfter, callsOf, valueOf. cbn [fst snd app].
    destruct (retryLoop attempt l2 db c) as [[db2 calls2] c2]. reflexivity.
  - cbn [retryLoop app].
    destruct (retryStep attempt s db c) as [[db1 calls1] c1].
    rewrite IH. cbv zeta.
    destruct (retryLoop attempt l db1 c1) as [[db2 calls2] c2].
    unfold storeAfter, callsOf, valueOf. simpl.
    destruct (retryLoop attempt l2 db2 c2) as [[db3 calls3] c3]. simpl.
    now rewrite app_assoc.
Qed.

Lemma retryLoop_frame id sessions db c :
  (forall id' db0,
      id' <> id ->
      TrackingService.getByID id (storeAfter (attempt id' db0))
      = TrackingService.getByID id db0) ->
  Forall (fun s => Tracking.tracking_id s <> id) sessions ->
  TrackingService.getByID id (storeAfter (retryLoop attempt sessions db c))
  = TrackingService.getByID id db.
Proof.
  intros A F. revert db c. induction F as [|s l N F IH]; intros db c; [reflexivity|].
  cbn [retryLoop]. unfold retryStep.
  specialize (A (Tracking.tracking_id s) db N).
  destruct (attempt _ db) as [[db1 calls1] o1].
  match goal with
  | |- context [retryLoop attempt l db1 ?c1] =>
      specialize (IH db1 c1); destruct (retryLoop attempt l db1 c1) as [[db2 calls2] c2]
  end.
  unfold storeAfter in *. simpl in *. congruence.
Qed.

(** The sweep throws, with nothing written, from 100 overdue sessions
    on; below that the UPDATE is accepted and the sweep goes through its
    two steps. *)
Lemma sweepWith_cases now db :
  ((100 <= List.length (TrackingService.findExpired now db))%nat
   /\ sweepWith attempt now db
      = (db, [], inl (Thrown (errorMessage TooManySQLVariables))))
  \/ ((List.length (TrackingService.findExpired now db) < 100)%nat
      /\ sweepWith attempt now db
         = let expiredSessions := TrackingService.findExpired now db in
           let db1 :=
             match expiredSessions with
             | [] => db
             | _ => TrackingService.expireRows
                      (map Tracking.tracking_id expiredSessions) now db
             end in
           let pendingSessions := TrackingService.findPendingVerification db1 in
           let '(db2, calls, c) := retryLoop attempt pendingSessions db1 (mkCounters 0 0 0) in
           (db2, calls,
            inr (mkReport (List.length expiredSessions) (verifiedCount c) (failedCount c)
                          (stillPendingCount c) (List.length pendingSessions)))).
Proof.
  unfold sweepWith. cbv zeta.
  destruct (TrackingService.findExpired now db) as [|s l] eqn:E.
  - right. split; [simpl; lia | reflexivity].
  - unfold TrackingService.expireSessions. cbn [map].
    destruct (Nat.ltb_spec maxBoundParameters
                (1 + List.length (Tracking.tracking_id s :: map Tracking.tracking_id l)))
      as [L|L]; unfold maxBoundParameters in L; cbn [List.length] in L;
      rewrite length_map in L.
    + left. split; [simpl; lia | reflexivity].
    + right. split; [simpl; lia | reflexivity].
Qed.

End SweepProperties.

(** The two outcomes of [scheduledHandler now db]: thrown by the expiry
    step, or gone through both steps. *)
Ltac sweep_cases now db :=
  let B := fresh "B" in
  unfold scheduledHandler;
  destruct (sweepWith_cases
              (fun trackingId db0 =>
                 let '(db', calls, result) := attemptVerification trackingId now db0 in
                 (db', calls, @inr Exn VerificationResult result)) now db)
    as [[B ->]|[B ->]]; [|cbv zeta].

Lemma scheduledHandler_frame now id t db :
  uniqueTrackingIDs db ->
  TrackingService.getByID id db = Some t ->
  TrackingService.awaiting (Tracking.status t) = false ->
  TrackingService.getByID id (storeAfter (scheduledHandler now db)) = Some t.
Proof.
  intros U G T. sweep_cases now db; [exact G|].
  set (expiredSessions := TrackingService.findExpired now db).
  set (db1 := match expiredSessions with
              | [] => db
              | _ => TrackingService.expireRows
                       (map Tracking.tracking_id expiredSessions) now db
              end).
  assert (G1 : TrackingService.getByID id db1 = Some t).
  { assert (X : TrackingService.getByID id
                  (TrackingService.expireRows
                     (map Tracking.tracking_id expiredSessions) now db) = Some t).
    { rewrite getByID_expireRows_other; [exact G|].
      intros I. apply in_map_iff in I. destruct I as (s & E & I).
      apply filter_In in I. destruct I as [I W].
      apply andb_true_iff in W. destruct W as [W _].
      apply (other_status_other_id db id t s U G I); congruence. }
    unfold db1. destruct expiredSessions; [exact G | exact X]. }
  assert (U1 : uniqueTrackingIDs db1).
  { unfold uniqueTrackingIDs, db1.
    destruct expiredSessions; [exact U|]. now rewrite ids_expireRows. }
  clearbody db1. clear G U.
  set (attempt := fun (trackingId : string) (db0 : DB) =>
                    let '(db', calls, result) := attemptVerification trackingId now db0 in
                    (db', calls, @inr Exn VerificationResult result)).
  pose proof (retryLoop_frame attempt id
                (TrackingService.findPendingVerification db1) db1 (mkCounters 0 0 0)) as R.
  destruct (retryLoop attempt _ db1 _) as [[db2 calls] c].
  unfold storeAfter in *. simpl in *. rewrite R; [exact G1| |].
  - intros id' db0 N. unfold attempt.
    pose proof (attemptVerification_frame now id id' db0 N) as A.
    destruct (attemptVerification id' now db0) as [[db' calls'] r]. exact A.
  - apply Forall_forall. intros s I.
    apply filter_In in I. destruct I as [I W].
    apply andb_true_iff in W. destruct W as [W _].
    apply (other_status_other_id db1 id t s U1 G1 I).
    intros E. rewrite E in W. destruct (Tracking.status t); discriminate.
Qed.

(** C9. In the retry phase an exception thrown while verifying one session
    is caught: the session is counted as failed and the loop goes on with
    the remaining sessions from the store the failed attempt left.  Every
    session of the batch ends up in exactly one tally, and the sweep
    returns its report; only the UPDATE of the expiry step, which D1
    refuses from 100 overdue sessions on, makes the sweep throw, before
    any session is retried. *)
Theorem sweep_isolates_errors
        (attempt : string -> DB -> DB * list Call * (Exn + VerificationResult))
        (before rest : list Tracking.t) (session : Tracking.t)
        (db : DB) (c : Counters) (e : Exn) (db' : DB) (calls' : list Call) :
  let o1 := retryLoop attempt before db c in
  attempt (Tracking.tracking_id session) (storeAfter o1) = (db', calls', inl e) ->
  let c1 := valueOf o1 in
  let o2 := retryLoop attempt rest db'
              (mkCounters (verifiedCount c1) (S (failedCount c1)) (stillPendingCount c1)) in
  retryLoop attempt (before ++ session :: rest) db c
  = (storeAfter o2, (callsOf o1 ++ calls' ++ callsOf o2)%list, valueOf o2)
  /\ processed (valueOf o2)
     = (processed c + List.length (before ++ session :: rest))%nat
  /\ forall now db0,
       ((List.length (TrackingService.findExpired now db0) < 100)%nat ->
        exists r,
          valueOf (sweepWith attempt now db0) = inr r
          /\ (rep_verified r + rep_failed r + rep_still_pending r)%nat
             = rep_total_processed r)
       /\ ((100 <= List.length (TrackingService.findExpired now db0))%nat ->
           sweepWith attempt now db0
           = (db0, [], inl (Thrown (errorMessage TooManySQLVariables)))).
Proof.
  intros o1 A c1 o2.
  assert (L : retryLoop attempt (before ++ session :: rest) db c
              = (storeAfter o2, (callsOf o1 ++ calls' ++ callsOf o2)%list, valueOf o2)).
  { rewrite retryLoop_app. cbv zeta. fold o1. cbn [retryLoop]. unfold retryStep.
    rewrite A. fold c1. fold o2.
    destruct o2 as [[db2 calls2] c2]. reflexivity. }
  split; [exact L|]. split.
  - pose proof (retryLoop_processed attempt (before ++ session :: rest) db c) as P.
    rewrite L in P. exact P.
  - intros now db0.
    destruct (sweepWith_cases attempt now db0) as [[B ->]|[B ->]];
      (split; [|intros B'; (reflexivity || lia)]); intros B'; [lia|].
    cbv zeta.
    match goal with
    | |- context [retryLoop attempt ?l ?d ?k] =>
        pose proof (retryLoop_processed attempt l d k) as P;
        destruct (retryLoop attempt l d k) as [[db2 calls2] c2]
    end.
    eexists. split; [reflexivity|].
    unfold processed in *. simpl in *. lia.
Qed.

Lemma sweep_isolates_errors_witness :
  valueOf (retryLoop (Sample.faultyAttempt Sample.t0)
                     (firstn 1 (tracking_table Sample.batch)
                      ++ nth 1 (tracking_table Sample.batch)
                             (Sample.session "" 0 None pending None None)
                      :: skipn 2 (tracking_table Sample.batch))
                     Sample.batch (mkCounters 0 0 0))
  = mkCounters 1 1 1.
Proof.
  pose proof (sweep_isolates_errors (Sample.faultyAttempt Sample.t0)
                (firstn 1 (tracking_table Sample.batch))
                (skipn 2 (tracking_table Sample.batch))
                (nth 1 (tracking_table Sample.batch)
                     (Sample.session "" 0 None pending None None))
                Sample.batch (mkCounters 0 0 0)
                (Thrown "D1_ERROR: storage unavailable")
                (storeAfter (retryLoop (Sample.faultyAttempt Sample.t0)
                                       (firstn 1 (tracking_table Sample.batch))
                                       Sample.batch (mkCounters 0 0 0)))
                [] eq_refl) as [L _].
  rewrite L. reflexivity.
Defined.

(** ** Verified sessions *)

Lemma fulfillmentCount_none calls :
  Forall (fun c => isFulfillment c = false) calls -> fulfillmentCount calls = 0%nat.
Proof.
  unfold fulfillmentCount. induction 1 as [|c l H F IH]; [reflexivity|].
  simpl. now rewrite H.
Qed.

Lemma attemptVerification_no_fulfillment now id db :
  fulfillmentCount (callsOf (attemptVerification id now db)) = 0%nat.
Proof.
  apply fulfillmentCount_none.
  eapply Forall_impl; [|apply attemptVerification_calls]. now intros c [_ H].
Qed.

Lemma verifyIncomingTransaction_no_fulfillment now transactionId db :
  fulfillmentCount (callsOf (verifyIncomingTransaction transactionId now db)) = 0%nat.
Proof.
  unfold verifyIncomingTransaction.
  destruct (TransactionsService.getByID transactionId db) as [x|]; [|reflexivity].
  destruct (TrackingService.findByTrxID _ db) as [|s l]; [reflexivity|].
  apply fulfillmentCount_none.
  eapply Forall_impl; [|apply verifyEach_calls]. now intros c [_ H].
Qed.

(** C4. For a session that is already verified, [attemptVerification] on it
    changes nothing in the store and calls nothing, and
    [verifyIncomingTransaction] for any receipt leaves its row (status,
    matched_transaction_id, notes) as it is, evaluates the rule chain for
    other sessions only, writes to other sessions only, and triggers no
    fulfillment. *)
Theorem verified_is_monotonic (now : Z) (id : string) (t : Tracking.t) (db : DB) :
  uniqueTrackingIDs db ->
  TrackingService.getByID id db = Some t ->
  Tracking.status t = verified ->
  (storeAfter (attemptVerification id now db) = db
   /\ callsOf (attemptVerification id now db) = []
   /\ status (valueOf (attemptVerification id now db)) <> r_failed)
  /\ forall transactionId,
       let o := verifyIncomingTransaction transactionId now db in
       TrackingService.getByID id (storeAfter o) = Some t
       /\ Forall (fun c => callTarget c <> id) (callsOf o)
       /\ fulfillmentCount (callsOf o) = 0%nat.
Proof.
  intros U G V. split.
  - now apply attemptVerification_verified with (t := t).
  - intros transactionId o.
    assert (T : TrackingService.awaiting (Tracking.status t) = false) by now rewrite V.
    destruct (verifyIncomingTransaction_frame now id t transactionId db U G T) as [F C].
    split; [exact F|]. split.
    + eapply Forall_impl; [|exact C]. now intros c [H _].
    + apply verifyIncomingTransaction_no_fulfillment.
Qed.

Lemma verified_is_monotonic_witness :
  storeAfter (attemptVerification "S1" Sample.t0 Sample.verifiedAndOpen)
  = Sample.verifiedAndOpen
  /\ TrackingService.getByID "S1"
       (storeAfter (verifyIncomingTransaction "TX1" Sample.t0 Sample.verifiedAndOpen))
     = TrackingService.getByID "S1" Sample.verifiedAndOpen.
Proof.
  assert (U : uniqueTrackingIDs Sample.verifiedAndOpen).
  { unfold uniqueTrackingIDs. simpl.
    repeat constructor; simpl; intuition discriminate. }
  destruct (verified_is_monotonic Sample.t0 "S1"
              (Sample.session "S1" 20000 (Some "DUPTEST999") verified (Some "TX1")
                              (Some (NoteText "Verified successfully")))
              Sample.verifiedAndOpen U eq_refl eq_refl) as [[A _] B].
  split; [exact A|]. apply B.
Defined.

Lemma TrackingStatus_eqb_eq a b : TrackingStatus_eqb a b = true <-> a = b.
Proof. destruct a, b; simpl; split; (reflexivity || discriminate). Qed.

(** ** Receipt ingestion *)

Section Ingestion.

Lemma find_app_new {A} (f : A -> bool) l x :
  existsb f l = false -> f x = true -> find f (l ++ [x]) = Some x.
Proof.
  induction l as [|y l IH]; simpl; intros E F.
  - now rewrite F.
  - apply orb_false_iff in E. destruct E as [E1 E2]. rewrite E1. now apply IH.
Qed.

Lemma existsb_app_new {A} (f : A -> bool) l x :
  f x = true -> existsb f (l ++ [x]) = true.
Proof. intros F. rewrite existsb_app. simpl. rewrite F. apply orb_true_r. Qed.

Lemma filter_app_new {A} (f : A -> bool) l x :
  existsb f l = false -> f x = true -> filter f (l ++ [x]) = [x].
Proof.
  intros E F. rewrite filter_app. simpl. rewrite F.
  replace (filter f l) with (@nil A); [reflexivity|].
  symmetry. induction l as [|y l IH]; [reflexivity|]. simpl in *.
  apply orb_false_iff in E. destruct E as [E1 E2]. rewrite E1. now apply IH.
Qed.

Lemma find_none_existsb {A} (f : A -> bool) l :
  find f l = None -> existsb f l = false.
Proof.
  induction l as [|y l IH]; simpl; [reflexivity|].
  destruct (f y); [discriminate | exact IH].
Qed.

End Ingestion.

(** C8. Ingestion is idempotent on the reference.  For a reference the
    store does not know yet (with a fresh id and a registered receiver),
    the first [create] inserts one row and returns it with [isNew = true];
    a second [create] with the same fields returns that same row with
    [isNew = false] and leaves the store as it was, whatever [ulid()] and
    the clock give it; the store holds exactly one row for the reference. *)
Theorem create_is_idempotent
        (data : TransactionsService.Data) (id1 id2 : string) (now1 now2 : Z) (db : DB) :
  TransactionsService.getByTrxID (TransactionsService.d_trxid data) db = None ->
  TransactionsService.getByID id1 db = None ->
  ReceiversService.isValidReceiver (TransactionsService.d_receiver_phone data) db = true ->
  exists db1 x,
    TransactionsService.create data id1 now1 db = inr (db1, x, true)
    /\ TransactionsService.create data id2 now2 db1 = inr (db1, x, false)
    /\ x = Transaction.mk id1 (TransactionsService.d_trxid data)
                          (TransactionsService.d_amount_cents data)
                          (TransactionsService.d_receiver_phone data)
                          (Some (TransactionsService.d_sender_phone data))
                          (TransactionsService.d_received_at data) now1
    /\ transactions_table db1 = (transactions_table db ++ [x])%list
    /\ filter (fun y => (Transaction.trxid y =? TransactionsService.d_trxid data)%string)
              (transactions_table db1) = [x].
Proof.
  intros NT NI V.
  set (x := Transaction.mk id1 (TransactionsService.d_trxid data)
                           (TransactionsService.d_amount_cents data)
                           (TransactionsService.d_receiver_phone data)
                           (Some (TransactionsService.d_sender_phone data))
                           (TransactionsService.d_received_at data) now1).
  set (db1 := mkDB (receivers_table db) (transactions_table db ++ [x])
                   (tracking_table db)).
  apply find_none_existsb in NT. apply find_none_existsb in NI.
  assert (C1 : TransactionsService.create data id1 now1 db = inr (db1, x, true)).
  { unfold TransactionsService.create, TransactionsService.insert. fold x.
    simpl Transaction.id. simpl Transaction.trxid. simpl Transaction.receiver_phone.
    rewrite NI, NT, V. reflexivity. }
  assert (L : TransactionsService.getByTrxID (TransactionsService.d_trxid data) db1
              = Some x).
  { unfold TransactionsService.getByTrxID, db1. simpl transactions_table.
    apply find_app_new; [exact NT | apply StringFacts.eqb_refl]. }
  exists db1, x. split; [exact C1|]. split; [|split; [reflexivity|split; [reflexivity|]]].
  - unfold TransactionsService.create, TransactionsService.insert.
    simpl Transaction.id. simpl Transaction.trxid.
    destruct (existsb _ (transactions_table db1)) eqn:E1.
    + simpl. now rewrite L.
    + replace (existsb (fun y => (Transaction.trxid y =? TransactionsService.d_trxid data)%string)
                       (transactions_table db1)) with true.
      * simpl. now rewrite L.
      * symmetry. unfold db1. simpl transactions_table.
        apply existsb_app_new. apply StringFacts.eqb_refl.
  - unfold db1. simpl transactions_table.
    apply filter_app_new; [exact NT | apply StringFacts.eqb_refl].
Qed.

Lemma create_is_idempotent_witness :
  exists db1 x,
    TransactionsService.create
      (TransactionsService.mkData "IDEMPOTENT123" 30000 "01785863769"
                                  "01666777888" (Sample.t0 + 60000))
      "TX2" Sample.t0 Sample.happyPath = inr (db1, x, true)
    /\ TransactionsService.create
         (TransactionsService.mkData "IDEMPOTENT123" 30000 "01785863769"
                                     "01666777888" (Sample.t0 + 60000))
         "TX3" (Sample.t0 + 500) db1 = inr (db1, x, false).
Proof.
  destruct (create_is_idempotent
              (TransactionsService.mkData "IDEMPOTENT123" 30000 "01785863769"
                                          "01666777888" (Sample.t0 + 60000))
              "TX2" "TX3" Sample.t0 (Sample.t0 + 500)
              Sample.happyPath eq_refl eq_refl eq_refl) as (db1 & x & A & B & _).
  exists db1, x. split; assumption.
Defined.

(** ** Exclusivity and fulfillment *)

(** C1 fails on the code.  Rule 5 looks for a verified session among those
    [findByTrxID] returns, which are pending or submitted only, so it never
    rejects: two sessions declaring the reference of one matching receipt
    both end verified, through [verifyIncomingTransaction], through two
    calls of [attemptVerification], and when one of them was verified
    before the other declared the reference. *)
Theorem exclusivity_not_enforced :
  (let db' := storeAfter (verifyIncomingTransaction "TX1" Sample.t0 Sample.sharedReference) in
   statusOf "S1" db' = Some verified /\ statusOf "S2" db' = Some verified)
  /\ (let db1 := storeAfter (attemptVerification "S1" Sample.t0 Sample.sharedReference) in
      let db2 := storeAfter (attemptVerification "S2" Sample.t0 db1) in
      statusOf "S1" db2 = Some verified /\ statusOf "S2" db2 = Some verified)
  /\ (let db' := storeAfter (attemptVerification "S2" Sample.t0 Sample.verifiedAndOpen) in
      statusOf "S1" db' = Some verified /\ statusOf "S2" db' = Some verified)
  /\ forall t x db, Rules.exclusive t x db = true.
Proof.
  split; [split; reflexivity|].
  split; [split; reflexivity|].
  split; [split; reflexivity|].
  exact exclusive_always.
Qed.

(** C2 fails on the code.  Neither resolution path calls
    [triggerFulfillment]: a session that goes from submitted to verified
    does so with the rule chain and the status write as the only calls. *)
Theorem fulfillment_not_triggered :
  (statusOf "S1" Sample.happyPath = Some submitted_trx
   /\ statusOf "S1" (storeAfter (attemptVerification "S1" Sample.t0 Sample.happyPath))
      = Some verified
   /\ callsOf (attemptVerification "S1" Sample.t0 Sample.happyPath)
      = [CallVerifyPayment "S1" "TX1"; CallUpdateStatus "S1" verified]
   /\ statusOf "S1" (storeAfter (verifyIncomingTransaction "TX1" Sample.t0 Sample.happyPath))
      = Some verified
   /\ callsOf (verifyIncomingTransaction "TX1" Sample.t0 Sample.happyPath)
      = [CallVerifyPayment "S1" "TX1"; CallUpdateStatus "S1" verified])
  /\ (forall now id db,
        fulfillmentCount (callsOf (attemptVerification id now db)) = 0%nat)
  /\ (forall now transactionId db,
        fulfillmentCount (callsOf (verifyIncomingTransaction transactionId now db)) = 0%nat).
Proof.
  split; [repeat split; reflexivity|].
  split.
  - intros. apply attemptVerification_no_fulfillment.
  - intros. apply verifyIncomingTransaction_no_fulfillment.
Qed.

(** * Further properties of the store layer *)

(** ** Sessions: insert and lookup *)

Lemma find_app_old {A} (f : A -> bool) l x :
  f x = false -> find f (l ++ [x]) = find f l.
Proof.
  intros F. induction l as [|y l IH]; simpl.
  - now rewrite F.
  - destruct (f y); [reflexivity | exact IH].
Qed.

Lemma tracking_created
        (data : TrackingService.Data) (id : string) (now : Z) (db : DB) :
  TrackingService.getByID id db = None ->
  exists db' t,
    TrackingService.create data id now db = inr (db', t)
    /\ TrackingService.getByID id db' = Some t
    /\ Tracking.status t = pending
    /\ Tracking.user_entered_trxid t = None
    /\ Tracking.matched_transaction_id t = None
    /\ Tracking.notes t = None
    /\ Tracking.created_at t = now
    /\ Tracking.expires_at t = now + 3600000
    /\ Tracking.offered_receivers t = TrackingService.d_offered_receivers data
    /\ Tracking.payment_amount_cents t = TrackingService.d_payment_amount_cents data
    /\ (forall id', id' <> id ->
          TrackingService.getByID id' db' = TrackingService.getByID id' db)
    /\ (uniqueTrackingIDs db -> uniqueTrackingIDs db')
    /\ transactions_table db' = transactions_table db
    /\ receivers_table db' = receivers_table db.
Proof.
  intros N. unfold TrackingService.create. rewrite N.
  eexists _, _. split; [reflexivity|].
  split.
  { unfold TrackingService.getByID in *. simpl tracking_table.
    apply find_app_new; [now apply find_none_existsb | apply StringFacts.eqb_refl]. }
  repeat (split; [reflexivity|]).
  split.
  { intros id' D. unfold TrackingService.getByID. simpl tracking_table.
    apply find_app_old. cbn [Tracking.tracking_id].
    apply StringFacts.eqb_neq. intros E. apply D. now symmetry. }
  split; [|split; reflexivity].
  unfold uniqueTrackingIDs. simpl tracking_table. intros U.
  rewrite map_app. simpl.
  rewrite <- (rev_involutive (map _ (tracking_table db) ++ [id])%list).
  apply NoDup_rev. rewrite rev_app_distr. simpl. constructor.
  - rewrite <- in_rev. intros I. apply in_map_iff in I. destruct I as (r & E & I).
    unfold TrackingService.getByID in N.
    apply (find_none _ _ N) in I. rewrite E, StringFacts.eqb_refl in I. discriminate.
  - now apply NoDup_rev.
Qed.

(** A session created under a fresh id can be looked up, starts pending
    with no reference, no matched receipt and no note, expires one hour
    after its creation, and leaves every other lookup, the primary key and
    the receipts as they were. *)
Theorem tracking_create_lookup
        (data : TrackingService.Data) (id : string) (now : Z) (db : DB) :
  TrackingService.getByID id db = None ->
  exists db' t,
    TrackingService.create data id now db = inr (db', t)
    /\ TrackingService.getByID id db' = Some t
    /\ Tracking.status t = pending
    /\ Tracking.user_entered_trxid t = None
    /\ Tracking.matched_transaction_id t = None
    /\ Tracking.notes t = None
    /\ Tracking.created_at t = now
    /\ Tracking.expires_at t = now + 3600000
    /\ Tracking.offered_receivers t = TrackingService.d_offered_receivers data
    /\ Tracking.payment_amount_cents t = TrackingService.d_payment_amount_cents data
    /\ (forall id', id' <> id ->
          TrackingService.getByID id' db' = TrackingService.getByID id' db)
    /\ (uniqueTrackingIDs db -> uniqueTrackingIDs db')
    /\ transactions_table db' = transactions_table db
    /\ receivers_table db' = receivers_table db.
Proof. exact (tracking_created data id now db). Qed.

Lemma tracking_create_lookup_witness :
  exists db' t,
    TrackingService.create
      (TrackingService.mkData "TICKET_VIP" 50000 ["01785863769"] "{}" "{}" "VIP" None)
      "S9" Sample.t0 Sample.happyPath = inr (db', t)
    /\ TrackingService.getByID "S9" db' = Some t.
Proof.
  destruct (tracking_create_lookup
              (TrackingService.mkData "TICKET_VIP" 50000 ["01785863769"] "{}" "{}" "VIP" None)
              "S9" Sample.t0 Sample.happyPath eq_refl) as (db' & t & A & B & _).
  exists db', t. split; assumption.
Defined.

(** ** Receipts: what [create] does with a known and an unknown reference *)

Lemma create_known data existing id now db :
  TransactionsService.getByTrxID (TransactionsService.d_trxid data) db = Some existing ->
  TransactionsService.create data id now db = inr (db, existing, false).
Proof.
  intros G. unfold TransactionsService.create, TransactionsService.insert.
  simpl Transaction.id. simpl Transaction.trxid.
  assert (E : existsb (fun y => (Transaction.trxid y =? TransactionsService.d_trxid data)%string)
                      (transactions_table db) = true).
  { unfold TransactionsService.getByTrxID in G. apply find_some in G.
    apply existsb_exists. exists existing. exact G. }
  rewrite E.
  destruct (existsb (fun y => (Transaction.id y =? id)%string) (transactions_table db));
    simpl; now rewrite G.
Qed.

(** First write wins: once a reference is stored, [create] returns the
    stored receipt with [isNew = false] and leaves the store alone,
    whatever amount, receiver, sender, time, id and clock the call
    carries. *)
Theorem create_known_reference
        (data : TransactionsService.Data) (existing : Transaction.t)
        (id : string) (now : Z) (db : DB) :
  TransactionsService.getByTrxID (TransactionsService.d_trxid data) db = Some existing ->
  TransactionsService.create data id now db = inr (db, existing, false).
Proof. apply create_known. Qed.

Lemma create_known_reference_witness :
  TransactionsService.create
    (TransactionsService.mkData "HAPPY1" 1 "00000000000" "01000000000" 0)
    "TX7" (Sample.t0 + 1) Sample.happyPath
  = inr (Sample.happyPath,
         Sample.receipt "TX1" "HAPPY1" 100000 (Sample.t0 + 60000), false).
Proof.
  apply (create_known_reference
           (TransactionsService.mkData "HAPPY1" 1 "00000000000" "01000000000" 0)
           (Sample.receipt "TX1" "HAPPY1" 100000 (Sample.t0 + 60000))).
  reflexivity.
Defined.

Lemma existsb_find_none {A} (f : A -> bool) l :
  existsb f l = false -> find f l = None.
Proof.
  induction l as [|y l IH]; simpl; [reflexivity|].
  destruct (f y); [discriminate | exact IH].
Qed.

(** [create] raises exactly when the reference is unknown and either the
    id is taken or the receiver is not registered; an id collision is
    raised as the UNIQUE error it is, since no receipt answers the lookup
    by reference. *)
Theorem create_raises_iff
        (data : TransactionsService.Data) (id : string) (now : Z) (db : DB) :
  ((exists e, TransactionsService.create data id now db = inl e)
   <-> TransactionsService.getByTrxID (TransactionsService.d_trxid data) db = None
       /\ (TransactionsService.getByID id db <> None
           \/ ReceiversService.isValidReceiver
                (TransactionsService.d_receiver_phone data) db = false))
  /\ (TransactionsService.getByTrxID (TransactionsService.d_trxid data) db = None ->
      TransactionsService.getByID id db <> None ->
      TransactionsService.create data id now db
      = inl (UniqueConstraintFailed "transactions_table.id"))
  /\ (TransactionsService.getByTrxID (TransactionsService.d_trxid data) db = None ->
      TransactionsService.getByID id db = None ->
      ReceiversService.isValidReceiver (TransactionsService.d_receiver_phone data) db = false ->
      TransactionsService.create data id now db = inl ForeignKeyConstraintFailed).
Proof.
  pose proof (fun existing => create_known data existing id now db) as K.
  assert (U1 : TransactionsService.getByTrxID (TransactionsService.d_trxid data) db = None ->
               TransactionsService.getByID id db <> None ->
               TransactionsService.create data id now db
               = inl (UniqueConstraintFailed "transactions_table.id")).
  { intros NT NI. unfold TransactionsService.create, TransactionsService.insert.
    simpl Transaction.id.
    destruct (existsb (fun y => (Transaction.id y =? id)%string) (transactions_table db)) eqn:E.
    - simpl. now rewrite NT.
    - elim NI. now apply existsb_find_none. }
  assert (U2 : TransactionsService.getByTrxID (TransactionsService.d_trxid data) db = None ->
               TransactionsService.getByID id db = None ->
               ReceiversService.isValidReceiver
                 (TransactionsService.d_receiver_phone data) db = false ->
               TransactionsService.create data id now db = inl ForeignKeyConstraintFailed).
  { intros NT NI V. unfold TransactionsService.create, TransactionsService.insert.
    simpl Transaction.id. simpl Transaction.trxid. simpl Transaction.receiver_phone.
    apply find_none_existsb in NT. apply find_none_existsb in NI.
    rewrite NI, NT, V. reflexivity. }
  split; [|split; assumption].
  split.
  - intros [e E].
    destruct (TransactionsService.getByTrxID (TransactionsService.d_trxid data) db)
      as [existing|] eqn:G.
    { rewrite (K existing eq_refl) in E. discriminate. }
    split; [reflexivity|].
    destruct (TransactionsService.getByID id db) eqn:I; [left; discriminate|].
    right.
    destruct (ReceiversService.isValidReceiver _ db) eqn:V; [|reflexivity].
    exfalso. revert E. unfold TransactionsService.create, TransactionsService.insert.
    simpl Transaction.id. simpl Transaction.trxid. simpl Transaction.receiver_phone.
    apply find_none_existsb in G. apply find_none_existsb in I.
    rewrite I, G, V. discriminate.
  - intros [NT [NI|V]].
    + eexists. now apply U1.
    + destruct (TransactionsService.getByID id db) eqn:I.
      * eexists. apply U1; [exact NT | discriminate].
      * eexists. now apply U2.
Qed.

Lemma NoDup_snoc {A} (l : list A) (x : A) :
  NoDup l -> ~ In x l -> NoDup (l ++ [x]).
Proof.
  intros U N. rewrite <- (rev_involutive (l ++ [x])). apply NoDup_rev.
  rewrite rev_app_distr. simpl. constructor.
  - now rewrite <- in_rev.
  - now apply NoDup_rev.
Qed.

Lemma existsb_false_not_in {A B} (f : A -> B) (eqb : B -> B -> bool) (b : B) l :
  (forall x y, eqb x y = true <-> x = y) ->
  existsb (fun y => eqb (f y) b) l = false -> ~ In b (map f l).
Proof.
  intros S E I. apply in_map_iff in I. destruct I as (y & F & I).
  assert (X : existsb (fun y => eqb (f y) b) l = true).
  { apply existsb_exists. exists y. split; [exact I | now apply S]. }
  congruence.
Qed.

(** The outcome of [create], in one piece. *)
Lemma create_outcome data id now db db1 x isNew :
  TransactionsService.create data id now db = inr (db1, x, isNew) ->
  (isNew = false /\ db1 = db
   /\ TransactionsService.getByTrxID (TransactionsService.d_trxid data) db = Some x)
  \/ (isNew = true
      /\ x = Transaction.mk id (TransactionsService.d_trxid data)
                            (TransactionsService.d_amount_cents data)
                            (TransactionsService.d_receiver_phone data)
                            (Some (TransactionsService.d_sender_phone data))
                            (TransactionsService.d_received_at data) now
      /\ db1 = mkDB (receivers_table db) (transactions_table db ++ [x]) (tracking_table db)
      /\ existsb (fun y => (Transaction.id y =? id)%string) (transactions_table db) = false
      /\ existsb (fun y => (Transaction.trxid y =? TransactionsService.d_trxid data)%string)
                 (transactions_table db) = false
      /\ ReceiversService.isValidReceiver (TransactionsService.d_receiver_phone data) db = true).
Proof.
  unfold TransactionsService.create, TransactionsService.insert.
  simpl Transaction.id. simpl Transaction.trxid. simpl Transaction.receiver_phone.
  destruct (existsb (fun y => (Transaction.id y =? id)%string) (transactions_table db)) eqn:EI.
  { simpl. destruct (TransactionsService.getByTrxID _ db) eqn:G; [|discriminate].
    intros [= <- <- <-]. left. now repeat split. }
  destruct (existsb (fun y => (Transaction.trxid y =? _)%string) (transactions_table db)) eqn:ET.
  { simpl. destruct (TransactionsService.getByTrxID _ db) eqn:G; [|discriminate].
    intros [= <- <- <-]. left. now repeat split. }
  destruct (ReceiversService.isValidReceiver _ db) eqn:V; simpl; [|discriminate].
  intros [= <- <- <-]. right. now repeat split.
Qed.

(** Whatever [create] returns can be looked up by its reference in the
    store it leaves.  A new receipt carries the given id and fields, is
    found by that id, is appended after the receipts already stored, and
    lookups by any other reference are as before; sessions and receivers
    are not touched. *)
Theorem create_then_lookup
        (data : TransactionsService.Data) (id : string) (now : Z)
        (db db1 : DB) (x : Transaction.t) (isNew : bool) :
  TransactionsService.create data id now db = inr (db1, x, isNew) ->
  TransactionsService.getByTrxID (TransactionsService.d_trxid data) db1 = Some x
  /\ Transaction.trxid x = TransactionsService.d_trxid data
  /\ (isNew = false -> db1 = db)
  /\ (isNew = true ->
      Transaction.id x = id
      /\ TransactionsService.getByID id db1 = Some x
      /\ transactions_table db1 = (transactions_table db ++ [x])%list)
  /\ (forall trxid, trxid <> TransactionsService.d_trxid data ->
        TransactionsService.getByTrxID trxid db1 = TransactionsService.getByTrxID trxid db)
  /\ tracking_table db1 = tracking_table db
  /\ receivers_table db1 = receivers_table db.
Proof.
  intros C. apply create_outcome in C.
  destruct C as [(-> & -> & G) | (-> & X & -> & EI & ET & V)].
  - split; [exact G|]. split.
    { unfold TransactionsService.getByTrxID in G. apply find_some in G.
      now apply StringFacts.eqb_eq. }
    repeat split; try reflexivity; discriminate.
  - assert (T : Transaction.trxid x = TransactionsService.d_trxid data) by now subst x.
    assert (I : Transaction.id x = id) by now subst x.
    split.
    { unfold TransactionsService.getByTrxID. simpl transactions_table.
      apply find_app_new; [exact ET | rewrite T; apply StringFacts.eqb_refl]. }
    split; [exact T|]. split; [discriminate|]. split.
    { intros _. split; [exact I|]. split; [|reflexivity].
      unfold TransactionsService.getByID. simpl transactions_table.
      apply find_app_new; [exact EI | rewrite I; apply StringFacts.eqb_refl]. }
    split; [|split; reflexivity].
    intros trxid D. unfold TransactionsService.getByTrxID. simpl transactions_table.
    apply find_app_old. rewrite T. now apply StringFacts.eqb_neq, not_eq_sym.
Qed.

Lemma create_then_lookup_witness :
  TransactionsService.getByTrxID "IDEMPOTENT123"
    (mkDB (receivers_table Sample.happyPath)
          (transactions_table Sample.happyPath
           ++ [Transaction.mk "TX2" "IDEMPOTENT123" 30000 "01785863769"
                              (Some "01666777888") (Sample.t0 + 60000) Sample.t0])
          (tracking_table Sample.happyPath))
  = Some (Transaction.mk "TX2" "IDEMPOTENT123" 30000 "01785863769"
                         (Some "01666777888") (Sample.t0 + 60000) Sample.t0).
Proof.
  destruct (create_then_lookup
              (TransactionsService.mkData "IDEMPOTENT123" 30000 "01785863769"
                                          "01666777888" (Sample.t0 + 60000))
              "TX2" Sample.t0 Sample.happyPath
              (mkDB (receivers_table Sample.happyPath)
                    (transactions_table Sample.happyPath
                     ++ [Transaction.mk "TX2" "IDEMPOTENT123" 30000 "01785863769"
                                        (Some "01666777888") (Sample.t0 + 60000)
                                        Sample.t0])
                    (tracking_table Sample.happyPath))
              (Transaction.mk "TX2" "IDEMPOTENT123" 30000 "01785863769"
                              (Some "01666777888") (Sample.t0 + 60000) Sample.t0)
              true eq_refl) as (A & _).
  exact A.
Defined.

(** [create] keeps the constraints of [transactions_table]: ids stay
    unique, references stay unique, every receipt's receiver is
    registered. *)
Theorem create_keeps_constraints
        (data : TransactionsService.Data) (id : string) (now : Z)
        (db db1 : DB) (x : Transaction.t) (isNew : bool) :
  receiptsKeyed db ->
  TransactionsService.create data id now db = inr (db1, x, isNew) ->
  receiptsKeyed db1.
Proof.
  intros (UI & UT & FK) C. apply create_outcome in C.
  destruct C as [(-> & -> & G) | (-> & X & -> & EI & ET & V)].
  - now repeat split.
  - unfold receiptsKeyed. simpl transactions_table.
    rewrite !map_app. simpl map. split; [|split].
    + apply NoDup_snoc; [exact UI|].
      replace (Transaction.id x) with id by now subst x.
      apply (existsb_false_not_in Transaction.id String.eqb id);
        [apply StringFacts.eqb_eq | exact EI].
    + apply NoDup_snoc; [exact UT|].
      replace (Transaction.trxid x) with (TransactionsService.d_trxid data) by now subst x.
      apply (existsb_false_not_in Transaction.trxid String.eqb);
        [apply StringFacts.eqb_eq | exact ET].
    + apply Forall_app. split.
      * exact FK.
      * constructor; [|constructor]. subst x. exact V.
Qed.

Lemma create_keeps_constraints_witness :
  receiptsKeyed
    (mkDB (receivers_table Sample.happyPath)
          (transactions_table Sample.happyPath
           ++ [Transaction.mk "TX2" "IDEMPOTENT123" 30000 "01785863769"
                              (Some "01666777888") (Sample.t0 + 60000) Sample.t0])
          (tracking_table Sample.happyPath)).
Proof.
  apply (create_keeps_constraints
           (TransactionsService.mkData "IDEMPOTENT123" 30000 "01785863769"
                                       "01666777888" (Sample.t0 + 60000))
           "TX2" Sample.t0 Sample.happyPath _
           (Transaction.mk "TX2" "IDEMPOTENT123" 30000 "01785863769"
                           (Some "01666777888") (Sample.t0 + 60000) Sample.t0)
           true).
  - unfold receiptsKeyed. simpl.
    repeat split; repeat constructor; simpl; intuition discriminate.
  - reflexivity.
Defined.

(** * Further properties of the verification service *)

(** ** Receipts, receivers and tracking ids are never touched *)

Section KeepsKeys.

Variable now : Z.

Lemma keepsKeys_refl db : keepsKeys db db.
Proof. now repeat split. Qed.

Lemma keepsKeys_trans db1 db2 db3 :
  keepsKeys db1 db2 -> keepsKeys db2 db3 -> keepsKeys db1 db3.
Proof.
  intros (A1 & A2 & A3) (B1 & B2 & B3). repeat split; congruence.
Qed.

Lemma keepsKeys_updateStatus id st m n db :
  keepsKeys db (TrackingService.updateStatus id st m n now db).
Proof.
  repeat split. unfold TrackingService.updateStatus. now apply ids_updateWhereID.
Qed.

Lemma keepsKeys_submitTrxID id trxid db :
  keepsKeys db (TrackingService.submitTrxID id trxid now db).
Proof.
  repeat split. unfold TrackingService.submitTrxID. now apply ids_updateWhereID.
Qed.

Lemma keepsKeys_expireRows ids db :
  keepsKeys db (TrackingService.expireRows ids now db).
Proof.
  split; [|split].
  - destruct ids; reflexivity.
  - destruct ids; reflexivity.
  - apply ids_expireRows.
Qed.

Lemma keepsKeys_applyResult id result db :
  keepsKeys db (fst (applyResult id result now db)).
Proof.
  unfold applyResult. destruct (success result); simpl.
  - apply keepsKeys_updateStatus.
  - destruct (status result); simpl;
      (apply keepsKeys_refl || apply keepsKeys_updateStatus).
Qed.

Lemma keepsKeys_attemptVerification id db :
  keepsKeys db (storeAfter (attemptVerification id now db)).
Proof.
  unfold attemptVerification.
  destruct (TrackingService.getByID id db) as [tracking|]; [|apply keepsKeys_refl].
  destruct (JS.orNull _) as [u|]; [|apply keepsKeys_refl].
  destruct (TrackingStatus_eqb _ verified); [apply keepsKeys_refl|].
  destruct (TransactionsService.getByTrxID _ db) as [x|]; [|apply keepsKeys_refl].
  pose proof (keepsKeys_applyResult id (verifyPayment tracking x db) db) as K.
  destruct (applyResult _ _ _ _) as [db' writes]. exact K.
Qed.

Lemma keepsKeys_verifyEach x sessions db :
  keepsKeys db (storeAfter (verifyEach sessions x now db)).
Proof.
  revert db. induction sessions as [|s l IH]; intros db; [apply keepsKeys_refl|].
  cbn [verifyEach].
  pose proof (keepsKeys_applyResult (Tracking.tracking_id s) (verifyPayment s x db) db) as K.
  destruct (applyResult _ _ _ _) as [db1 writes]. simpl in K.
  specialize (IH db1).
  destruct (verifyEach l x now db1) as [[db2 calls] results].
  unfold storeAfter in *. simpl in *. eapply keepsKeys_trans; eassumption.
Qed.

Lemma keepsKeys_verifyIncomingTransaction transactionId db :
  keepsKeys db (storeAfter (verifyIncomingTransaction transactionId now db)).
Proof.
  unfold verifyIncomingTransaction.
  destruct (TransactionsService.getByID transactionId db) as [x|]; [|apply keepsKeys_refl].
  destruct (TrackingService.findByTrxID _ db) as [|s l] eqn:E; [apply keepsKeys_refl|].
  apply keepsKeys_verifyEach.
Qed.

Lemma keepsKeys_submit id trxid db :
  keepsKeys db (storeAfter (submitTrxID id trxid now db)).
Proof.
  unfold submitTrxID.
  destruct (id =? "")%string; [apply keepsKeys_refl|].
  destruct (JS.orNull trxid) as [u|]; [|apply keepsKeys_refl].
  destruct (normalizeTrxID u =? "")%string; [apply keepsKeys_refl|].
  destruct (TrackingService.getByID id db) as [tracking|]; [|apply keepsKeys_refl].
  destruct (now >? _); [apply keepsKeys_refl|].
  destruct (TrackingStatus_eqb _ verified); [apply keepsKeys_refl|].
  destruct (_ && _); [apply keepsKeys_refl|].
  pose proof (keepsKeys_attemptVerification id
                (TrackingService.submitTrxID id (normalizeTrxID u) now db)) as A.
  destruct (attemptVerification _ _ _) as [[db2 calls] r].
  unfold storeAfter in *. simpl in *.
  eapply keepsKeys_trans; [apply keepsKeys_submitTrxID | exact A].
Qed.

Lemma keepsKeys_retryLoop attempt sessions db c :
  (forall id db0, keepsKeys db0 (storeAfter (attempt id db0))) ->
  keepsKeys db (storeAfter (retryLoop attempt sessions db c)).
Proof.
  intros A. revert db c. induction sessions as [|s l IH]; intros db c;
    [apply keepsKeys_refl|].
  cbn [retryLoop]. unfold retryStep.
  specialize (A (Tracking.tracking_id s) db).
  destruct (attempt _ db) as [[db1 calls1] o1].
  match goal with
  | |- context [retryLoop attempt l db1 ?c1] =>
      specialize (IH db1 c1); destruct (retryLoop attempt l db1 c1) as [[db2 calls2] c2]
  end.
  unfold storeAfter in *. simpl in *. eapply keepsKeys_trans; eassumption.
Qed.

Lemma keepsKeys_scheduledHandler db :
  keepsKeys db (storeAfter (scheduledHandler now db)).
Proof.
  sweep_cases now db; [apply keepsKeys_refl|].
  set (db1 := match TrackingService.findExpired now db with
              | [] => db
              | _ => TrackingService.expireRows _ now db
              end).
  assert (K1 : keepsKeys db db1).
  { unfold db1. destruct (TrackingService.findExpired now db);
      [apply keepsKeys_refl | apply keepsKeys_expireRows]. }
  clearbody db1.
  match goal with
  | |- context [retryLoop ?a ?l db1 ?c] =>
      pose proof (keepsKeys_retryLoop a l db1 c) as R;
      destruct (retryLoop a l db1 c) as [[db2 calls] c2]
  end.
  unfold storeAfter in *. simpl in *.
  eapply keepsKeys_trans; [exact K1 | apply R].
  intros id db0.
  pose proof (keepsKeys_attemptVerification id db0) as A.
  destruct (attemptVerification id now db0) as [[db' calls'] r]. exact A.
Qed.

End KeepsKeys.

(** No operation of the verification service, the submit handler or the
    sweep inserts, deletes or alters a receipt or a receiver, and none
    adds, removes, renames or reorders a session: the tracking ids of the
    store, and with them its primary key, stay as they are. *)
Theorem operations_keep_receipts_and_ids (now : Z) (db : DB) :
  (forall id, keepsKeys db (storeAfter (attemptVerification id now db)))
  /\ (forall transactionId,
        keepsKeys db (storeAfter (verifyIncomingTransaction transactionId now db)))
  /\ (forall id trxid, keepsKeys db (storeAfter (submitTrxID id trxid now db)))
  /\ keepsKeys db (storeAfter (scheduledHandler now db))
  /\ (forall db', keepsKeys db db' -> uniqueTrackingIDs db -> uniqueTrackingIDs db').
Proof.
  split; [intros; apply keepsKeys_attemptVerification|].
  split; [intros; apply keepsKeys_verifyIncomingTransaction|].
  split; [intros; apply keepsKeys_submit|].
  split; [apply keepsKeys_scheduledHandler|].
  intros db' (_ & _ & K) U. unfold uniqueTrackingIDs. now rewrite K.
Qed.

(** ** The reference rule on the resolution paths *)

Lemma orNull_Some o u : JS.orNull o = Some u -> o = Some u /\ u <> "".
Proof.
  destruct o as [s|]; simpl; [|discriminate].
  destruct (StringFacts.eqb_spec s ""); [discriminate|]. intros [= <-]. now split.
Qed.

Lemma getByTrxID_found trxid db x :
  TransactionsService.getByTrxID trxid db = Some x ->
  In x (transactions_table db) /\ Transaction.trxid x = trxid.
Proof.
  unfold TransactionsService.getByTrxID. intros F. apply find_some in F.
  destruct F as [I E]. apply StringFacts.eqb_eq in E. now split.
Qed.

Lemma transactions_getByID_found id db x :
  TransactionsService.getByID id db = Some x ->
  In x (transactions_table db) /\ Transaction.id x = id.
Proof.
  unfold TransactionsService.getByID. intros F. apply find_some in F.
  destruct F as [I E]. apply StringFacts.eqb_eq in E. now split.
Qed.

(** A receipt looked up by the session's normalised reference satisfies
    rule 1. *)
Lemma reference_after_lookup t u x :
  Tracking.user_entered_trxid t = Some u ->
  Transaction.trxid x = normalizeTrxID u ->
  Rules.reference t x = true.
Proof.
  intros D E. unfold Rules.reference.
  rewrite orElse_empty_normalize, D, E, normalizeTrxID_idem. apply StringFacts.eqb_refl.
Qed.

(** So does every session selected by the receipt's normalised reference. *)
Lemma reference_of_selected x db s :
  In s (TrackingService.findByTrxID (normalizeTrxID (Transaction.trxid x)) db) ->
  Rules.reference s x = true.
Proof.
  unfold TrackingService.findByTrxID. intros I. apply filter_In in I.
  destruct I as [_ I]. apply andb_true_iff in I. destruct I as [I _].
  destruct (Tracking.user_entered_trxid s) as [u|] eqn:D; [|discriminate].
  apply StringFacts.eqb_eq in I. unfold Rules.reference.
  rewrite orElse_empty_normalize, D, I, normalizeTrxID_idem. apply StringFacts.eqb_refl.
Qed.

Lemma verifyPayment_reference_holds t x db :
  Rules.reference t x = true ->
  Rules.reported (verifyPayment t x db) <> Some 1%nat.
Proof.
  intros R. pose proof (verifyPayment_cases t x db) as C. cbv zeta in C.
  unfold Rules.all in C. rewrite R in C. simpl in C.
  destruct (Rules.amount t x); simpl in C;
    [|destruct C as (_ & _ & _ & ->); discriminate].
  destruct (Rules.receiver t x); simpl in C;
    [|destruct C as (_ & _ & _ & ->); discriminate].
  destruct (Rules.timeWindow t x); simpl in C;
    [|destruct C as (_ & _ & _ & ->); discriminate].
  destruct (Rules.exclusive t x db); simpl in C.
  - destruct C as (_ & _ & _ & F). unfold Rules.reported. rewrite F. discriminate.
  - destruct C as (_ & _ & _ & ->). discriminate.
Qed.

(** [verifyPayment] never answers pending: it verifies or it fails. *)
Lemma verifyPayment_decides t x db :
  (success (verifyPayment t x db) = true /\ status (verifyPayment t x db) = r_verified
   /\ matched_transaction_id (verifyPayment t x db) = Some (Transaction.id x))
  \/ (success (verifyPayment t x db) = false /\ status (verifyPayment t x db) = r_failed
      /\ matched_transaction_id (verifyPayment t x db) = None).
Proof.
  pose proof (verifyPayment_cases t x db) as C. cbv zeta in C.
  destruct (Rules.firstFailing 1 (Rules.all t x db)).
  - right. destruct C as (A & B & M & _). now repeat split.
  - left. destruct C as (A & B & M & _). now repeat split.
Qed.

Lemma verifyEach_results x sessions now db :
  Forall (fun s => Rules.reference s x = true) sessions ->
  Forall (fun r => Rules.reported r <> Some 1%nat /\ status r <> r_pending)
         (valueOf (verifyEach sessions x now db))
  /\ List.length (valueOf (verifyEach sessions x now db)) = List.length sessions.
Proof.
  intros F. revert db. induction F as [|s l R F IH]; intros db.
  - split; [constructor | reflexivity].
  - cbn [verifyEach].
    destruct (applyResult _ _ _ _) as [db1 writes].
    specialize (IH db1).
    destruct (verifyEach l x now db1) as [[db2 calls] results].
    unfold valueOf in *. simpl in *. destruct IH as [IH1 IH2]. split.
    + constructor; [|exact IH1]. split.
      * now apply verifyPayment_reference_holds.
      * destruct (verifyPayment_decides s x db) as [(_ & -> & _)|(_ & -> & _)]; discriminate.
    + now rewrite IH2.
Qed.

(** Neither resolution path ever reports a reference mismatch: the session
    and the receipt are paired by their normalised references before
    [verifyPayment] compares them, and normalisation is idempotent. *)
Theorem reference_rule_never_fails (now : Z) (db : DB) :
  (forall id,
      Rules.reported (valueOf (attemptVerification id now db)) <> Some 1%nat)
  /\ (forall transactionId,
        Forall (fun r => Rules.reported r <> Some 1%nat)
               (valueOf (verifyIncomingTransaction transactionId now db))).
Proof.
  split.
  - intros id. unfold attemptVerification.
    destruct (TrackingService.getByID id db) as [t|]; [|discriminate].
    destruct (JS.orNull _) as [u|] eqn:O; [|discriminate].
    destruct (TrackingStatus_eqb _ verified); [discriminate|].
    destruct (TransactionsService.getByTrxID _ db) as [x|] eqn:G; [|discriminate].
    destruct (applyResult _ _ _ _) as [db' writes]. unfold valueOf. simpl.
    apply verifyPayment_reference_holds.
    apply orNull_Some in O. apply getByTrxID_found in G.
    now apply reference_after_lookup with (u := u).
  - intros transactionId. unfold verifyIncomingTransaction.
    destruct (TransactionsService.getByID transactionId db) as [x|];
      [|repeat constructor; discriminate].
    destruct (TrackingService.findByTrxID _ db) as [|s l] eqn:E;
      [repeat constructor; discriminate|].
    rewrite <- E.
    eapply Forall_impl; [|apply verifyEach_results].
    + now intros r [H _].
    + apply Forall_forall. intros s' I. now apply reference_of_selected with (db := db).
Qed.

(** ** What [attemptVerification] leaves behind *)

Lemma getByID_updateWhereID_same id f db t :
  Tracking.tracking_id (f t) = Tracking.tracking_id t ->
  TrackingService.getByID id db = Some t ->
  TrackingService.getByID id (TrackingService.updateWhereID id f db) = Some (f t).
Proof.
  intros P. unfold TrackingService.getByID, TrackingService.updateWhereID. simpl.
  induction (tracking_table db) as [|r l IH]; simpl; [discriminate|].
  destruct (StringFacts.eqb_spec (Tracking.tracking_id r) id) as [E|E].
  - intros [= ->]. now rewrite P, E, StringFacts.eqb_refl.
  - apply StringFacts.eqb_neq in E. rewrite E. exact IH.
Qed.

Lemma getByID_updateStatus_same id st m n now db t :
  TrackingService.getByID id db = Some t ->
  exists t',
    TrackingService.getByID id (TrackingService.updateStatus id st m n now db) = Some t'
    /\ Tracking.status t' = st
    /\ Tracking.matched_transaction_id t' = JS.orNull m
    /\ Tracking.notes t' = TrackingService.noteOrNull n
    /\ Tracking.updated_at t' = now
    /\ Tracking.tracking_id t' = Tracking.tracking_id t
    /\ Tracking.user_entered_trxid t' = Tracking.user_entered_trxid t
    /\ Tracking.payment_amount_cents t' = Tracking.payment_amount_cents t
    /\ Tracking.offered_receivers t' = Tracking.offered_receivers t
    /\ Tracking.created_at t' = Tracking.created_at t
    /\ Tracking.expires_at t' = Tracking.expires_at t.
Proof.
  intros G. unfold TrackingService.updateStatus.
  eexists. split; [apply getByID_updateWhereID_same; [reflexivity | exact G]|].
  now repeat split.
Qed.

Lemma attemptVerification_resolved
        (now : Z) (id u : string) (t : Tracking.t) (x : Transaction.t) (db : DB) :
  TrackingService.getByID id db = Some t ->
  Tracking.user_entered_trxid t = Some u ->
  u <> "" ->
  Tracking.status t <> verified ->
  TransactionsService.getByTrxID (normalizeTrxID u) db = Some x ->
  let o := attemptVerification id now db in
  let ok := Rules.amount t x && Rules.receiver t x && Rules.timeWindow t x in
  valueOf o = verifyPayment t x db
  /\ success (valueOf o) = ok
  /\ Rules.reported (valueOf o)
     = Rules.firstFailing 2 [Rules.amount t x; Rules.receiver t x; Rules.timeWindow t x]
  /\ callsOf o = [CallVerifyPayment id (Transaction.id x);
                  CallUpdateStatus id (if ok then verified else failed)]
  /\ exists t',
       TrackingService.getByID id (storeAfter o) = Some t'
       /\ Tracking.status t' = (if ok then verified else failed)
       /\ Tracking.matched_transaction_id t'
          = (if ok then JS.orNull (Some (Transaction.id x)) else None)
       /\ Tracking.notes t'
          = (if ok then Some (NoteText "Verified successfully")
             else option_map NoteReason (failure_reason (valueOf o)))
       /\ Tracking.updated_at t' = now
       /\ Tracking.user_entered_trxid t' = Some u
       /\ Tracking.payment_amount_cents t' = Tracking.payment_amount_cents t
       /\ Tracking.offered_receivers t' = Tracking.offered_receivers t
       /\ Tracking.created_at t' = Tracking.created_at t
       /\ Tracking.expires_at t' = Tracking.expires_at t.
Proof.
  intros G D NE NV L o ok.
  assert (R1 : Rules.reference t x = true).
  { apply getByTrxID_found in L. now apply reference_after_lookup with (u := u). }
  pose proof (verifyPayment_cases t x db) as C. cbv zeta in C.
  unfold Rules.all in C. rewrite R1, exclusive_always in C. cbn [Rules.firstFailing] in C.
  assert (TID : Tracking.tracking_id t = id) by now apply getByID_In in G.
  assert (O : JS.orNull (Tracking.user_entered_trxid t) = Some u).
  { rewrite D. simpl. now destruct (StringFacts.eqb_spec u ""). }
  assert (V : TrackingStatus_eqb (Tracking.status t) verified = false).
  { destruct (TrackingStatus_eqb _ verified) eqn:E; [|reflexivity].
    apply TrackingStatus_eqb_eq in E. now elim NV. }
  unfold o, attemptVerification. rewrite G, O, V, L.
  unfold applyResult, ok.
  destruct (Rules.amount t x), (Rules.receiver t x), (Rules.timeWindow t x);
    cbn [Rules.firstFailing andb] in C |- *.
  1: { destruct C as (S & _ & M & F). rewrite S, M.
       destruct (getByID_updateStatus_same id verified (Some (Transaction.id x))
                   (Some (NoteText "Verified successfully")) now db t G)
         as (t' & G' & P1 & P2 & P3 & P4 & P5 & P6 & P7 & P8 & P9 & P10).
       unfold valueOf, callsOf, storeAfter. cbn [fst snd].
       split; [reflexivity|]. split; [exact S|].
       split; [unfold Rules.reported; now rewrite F|].
       split; [now rewrite TID|].
       exists t'. rewrite D in P6. now repeat split. }
  all: destruct C as (S & St & M & F); rewrite S, St;
    destruct (getByID_updateStatus_same id failed None
                (option_map NoteReason (failure_reason (verifyPayment t x db))) now db t G)
      as (t' & G' & P1 & P2 & P3 & P4 & P5 & P6 & P7 & P8 & P9 & P10);
    unfold valueOf, callsOf, storeAfter; cbn [fst snd];
    (split; [reflexivity|]); (split; [exact S|]);
    (split; [exact F|]);
    (split; [now rewrite TID|]);
    exists t'; rewrite D in P6;
    assert (N : TrackingService.noteOrNull
                  (option_map NoteReason (failure_reason (verifyPayment t x db)))
                = option_map NoteReason (failure_reason (verifyPayment t x db)))
      by (destruct (failure_reason (verifyPayment t x db)); reflexivity);
    rewrite N in P3; now repeat split.
Qed.

(** When the session has a reference, is not verified yet and a receipt
    carries the normalised reference, [attemptVerification] returns the
    verdict of [verifyPayment], which is verified exactly when amount,
    receiver and time window match, and writes it on the session: status,
    matched receipt (cleared on failure), note (the failure reason on
    failure) and update time; the declared reference and the terms of the
    session stay. *)
Theorem attemptVerification_resolves
        (now : Z) (id u : string) (t : Tracking.t) (x : Transaction.t) (db : DB) :
  TrackingService.getByID id db = Some t ->
  Tracking.user_entered_trxid t = Some u ->
  u <> "" ->
  Tracking.status t <> verified ->
  TransactionsService.getByTrxID (normalizeTrxID u) db = Some x ->
  let o := attemptVerification id now db in
  let ok := Rules.amount t x && Rules.receiver t x && Rules.timeWindow t x in
  valueOf o = verifyPayment t x db
  /\ success (valueOf o) = ok
  /\ Rules.reported (valueOf o)
     = Rules.firstFailing 2 [Rules.amount t x; Rules.receiver t x; Rules.timeWindow t x]
  /\ callsOf o = [CallVerifyPayment id (Transaction.id x);
                  CallUpdateStatus id (if ok then verified else failed)]
  /\ exists t',
       TrackingService.getByID id (storeAfter o) = Some t'
       /\ Tracking.status t' = (if ok then verified else failed)
       /\ Tracking.matched_transaction_id t'
          = (if ok then JS.orNull (Some (Transaction.id x)) else None)
       /\ Tracking.notes t'
          = (if ok then Some (NoteText "Verified successfully")
             else option_map NoteReason (failure_reason (valueOf o)))
       /\ Tracking.updated_at t' = now
       /\ Tracking.user_entered_trxid t' = Some u
       /\ Tracking.payment_amount_cents t' = Tracking.payment_amount_cents t
       /\ Tracking.offered_receivers t' = Tracking.offered_receivers t
       /\ Tracking.created_at t' = Tracking.created_at t
       /\ Tracking.expires_at t' = Tracking.expires_at t.
Proof. exact (attemptVerification_resolved now id u t x db). Qed.

Lemma attemptVerification_resolves_witness :
  success (valueOf (attemptVerification "S1" Sample.t0 Sample.failedSession)) = false
  /\ Rules.reported (valueOf (attemptVerification "S1" Sample.t0 Sample.failedSession))
     = Some 2%nat.
Proof.
  destruct (attemptVerification_resolves Sample.t0 "S1" "AMTFAIL001"
              (Sample.session "S1" 50000 (Some "AMTFAIL001") failed None
                              (Some (NoteReason (AmountMismatch 50000 60000))))
              (Sample.receipt "TX1" "AMTFAIL001" 60000 (Sample.t0 + 60000))
              Sample.failedSession eq_refl eq_refl)
    as (_ & A & B & _).
  - discriminate.
  - discriminate.
  - reflexivity.
  - split; [exact A | exact B].
Defined.

(** The verdict [attemptVerification] returns always agrees with the store
    it leaves: a successful verdict means the session is verified, a failed
    verdict means the session is failed (unless there is no such session,
    which is reported as failed with nothing written), and a pending
    verdict means nothing was written or called. *)
Theorem verdict_agrees_with_store (now : Z) (id : string) (db : DB) :
  let o := attemptVerification id now db in
  (success (valueOf o) = true -> statusOf id (storeAfter o) = Some verified)
  /\ (status (valueOf o) = r_failed ->
      statusOf id (storeAfter o) = Some failed
      \/ (TrackingService.getByID id db = None /\ storeAfter o = db /\ callsOf o = []))
  /\ (status (valueOf o) = r_pending -> storeAfter o = db /\ callsOf o = [])
  /\ (success (valueOf o) = true <-> status (valueOf o) = r_verified).
Proof.
  intros o. unfold o, attemptVerification, statusOf.
  destruct (TrackingService.getByID id db) as [t|] eqn:G.
  2: { unfold valueOf, storeAfter, callsOf. cbn [fst snd]. rewrite G.
       repeat split; try discriminate. intros _. right. now repeat split. }
  destruct (JS.orNull _) as [u|] eqn:O.
  2: { unfold valueOf, storeAfter, callsOf. cbn [fst snd]. rewrite G.
       repeat split; discriminate. }
  destruct (TrackingStatus_eqb _ verified) eqn:V.
  { apply TrackingStatus_eqb_eq in V.
    unfold valueOf, storeAfter, callsOf. cbn [fst snd]. rewrite G. simpl. rewrite V.
    repeat split; discriminate. }
  destruct (TransactionsService.getByTrxID _ db) as [x|] eqn:L.
  2: { unfold valueOf, storeAfter, callsOf. cbn [fst snd]. rewrite G.
       repeat split; discriminate. }
  unfold applyResult.
  destruct (verifyPayment_decides t x db) as [(S & St & M)|(S & St & M)];
    rewrite ?S, ?St; unfold valueOf, storeAfter, callsOf; cbn [fst snd].
  - destruct (getByID_updateStatus_same id verified
                (matched_transaction_id (verifyPayment t x db))
                (Some (NoteText "Verified successfully")) now db t G)
      as (t' & G' & P1 & _).
    rewrite G', S, St. simpl. rewrite P1. repeat split; try discriminate; reflexivity.
  - destruct (getByID_updateStatus_same id failed None
                (option_map NoteReason (failure_reason (verifyPayment t x db))) now db t G)
      as (t' & G' & P1 & _).
    rewrite G', S, St. simpl. rewrite P1.
    repeat split; try discriminate. intros _. now left.
Qed.

(** ** Settling sessions *)

Section Forall2Facts.

Context {A B C : Type}.

Lemma Forall2_map_self (R : A -> A -> Prop) (g : A -> A) l :
  (forall r, In r l -> R r (g r)) -> Forall2 R l (map g l).
Proof.
  induction l as [|r l IH]; intros H; simpl; constructor.
  - apply H. now left.
  - apply IH. intros r' I. apply H. now right.
Qed.

Lemma Forall2_compose (R1 : A -> B -> Prop) (R2 : B -> C -> Prop) (R3 : A -> C -> Prop)
      l1 l2 l3 :
  (forall a b c, R1 a b -> R2 b c -> R3 a c) ->
  Forall2 R1 l1 l2 -> Forall2 R2 l2 l3 -> Forall2 R3 l1 l3.
Proof.
  intros H F1. revert l3. induction F1 as [|a b l1 l2 R F1 IH]; intros l3 F2.
  - inversion F2. constructor.
  - inversion F2 as [|b' c l2' l3' R' F2']; subst. constructor.
    + eapply H; eassumption.
    + now apply IH.
Qed.

Lemma Forall2_filter_nil (R : A -> B -> Prop) (f : B -> bool) l l' :
  Forall2 R l l' ->
  (forall a b, In a l -> R a b -> f b = false) ->
  filter f l' = [].
Proof.
  induction 1 as [|a b l l' r F IH]; intros H; simpl; [reflexivity|].
  rewrite (H a b); [|now left | exact r].
  apply IH. intros a' b' I. apply H. now right.
Qed.

Lemma Forall2_Forall_r (R : A -> B -> Prop) (P : A -> Prop) (Q : B -> Prop) l l' :
  Forall2 R l l' ->
  (forall a b, In a l -> R a b -> P a -> Q b) ->
  Forall P l -> Forall Q l'.
Proof.
  induction 1 as [|a b l l' r F IH]; intros H FP; constructor.
  - inversion FP; subst. apply (H a b); auto. now left.
  - inversion FP; subst. apply IH; auto. intros a' b' I. apply H. now right.
Qed.

End Forall2Facts.

Section Settling.

Variable now : Z.

Lemma moves_refl l : Forall2 (moves []) l l.
Proof.
  induction l; constructor; auto. unfold moves. now repeat split; auto.
Qed.

Lemma moves_settles ids db db' :
  Forall2 (moves ids) (tracking_table db) (tracking_table db') -> settles db db'.
Proof.
  unfold settles. apply Forall2_impl. intros r r' (E & S & _). now split.
Qed.

Lemma settles_refl db : settles db db.
Proof. apply moves_settles with (ids := []). apply moves_refl. Qed.

Lemma settles_trans db1 db2 db3 : settles db1 db2 -> settles db2 db3 -> settles db1 db3.
Proof.
  unfold settles. apply Forall2_compose.
  intros a b c (E1 & S1) (E2 & S2). split; [congruence|].
  destruct S2 as [->|S2]; [exact S1 | now right].
Qed.

Lemma moves_updateStatus id st m n db :
  TrackingService.awaiting st = false ->
  Forall2 (moves [id]) (tracking_table db)
          (tracking_table (TrackingService.updateStatus id st m n now db)).
Proof.
  intros W. unfold TrackingService.updateStatus, TrackingService.updateWhereID.
  simpl tracking_table. apply Forall2_map_self. intros r _. unfold moves.
  destruct (StringFacts.eqb_spec (Tracking.tracking_id r) id) as [E|E].
  - split; [reflexivity|]. split; [right; exact W | intros _; exact W].
  - split; [reflexivity|]. split; [now left|]. intros [I|[]]. now elim E.
Qed.

Lemma moves_applyResult s x db :
  Forall2 (moves [Tracking.tracking_id s]) (tracking_table db)
          (tracking_table (fst (applyResult (Tracking.tracking_id s)
                                            (verifyPayment s x db) now db))).
Proof.
  unfold applyResult.
  destruct (verifyPayment_decides s x db) as [(S & _)|(S & St & _)]; rewrite S.
  - cbn [fst]. now apply moves_updateStatus.
  - rewrite St. cbn [fst]. now apply moves_updateStatus.
Qed.

Lemma moves_verifyEach x sessions db :
  Forall2 (moves (map Tracking.tracking_id sessions)) (tracking_table db)
          (tracking_table (storeAfter (verifyEach sessions x now db))).
Proof.
  revert db. induction sessions as [|s l IH]; intros db; [apply moves_refl|].
  cbn [verifyEach].
  pose proof (moves_applyResult s x db) as M.
  destruct (applyResult _ _ _ _) as [db1 writes]. simpl in M.
  specialize (IH db1).
  destruct (verifyEach l x now db1) as [[db2 calls] results].
  unfold storeAfter in *. simpl in *.
  eapply Forall2_compose; [|exact M|exact IH].
  intros a b c (E1 & S1 & I1) (E2 & S2 & I2). unfold moves.
  assert (K : settled b -> settled c) by (destruct S2 as [->|S2]; auto).
  split; [congruence|]. split.
  - destruct S2 as [->|S2]; [exact S1 | now right].
  - intros [I|I].
    + apply K, I1. now left.
    + apply I2. now rewrite E1.
Qed.

Lemma settles_attemptVerification id db :
  settles db (storeAfter (attemptVerification id now db)).
Proof.
  unfold attemptVerification.
  destruct (TrackingService.getByID id db) as [t|]; [|apply settles_refl].
  destruct (JS.orNull _) as [u|]; [|apply settles_refl].
  destruct (TrackingStatus_eqb _ verified); [apply settles_refl|].
  destruct (TransactionsService.getByTrxID _ db) as [x|]; [|apply settles_refl].
  unfold applyResult.
  destruct (verifyPayment_decides t x db) as [(S & _)|(S & St & _)]; rewrite S.
  - unfold storeAfter. cbn [fst].
    apply moves_settles with (ids := [id]). now apply moves_updateStatus.
  - rewrite St. unfold storeAfter. cbn [fst].
    apply moves_settles with (ids := [id]). now apply moves_updateStatus.
Qed.

Lemma settles_expireRows ids db :
  settles db (TrackingService.expireRows ids now db).
Proof.
  unfold settles. rewrite expireRows_table. apply Forall2_map_self.
  intros r _. destruct (existsb _ ids).
  - split; [reflexivity | now right].
  - split; [reflexivity | now left].
Qed.

Lemma settles_retryLoop attempt sessions db c :
  (forall id db0, settles db0 (storeAfter (attempt id db0))) ->
  settles db (storeAfter (retryLoop attempt sessions db c)).
Proof.
  intros A. revert db c. induction sessions as [|s l IH]; intros db c;
    [apply settles_refl|].
  cbn [retryLoop]. unfold retryStep.
  specialize (A (Tracking.tracking_id s) db).
  destruct (attempt _ db) as [[db1 calls1] o1].
  match goal with
  | |- context [retryLoop attempt l db1 ?c1] =>
      specialize (IH db1 c1); destruct (retryLoop attempt l db1 c1) as [[db2 calls2] c2]
  end.
  unfold storeAfter in *. simpl in *. eapply settles_trans; eassumption.
Qed.

Lemma settles_retry_phase db c :
  settles db
    (storeAfter
       (retryLoop (fun trackingId db0 =>
                     let '(db', calls, result) := attemptVerification trackingId now db0 in
                     (db', calls, @inr Exn VerificationResult result))
                  (TrackingService.findPendingVerification db) db c)).
Proof.
  apply settles_retryLoop. intros id db0.
  pose proof (settles_attemptVerification id db0) as A.
  destruct (attemptVerification id now db0) as [[db' calls'] r]. exact A.
Qed.

End Settling.

Lemma ingestion_settled
        (now : Z) (transactionId : string) (x : Transaction.t) (db : DB) :
  TransactionsService.getByID transactionId db = Some x ->
  let o := verifyIncomingTransaction transactionId now db in
  let waiting := TrackingService.findByTrxID (normalizeTrxID (Transaction.trxid x)) db in
  TrackingService.findByTrxID (normalizeTrxID (Transaction.trxid x)) (storeAfter o) = []
  /\ (waiting <> [] ->
      List.length (valueOf o) = List.length waiting
      /\ Forall (fun r => status r <> r_pending) (valueOf o))
  /\ (waiting = [] ->
      storeAfter o = db /\ callsOf o = []
      /\ exists r, valueOf o = [r] /\ status r = r_pending)
  /\ (forall now',
        storeAfter (verifyIncomingTransaction transactionId now' (storeAfter o))
        = storeAfter o).
Proof.
  intros G o waiting.
  assert (D : TrackingService.findByTrxID (normalizeTrxID (Transaction.trxid x))
                                          (storeAfter o) = []).
  { unfold o, verifyIncomingTransaction. rewrite G. fold waiting.
    destruct waiting as [|s l] eqn:W; [exact W|]. rewrite <- W.
    pose proof (moves_verifyEach now x waiting db) as M.
    unfold TrackingService.findByTrxID at 1.
    eapply Forall2_filter_nil; [exact M|].
    intros a b I (E & S & K). cbv beta.
    destruct (TrackingService.awaiting (Tracking.status b)) eqn:Wb;
      [|apply andb_false_r].
    destruct S as [->|S]; [|unfold settled in S; congruence].
    destruct (match Tracking.user_entered_trxid a with
              | Some u => (u =? normalizeTrxID (Transaction.trxid x))%string
              | None => false
              end) eqn:T; [|reflexivity].
    exfalso.
    assert (Ia : In a waiting).
    { unfold waiting, TrackingService.findByTrxID. apply filter_In.
      split; [exact I|]. now rewrite T, Wb. }
    specialize (K (in_map Tracking.tracking_id _ _ Ia)).
    unfold settled in K. congruence. }
  split; [exact D|]. split; [|split].
  - intros NE. unfold o, verifyIncomingTransaction. rewrite G. fold waiting.
    destruct waiting as [|s l] eqn:W; [now elim NE|]. rewrite <- W.
    destruct (verifyEach_results x waiting now db) as [F L].
    { apply Forall_forall. intros s' I. now apply reference_of_selected with (db := db). }
    split; [exact L|].
    eapply Forall_impl; [|exact F]. now intros r [_ H].
  - intros E. unfold o, verifyIncomingTransaction. rewrite G. fold waiting. rewrite E.
    repeat split. eexists. split; reflexivity.
  - intros now'.
    destruct (keepsKeys_verifyIncomingTransaction now transactionId db) as (KT & _).
    fold o in KT.
    unfold verifyIncomingTransaction at 1.
    unfold TransactionsService.getByID at 1. rewrite KT.
    fold (TransactionsService.getByID transactionId db). rewrite G, D. reflexivity.
Qed.

(** After [verifyIncomingTransaction] has run for a stored receipt, no
    pending or submitted session declares the receipt's reference any
    more: every one of them was evaluated, got a verdict that is not
    pending, and left the open statuses.  When none was waiting, nothing is
    written and a single pending result is returned; hence a second run
    for the same receipt changes nothing. *)
Theorem ingestion_settles_reference
        (now : Z) (transactionId : string) (x : Transaction.t) (db : DB) :
  TransactionsService.getByID transactionId db = Some x ->
  let o := verifyIncomingTransaction transactionId now db in
  let waiting := TrackingService.findByTrxID (normalizeTrxID (Transaction.trxid x)) db in
  TrackingService.findByTrxID (normalizeTrxID (Transaction.trxid x)) (storeAfter o) = []
  /\ (waiting <> [] ->
      List.length (valueOf o) = List.length waiting
      /\ Forall (fun r => status r <> r_pending) (valueOf o))
  /\ (waiting = [] ->
      storeAfter o = db /\ callsOf o = []
      /\ exists r, valueOf o = [r] /\ status r = r_pending)
  /\ (forall now',
        storeAfter (verifyIncomingTransaction transactionId now' (storeAfter o))
        = storeAfter o).
Proof. exact (ingestion_settled now transactionId x db). Qed.

Lemma ingestion_settles_reference_witness :
  TrackingService.findByTrxID (normalizeTrxID "DUPTEST999")
    (storeAfter (verifyIncomingTransaction "TX1" Sample.t0 Sample.sharedReference)) = [].
Proof.
  destruct (ingestion_settles_reference Sample.t0 "TX1"
              (Sample.receipt "TX1" "DUPTEST999" 20000 (Sample.t0 + 60000))
              Sample.sharedReference eq_refl) as (A & _).
  exact A.
Defined.

(** * Further properties of the sweep *)

Lemma retry_phase_frame now id t db c :
  uniqueTrackingIDs db ->
  TrackingService.getByID id db = Some t ->
  settled t ->
  TrackingService.getByID id
    (storeAfter
       (retryLoop (fun trackingId db0 =>
                     let '(db', calls, result) := attemptVerification trackingId now db0 in
                     (db', calls, @inr Exn VerificationResult result))
                  (TrackingService.findPendingVerification db) db c))
  = Some t.
Proof.
  intros U G T. rewrite retryLoop_frame; [exact G| |].
  - intros id' db0 N.
    pose proof (attemptVerification_frame now id id' db0 N) as A.
    destruct (attemptVerification id' now db0) as [[db' calls'] r]. exact A.
  - apply Forall_forall. intros s I.
    apply filter_In in I. destruct I as [I W].
    apply andb_true_iff in W. destruct W as [W _].
    apply (other_status_other_id db id t s U G I).
    intros E. rewrite E in W. unfold settled in T.
    destruct (Tracking.status t); discriminate.
Qed.

Lemma getByID_expireRows_same id ids now db t :
  TrackingService.getByID id db = Some t ->
  In id ids ->
  TrackingService.getByID id (TrackingService.expireRows ids now db)
  = Some (TrackingService.expireRow now t).
Proof.
  intros G I. unfold TrackingService.getByID in *. rewrite expireRows_table.
  induction (tracking_table db) as [|r l IH]; [discriminate|].
  cbn [map find] in *.
  destruct (StringFacts.eqb_spec (Tracking.tracking_id r) id) as [E|E].
  - injection G as ->.
    assert (X : existsb (fun i => (Tracking.tracking_id t =? i)%string) ids = true).
    { apply existsb_exists. exists id. split; [exact I|]. rewrite E. apply StringFacts.eqb_refl. }
    rewrite X. cbn [TrackingService.expireRow Tracking.tracking_id].
    now rewrite E, StringFacts.eqb_refl.
  - destruct (existsb _ ids); cbn [TrackingService.expireRow Tracking.tracking_id].
    + apply StringFacts.eqb_neq in E. rewrite E. now apply IH.
    + apply StringFacts.eqb_neq in E. rewrite E. now apply IH.
Qed.

Lemma expiry_phase_clears now db :
  Forall (fun r => TrackingService.awaiting (Tracking.status r) = true ->
                   now <= Tracking.expires_at r)
         (tracking_table
            (match TrackingService.findExpired now db with
             | [] => db
             | _ => TrackingService.expireRows
                      (map Tracking.tracking_id (TrackingService.findExpired now db)) now db
             end)).
Proof.
  assert (K : forall r, In r (tracking_table db) ->
                        TrackingService.awaiting (Tracking.status r) = true ->
                        Tracking.expires_at r < now ->
                        In r (TrackingService.findExpired now db)).
  { intros r I W L. apply filter_In. split; [exact I|].
    rewrite W. simpl. now apply Z.ltb_lt. }
  destruct (TrackingService.findExpired now db) as [|s l] eqn:E.
  - apply Forall_forall. intros r I W.
    destruct (Z.le_gt_cases now (Tracking.expires_at r)) as [H|H]; [exact H|].
    elim (K r I W H).
  - rewrite <- E in *. rewrite expireRows_table.
    apply Forall_forall. intros r' I. apply in_map_iff in I. destruct I as (r & <- & I).
    destruct (existsb _ _) eqn:X; [discriminate|].
    intros W.
    destruct (Z.le_gt_cases now (Tracking.expires_at r)) as [H|H]; [exact H|].
    exfalso. specialize (K r I W H).
    assert (Y : existsb (fun i => (Tracking.tracking_id r =? i)%string)
                        (map Tracking.tracking_id (TrackingService.findExpired now db))
                = true).
    { apply existsb_exists. exists (Tracking.tracking_id r).
      split; [now apply in_map | apply StringFacts.eqb_refl]. }
    congruence.
Qed.

(** After a sweep that went through, no open session is past its
    expiry. *)
Lemma sweep_clears_overdue now db :
  (List.length (TrackingService.findExpired now db) < 100)%nat ->
  Forall (fun r => TrackingService.awaiting (Tracking.status r) = true ->
                   now <= Tracking.expires_at r)
         (tracking_table (storeAfter (scheduledHandler now db))).
Proof.
  intros B. sweep_cases now db; [lia|].
  pose proof (expiry_phase_clears now db) as P.
  set (db1 := match TrackingService.findExpired now db with
              | [] => db
              | _ => TrackingService.expireRows _ now db
              end) in *.
  clearbody db1.
  pose proof (settles_retry_phase now db1 (mkCounters 0 0 0)) as S.
  destruct (retryLoop _ _ db1 _) as [[db2 calls] c].
  unfold storeAfter in *. simpl in *.
  eapply Forall2_Forall_r; [exact S| |exact P].
  intros a b _ (_ & [->|St]) Q; [exact Q|].
  intros W. unfold settled in St. congruence.
Qed.

(** The sweep expires before it retries.  While fewer than 100 sessions
    are overdue: after the sweep no pending or submitted session is past
    its expiry; under the primary key, a pending or submitted session that
    was past its expiry ends expired with every other column but the
    update time kept, whether or not a receipt for its reference is stored;
    and the report counts the overdue sessions.  From 100 overdue sessions
    on, D1 refuses the UPDATE, which binds one parameter per id: the sweep
    throws with nothing expired and nothing retried. *)
Theorem sweep_expires_overdue (now : Z) (db : DB) :
  ((List.length (TrackingService.findExpired now db) < 100)%nat ->
   Forall (fun r => TrackingService.awaiting (Tracking.status r) = true ->
                    now <= Tracking.expires_at r)
          (tracking_table (storeAfter (scheduledHandler now db)))
   /\ (forall id t,
         uniqueTrackingIDs db ->
         TrackingService.getByID id db = Some t ->
         TrackingService.awaiting (Tracking.status t) = true ->
         Tracking.expires_at t < now ->
         TrackingService.getByID id (storeAfter (scheduledHandler now db))
         = Some (TrackingService.expireRow now t))
   /\ exists r,
        valueOf (scheduledHandler now db) = inr r
        /\ rep_expired r
           = List.length (filter (fun r => TrackingService.awaiting (Tracking.status r)
                                           && (Tracking.expires_at r <? now))
                                 (tracking_table db)))
  /\ ((100 <= List.length (TrackingService.findExpired now db))%nat ->
      scheduledHandler now db
      = (db, [], inl (Thrown (errorMessage TooManySQLVariables)))).
Proof.
  split.
  2:{ intros B. sweep_cases now db; [reflexivity | lia]. }
  intros B. split; [now apply sweep_clears_overdue|]. split.
  - intros id t U G W L. sweep_cases now db; [lia|].
    assert (I : In t (TrackingService.findExpired now db)).
    { apply filter_In. split; [now apply getByID_In in G|].
      rewrite W. simpl. now apply Z.ltb_lt. }
    assert (G1 : TrackingService.getByID id
                   (TrackingService.expireRows
                      (map Tracking.tracking_id (TrackingService.findExpired now db)) now db)
                 = Some (TrackingService.expireRow now t)).
    { apply getByID_expireRows_same; [exact G|].
      apply getByID_In in G. destruct G as [_ <-]. now apply in_map. }
    assert (U1 : uniqueTrackingIDs
                   (TrackingService.expireRows
                      (map Tracking.tracking_id (TrackingService.findExpired now db)) now db)).
    { unfold uniqueTrackingIDs. now rewrite ids_expireRows. }
    destruct (TrackingService.findExpired now db) as [|s l] eqn:E; [contradiction|].
    rewrite <- E in *.
    pose proof (retry_phase_frame now id (TrackingService.expireRow now t) _
                                  (mkCounters 0 0 0) U1 G1 eq_refl) as R.
    destruct (retryLoop _ _ _ _) as [[db2 calls] c].
    exact R.
  - sweep_cases now db; [lia|].
    destruct (retryLoop _ _ _ _) as [[db2 calls] c]. eexists. split; reflexivity.
Qed.

Lemma sweep_expires_overdue_witness :
  TrackingService.getByID "S1"
    (storeAfter (scheduledHandler (Sample.t0 + 3600001) Sample.happyPath))
  = Some (TrackingService.expireRow (Sample.t0 + 3600001)
            (Sample.session "S1" 100000 (Some "HAPPY1") submitted_trx None None))
  /\ (exists r, valueOf (scheduledHandler (Sample.t0 + 3600001) (Sample.crowd 99)) = inr r
                /\ rep_expired r = 99%nat)
  /\ scheduledHandler (Sample.t0 + 3600001) (Sample.crowd 100)
     = (Sample.crowd 100, [], inl (Thrown (errorMessage TooManySQLVariables))).
Proof.
  split; [|split].
  - destruct (sweep_expires_overdue (Sample.t0 + 3600001) Sample.happyPath) as (A & _).
    destruct A as (_ & A & _); [vm_compute; lia|].
    apply A.
    + unfold uniqueTrackingIDs. simpl. repeat constructor; simpl; intuition discriminate.
    + reflexivity.
    + reflexivity.
    + reflexivity.
  - destruct (sweep_expires_overdue (Sample.t0 + 3600001) (Sample.crowd 99)) as (A & _).
    destruct A as (_ & _ & r & V & E); [vm_compute; lia|].
    exists r. split; [exact V|]. rewrite E. vm_compute. reflexivity.
  - destruct (sweep_expires_overdue (Sample.t0 + 3600001) (Sample.crowd 100)) as (_ & A).
    apply A. vm_compute. lia.
Defined.

(** * The consistency of the store *)

Section Consistency.

Variable now : Z.

Lemma unique_same_id db a b :
  uniqueTrackingIDs db ->
  In a (tracking_table db) -> In b (tracking_table db) ->
  Tracking.tracking_id a = Tracking.tracking_id b -> a = b.
Proof.
  intros U Ia Ib E.
  apply (getByID_unique db a U) in Ia. apply (getByID_unique db b U) in Ib.
  rewrite E in Ia. congruence.
Qed.

Lemma Forall_updateWhereID (P : Tracking.t -> Prop) id f db :
  Forall P (tracking_table db) ->
  (forall r, In r (tracking_table db) -> Tracking.tracking_id r = id -> P (f r)) ->
  Forall P (tracking_table (TrackingService.updateWhereID id f db)).
Proof.
  intros F H. unfold TrackingService.updateWhereID. simpl tracking_table.
  apply Forall_forall. intros r' I. apply in_map_iff in I. destruct I as (r & <- & I).
  destruct (StringFacts.eqb_spec (Tracking.tracking_id r) id) as [E|E].
  - now apply H.
  - rewrite Forall_forall in F. now apply F.
Qed.

Lemma rowConsistent_unmatched t :
  rowConsistent t -> Tracking.status t <> verified ->
  Tracking.matched_transaction_id t = None.
Proof.
  intros [C _] N. destruct (Tracking.matched_transaction_id t) eqn:M; [|reflexivity].
  elim N. apply C. discriminate.
Qed.

Lemma rowsConsistent_applyResult id t x db0 db :
  rowsConsistent db ->
  Transaction.id x <> "" ->
  rowsConsistent (fst (applyResult id (verifyPayment t x db0) now db)).
Proof.
  intros [R T] NE. unfold applyResult.
  destruct (verifyPayment_decides t x db0) as [(S & _ & M)|(S & St & _)]; rewrite S.
  - cbn [fst]. split; [|exact T].
    unfold TrackingService.updateStatus. apply Forall_updateWhereID; [exact R|].
    intros r _ _. unfold rowConsistent. cbn. rewrite M. simpl.
    destruct (StringFacts.eqb_spec (Transaction.id x) ""); [contradiction|].
    split; [reflexivity | discriminate].
  - rewrite St. cbn [fst]. split; [|exact T].
    unfold TrackingService.updateStatus. apply Forall_updateWhereID; [exact R|].
    intros r _ _. unfold rowConsistent. cbn. split; [intros X; now elim X | discriminate].
Qed.

Lemma rowsConsistent_attemptVerification id db :
  rowsConsistent db -> rowsConsistent (storeAfter (attemptVerification id now db)).
Proof.
  intros C. unfold attemptVerification.
  destruct (TrackingService.getByID id db) as [t|]; [|exact C].
  destruct (JS.orNull _) as [u|]; [|exact C].
  destruct (TrackingStatus_eqb _ verified); [exact C|].
  destruct (TransactionsService.getByTrxID _ db) as [x|] eqn:L; [|exact C].
  pose proof (rowsConsistent_applyResult id t x db db C) as A.
  destruct (applyResult _ _ _ _) as [db' writes]. apply A.
  apply getByTrxID_found in L. destruct L as [I _].
  destruct C as [_ T]. rewrite Forall_forall in T. now apply T.
Qed.

Lemma rowsConsistent_verifyEach x sessions db :
  Transaction.id x <> "" ->
  rowsConsistent db -> rowsConsistent (storeAfter (verifyEach sessions x now db)).
Proof.
  intros NE. revert db. induction sessions as [|s l IH]; intros db C; [exact C|].
  cbn [verifyEach].
  pose proof (rowsConsistent_applyResult (Tracking.tracking_id s) s x db db C NE) as A.
  destruct (applyResult _ _ _ _) as [db1 writes]. simpl in A.
  specialize (IH db1 A).
  destruct (verifyEach l x now db1) as [[db2 calls] results]. exact IH.
Qed.

Lemma rowsConsistent_verifyIncomingTransaction transactionId db :
  rowsConsistent db ->
  rowsConsistent (storeAfter (verifyIncomingTransaction transactionId now db)).
Proof.
  intros C. unfold verifyIncomingTransaction.
  destruct (TransactionsService.getByID transactionId db) as [x|] eqn:G; [|exact C].
  destruct (TrackingService.findByTrxID _ db) as [|s l]; [exact C|].
  apply rowsConsistent_verifyEach; [|exact C].
  apply transactions_getByID_found in G. destruct G as [I _].
  destruct C as [_ T]. rewrite Forall_forall in T. now apply T.
Qed.

Lemma rowsConsistent_submit id trxid db :
  uniqueTrackingIDs db -> rowsConsistent db ->
  rowsConsistent (storeAfter (submitTrxID id trxid now db)).
Proof.
  intros U C. unfold submitTrxID.
  destruct (id =? "")%string; [exact C|].
  destruct (JS.orNull trxid) as [u|]; [|exact C].
  destruct (normalizeTrxID u =? "")%string; [exact C|].
  destruct (TrackingService.getByID id db) as [t|] eqn:G; [|exact C].
  destruct (now >? _); [exact C|].
  destruct (TrackingStatus_eqb _ verified) eqn:V; [exact C|].
  destruct (_ && _); [exact C|].
  assert (C1 : rowsConsistent (TrackingService.submitTrxID id (normalizeTrxID u) now db)).
  { destruct C as [R T]. split; [|exact T].
    unfold TrackingService.submitTrxID. apply Forall_updateWhereID; [exact R|].
    intros r I E.
    assert (r = t).
    { apply (getByID_unique db r U) in I. rewrite E in I. congruence. }
    subst r. unfold rowConsistent. cbn.
    rewrite Forall_forall in R.
    rewrite (rowConsistent_unmatched t).
    - split; [intros X; now elim X | discriminate].
    - apply R. now apply getByID_In in G.
    - intros X. rewrite X in V. discriminate. }
  pose proof (rowsConsistent_attemptVerification id _ C1) as A.
  destruct (attemptVerification _ _ _) as [[db2 calls] r]. exact A.
Qed.

Lemma rowsConsistent_expireRows db :
  uniqueTrackingIDs db -> rowsConsistent db ->
  rowsConsistent (TrackingService.expireRows
                    (map Tracking.tracking_id (TrackingService.findExpired now db)) now db).
Proof.
  intros U [R T]. split; [|destruct (map _ _); exact T].
  rewrite expireRows_table.
  apply Forall_forall. intros r' I. apply in_map_iff in I. destruct I as (r & <- & I).
  rewrite Forall_forall in R.
  destruct (existsb _ _) eqn:X; [|now apply R].
  apply existsb_exists in X. destruct X as (i & Ii & E). apply StringFacts.eqb_eq in E.
  apply in_map_iff in Ii. destruct Ii as (s & <- & Is).
  apply filter_In in Is. destruct Is as [Is W].
  apply andb_true_iff in W. destruct W as [W _].
  assert (r = s) by (now apply (unique_same_id db)). subst s.
  unfold rowConsistent. cbn.
  rewrite (rowConsistent_unmatched r).
  - split; [intros X; now elim X | discriminate].
  - now apply R.
  - intros X. rewrite X in W. discriminate.
Qed.

Lemma rowsConsistent_scheduledHandler db :
  uniqueTrackingIDs db -> rowsConsistent db ->
  rowsConsistent (storeAfter (scheduledHandler now db)).
Proof.
  intros U C. sweep_cases now db; [exact C|].
  pose proof (rowsConsistent_expireRows db U C) as E.
  set (db1 := match TrackingService.findExpired now db with
              | [] => db
              | _ => TrackingService.expireRows _ now db
              end).
  assert (C1 : rowsConsistent db1).
  { unfold db1. destruct (TrackingService.findExpired now db); [exact C | exact E]. }
  clearbody db1. clear E.
  assert (L : forall sessions d c,
             rowsConsistent d ->
             rowsConsistent
               (storeAfter
                  (retryLoop (fun trackingId db0 =>
                                let '(db', calls, result) :=
                                  attemptVerification trackingId now db0 in
                                (db', calls, @inr Exn VerificationResult result))
                             sessions d c))).
  { induction sessions as [|s l IH]; intros d c Cd; [exact Cd|].
    cbn [retryLoop]. unfold retryStep.
    pose proof (rowsConsistent_attemptVerification (Tracking.tracking_id s) d Cd) as A.
    destruct (attemptVerification _ now d) as [[d1 calls1] r1].
    match goal with
    | |- context [retryLoop ?a l d1 ?c1] =>
        specialize (IH d1 c1 A); destruct (retryLoop a l d1 c1) as [[d2 calls2] c2]
    end.
    exact IH. }
  specialize (L (TrackingService.findPendingVerification db1) db1 (mkCounters 0 0 0) C1).
  destruct (retryLoop _ _ db1 _) as [[db2 calls] c]. exact L.
Qed.

Lemma storeConsistent_split db :
  storeConsistent db <-> uniqueTrackingIDs db /\ rowsConsistent db.
Proof. unfold storeConsistent, rowsConsistent. tauto. Qed.

Lemma storeConsistent_operations db :
  storeConsistent db ->
  (forall id, storeConsistent (storeAfter (attemptVerification id now db)))
  /\ (forall transactionId,
        storeConsistent (storeAfter (verifyIncomingTransaction transactionId now db)))
  /\ (forall id trxid, storeConsistent (storeAfter (submitTrxID id trxid now db)))
  /\ storeConsistent (storeAfter (scheduledHandler now db)).
Proof.
  intros C. apply storeConsistent_split in C. destruct C as [U C].
  assert (K : forall db', keepsKeys db db' -> uniqueTrackingIDs db').
  { intros db' (_ & _ & K). unfold uniqueTrackingIDs. now rewrite K. }
  split; [|split; [|split]]; intros; apply storeConsistent_split; split.
  - apply K, keepsKeys_attemptVerification.
  - now apply rowsConsistent_attemptVerification.
  - apply K, keepsKeys_verifyIncomingTransaction.
  - now apply rowsConsistent_verifyIncomingTransaction.
  - apply K, keepsKeys_submit.
  - now apply rowsConsistent_submit.
  - apply K, keepsKeys_scheduledHandler.
  - now apply rowsConsistent_scheduledHandler.
Qed.

End Consistency.

Lemma storeConsistent_tracking_create data id now db db' t :
  storeConsistent db ->
  TrackingService.create data id now db = inr (db', t) ->
  storeConsistent db'.
Proof.
  intros (U & R & T). unfold TrackingService.create.
  destruct (TrackingService.getByID id db) eqn:G; [discriminate|].
  intros [= <- <-]. split; [|split; [|exact T]].
  - unfold uniqueTrackingIDs. simpl tracking_table. rewrite map_app. simpl map.
    apply NoDup_snoc; [exact U|].
    intros I. apply in_map_iff in I. destruct I as (r & E & I).
    unfold TrackingService.getByID in G.
    apply (find_none _ _ G) in I. rewrite E, StringFacts.eqb_refl in I. discriminate.
  - simpl tracking_table. apply Forall_app. split; [exact R|].
    constructor; [|constructor]. unfold rowConsistent. cbn.
    split; [intros X; now elim X | discriminate].
Qed.

Lemma storeConsistent_transactions_create data id now db db1 x isNew :
  id <> "" ->
  storeConsistent db ->
  TransactionsService.create data id now db = inr (db1, x, isNew) ->
  storeConsistent db1.
Proof.
  intros NE (U & R & T) C. apply create_outcome in C.
  destruct C as [(-> & -> & G) | (-> & X & -> & _)]; [now repeat split|].
  split; [exact U|]. split; [exact R|].
  simpl transactions_table. apply Forall_app. split; [exact T|].
  constructor; [|constructor]. now subst x.
Qed.

(** The store starts consistent and every operation keeps it so: tracking
    ids are unique, a session has a matched receipt exactly when it is
    verified, and receipts have a non-empty id.  (Ids come from [ulid()],
    which never yields the empty string.) *)
Theorem store_consistency_preserved (now : Z) (db : DB) :
  storeConsistent db ->
  (forall id, storeConsistent (storeAfter (attemptVerification id now db)))
  /\ (forall transactionId,
        storeConsistent (storeAfter (verifyIncomingTransaction transactionId now db)))
  /\ (forall id trxid, storeConsistent (storeAfter (submitTrxID id trxid now db)))
  /\ storeConsistent (storeAfter (scheduledHandler now db))
  /\ (forall data id db' t,
        TrackingService.create data id now db = inr (db', t) -> storeConsistent db')
  /\ (forall data id db1 x isNew,
        id <> "" ->
        TransactionsService.create data id now db = inr (db1, x, isNew) ->
        storeConsistent db1)
  /\ (forall receivers, storeConsistent (mkDB receivers [] [])).
Proof.
  intros C.
  destruct (storeConsistent_operations now db C) as (A1 & A2 & A3 & A4).
  split; [exact A1|]. split; [exact A2|]. split; [exact A3|]. split; [exact A4|].
  split; [|split].
  - intros data id db' t. now apply storeConsistent_tracking_create.
  - intros data id db1 x isNew NE. now apply storeConsistent_transactions_create.
  - intros receivers. repeat split; constructor.
Qed.

Lemma store_consistency_preserved_witness :
  storeConsistent (storeAfter (verifyIncomingTransaction "TX1" Sample.t0 Sample.happyPath)).
Proof.
  destruct (store_consistency_preserved Sample.t0 Sample.happyPath) as (_ & A & _).
  - split; [|split].
    + unfold uniqueTrackingIDs. simpl. repeat constructor; simpl; intuition discriminate.
    + simpl. repeat constructor; unfold rowConsistent; simpl; intuition discriminate.
    + simpl. repeat constructor; simpl; discriminate.
  - apply A.
Defined.

(** * Further properties of the submit handler *)

Lemma getByID_submitTrxID_same id trxid now db t :
  TrackingService.getByID id db = Some t ->
  TrackingService.getByID id (TrackingService.submitTrxID id trxid now db)
  = Some (TrackingService.submitRow trxid now t).
Proof.
  intros G. unfold TrackingService.submitTrxID.
  now apply getByID_updateWhereID_same.
Qed.

(** Unless the handler answers verified or submitted, it has written
    nothing and called nothing.  It answers 400 for a missing, empty or
    blank reference and for an empty tracking id, 404 for an unknown
    session, 410 once the session is past its expiry. *)
Theorem submit_rejects_without_writing
        (id : string) (trxid : option string) (now : Z) (db : DB) :
  let o := submitTrxID id trxid now db in
  match valueOf o with
  | Verified | Submitted => True
  | _ => storeAfter o = db /\ callsOf o = []
  end
  /\ (id = "" -> exists e, valueOf o = BadRequest e)
  /\ (trxid = None -> exists e, valueOf o = BadRequest e)
  /\ (forall u, trxid = Some u -> normalizeTrxID u = "" -> exists e, valueOf o = BadRequest e)
  /\ (forall u, id <> "" -> trxid = Some u -> normalizeTrxID u <> "" ->
        TrackingService.getByID id db = None -> valueOf o = NotFound)
  /\ (forall u t, id <> "" -> trxid = Some u -> normalizeTrxID u <> "" ->
        TrackingService.getByID id db = Some t -> Tracking.expires_at t < now ->
        valueOf o = Gone).
Proof.
  intros o. unfold o, submitTrxID.
  assert (B : forall u, normalizeTrxID u <> "" -> u <> "").
  { intros u N ->. now apply N. }
  split; [|split; [|split; [|split; [|split]]]].
  - destruct (id =? "")%string; [now split|].
    destruct (JS.orNull trxid) as [u|]; [|now split].
    destruct (normalizeTrxID u =? "")%string; [now split|].
    destruct (TrackingService.getByID id db) as [t|]; [|now split].
    destruct (now >? _); [now split|].
    destruct (TrackingStatus_eqb _ verified); [now split|].
    destruct (_ && _); [now split|].
    destruct (attemptVerification _ _ _) as [[db2 calls] r].
    unfold valueOf. simpl. now destruct (success r).
  - intros ->. simpl. eexists. reflexivity.
  - intros ->. destruct (id =? "")%string; eexists; reflexivity.
  - intros u -> N. destruct (id =? "")%string; [eexists; reflexivity|].
    simpl. destruct (StringFacts.eqb_spec u ""); [eexists; reflexivity|].
    rewrite N. simpl. eexists. reflexivity.
  - intros u NI -> N G. apply StringFacts.eqb_neq in NI. rewrite NI.
    simpl. pose proof (B u N) as NU. apply StringFacts.eqb_neq in NU. rewrite NU.
    apply StringFacts.eqb_neq in N. rewrite N, G. reflexivity.
  - intros u t NI -> N G L. apply StringFacts.eqb_neq in NI. rewrite NI.
    simpl. pose proof (B u N) as NU. apply StringFacts.eqb_neq in NU. rewrite NU.
    apply StringFacts.eqb_neq in N. rewrite N, G.
    destruct (Z.gtb_spec now (Tracking.expires_at t)); [reflexivity | lia].
Qed.

(** While a session is submitted with a reference, a further submission
    is answered as already submitted and changes nothing, even when it
    carries a different reference: the reference under verification cannot
    be replaced. *)
Theorem resubmission_is_ignored
        (id u : string) (t : Tracking.t) (now : Z) (db : DB) :
  id <> "" ->
  normalizeTrxID u <> "" ->
  TrackingService.getByID id db = Some t ->
  now <= Tracking.expires_at t ->
  Tracking.status t = submitted_trx ->
  JS.orNull (Tracking.user_entered_trxid t) <> None ->
  submitTrxID id (Some u) now db = (db, [], AlreadySubmitted).
Proof.
  intros NI N G L S T. unfold submitTrxID.
  apply StringFacts.eqb_neq in NI. rewrite NI. simpl.
  assert (NU : u <> "") by (intros ->; now apply N).
  apply StringFacts.eqb_neq in NU. rewrite NU.
  apply StringFacts.eqb_neq in N. rewrite N, G.
  destruct (Z.gtb_spec now (Tracking.expires_at t)); [lia|].
  rewrite S. simpl.
  destruct (JS.orNull (Tracking.user_entered_trxid t)); [reflexivity | now elim T].
Qed.

Lemma resubmission_is_ignored_witness :
  submitTrxID "S3" (Some "corrected99") (Sample.t0 + 1000) Sample.batch
  = (Sample.batch, [], AlreadySubmitted).
Proof.
  apply (resubmission_is_ignored "S3" "corrected99"
           (Sample.session "S3" 20000 (Some "THIRD3") submitted_trx None None));
    try discriminate; try reflexivity.
Defined.

Lemma submit_accepted_core
      (id raw : string) (t : Tracking.t) (now : Z) (db : DB) :
  id <> "" ->
  normalizeTrxID raw <> "" ->
  TrackingService.getByID id db = Some t ->
  now <= Tracking.expires_at t ->
  Tracking.status t <> verified ->
  (Tracking.status t = submitted_trx -> JS.orNull (Tracking.user_entered_trxid t) = None) ->
  let o := submitTrxID id (Some raw) now db in
  let reference := normalizeTrxID raw in
  exists t',
    TrackingService.getByID id (storeAfter o) = Some t'
    /\ Tracking.user_entered_trxid t' = Some reference
    /\ match TransactionsService.getByTrxID reference db with
       | None =>
           valueOf o = Submitted /\ callsOf o = []
           /\ t' = TrackingService.submitRow reference now t
       | Some x =>
           let ok := Rules.amount t x && Rules.receiver t x && Rules.timeWindow t x in
           valueOf o = (if ok then Verified else Submitted)
           /\ Tracking.status t' = (if ok then verified else failed)
           /\ Tracking.matched_transaction_id t'
              = (if ok then JS.orNull (Some (Transaction.id x)) else None)
           /\ Tracking.notes t'
              = (if ok then Some (NoteText "Verified successfully")
                 else option_map NoteReason
                        (failure_reason
                           (verifyPayment (TrackingService.submitRow reference now t) x
                              (TrackingService.submitTrxID id reference now db))))
       end.
Proof.
  intros NI N G L NV NS o reference. subst reference.
  assert (NU : raw <> "") by (intros ->; now apply N).
  set (db1 := TrackingService.submitTrxID id (normalizeTrxID raw) now db).
  set (t1 := TrackingService.submitRow (normalizeTrxID raw) now t).
  assert (G1 : TrackingService.getByID id db1 = Some t1)
    by now apply getByID_submitTrxID_same.
  assert (E : o = let '(db2, calls, r) := attemptVerification id now db1 in
                  (db2, calls, if success r then Verified else Submitted)).
  { unfold o, submitTrxID.
    apply StringFacts.eqb_neq in NI. rewrite NI. simpl JS.orNull.
    apply StringFacts.eqb_neq in NU. rewrite NU.
    pose proof N as N'. apply StringFacts.eqb_neq in N'. rewrite N', G.
    destruct (Z.gtb_spec now (Tracking.expires_at t)); [lia|].
    destruct (TrackingStatus_eqb (Tracking.status t) verified) eqn:V.
    { apply TrackingStatus_eqb_eq in V. now elim NV. }
    destruct (TrackingStatus_eqb (Tracking.status t) submitted_trx) eqn:S.
    - apply TrackingStatus_eqb_eq in S. rewrite (NS S). reflexivity.
    - rewrite andb_false_r. reflexivity. }
  assert (LK : TransactionsService.getByTrxID (normalizeTrxID (normalizeTrxID raw)) db1
               = TransactionsService.getByTrxID (normalizeTrxID raw) db).
  { rewrite normalizeTrxID_idem. reflexivity. }
  destruct (TransactionsService.getByTrxID (normalizeTrxID raw) db) as [x|] eqn:LX.
  - destruct (attemptVerification_resolved now id (normalizeTrxID raw) t1 x db1 G1 eq_refl N
                ltac:(discriminate) LK)
      as (V1 & V2 & _ & _ & t' & P1 & P2 & P3 & P4 & _ & P6 & _).
    rewrite E. clear E.
    destruct (attemptVerification id now db1) as [[db2 calls] r].
    unfold valueOf, storeAfter in *. cbn [fst snd] in *.
    exists t'. split; [exact P1|]. split; [exact P6|].
    change (Rules.amount t1 x) with (Rules.amount t x) in *.
    change (Rules.receiver t1 x) with (Rules.receiver t x) in *.
    change (Rules.timeWindow t1 x) with (Rules.timeWindow t x) in *.
    cbv zeta. rewrite V2.
    destruct (Rules.amount t x && Rules.receiver t x && Rules.timeWindow t x);
      (split; [reflexivity|]); (split; [exact P2|]); (split; [exact P3|]).
    + exact P4.
    + rewrite P4, V1. reflexivity.
  - rewrite E. clear E. unfold attemptVerification. rewrite G1.
    assert (O : JS.orNull (Tracking.user_entered_trxid t1) = Some (normalizeTrxID raw)).
    { simpl. apply StringFacts.eqb_neq in N. now rewrite N. }
    rewrite O. cbn [Tracking.status t1 TrackingService.submitRow TrackingStatus_eqb].
    rewrite LK. unfold valueOf, storeAfter, callsOf. cbn [fst snd success].
    exists t1. now repeat split.
Qed.

(** An accepted submission stores the normalised reference.  With no
    receipt for it the session is left submitted and the answer is
    submitted; with a receipt the session is resolved at once, verified
    exactly when amount, receiver and time window match, failed otherwise.
    The answer is verified only for a verified session, and is the same
    submitted answer for a failed verification as for one still open. *)
Theorem submit_accepted
        (id raw : string) (t : Tracking.t) (now : Z) (db : DB) :
  id <> "" ->
  normalizeTrxID raw <> "" ->
  TrackingService.getByID id db = Some t ->
  now <= Tracking.expires_at t ->
  Tracking.status t <> verified ->
  (Tracking.status t = submitted_trx -> JS.orNull (Tracking.user_entered_trxid t) = None) ->
  let o := submitTrxID id (Some raw) now db in
  let reference := normalizeTrxID raw in
  exists t',
    TrackingService.getByID id (storeAfter o) = Some t'
    /\ Tracking.user_entered_trxid t' = Some reference
    /\ match TransactionsService.getByTrxID reference db with
       | None =>
           valueOf o = Submitted /\ callsOf o = []
           /\ t' = TrackingService.submitRow reference now t
       | Some x =>
           let ok := Rules.amount t x && Rules.receiver t x && Rules.timeWindow t x in
           valueOf o = (if ok then Verified else Submitted)
           /\ Tracking.status t' = (if ok then verified else failed)
           /\ Tracking.matched_transaction_id t'
              = (if ok then JS.orNull (Some (Transaction.id x)) else None)
           /\ Tracking.notes t'
              = (if ok then Some (NoteText "Verified successfully")
                 else option_map NoteReason
                        (failure_reason
                           (verifyPayment (TrackingService.submitRow reference now t) x
                              (TrackingService.submitTrxID id reference now db))))
       end.
Proof. exact (submit_accepted_core id raw t now db). Qed.

Lemma submit_accepted_witness :
  valueOf (submitTrxID "S1" (Some " happy1 ") (Sample.t0 + 1000)
             (mkDB [Sample.receiver]
                   [Sample.receipt "TX1" "HAPPY1" 100000 (Sample.t0 + 60000)]
                   [Sample.session "S1" 100000 None pending None None]))
  = Verified.
Proof.
  destruct (submit_accepted "S1" " happy1 "
              (Sample.session "S1" 100000 None pending None None)
              (Sample.t0 + 1000)
              (mkDB [Sample.receiver]
                    [Sample.receipt "TX1" "HAPPY1" 100000 (Sample.t0 + 60000)]
                    [Sample.session "S1" 100000 None pending None None]))
    as (t' & _ & _ & A & _).
  - discriminate.
  - discriminate.
  - reflexivity.
  - vm_compute. discriminate.
  - discriminate.
  - discriminate.
  - exact A.
Defined.

(** References outside the ASCII range.  A reference of no-break and
    ideographic spaces only is blank: 400, before the session is read.  A
    reference padded with a no-break space is stored trimmed, and its
    receipt is found. *)
Example submit_unicode_samples :
  submitTrxID "S3" (Some (String 0xA0 (String 0x3000 ""))) (Sample.t0 + 1000) Sample.batch
  = (Sample.batch, [], BadRequest "Invalid TrxID format")
  /\ submitTrxID "S404" (Some (String 0xA0 "")) (Sample.t0 + 1000) Sample.batch
     = (Sample.batch, [], BadRequest "Invalid TrxID format")
  /\ valueOf (submitTrxID "S1" (Some (String 0xA0 "happy1")) (Sample.t0 + 1000)
                (mkDB [Sample.receiver]
                      [Sample.receipt "TX1" "HAPPY1" 100000 (Sample.t0 + 60000)]
                      [Sample.session "S1" 100000 None pending None None]))
     = Verified.
Proof. repeat split; vm_compute; reflexivity. Qed.

(** * Terminal statuses *)

(** An accepted submission is the update of [db.tracking.submitTrxID]
    followed by [attemptVerification]. *)
Lemma submit_accepted_steps
      (id raw : string) (t : Tracking.t) (now : Z) (db : DB) :
  id <> "" ->
  normalizeTrxID raw <> "" ->
  TrackingService.getByID id db = Some t ->
  now <= Tracking.expires_at t ->
  Tracking.status t <> verified ->
  (Tracking.status t = submitted_trx -> JS.orNull (Tracking.user_entered_trxid t) = None) ->
  let o := attemptVerification id now
             (TrackingService.submitTrxID id (normalizeTrxID raw) now db) in
  submitTrxID id (Some raw) now db
  = (storeAfter o, callsOf o, if success (valueOf o) then Verified else Submitted).
Proof.
  intros NI N G L NV NS o.
  assert (NU : raw <> "") by (intros ->; now apply N).
  unfold submitTrxID.
  apply StringFacts.eqb_neq in NI. rewrite NI. simpl JS.orNull.
  apply StringFacts.eqb_neq in NU. rewrite NU.
  apply StringFacts.eqb_neq in N. rewrite N, G.
  destruct (Z.gtb_spec now (Tracking.expires_at t)); [lia|].
  destruct (TrackingStatus_eqb (Tracking.status t) verified) eqn:V.
  { apply TrackingStatus_eqb_eq in V. now elim NV. }
  assert (S : TrackingStatus_eqb (Tracking.status t) submitted_trx
              && match JS.orNull (Tracking.user_entered_trxid t) with
                 | Some _ => true
                 | None => false
                 end = false).
  { destruct (TrackingStatus_eqb (Tracking.status t) submitted_trx) eqn:S; [|reflexivity].
    apply TrackingStatus_eqb_eq in S. now rewrite (NS S). }
  unfold o. destruct (attemptVerification _ _ _) as [[db2 calls] r].
  unfold storeAfter, callsOf, valueOf. cbn [fst snd].
  destruct (JS.orNull (Tracking.user_entered_trxid t));
    destruct (TrackingStatus_eqb (Tracking.status t) submitted_trx);
    try discriminate; reflexivity.
Qed.

(** C3, as the code has it.  For a session [t] of a store with unique
    tracking ids:
    - once [t] has left pending and submitted_trx (it is verified, failed,
      expired or canceled), [verifyIncomingTransaction] and the sweep leave
      it as it is;
    - the submit handler leaves [t] as it is when it is verified, and,
      whatever its status, once its expires_at has passed;
    - [attemptVerification] leaves a verified [t] as it is;
    - before expires_at, failed and canceled are not terminal for the
      submit handler: a submission with a non-empty reference stores the
      normalised reference and sets the session back to submitted_trx, and
      verification is attempted again: with no receipt for the reference
      the session stays submitted_trx; with a receipt the rule chain is
      called and the session ends verified when amount, receiver and time
      window match, failed otherwise. *)
Theorem terminal_statuses (now : Z) (id : string) (t : Tracking.t) (db : DB) :
  uniqueTrackingIDs db ->
  TrackingService.getByID id db = Some t ->
  (TrackingService.awaiting (Tracking.status t) = false ->
   (forall transactionId,
       TrackingService.getByID id
         (storeAfter (verifyIncomingTransaction transactionId now db)) = Some t)
   /\ TrackingService.getByID id (storeAfter (scheduledHandler now db)) = Some t)
  /\ (Tracking.status t = verified \/ Tracking.expires_at t < now ->
      forall id' trxid,
        TrackingService.getByID id (storeAfter (submitTrxID id' trxid now db)) = Some t)
  /\ (Tracking.status t = verified ->
      forall id',
        TrackingService.getByID id (storeAfter (attemptVerification id' now db)) = Some t)
  /\ (Tracking.status t = failed \/ Tracking.status t = canceled ->
      now <= Tracking.expires_at t ->
      id <> "" ->
      forall raw,
        normalizeTrxID raw <> "" ->
        let reference := normalizeTrxID raw in
        let submitted := TrackingService.submitRow reference now t in
        let o := submitTrxID id (Some raw) now db in
        Tracking.status submitted = submitted_trx
        /\ TrackingService.getByID id (TrackingService.submitTrxID id reference now db)
           = Some submitted
        /\ storeAfter o
           = storeAfter (attemptVerification id now
                           (TrackingService.submitTrxID id reference now db))
        /\ exists t',
            TrackingService.getByID id (storeAfter o) = Some t'
            /\ Tracking.user_entered_trxid t' = Some reference
            /\ match TransactionsService.getByTrxID reference db with
               | None =>
                   t' = submitted /\ callsOf o = [] /\ valueOf o = Submitted
               | Some x =>
                   let ok := Rules.amount t x && Rules.receiver t x
                             && Rules.timeWindow t x in
                   Tracking.status t' = (if ok then verified else failed)
                   /\ callsOf o = [CallVerifyPayment id (Transaction.id x);
                                   CallUpdateStatus id (if ok then verified else failed)]
                   /\ valueOf o = (if ok then Verified else Submitted)
               end).
Proof.
  intros U G. split; [|split; [|split]].
  - intros T. split.
    + intros transactionId.
      apply (verifyIncomingTransaction_frame now id t transactionId db U G T).
    + now apply scheduledHandler_frame.
  - intros H id' trxid.
    destruct (string_dec id' id) as [->|N].
    + destruct (submitTrxID_guarded now id t trxid db G) as [S _]; [tauto|].
      now rewrite S.
    + now rewrite submitTrxID_frame.
  - intros V id'.
    destruct (string_dec id' id) as [->|N].
    + destruct (attemptVerification_verified now id t db G V) as [S _].
      now rewrite S.
    + now rewrite attemptVerification_frame.
  - intros S L NI raw N reference submitted o.
    assert (NV : Tracking.status t <> verified)
      by (destruct S as [S|S]; rewrite S; discriminate).
    assert (NS : Tracking.status t = submitted_trx ->
                 JS.orNull (Tracking.user_entered_trxid t) = None)
      by (destruct S as [S|S]; rewrite S; discriminate).
    pose proof (submit_accepted_steps id raw t now db NI N G L NV NS) as E.
    cbv zeta in E. fold reference in E. fold o in E.
    assert (G1 : TrackingService.getByID id (TrackingService.submitTrxID id reference now db)
                 = Some submitted) by now apply getByID_submitTrxID_same.
    split; [reflexivity|]. split; [exact G1|]. split; [now rewrite E|].
    destruct (submit_accepted_core id raw t now db NI N G L NV NS)
      as (t' & G' & D' & M).
    fold reference in D', M. fold o in G', M.
    exists t'. split; [exact G'|]. split; [exact D'|].
    destruct (TransactionsService.getByTrxID reference db) as [x|] eqn:LX.
    + destruct M as (M1 & M2 & _). cbv zeta. split; [exact M2|]. split; [|exact M1].
      assert (LK : TransactionsService.getByTrxID (normalizeTrxID reference)
                     (TrackingService.submitTrxID id reference now db) = Some x).
      { unfold reference. rewrite normalizeTrxID_idem. exact LX. }
      destruct (attemptVerification_resolved now id reference submitted x _ G1 eq_refl N
                  ltac:(discriminate) LK) as (_ & _ & _ & C & _).
      rewrite E. unfold callsOf at 1. cbn [fst snd]. exact C.
    + destruct M as (M1 & M2 & M3). now repeat split.
Qed.

Lemma terminal_statuses_witness :
  statusOf "S1" (storeAfter (scheduledHandler (Sample.t0 + 7200000) Sample.failedSession))
  = Some failed
  /\ statusOf "S1" (storeAfter (submitTrxID "S1" (Some "abc123")
                                            (Sample.t0 + 7200000) Sample.canceledSession))
     = Some canceled
  /\ statusOf "S1" (storeAfter (submitTrxID "S1" (Some "abc123")
                                            (Sample.t0 + 120000) Sample.canceledSession))
     = Some submitted_trx.
Proof.
  assert (U : uniqueTrackingIDs Sample.failedSession).
  { unfold uniqueTrackingIDs. simpl.
    repeat constructor; simpl; intuition discriminate. }
  assert (U' : uniqueTrackingIDs Sample.canceledSession).
  { unfold uniqueTrackingIDs. simpl.
    repeat constructor; simpl; intuition discriminate. }
  split; [|split].
  - destruct (terminal_statuses (Sample.t0 + 7200000) "S1"
                (Sample.session "S1" 50000 (Some "AMTFAIL001") failed None
                                (Some (NoteReason (AmountMismatch 50000 60000))))
                Sample.failedSession U eq_refl) as ((_ & S) & _); [reflexivity|].
    unfold statusOf. now rewrite S.
  - destruct (terminal_statuses (Sample.t0 + 7200000) "S1"
                (Sample.session "S1" 50000 None canceled None None)
                Sample.canceledSession U' eq_refl) as (_ & S & _).
    unfold statusOf. rewrite S; [reflexivity|].
    right. simpl. unfold Sample.t0. lia.
  - destruct (terminal_statuses (Sample.t0 + 120000) "S1"
                (Sample.session "S1" 50000 None canceled None None)
                Sample.canceledSession U' eq_refl) as (_ & _ & _ & S).
    destruct (S (or_intror eq_refl)) with (raw := "abc123") as (_ & _ & _ & t' & G' & _ & M).
    + simpl. unfold Sample.t0. lia.
    + discriminate.
    + vm_compute. discriminate.
    + unfold statusOf. rewrite G'. simpl in M. destruct M as (-> & _). reflexivity.
Defined.

(** C3 as stated fails: within its hour, a failed session that submits a
    reference again is set back to [submitted_trx] by the submit handler,
    and so is a canceled one. *)
Lemma failed_session_reopened :
  (statusOf "S1" Sample.failedSession = Some failed
   /\ statusOf "S1" (storeAfter (submitTrxID "S1" (Some "amtfail002")
                                             (Sample.t0 + 120000) Sample.failedSession))
      = Some submitted_trx)
  /\ (statusOf "S1" Sample.canceledSession = Some canceled
      /\ statusOf "S1" (storeAfter (submitTrxID "S1" (Some "abc123")
                                                (Sample.t0 + 120000) Sample.canceledSession))
         = Some submitted_trx).
Proof. repeat split; reflexivity. Qed.

(** * Resolution through receipt ingestion *)

Lemma NoDup_map_filter {A B} (f : A -> B) (p : A -> bool) l :
  NoDup (map f l) -> NoDup (map f (filter p l)).
Proof.
  induction l as [|a l IH]; simpl; intros U; [constructor|].
  inversion U as [|? ? N U']; subst.
  destruct (p a); simpl; [|now apply IH].
  constructor; [|now apply IH].
  intros I. apply N. apply in_map_iff in I. destruct I as (b & E & I).
  apply filter_In in I. rewrite <- E. apply in_map. tauto.
Qed.

Lemma verifyPayment_success t x db :
  Rules.reference t x = true ->
  success (verifyPayment t x db)
  = Rules.amount t x && Rules.receiver t x && Rules.timeWindow t x.
Proof.
  intros R. pose proof (verifyPayment_cases t x db) as C. cbv zeta in C.
  unfold Rules.all in C. rewrite R, exclusive_always in C. cbn [Rules.firstFailing] in C.
  destruct (Rules.amount t x), (Rules.receiver t x), (Rules.timeWindow t x);
    cbn [Rules.firstFailing andb] in C |- *; apply C.
Qed.

(** What the loop of [verifyIncomingTransaction] leaves for one of its
    sessions. *)
Lemma verifyEach_resolves x sessions now db s :
  NoDup (map Tracking.tracking_id sessions) ->
  In s sessions ->
  TrackingService.getByID (Tracking.tracking_id s) db = Some s ->
  Rules.reference s x = true ->
  let ok := Rules.amount s x && Rules.receiver s x && Rules.timeWindow s x in
  exists s',
    TrackingService.getByID (Tracking.tracking_id s)
                            (storeAfter (verifyEach sessions x now db)) = Some s'
    /\ Tracking.status s' = (if ok then verified else failed)
    /\ Tracking.matched_transaction_id s'
       = (if ok then JS.orNull (Some (Transaction.id x)) else None)
    /\ Tracking.user_entered_trxid s' = Tracking.user_entered_trxid s
    /\ Tracking.updated_at s' = now.
Proof.
  intros U I G R ok. revert db G U I.
  induction sessions as [|s0 l IH]; intros db G U I; [contradiction|].
  inversion U as [|? ? N U']; subst.
  cbn [verifyEach].
  destruct (string_dec (Tracking.tracking_id s0) (Tracking.tracking_id s)) as [E|E].
  - assert (s0 = s).
    { destruct I as [I|I]; [exact I|]. elim N. rewrite E. now apply in_map. }
    subst s0. clear I.
    assert (F : Forall (fun r => Tracking.tracking_id r <> Tracking.tracking_id s) l).
    { apply Forall_forall. intros r Ir Er. apply N. rewrite <- Er. now apply in_map. }
    pose proof (verifyEach_frame now (Tracking.tracking_id s) x l) as FR.
    unfold applyResult. rewrite (verifyPayment_success s x db R). fold ok.
    destruct (verifyPayment_decides s x db) as [(S & St & M)|(S & St & M)];
      rewrite (verifyPayment_success s x db R) in S; fold ok in S; rewrite S.
    + rewrite M.
      destruct (getByID_updateStatus_same (Tracking.tracking_id s) verified
                  (Some (Transaction.id x)) (Some (NoteText "Verified successfully"))
                  now db s G) as (s' & G' & P1 & P2 & _ & P4 & _ & P6 & _).
      specialize (FR (TrackingService.updateStatus (Tracking.tracking_id s) verified
                        (Some (Transaction.id x)) (Some (NoteText "Verified successfully"))
                        now db) F).
      destruct (verifyEach l x now _) as [[db2 calls] results].
      unfold storeAfter in *. cbn [fst snd] in *.
      exists s'. rewrite FR. now repeat split.
    + rewrite St.
      destruct (getByID_updateStatus_same (Tracking.tracking_id s) failed None
                  (option_map NoteReason (failure_reason (verifyPayment s x db)))
                  now db s G) as (s' & G' & P1 & P2 & _ & P4 & _ & P6 & _).
      specialize (FR (TrackingService.updateStatus (Tracking.tracking_id s) failed None
                        (option_map NoteReason (failure_reason (verifyPayment s x db)))
                        now db) F).
      destruct (verifyEach l x now _) as [[db2 calls] results].
      unfold storeAfter in *. cbn [fst snd] in *.
      exists s'. rewrite FR. now repeat split.
  - destruct I as [I|I]; [now elim E; subst|].
    pose proof (applyResult_frame (Tracking.tracking_id s) (Tracking.tracking_id s0)
                                  (verifyPayment s0 x db) now db E) as A.
    destruct (applyResult _ _ _ _) as [db1 writes]. cbn [fst] in A.
    rewrite <- A in G.
    destruct (IH db1 G U' I) as (s' & G' & P).
    destruct (verifyEach l x now db1) as [[db2 calls] results].
    unfold storeAfter in *. cbn [fst] in *.
    exists s'. split; [exact G' | exact P].
Qed.

Lemma ingestion_resolved now transactionId x db s :
  uniqueTrackingIDs db ->
  TransactionsService.getByID transactionId db = Some x ->
  In s (TrackingService.findByTrxID (normalizeTrxID (Transaction.trxid x)) db) ->
  let o := verifyIncomingTransaction transactionId now db in
  let ok := Rules.amount s x && Rules.receiver s x && Rules.timeWindow s x in
  exists s',
    TrackingService.getByID (Tracking.tracking_id s) (storeAfter o) = Some s'
    /\ Tracking.status s' = (if ok then verified else failed)
    /\ Tracking.matched_transaction_id s'
       = (if ok then JS.orNull (Some (Transaction.id x)) else None)
    /\ Tracking.user_entered_trxid s' = Tracking.user_entered_trxid s
    /\ Tracking.updated_at s' = now.
Proof.
  intros U G I o ok. unfold o, verifyIncomingTransaction. rewrite G.
  destruct (TrackingService.findByTrxID _ db) as [|s0 l] eqn:E; [contradiction|].
  rewrite <- E in *.
  apply verifyEach_resolves.
  - unfold TrackingService.findByTrxID. now apply NoDup_map_filter.
  - exact I.
  - apply getByID_unique; [exact U|].
    unfold TrackingService.findByTrxID in I. apply filter_In in I. tauto.
  - now apply reference_of_selected with (db := db).
Qed.

(** Under the primary key, [verifyIncomingTransaction] resolves every
    pending or submitted session that declares the receipt's reference:
    the session ends verified, with the receipt as its matched receipt,
    exactly when amount, receiver and time window match, and failed with no
    matched receipt otherwise. *)
Theorem ingestion_resolves_each
        (now : Z) (transactionId : string) (x : Transaction.t) (db : DB) (s : Tracking.t) :
  uniqueTrackingIDs db ->
  TransactionsService.getByID transactionId db = Some x ->
  In s (TrackingService.findByTrxID (normalizeTrxID (Transaction.trxid x)) db) ->
  let o := verifyIncomingTransaction transactionId now db in
  let ok := Rules.amount s x && Rules.receiver s x && Rules.timeWindow s x in
  exists s',
    TrackingService.getByID (Tracking.tracking_id s) (storeAfter o) = Some s'
    /\ Tracking.status s' = (if ok then verified else failed)
    /\ Tracking.matched_transaction_id s'
       = (if ok then JS.orNull (Some (Transaction.id x)) else None)
    /\ Tracking.user_entered_trxid s' = Tracking.user_entered_trxid s
    /\ Tracking.updated_at s' = now.
Proof. exact (ingestion_resolved now transactionId x db s). Qed.

Lemma ingestion_resolves_each_witness :
  statusOf "S2" (storeAfter (verifyIncomingTransaction "TX1" Sample.t0 Sample.verifiedAndOpen))
  = Some verified.
Proof.
  destruct (ingestion_resolves_each Sample.t0 "TX1"
              (Sample.receipt "TX1" "DUPTEST999" 20000 (Sample.t0 + 60000))
              Sample.verifiedAndOpen
              (Sample.session "S2" 20000 (Some "DUPTEST999") submitted_trx None None))
    as (s' & G & S & _).
  - unfold uniqueTrackingIDs. simpl. repeat constructor; simpl; intuition discriminate.
  - reflexivity.
  - simpl. now left.
  - unfold statusOf. simpl Tracking.tracking_id in G. rewrite G. simpl. now rewrite S.
Defined.

(** * The two arrival orders *)

Lemma create_fresh data id now db :
  TransactionsService.getByTrxID (TransactionsService.d_trxid data) db = None ->
  TransactionsService.getByID id db = None ->
  ReceiversService.isValidReceiver (TransactionsService.d_receiver_phone data) db = true ->
  TransactionsService.create data id now db
  = inr (mkDB (receivers_table db)
              (transactions_table db
               ++ [Transaction.mk id (TransactionsService.d_trxid data)
                                  (TransactionsService.d_amount_cents data)
                                  (TransactionsService.d_receiver_phone data)
                                  (Some (TransactionsService.d_sender_phone data))
                                  (TransactionsService.d_received_at data) now])
              (tracking_table db),
         Transaction.mk id (TransactionsService.d_trxid data)
                        (TransactionsService.d_amount_cents data)
                        (TransactionsService.d_receiver_phone data)
                        (Some (TransactionsService.d_sender_phone data))
                        (TransactionsService.d_received_at data) now,
         true).
Proof.
  intros NT NI V. unfold TransactionsService.create, TransactionsService.insert.
  simpl Transaction.id. simpl Transaction.trxid. simpl Transaction.receiver_phone.
  apply find_none_existsb in NT. apply find_none_existsb in NI.
  rewrite NI, NT, V. reflexivity.
Qed.

(** [verifyIncomingTransaction] leaves alone a session that does not
    declare the receipt's reference. *)
Lemma verifyIncomingTransaction_frame_other now id t transactionId db :
  uniqueTrackingIDs db ->
  TrackingService.getByID id db = Some t ->
  (forall x, TransactionsService.getByID transactionId db = Some x ->
             Tracking.user_entered_trxid t <> Some (normalizeTrxID (Transaction.trxid x))) ->
  TrackingService.getByID id (storeAfter (verifyIncomingTransaction transactionId now db))
  = Some t.
Proof.
  intros U G D. unfold verifyIncomingTransaction.
  destruct (TransactionsService.getByID transactionId db) as [x|]; [|exact G].
  specialize (D x eq_refl).
  destruct (TrackingService.findByTrxID _ db) as [|s0 l] eqn:E; [exact G|].
  rewrite <- E. rewrite verifyEach_frame; [exact G|].
  apply Forall_forall. intros s I Es.
  unfold TrackingService.findByTrxID in I. apply filter_In in I. destruct I as [I W].
  apply (getByID_unique db s U) in I. rewrite Es, G in I. injection I as <-.
  apply andb_true_iff in W. destruct W as [W _].
  destruct (Tracking.user_entered_trxid t) as [u|]; [|discriminate].
  apply StringFacts.eqb_eq in W. subst u. now apply D.
Qed.

Lemma receiver_in_offered t x :
  In (Transaction.receiver_phone x) (Tracking.offered_receivers t) ->
  Rules.receiver t x = true.
Proof.
  intros I. unfold Rules.receiver. now destruct (in_dec string_dec _ _).
Qed.

(** Convergence does not depend on the order in which the customer's
    reference and the receipt arrive.  For a fresh session and a receipt
    with the session's amount, one of its offered receivers and an event
    time inside its window: whether the reference is submitted first and
    the receipt is ingested and matched afterwards, or the receipt is
    ingested first and the reference submitted afterwards (before the
    session's expiry), the session ends verified with that receipt as its
    matched receipt.  In the first order the submission is answered as
    submitted, in the second as verified. *)
Theorem either_order_verifies
        (db : DB) (id raw txid : string) (t : Tracking.t)
        (data : TransactionsService.Data) (tSubmit tIngest tMatch : Z) :
  uniqueTrackingIDs db ->
  TrackingService.getByID id db = Some t ->
  Tracking.status t = pending ->
  Tracking.user_entered_trxid t = None ->
  id <> "" ->
  normalizeTrxID raw <> "" ->
  tSubmit <= Tracking.expires_at t ->
  TransactionsService.d_trxid data = normalizeTrxID raw ->
  TransactionsService.getByTrxID (normalizeTrxID raw) db = None ->
  TransactionsService.getByID txid db = None ->
  ReceiversService.isValidReceiver (TransactionsService.d_receiver_phone data) db = true ->
  TransactionsService.d_amount_cents data = Tracking.payment_amount_cents t ->
  In (TransactionsService.d_receiver_phone data) (Tracking.offered_receivers t) ->
  Tracking.created_at t - 3600000 <= TransactionsService.d_received_at data
    <= Tracking.expires_at t + 900000 ->
  (let o1 := submitTrxID id (Some raw) tSubmit db in
   valueOf o1 = Submitted
   /\ exists db2 x,
        TransactionsService.create data txid tIngest (storeAfter o1) = inr (db2, x, true)
        /\ exists t',
             TrackingService.getByID id
               (storeAfter (verifyIncomingTransaction txid tMatch db2)) = Some t'
             /\ Tracking.status t' = verified
             /\ Tracking.matched_transaction_id t' = JS.orNull (Some txid))
  /\ (exists db1 x,
        TransactionsService.create data txid tIngest db = inr (db1, x, true)
        /\ let o2 := verifyIncomingTransaction txid tMatch db1 in
           let o3 := submitTrxID id (Some raw) tSubmit (storeAfter o2) in
           valueOf o3 = Verified
           /\ exists t',
                TrackingService.getByID id (storeAfter o3) = Some t'
                /\ Tracking.status t' = verified
                /\ Tracking.matched_transaction_id t' = JS.orNull (Some txid)).
Proof.
  intros U G SP TN NI N LE DT NT NX V AM RC [W1 W2].
  set (x := Transaction.mk txid (TransactionsService.d_trxid data)
                           (TransactionsService.d_amount_cents data)
                           (TransactionsService.d_receiver_phone data)
                           (Some (TransactionsService.d_sender_phone data))
                           (TransactionsService.d_received_at data) tIngest).
  assert (OK : forall t0,
             Tracking.payment_amount_cents t0 = Tracking.payment_amount_cents t ->
             Tracking.offered_receivers t0 = Tracking.offered_receivers t ->
             Tracking.created_at t0 = Tracking.created_at t ->
             Tracking.expires_at t0 = Tracking.expires_at t ->
             Rules.amount t0 x && Rules.receiver t0 x && Rules.timeWindow t0 x = true).
  { intros t0 E1 E2 E3 E4. rewrite !andb_true_iff. repeat split.
    - unfold Rules.amount. rewrite E1. simpl. rewrite AM. apply Z.eqb_refl.
    - apply receiver_in_offered. rewrite E2. exact RC.
    - unfold Rules.timeWindow. rewrite E3, E4. simpl.
      apply andb_true_iff. split; now apply Z.leb_le. }
  split.
  - (* reference first, receipt afterwards *)
    intros o1.
    destruct (submit_accepted_core id raw t tSubmit db NI N G LE) as (t1 & G1 & D1 & M).
    { rewrite SP. discriminate. }
    { rewrite SP. discriminate. }
    rewrite NT in M. destruct M as (R1 & _ & ->).
    fold o1 in G1, R1. split; [exact R1|].
    destruct (keepsKeys_submit tSubmit id (Some raw) db) as (KT & KR & KI).
    fold o1 in KT, KR, KI.
    set (db1 := storeAfter o1) in *.
    assert (C : TransactionsService.create data txid tIngest db1
                = inr (mkDB (receivers_table db1) (transactions_table db1 ++ [x])
                            (tracking_table db1), x, true)).
    { apply create_fresh.
      - unfold TransactionsService.getByTrxID. rewrite KT, DT. exact NT.
      - unfold TransactionsService.getByID. rewrite KT. exact NX.
      - unfold ReceiversService.isValidReceiver, ReceiversService.getByPhone.
        rewrite KR. exact V. }
    eexists _, x. split; [exact C|].
    set (db2 := mkDB (receivers_table db1) (transactions_table db1 ++ [x])
                     (tracking_table db1)).
    assert (U2 : uniqueTrackingIDs db2).
    { unfold uniqueTrackingIDs, db2. simpl tracking_table. now rewrite KI. }
    assert (GX : TransactionsService.getByID txid db2 = Some x).
    { unfold TransactionsService.getByID, db2. simpl transactions_table.
      apply find_app_new; [|apply StringFacts.eqb_refl].
      rewrite KT. now apply find_none_existsb. }
    assert (IS : In (TrackingService.submitRow (normalizeTrxID raw) tSubmit t)
                    (TrackingService.findByTrxID
                       (normalizeTrxID (Transaction.trxid x)) db2)).
    { unfold TrackingService.findByTrxID. apply filter_In. split.
      - unfold db2. simpl tracking_table. now apply getByID_In in G1.
      - simpl. rewrite DT, normalizeTrxID_idem, StringFacts.eqb_refl. reflexivity. }
    destruct (ingestion_resolved tMatch txid x db2 _ U2 GX IS) as (t' & G' & S' & M' & _).
    rewrite OK in S', M' by reflexivity.
    assert (TID : Tracking.tracking_id t = id) by now apply getByID_In in G.
    simpl Tracking.tracking_id in G'. rewrite TID in G'.
    exists t'. split; [exact G'|]. split; [exact S' | exact M'].
  - (* receipt first, reference afterwards *)
    assert (C : TransactionsService.create data txid tIngest db
                = inr (mkDB (receivers_table db) (transactions_table db ++ [x])
                            (tracking_table db), x, true)).
    { apply create_fresh; [now rewrite DT | exact NX | exact V]. }
    eexists _, x. split; [exact C|].
    set (db1 := mkDB (receivers_table db) (transactions_table db ++ [x])
                     (tracking_table db)).
    intros o2 o3.
    assert (G2 : TrackingService.getByID id (storeAfter o2) = Some t).
    { apply verifyIncomingTransaction_frame_other; [exact U | exact G|].
      intros x0 _. rewrite TN. discriminate. }
    destruct (keepsKeys_verifyIncomingTransaction tMatch txid db1) as (KT & _).
    fold o2 in KT.
    assert (LX : TransactionsService.getByTrxID (normalizeTrxID raw) (storeAfter o2)
                 = Some x).
    { unfold TransactionsService.getByTrxID. rewrite KT. unfold db1.
      simpl transactions_table.
      apply find_app_new; [now apply find_none_existsb|].
      simpl. rewrite DT. apply StringFacts.eqb_refl. }
    destruct (submit_accepted_core id raw t tSubmit (storeAfter o2) NI N G2 LE)
      as (t' & G' & _ & M).
    { rewrite SP. discriminate. }
    { rewrite SP. discriminate. }
    rewrite LX in M. cbv zeta in M. rewrite OK in M by reflexivity.
    destruct M as (R & S' & M' & _). fold o3 in G', R.
    split; [exact R|]. exists t'. now repeat split.
Qed.

Lemma either_order_verifies_witness :
  valueOf (submitTrxID "S1" (Some " happy1 ") (Sample.t0 + 120000)
             (storeAfter
                (verifyIncomingTransaction "TX1" (Sample.t0 + 61000)
                   (mkDB [Sample.receiver]
                         [Transaction.mk "TX1" "HAPPY1" 100000 "01785863769"
                                         (Some "01444444444") (Sample.t0 + 60000)
                                         (Sample.t0 + 60500)]
                         [Sample.session "S1" 100000 None pending None None]))))
  = Verified.
Proof.
  destruct (either_order_verifies
              (mkDB [Sample.receiver] [] [Sample.session "S1" 100000 None pending None None])
              "S1" " happy1 " "TX1"
              (Sample.session "S1" 100000 None pending None None)
              (TransactionsService.mkData "HAPPY1" 100000 "01785863769" "01444444444"
                                          (Sample.t0 + 60000))
              (Sample.t0 + 120000) (Sample.t0 + 60500) (Sample.t0 + 61000))
    as (_ & db1 & x & C & R & _).
  - unfold uniqueTrackingIDs. simpl. repeat constructor; simpl; intuition discriminate.
  - reflexivity.
  - reflexivity.
  - reflexivity.
  - discriminate.
  - discriminate.
  - vm_compute. discriminate.
  - reflexivity.
  - reflexivity.
  - reflexivity.
  - reflexivity.
  - reflexivity.
  - simpl. now left.
  - split; vm_compute; discriminate.
  - injection C as <- <-. exact R.
Defined.

(** * The SMS parser *)

(** ** The matcher finds exactly the words of a pattern *)

Section Matcher.

Lemma append_length_l w s : String.length (w ++ s) = (String.length w + String.length s)%nat.
Proof. induction w as [|c w IH]; simpl; [reflexivity | now rewrite IH]. Qed.

Lemma append_assoc' (a b c : string) : ((a ++ b) ++ c = a ++ (b ++ c))%string.
Proof. induction a as [|x a IH]; simpl; [reflexivity | now rewrite IH]. Qed.

Lemma leading_append w s : String.leading (String.length w) (w ++ s) = w.
Proof. induction w as [|c w IH]; simpl; [now destruct s | now rewrite IH]. Qed.

Lemma consumed_append w s : Regex.consumed (w ++ s) s = w.
Proof.
  unfold Regex.consumed. rewrite append_length_l.
  replace (String.length w + String.length s - String.length s)%nat
    with (String.length w) by lia.
  apply leading_append.
Qed.

Lemma append_cancel_r (w1 w2 s : string) : (w1 ++ s = w2 ++ s)%string -> w1 = w2.
Proof.
  revert w2. induction w1 as [|c w1 IH]; intros w2 E.
  - destruct w2 as [|d w2]; [reflexivity|].
    exfalso. apply (f_equal String.length) in E. simpl in E.
    rewrite append_length_l in E. lia.
  - destruct w2 as [|d w2].
    + exfalso. apply (f_equal String.length) in E. simpl in E.
      rewrite append_length_l in E. lia.
    + simpl in E. injection E as -> E. f_equal. now apply IH.
Qed.

(** A match consumes a prefix. *)
Lemma matches_prefix r s s' caps caps' :
  RegexSpec.matches r s s' caps caps' -> exists w, s = (w ++ s')%string.
Proof.
  revert s s' caps caps'. induction r as [|p|p|n p|a IHa b IHb|a IHa];
    intros s s' caps caps'; simpl.
  - intros [-> _]. now exists "".
  - intros (c & -> & _). now exists (String c "").
  - intros (w & _ & _ & -> & _). now exists w.
  - intros (w & _ & _ & -> & _). now exists w.
  - intros (s1 & caps1 & Ma & Mb).
    apply IHa in Ma. apply IHb in Mb. destruct Ma as [w1 ->]. destruct Mb as [w2 ->].
    exists (w1 ++ w2)%string. now rewrite append_assoc'.
  - intros (w & caps1 & -> & _). now exists w.
Qed.

Lemma plus_sound {R} p s (k : string -> option R) x :
  Regex.plus p s k = Some x ->
  exists w s', w <> "" /\ RegexSpec.all p w = true /\ s = (w ++ s')%string /\ k s' = Some x.
Proof.
  revert x. induction s as [|c s IH]; intros x; simpl; [discriminate|].
  destruct (p c) eqn:P; [|discriminate].
  destruct (Regex.plus p s k) as [y|] eqn:E.
  - intros [= <-]. destruct (IH y eq_refl) as (w & s' & _ & A & -> & K).
    exists (String c w), s'. simpl. rewrite P, A. now repeat split.
  - intros K. exists (String c ""), s. simpl. rewrite P. now repeat split.
Qed.

Lemma times_sound {R} n p s (k : string -> option R) x :
  Regex.times n p s k = Some x ->
  exists w s', String.length w = n /\ RegexSpec.all p w = true
               /\ s = (w ++ s')%string /\ k s' = Some x.
Proof.
  revert s. induction n as [|n IH]; intros s; simpl.
  - intros K. exists "", s. now repeat split.
  - destruct s as [|c s]; [discriminate|].
    destruct (p c) eqn:P; [|discriminate].
    intros E. destruct (IH s E) as (w & s' & L & A & -> & K).
    exists (String c w), s'. simpl. rewrite P, A, L. now repeat split.
Qed.

(** Whatever [run] hands to its continuation is a match. *)
Lemma run_sound {R} r s caps (k : string -> list string -> option R) x :
  Regex.run r s caps k = Some x ->
  exists s' caps', RegexSpec.matches r s s' caps caps' /\ k s' caps' = Some x.
Proof.
  revert s caps k. induction r as [|p|p|n p|a IHa b IHb|a IHa]; intros s caps k; simpl.
  - intros K. exists s, caps. now repeat split.
  - destruct s as [|c s]; [discriminate|].
    destruct (p c) eqn:P; [|discriminate].
    intros K. exists s, caps. split; [|exact K]. exists c. now repeat split.
  - intros E. apply plus_sound in E. destruct E as (w & s' & N & A & -> & K).
    exists s', caps. split; [|exact K]. exists w. now repeat split.
  - intros E. apply times_sound in E. destruct E as (w & s' & L & A & -> & K).
    exists s', caps. split; [|exact K]. exists w. now repeat split.
  - intros E. apply IHa in E. destruct E as (s1 & caps1 & Ma & E).
    apply IHb in E. destruct E as (s' & caps' & Mb & K).
    exists s', caps'. split; [|exact K]. now exists s1, caps1.
  - intros E. apply IHa in E. destruct E as (s' & caps1 & Ma & K).
    destruct (matches_prefix a s s' caps caps1 Ma) as [w ->].
    rewrite consumed_append in K.
    exists s', (caps1 ++ [w])%list. split; [|exact K]. now exists w, caps1.
Qed.

Lemma plus_complete {R} p w s (k : string -> option R) :
  w <> "" -> RegexSpec.all p w = true -> k s <> None ->
  Regex.plus p (w ++ s) k <> None.
Proof.
  intros N A K. induction w as [|c w IH]; [now elim N|].
  simpl in A |- *. apply andb_true_iff in A. destruct A as [P A]. rewrite P.
  destruct w as [|d w].
  - simpl. destruct (Regex.plus p s k); [discriminate | exact K].
  - destruct (Regex.plus p (String d w ++ s) k) eqn:E; [discriminate|].
    exfalso. apply IH; [discriminate | exact A | reflexivity].
Qed.

Lemma times_complete {R} p w s (k : string -> option R) :
  RegexSpec.all p w = true -> k s <> None ->
  Regex.times (String.length w) p (w ++ s) k <> None.
Proof.
  intros A K. induction w as [|c w IH]; [exact K|].
  simpl in A |- *. apply andb_true_iff in A. destruct A as [P A]. rewrite P.
  now apply IH.
Qed.

(** [run] finds a match whenever there is one and the continuation takes
    what is left. *)
Lemma run_complete {R} r s s' caps caps' (k : string -> list string -> option R) caps0 :
  RegexSpec.matches r s s' caps caps' ->
  (forall c, k s' c <> None) ->
  Regex.run r s caps0 k <> None.
Proof.
  revert s s' caps caps' k caps0.
  induction r as [|p|p|n p|a IHa b IHb|a IHa]; intros s s' caps caps' k caps0; simpl.
  - intros [-> _] K. apply K.
  - intros (c & -> & P & _) K. rewrite P. apply K.
  - intros (w & N & A & -> & _) K. now apply plus_complete.
  - intros (w & <- & A & -> & _) K. now apply times_complete.
  - intros (s1 & caps1 & Ma & Mb) K.
    apply (IHa s s1 caps caps1); [exact Ma|].
    intros c. now apply (IHb s1 s' caps1 caps').
  - intros (w & caps1 & -> & Ma & _) K.
    apply (IHa (w ++ s')%string s' caps caps1); [exact Ma|].
    intros c. apply K.
Qed.

Lemma search_sound r s caps :
  Regex.search r s = Some caps ->
  exists pre m s', s = (pre ++ m)%string /\ RegexSpec.matches r m s' [] caps.
Proof.
  induction s as [|c s IH]; simpl.
  - destruct (Regex.matchHere r "") as [caps0|] eqn:E; [|discriminate].
    intros [= <-]. unfold Regex.matchHere in E. apply run_sound in E.
    destruct E as (s' & caps' & M & [= <-]). now exists "", "", s'.
  - destruct (Regex.matchHere r (String c s)) as [caps0|] eqn:E.
    + intros [= <-]. unfold Regex.matchHere in E. apply run_sound in E.
      destruct E as (s' & caps' & M & [= <-]). now exists "", (String c s), s'.
    + intros S. destruct (IH S) as (pre & m & s' & -> & M).
      now exists (String c pre), m, s'.
Qed.

Lemma search_complete r pre m s' caps :
  RegexSpec.matches r m s' [] caps ->
  Regex.search r (pre ++ m) <> None.
Proof.
  intros M.
  assert (H : Regex.matchHere r m <> None).
  { unfold Regex.matchHere. apply (run_complete r m s' [] caps); [exact M|]. discriminate. }
  induction pre as [|c pre IH]; simpl.
  - destruct m as [|d m]; simpl; destruct (Regex.matchHere r _); (discriminate || now elim H).
  - destruct (Regex.matchHere r (String c (pre ++ m))); [discriminate | exact IH].
Qed.

End Matcher.

(** ** The field parsers *)

Section FieldParsers.

Lemma lit_matches_caps l s s' caps caps' :
  RegexSpec.matches (Regex.lit l) s s' caps caps' -> caps' = caps.
Proof.
  revert s caps. induction l as [|x l IH]; intros s caps; simpl.
  - now intros [_ ->].
  - intros (s1 & caps1 & (c & _ & _ & ->) & M). now apply IH in M.
Qed.

Lemma litIgnoreCase_matches_caps l s s' caps caps' :
  RegexSpec.matches (Regex.litIgnoreCase l) s s' caps caps' -> caps' = caps.
Proof.
  revert s caps. induction l as [|x l IH]; intros s caps; simpl.
  - now intros [_ ->].
  - intros (s1 & caps1 & (c & _ & _ & ->) & M). now apply IH in M.
Qed.

Lemma lit_matches l s caps :
  RegexSpec.matches (Regex.lit l) (l ++ s) s caps caps.
Proof.
  induction l as [|x l IH]; simpl; [now split|].
  exists (l ++ s)%string, caps. split; [|exact IH].
  exists x. repeat split. unfold Regex.unit. apply N.eqb_refl.
Qed.

Lemma litIgnoreCase_matches pattern l s caps :
  Regex.canonical l = Regex.canonical pattern ->
  RegexSpec.matches (Regex.litIgnoreCase pattern) (l ++ s) s caps caps.
Proof.
  revert l. induction pattern as [|x pattern IH]; intros l E.
  - destruct l; [|discriminate]. simpl. now split.
  - destruct l as [|c l]; [discriminate|]. simpl in E. injection E as Ec El.
    simpl. exists (l ++ s)%string, caps. split; [|now apply IH].
    exists c. repeat split. unfold Regex.ignoreCase, Regex.unit.
    rewrite Ec. apply N.eqb_refl.
Qed.

(** The group captured by a pattern of the shape
    [literal \s+ (word)]. *)
Lemma captured_word (prefix word : Regex.t) m s' caps :
  (forall s s' caps caps',
      RegexSpec.matches prefix s s' caps caps' -> caps' = caps) ->
  (forall s s' caps caps',
      RegexSpec.matches word s s' caps caps' -> caps' = caps) ->
  RegexSpec.matches
    (Regex.Cat prefix (Regex.Cat (Regex.Plus Regex.space) (Regex.Grp word))) m s' [] caps ->
  exists w s1, caps = [w] /\ RegexSpec.matches word (w ++ s1) s1 [] [].
Proof.
  intros HP HW M. simpl in M.
  destruct M as (s1 & caps1 & Mp & s2 & caps2 & (ws & _ & _ & _ & ->) & w & caps3
                 & -> & Mw & ->).
  apply HP in Mp. subst caps1.
  pose proof (HW _ _ _ _ Mw) as ->.
  exists w, s'. now split.
Qed.

(** Only an ASCII code unit has a canonical form in the ASCII range, and
    there canonicalizing is upper-casing. *)
Lemma canonicalize_small c :
  (Regex.canonicalize c < 128)%N ->
  (c < 128)%N
  /\ Regex.canonicalize c = (if ((97 <=? c) && (c <=? 122))%N then (c - 32)%N else c)
  /\ JS.uppercaseOfUnit c = String (Regex.canonicalize c) "".
Proof.
  unfold Regex.canonicalize, JS.uppercaseOfUnit.
  destruct (N.ltb_spec c 128) as [A|A].
  - replace ((128 <=? c)%N) with false by (symmetry; apply N.leb_gt; exact A).
    cbn [andb]. now repeat split.
  - replace ((128 <=? c)%N) with true by (symmetry; apply N.leb_le; exact A).
    cbn [andb]. intros H. exfalso.
    destruct (find _ JS.upperCaseMapping) as [e|].
    + destruct (String.ofUnits (snd e)) as [|u [|u' r]]; try lia.
      destruct (N.ltb_spec u 128); lia.
    + destruct (N.ltb_spec c 128); lia.
Qed.

Lemma alnum_ascii c :
  Regex.ignoreCase (fun c => Regex.upper c || Regex.digit c) c = true ->
  (c < 128)%N /\ JS.isWhiteSpace c = false
  /\ JS.uppercaseOfUnit c = String (Regex.canonicalize c) "".
Proof.
  unfold Regex.ignoreCase, Regex.upper, Regex.digit. intros H.
  assert (S : (Regex.canonicalize c < 128)%N).
  { apply orb_true_iff in H. destruct H as [H|H];
      apply andb_true_iff in H; destruct H as [_ H]; apply N.leb_le in H; lia. }
  destruct (canonicalize_small c S) as (A & E & U).
  split; [exact A|]. split; [|exact U].
  rewrite E in H. apply not_whiteSpace.
  destruct ((97 <=? c)%N && (c <=? 122)%N) eqn:L.
  - apply andb_true_iff in L. destruct L as [L1 L2]. apply N.leb_le in L1, L2.
    simpl. lia.
  - apply orb_true_iff in H. destruct H as [H|H];
      apply andb_true_iff in H; destruct H as [H1 H2]; apply N.leb_le in H1, H2;
      simpl; lia.
Qed.

Lemma alnum_not_space c :
  Regex.ignoreCase (fun c => Regex.upper c || Regex.digit c) c = true ->
  JS.isWhiteSpace c = false.
Proof. intros H. now apply alnum_ascii in H. Qed.

(** On letters and digits of the ASCII range [toUpperCase] works code unit
    by code unit. *)
Lemma toUpperCase_alnum w :
  RegexSpec.all (Regex.ignoreCase (fun c => Regex.upper c || Regex.digit c)) w = true ->
  JS.toUpperCase w = Regex.canonical w.
Proof.
  induction w as [|c w IH]; [reflexivity|]. simpl RegexSpec.all. intros A.
  apply andb_true_iff in A. destruct A as [P A].
  destruct (alnum_ascii c P) as (S & _ & U).
  rewrite toUpperCase_unit.
  - rewrite U, (IH A). reflexivity.
  - unfold JS.leadsPair, JS.isHighSurrogate.
    replace ((0xD800 <=? c)%N) with false by (symmetry; apply N.leb_gt; lia).
    reflexivity.
Qed.

Lemma trimEnd_unspaced p w :
  (forall c, p c = true -> JS.isWhiteSpace c = false) ->
  RegexSpec.all p w = true -> JS.trimEnd w = w.
Proof.
  intros H. induction w as [|c w IH]; [reflexivity|].
  simpl. intros A. apply andb_true_iff in A. destruct A as [P A].
  rewrite (IH A). destruct w; [now rewrite (H c P) | reflexivity].
Qed.

Lemma trim_unspaced p w :
  (forall c, p c = true -> JS.isWhiteSpace c = false) ->
  RegexSpec.all p w = true -> JS.trim w = w.
Proof.
  intros H A. unfold JS.trim.
  replace (JS.trimStart w) with w.
  - now apply trimEnd_unspaced with (p := p).
  - destruct w as [|c w]; [reflexivity|]. simpl in *.
    apply andb_true_iff in A. destruct A as [P _]. now rewrite (H c P).
Qed.

Lemma all_toUpperCase w :
  RegexSpec.all (Regex.ignoreCase (fun c => Regex.upper c || Regex.digit c)) w = true ->
  RegexSpec.all (fun c => Regex.upper c || Regex.digit c) (JS.toUpperCase w) = true.
Proof.
  intros A. rewrite (toUpperCase_alnum w A). revert A.
  induction w as [|c w IH]; [reflexivity|]. simpl. intros A.
  apply andb_true_iff in A. destruct A as [P A].
  unfold Regex.ignoreCase in P. rewrite P. now apply IH.
Qed.

Lemma canonical_length w : String.length (Regex.canonical w) = String.length w.
Proof. induction w as [|c w IH]; simpl; [reflexivity | now rewrite IH]. Qed.

(** What the search for the TrxID pattern captures. *)
Lemma trxid_captured sms caps :
  Regex.search SMS_PATTERNS.trxid sms = Some caps ->
  exists w, caps = [w] /\ w <> ""
            /\ RegexSpec.all (Regex.ignoreCase (fun c => Regex.upper c || Regex.digit c)) w
               = true.
Proof.
  intros S. apply search_sound in S. destruct S as (pre & m & s' & _ & M).
  apply captured_word in M.
  - destruct M as (w & s1 & -> & w0 & N & A & E & _).
    apply append_cancel_r in E. subst w0. now exists w.
  - apply litIgnoreCase_matches_caps.
  - intros s s0 c c' (w & _ & _ & _ & ->). reflexivity.
Qed.

Lemma parseTrxID_value sms v :
  parseTrxID sms = Value v ->
  v <> ""
  /\ normalizeTrxID v = v
  /\ RegexSpec.all (fun c => Regex.upper c || Regex.digit c) v = true.
Proof.
  unfold parseTrxID.
  destruct (Regex.search SMS_PATTERNS.trxid sms) as [caps|] eqn:S; [|discriminate].
  destruct (trxid_captured sms caps S) as (w & -> & N & A).
  cbv zeta. unfold Regex.group. simpl nth.
  destruct (String.length _ =? 0)%nat; [discriminate|].
  intros [= <-].
  rewrite (trim_unspaced _ w alnum_not_space A).
  split; [|split].
  - intros E. apply toUpperCase_empty in E. now apply N.
  - unfold normalizeTrxID. rewrite trim_toUpperCase, toUpperCase_idem.
    now rewrite (trim_unspaced _ w alnum_not_space A).
  - now apply all_toUpperCase.
Qed.

Lemma parseTrxID_never_empty sms : parseTrxID sms <> Failure "TrxID is empty".
Proof.
  unfold parseTrxID.
  destruct (Regex.search SMS_PATTERNS.trxid sms) as [caps|] eqn:S; [|discriminate].
  destruct (trxid_captured sms caps S) as (w & -> & N & A).
  cbv zeta. unfold Regex.group. simpl nth.
  rewrite (trim_unspaced _ w alnum_not_space A), (toUpperCase_alnum w A), canonical_length.
  destruct w; [now elim N | discriminate].
Qed.

Lemma parseTrxID_found pre l ws g rest :
  Regex.canonical l = "TRXID" ->
  ws <> "" -> RegexSpec.all Regex.space ws = true ->
  g <> "" ->
  RegexSpec.all (Regex.ignoreCase (fun c => Regex.upper c || Regex.digit c)) g = true ->
  exists v, parseTrxID (pre ++ l ++ ws ++ g ++ rest) = Value v.
Proof.
  intros L NW AW NG AG.
  assert (S : Regex.search SMS_PATTERNS.trxid (pre ++ l ++ ws ++ g ++ rest) <> None).
  { apply search_complete with (s' := rest) (caps := [g]).
    unfold SMS_PATTERNS.trxid. simpl RegexSpec.matches.
    exists (ws ++ g ++ rest)%string, []. split.
    { apply (litIgnoreCase_matches "TrxID"). rewrite L. reflexivity. }
    exists (g ++ rest)%string, []. split; [now exists ws|].
    exists g, []. split; [reflexivity|]. split; [now exists g | reflexivity]. }
  pose proof (parseTrxID_never_empty (pre ++ l ++ ws ++ g ++ rest)) as NE.
  unfold parseTrxID in *.
  destruct (Regex.search SMS_PATTERNS.trxid _) as [caps|]; [|now elim S].
  cbv zeta in *. destruct (String.length _ =? 0)%nat; [now elim NE|].
  eexists. reflexivity.
Qed.

(** [parseTrxID] returns a reference that is already normalised: not
    empty, made of upper-case letters and digits, and left unchanged by
    [normalizeTrxID]; its "TrxID is empty" branch is never taken.  It
    finds a reference in every text that has the word TrxID, in any
    letter case, followed by white space and a letter or digit. *)
Theorem parseTrxID_normalised :
  (forall sms v,
      parseTrxID sms = Value v ->
      v <> "" /\ normalizeTrxID v = v
      /\ RegexSpec.all (fun c => Regex.upper c || Regex.digit c) v = true)
  /\ (forall sms, parseTrxID sms <> Failure "TrxID is empty")
  /\ (forall pre l ws g rest,
        Regex.canonical l = "TRXID" ->
        ws <> "" -> RegexSpec.all Regex.space ws = true ->
        g <> "" ->
        RegexSpec.all (Regex.ignoreCase (fun c => Regex.upper c || Regex.digit c)) g = true ->
        exists v, parseTrxID (pre ++ l ++ ws ++ g ++ rest) = Value v).
Proof.
  split; [exact parseTrxID_value|]. split; [exact parseTrxID_never_empty|].
  exact parseTrxID_found.
Qed.

Lemma parseTrxID_normalised_witness :
  normalizeTrxID "ABC123XYZ" = "ABC123XYZ"
  /\ exists v, parseTrxID ("Balance Tk 500.00. " ++ "trxid" ++ "  " ++ "abc123xyz"
                           ++ " at 01/11/2025 10:30") = Value v.
Proof.
  destruct parseTrxID_normalised as (A & _ & B). split.
  - apply (A "Balance Tk 500.00. TrxID abc123xyz at 01/11/2025 10:30"). reflexivity.
  - apply B; try reflexivity; discriminate.
Defined.

(** What the search for the sender pattern captures. *)
Lemma sender_captured sms caps :
  Regex.search SMS_PATTERNS.sender sms = Some caps ->
  exists w, caps = [w] /\ String.length w = 11%nat
            /\ RegexSpec.all Regex.digit w = true.
Proof.
  intros S. apply search_sound in S. destruct S as (pre & m & s' & _ & M).
  apply captured_word in M.
  - destruct M as (w & s1 & -> & w0 & L & A & E & _).
    apply append_cancel_r in E. subst w0. now exists w.
  - apply lit_matches_caps.
  - intros s s0 c c' (w & _ & _ & _ & ->). reflexivity.
Qed.

Lemma parseSenderPhone_captured sms caps :
  Regex.search SMS_PATTERNS.sender sms = Some caps ->
  parseSenderPhone sms = Value (Regex.group 1 caps)
  /\ String.length (Regex.group 1 caps) = 11%nat
  /\ RegexSpec.all Regex.digit (Regex.group 1 caps) = true.
Proof.
  intros S. unfold parseSenderPhone. rewrite S.
  destruct (sender_captured sms caps S) as (w & -> & L & A).
  cbv zeta. unfold Regex.group. simpl nth. rewrite L. simpl. now repeat split.
Qed.

Lemma parseSenderPhone_value sms v :
  parseSenderPhone sms = Value v ->
  String.length v = 11%nat /\ RegexSpec.all Regex.digit v = true.
Proof.
  destruct (Regex.search SMS_PATTERNS.sender sms) as [caps|] eqn:S.
  - destruct (parseSenderPhone_captured sms caps S) as (-> & L & A). now intros [= <-].
  - unfold parseSenderPhone. rewrite S. discriminate.
Qed.

Lemma parseSenderPhone_failure sms e :
  parseSenderPhone sms = Failure e -> e = "Sender phone number not found in SMS".
Proof.
  destruct (Regex.search SMS_PATTERNS.sender sms) as [caps|] eqn:S.
  - destruct (parseSenderPhone_captured sms caps S) as (-> & _). discriminate.
  - unfold parseSenderPhone. rewrite S. now intros [= <-].
Qed.

Lemma parseTrxID_failure sms e :
  parseTrxID sms = Failure e -> e = "TrxID not found in SMS".
Proof.
  pose proof (parseTrxID_never_empty sms) as NE. unfold parseTrxID in *.
  destruct (Regex.search SMS_PATTERNS.trxid sms) as [caps|]; [|now intros [= <-]].
  cbv zeta in *. destruct (String.length _ =? 0)%nat; [now elim NE | discriminate].
Qed.

(** [parseSenderPhone] returns exactly eleven decimal digits, and its
    only failure is that no sender was found: the length check after the
    match never fails.  It finds a sender in every text that has the word
    [from] followed by white space and eleven digits. *)
Theorem parseSenderPhone_eleven_digits :
  (forall sms v,
      parseSenderPhone sms = Value v ->
      String.length v = 11%nat /\ RegexSpec.all Regex.digit v = true)
  /\ (forall sms e,
        parseSenderPhone sms = Failure e -> e = "Sender phone number not found in SMS")
  /\ (forall pre ws d rest,
        ws <> "" -> RegexSpec.all Regex.space ws = true ->
        String.length d = 11%nat -> RegexSpec.all Regex.digit d = true ->
        exists v, parseSenderPhone (pre ++ "from" ++ ws ++ d ++ rest) = Value v).
Proof.
  split; [exact parseSenderPhone_value|]. split; [exact parseSenderPhone_failure|].
  intros pre ws d rest NW AW L A.
  assert (S : Regex.search SMS_PATTERNS.sender (pre ++ "from" ++ ws ++ d ++ rest) <> None).
  { apply search_complete with (s' := rest) (caps := [d]).
    unfold SMS_PATTERNS.sender. simpl RegexSpec.matches.
    exists (ws ++ d ++ rest)%string, []. split; [apply (lit_matches "from")|].
    exists (d ++ rest)%string, []. split; [now exists ws|].
    exists d, []. split; [reflexivity|]. split; [now exists d | reflexivity]. }
  destruct (Regex.search SMS_PATTERNS.sender _) as [caps|] eqn:E; [|now elim S].
  destruct (parseSenderPhone_captured _ caps E) as (-> & _). eexists. reflexivity.
Qed.

Lemma parseSenderPhone_eleven_digits_witness :
  String.length "01533817247" = 11%nat
  /\ exists v, parseSenderPhone ("You have received Tk 500.00 " ++ "from" ++ " "
                                 ++ "01533817247" ++ ". Fee Tk 0.00.") = Value v.
Proof.
  destruct parseSenderPhone_eleven_digits as (A & _ & B). split.
  - apply (A "You have received Tk 500.00 from 01533817247. Fee Tk 0.00."). reflexivity.
  - apply B; try reflexivity; discriminate.
Defined.

(** ** parseBkashSMS *)

Lemma parseBkashSMS_ok amountCents eventTime raw d :
  parseBkashSMS amountCents eventTime raw = ParseOk d ->
  JS.trim raw <> ""
  /\ parseAmount amountCents (JS.trim raw) = Value (p_amount_cents d)
  /\ parseSenderPhone (JS.trim raw) = Value (p_sender_phone d)
  /\ parseTrxID (JS.trim raw) = Value (p_trxid d)
  /\ parseTimestamp eventTime (JS.trim raw) = Value (p_received_at d).
Proof.
  unfold parseBkashSMS. cbv zeta.
  destruct (StringFacts.eqb_spec (JS.trim raw) ""); [discriminate|].
  destruct (parseAmount _ _); [|discriminate].
  destruct (parseSenderPhone _); [|discriminate].
  destruct (parseTrxID _); [|discriminate].
  destruct (parseTimestamp _ _); [|discriminate].
  intros [= <-]. now repeat split.
Qed.

Lemma parseBkashSMS_reference amountCents eventTime raw d :
  parseBkashSMS amountCents eventTime raw = ParseOk d ->
  p_trxid d <> "" /\ normalizeTrxID (p_trxid d) = p_trxid d.
Proof.
  intros P. apply parseBkashSMS_ok in P. destruct P as (_ & _ & _ & T & _).
  apply parseTrxID_value in T. destruct T as (N & E & _). now split.
Qed.

(** The outcome of [parseBkashSMS], whatever the arithmetic of the amount
    and of the date gives.  White space around the text does not count.
    Parsed data carry a reference that is not empty and already
    normalised, a sender of eleven digits, and the amount and time of the
    trimmed text.  An error names the first field that fails, in the order
    text, amount, sender, reference, time: the fields before it were
    parsed from the trimmed text, its message is the failure of its own
    parser, and its raw value is the trimmed text (none for an empty
    text).  For the sender and the reference the only message is that the
    field was not found. *)
Theorem parseBkashSMS_outcome
        (amountCents eventTime : string -> Parsed Z) (raw : string) :
  parseBkashSMS amountCents eventTime (JS.trim raw)
  = parseBkashSMS amountCents eventTime raw
  /\ match parseBkashSMS amountCents eventTime raw with
     | ParseOk d =>
         JS.trim raw <> ""
         /\ p_trxid d <> "" /\ normalizeTrxID (p_trxid d) = p_trxid d
         /\ String.length (p_sender_phone d) = 11%nat
         /\ RegexSpec.all Regex.digit (p_sender_phone d) = true
         /\ parseAmount amountCents (JS.trim raw) = Value (p_amount_cents d)
         /\ parseSenderPhone (JS.trim raw) = Value (p_sender_phone d)
         /\ parseTrxID (JS.trim raw) = Value (p_trxid d)
         /\ parseTimestamp eventTime (JS.trim raw) = Value (p_received_at d)
     | ParseError field message raw_value =>
         (JS.trim raw = "" /\ field = "raw_sms" /\ message = "SMS text is empty"
          /\ raw_value = None)
         \/ (JS.trim raw <> "" /\ raw_value = Some (JS.trim raw)
             /\ ((field = "amount"
                  /\ parseAmount amountCents (JS.trim raw) = Failure message)
                 \/ (field = "sender_phone"
                     /\ (exists amount,
                            parseAmount amountCents (JS.trim raw) = Value amount)
                     /\ parseSenderPhone (JS.trim raw) = Failure message
                     /\ message = "Sender phone number not found in SMS")
                 \/ (field = "trxid"
                     /\ (exists amount,
                            parseAmount amountCents (JS.trim raw) = Value amount)
                     /\ (exists sender, parseSenderPhone (JS.trim raw) = Value sender)
                     /\ parseTrxID (JS.trim raw) = Failure message
                     /\ message = "TrxID not found in SMS")
                 \/ (field = "timestamp"
                     /\ (exists amount,
                            parseAmount amountCents (JS.trim raw) = Value amount)
                     /\ (exists sender, parseSenderPhone (JS.trim raw) = Value sender)
                     /\ (exists trxid, parseTrxID (JS.trim raw) = Value trxid)
                     /\ parseTimestamp eventTime (JS.trim raw) = Failure message)))
     end.
Proof.
  split.
  { unfold parseBkashSMS. now rewrite trim_idem. }
  destruct (parseBkashSMS amountCents eventTime raw) as [d|field message raw_value] eqn:P.
  - pose proof (parseBkashSMS_reference _ _ _ _ P) as (N & E).
    apply parseBkashSMS_ok in P. destruct P as (NE & A & S & X & T).
    pose proof S as S'.
    apply parseSenderPhone_value in S'. destruct S' as (L & D).
    now repeat split.
  - revert P. unfold parseBkashSMS. cbv zeta.
    destruct (StringFacts.eqb_spec (JS.trim raw) "") as [E|NE].
    { intros [= <- <- <-]. left. now repeat split. }
    intros P. right.
    destruct (parseAmount _ _) as [a|e] eqn:A.
    2:{ injection P as <- <- <-. split; [exact NE|]. split; [reflexivity|]. left. now split. }
    destruct (parseSenderPhone _) as [s|e] eqn:S.
    2:{ injection P as <- <- <-. split; [exact NE|]. split; [reflexivity|]. right. left.
        split; [reflexivity|]. split; [now exists a|]. split; [reflexivity|].
        now apply parseSenderPhone_failure in S. }
    destruct (parseTrxID _) as [t|e] eqn:T.
    2:{ injection P as <- <- <-. split; [exact NE|]. split; [reflexivity|]. right. right. left.
        split; [reflexivity|]. split; [now exists a|]. split; [now exists s|].
        split; [reflexivity|]. now apply parseTrxID_failure in T. }
    destruct (parseTimestamp _ _) as [r|e] eqn:R; [discriminate|].
    injection P as <- <- <-. split; [exact NE|]. split; [reflexivity|]. right. right. right.
    split; [reflexivity|]. split; [now exists a|]. split; [now exists s|].
    split; [now exists t|]. reflexivity.
Qed.

End FieldParsers.

(** * The SMS webhook *)

Section Webhook.

Variable amountCents eventTime : string -> Parsed Z.

Lemma webhook_accepted_inv raw recv id now db isNew tx parsed a v :
  valueOf (handleWebhookSMS amountCents eventTime raw recv id now db)
  = WebhookAccepted isNew tx parsed a v ->
  exists raw' recv' db1,
    JS.orNull raw = Some raw' /\ JS.orNull recv = Some recv'
    /\ ReceiversService.isValidReceiver recv' db = true
    /\ parseBkashSMS amountCents eventTime raw' = ParseOk parsed
    /\ 0 < p_amount_cents parsed
    /\ TransactionsService.create
         (TransactionsService.mkData (p_trxid parsed) (p_amount_cents parsed) recv'
                                     (p_sender_phone parsed) (p_received_at parsed))
         id now db = inr (db1, tx, isNew)
    /\ handleWebhookSMS amountCents eventTime raw recv id now db
       = (storeAfter (verifyIncomingTransaction (Transaction.id tx) now db1),
          callsOf (verifyIncomingTransaction (Transaction.id tx) now db1),
          WebhookAccepted isNew tx parsed
            (List.length (valueOf (verifyIncomingTransaction (Transaction.id tx) now db1)))
            (List.length
               (filter success
                       (valueOf (verifyIncomingTransaction (Transaction.id tx) now db1))))).
Proof.
  unfold handleWebhookSMS.
  destruct (JS.orNull raw) as [raw'|]; [|discriminate].
  destruct (JS.orNull recv) as [recv'|]; [|discriminate].
  destruct (ReceiversService.isValidReceiver recv' db) eqn:V; [|discriminate].
  cbn [negb].
  destruct (parseBkashSMS amountCents eventTime raw') as [p|] eqn:P; [|discriminate].
  destruct (Z.leb_spec (p_amount_cents p) 0) as [|POS]; [discriminate|].
  destruct (TransactionsService.create _ id now db) as [e|[[db1 x] n]] eqn:C; [discriminate|].
  destruct (verifyIncomingTransaction (Transaction.id x) now db1) as [[db2 calls] rs] eqn:VI.
  unfold valueOf at 1. cbn [snd]. intros [= -> -> -> <- <-].
  exists raw', recv', db1. rewrite VI.
  unfold storeAfter, callsOf, valueOf. cbn [fst snd]. now repeat split.
Qed.

Lemma webhook_rejected raw recv id now db :
  match valueOf (handleWebhookSMS amountCents eventTime raw recv id now db) with
  | WebhookAccepted _ _ _ _ _ => True
  | _ =>
      storeAfter (handleWebhookSMS amountCents eventTime raw recv id now db) = db
      /\ callsOf (handleWebhookSMS amountCents eventTime raw recv id now db) = []
  end.
Proof.
  unfold handleWebhookSMS.
  destruct (JS.orNull raw) as [raw'|]; [|now split].
  destruct (JS.orNull recv) as [recv'|]; [|now split].
  destruct (ReceiversService.isValidReceiver recv' db); [|now split].
  cbn [negb].
  destruct (parseBkashSMS amountCents eventTime raw') as [p|]; [|now split].
  destruct (p_amount_cents p <=? 0); [now split|].
  destruct (TransactionsService.create _ id now db) as [e|[[db1 x] n]]; [now split|].
  destruct (verifyIncomingTransaction (Transaction.id x) now db1) as [[db2 calls] rs].
  exact I.
Qed.

Lemma create_raises_on_collision data id now db e :
  ReceiversService.isValidReceiver (TransactionsService.d_receiver_phone data) db = true ->
  TransactionsService.create data id now db = inl e ->
  TransactionsService.getByID id db <> None.
Proof.
  intros V. unfold TransactionsService.create, TransactionsService.insert.
  simpl Transaction.id. simpl Transaction.trxid. simpl Transaction.receiver_phone.
  rewrite V. cbn [negb].
  destruct (existsb (fun y => (Transaction.id y =? id)%string) (transactions_table db)) eqn:EI.
  - intros _ G. apply find_none_existsb in G. congruence.
  - destruct (existsb (fun y => (Transaction.trxid y =? _)%string) (transactions_table db))
      eqn:ET; [|discriminate].
    simpl. destruct (TransactionsService.getByTrxID _ db) eqn:G; [discriminate|].
    apply find_none_existsb in G. congruence.
Qed.

(** Every answer of the webhook other than the accepted one leaves the
    store as it was and makes no call.  Without one of the two fields (or
    with an empty one) the answer is the 400 for missing fields; for a
    phone that is no receiver it is a 400; and, the body being parsed and
    the store answering, the 500 arises only when the fresh id is already
    taken: the receiver was checked before the insert, so its foreign key
    holds. *)
Theorem webhook_rejects_without_writing
        (raw recv : option string) (id : string) (now : Z) (db : DB) :
  match valueOf (handleWebhookSMS amountCents eventTime raw recv id now db) with
  | WebhookAccepted _ _ _ _ _ => True
  | _ =>
      storeAfter (handleWebhookSMS amountCents eventTime raw recv id now db) = db
      /\ callsOf (handleWebhookSMS amountCents eventTime raw recv id now db) = []
  end
  /\ (JS.orNull raw = None \/ JS.orNull recv = None ->
      valueOf (handleWebhookSMS amountCents eventTime raw recv id now db)
      = WebhookBadRequest "Missing required fields: raw_sms and receiver_phone")
  /\ (forall phone,
        JS.orNull recv = Some phone ->
        ReceiversService.getByPhone phone db = None ->
        exists e,
          valueOf (handleWebhookSMS amountCents eventTime raw recv id now db)
          = WebhookBadRequest e)
  /\ (valueOf (handleWebhookSMS amountCents eventTime raw recv id now db)
      = WebhookServerError ->
      TransactionsService.getByID id db <> None).
Proof.
  split; [apply webhook_rejected|]. split; [|split].
  - unfold handleWebhookSMS. intros [-> | ->]; [reflexivity|].
    now destruct (JS.orNull raw).
  - intros phone R G. unfold handleWebhookSMS, ReceiversService.isValidReceiver.
    rewrite R, G. cbn [negb]. destruct (JS.orNull raw); eexists; reflexivity.
  - unfold handleWebhookSMS.
    destruct (JS.orNull raw) as [raw'|]; [|discriminate].
    destruct (JS.orNull recv) as [recv'|]; [|discriminate].
    destruct (ReceiversService.isValidReceiver recv' db) eqn:V; [|discriminate].
    cbn [negb].
    destruct (parseBkashSMS amountCents eventTime raw') as [p|]; [|discriminate].
    destruct (p_amount_cents p <=? 0); [discriminate|].
    destruct (TransactionsService.create _ id now db) as [e|[[db1 x] n]] eqn:C.
    + intros _. apply create_raises_on_collision in C; [exact C | exact V].
    + destruct (verifyIncomingTransaction (Transaction.id x) now db1) as [[db2 calls] rs].
      discriminate.
Qed.

Lemma find_unique_key {A} (key : A -> string) (l : list A) (x : A) :
  NoDup (map key l) -> In x l ->
  find (fun y => (key y =? key x)%string) l = Some x.
Proof.
  induction l as [|y l IH]; simpl; [contradiction|].
  intros N [-> | I].
  - now rewrite StringFacts.eqb_refl.
  - inversion N as [|? ? NI N']. subst.
    destruct (StringFacts.eqb_spec (key y) (key x)) as [E|_].
    + elim NI. rewrite E. now apply in_map.
    + now apply IH.
Qed.

(** The receipt [create] returns is the one both lookups give afterwards;
    sessions and receivers are as before. *)
Lemma created_receipt data id now db db1 x isNew :
  receiptsKeyed db ->
  TransactionsService.create data id now db = inr (db1, x, isNew) ->
  TransactionsService.getByID (Transaction.id x) db1 = Some x
  /\ TransactionsService.getByTrxID (TransactionsService.d_trxid data) db1 = Some x
  /\ Transaction.trxid x = TransactionsService.d_trxid data
  /\ receivers_table db1 = receivers_table db
  /\ tracking_table db1 = tracking_table db.
Proof.
  intros (UI & _ & _) C. apply create_outcome in C.
  destruct C as [(-> & -> & G) | (-> & X & -> & EI & ET & V)].
  - destruct (getByTrxID_found _ _ _ G) as [I E].
    split; [|now repeat split].
    unfold TransactionsService.getByID. now apply find_unique_key.
  - unfold TransactionsService.getByID, TransactionsService.getByTrxID.
    simpl transactions_table.
    assert (EX : Transaction.id x = id) by now subst x.
    assert (TX : Transaction.trxid x = TransactionsService.d_trxid data) by now subst x.
    rewrite EX. split; [|split; [|now repeat split]].
    + apply find_app_new; [exact EI | rewrite EX; apply StringFacts.eqb_refl].
    + apply find_app_new; [exact ET | rewrite TX; apply StringFacts.eqb_refl].
Qed.

(** The store after an accepted delivery. *)
Lemma webhook_accepted_store raw recv id now db isNew tx parsed a v :
  receiptsKeyed db ->
  valueOf (handleWebhookSMS amountCents eventTime raw recv id now db)
  = WebhookAccepted isNew tx parsed a v ->
  exists raw' recv' db2,
    JS.orNull raw = Some raw' /\ JS.orNull recv = Some recv'
    /\ parseBkashSMS amountCents eventTime raw' = ParseOk parsed
    /\ 0 < p_amount_cents parsed
    /\ storeAfter (handleWebhookSMS amountCents eventTime raw recv id now db) = db2
    /\ ReceiversService.isValidReceiver recv' db2 = true
    /\ TransactionsService.getByID (Transaction.id tx) db2 = Some tx
    /\ TransactionsService.getByTrxID (p_trxid parsed) db2 = Some tx
    /\ Transaction.trxid tx = p_trxid parsed
    /\ TrackingService.findByTrxID (p_trxid parsed) db2 = []
    /\ (1 <= a)%nat /\ (v <= a)%nat.
Proof.
  intros K A.
  destruct (webhook_accepted_inv _ _ _ _ _ _ _ _ _ _ A)
    as (raw' & recv' & db1 & OR & OV & V & P & POS & C & H).
  destruct (created_receipt _ _ _ _ _ _ _ K C) as (GI & GT & TX & RT & ST).
  simpl TransactionsService.d_trxid in *.
  pose proof (keepsKeys_verifyIncomingTransaction now (Transaction.id tx) db1)
    as (K1 & K2 & _).
  destruct (ingestion_settled now (Transaction.id tx) tx db1 GI) as (D & W1 & W0 & _).
  destruct (parseBkashSMS_reference _ _ _ _ P) as (_ & NT).
  rewrite TX, NT in D, W1, W0.
  exists raw', recv', (storeAfter (verifyIncomingTransaction (Transaction.id tx) now db1)).
  split; [exact OR|]. split; [exact OV|]. split; [exact P|]. split; [exact POS|].
  split; [now rewrite H|].
  split.
  { unfold ReceiversService.isValidReceiver, ReceiversService.getByPhone in *.
    now rewrite K2, RT. }
  split.
  { unfold TransactionsService.getByID in *. now rewrite K1. }
  split.
  { unfold TransactionsService.getByTrxID in *. now rewrite K1. }
  split; [exact TX|]. split; [exact D|].
  rewrite H in A. unfold valueOf at 1 in A. cbn [snd] in A.
  injection A as <- <-.
  split; [|apply List.filter_length_le].
  destruct (TrackingService.findByTrxID (p_trxid parsed) db1) as [|s l] eqn:F.
  - destruct (W0 eq_refl) as (_ & _ & r & -> & _). simpl. lia.
  - destruct W1 as [-> _]; [discriminate|]. simpl. lia.
Qed.

(** An accepted delivery, in a store that satisfies the constraints of
    the receipts table: the text parsed, the amount is positive, the
    returned receipt carries the parsed reference and is what a lookup by
    that reference or by its id gives afterwards, no session is left
    waiting for the reference, at least one result and no more verified
    ones than results are counted, and the constraints still hold. *)
Theorem webhook_accepted_receipt
        (raw recv : option string) (id : string) (now : Z) (db : DB)
        (isNew : bool) (tx : Transaction.t) (parsed : ParsedSMS) (a v : nat) :
  receiptsKeyed db ->
  valueOf (handleWebhookSMS amountCents eventTime raw recv id now db)
  = WebhookAccepted isNew tx parsed a v ->
  (exists raw', JS.orNull raw = Some raw'
                /\ parseBkashSMS amountCents eventTime raw' = ParseOk parsed)
  /\ 0 < p_amount_cents parsed
  /\ Transaction.trxid tx = p_trxid parsed
  /\ TransactionsService.getByTrxID
       (p_trxid parsed)
       (storeAfter (handleWebhookSMS amountCents eventTime raw recv id now db)) = Some tx
  /\ TransactionsService.getByID
       (Transaction.id tx)
       (storeAfter (handleWebhookSMS amountCents eventTime raw recv id now db)) = Some tx
  /\ TrackingService.findByTrxID
       (p_trxid parsed)
       (storeAfter (handleWebhookSMS amountCents eventTime raw recv id now db)) = []
  /\ (1 <= a)%nat /\ (v <= a)%nat
  /\ receiptsKeyed (storeAfter (handleWebhookSMS amountCents eventTime raw recv id now db)).
Proof.
  intros K A.
  destruct (webhook_accepted_store _ _ _ _ _ _ _ _ _ _ K A)
    as (raw' & recv' & db2 & OR & OV & P & POS & S & V & GI & GT & TX & D & A1 & A2).
  rewrite S.
  split; [now exists raw'|]. split; [exact POS|]. split; [exact TX|].
  split; [exact GT|]. split; [exact GI|]. split; [exact D|].
  split; [exact A1|]. split; [exact A2|].
  destruct (webhook_accepted_inv _ _ _ _ _ _ _ _ _ _ A)
    as (raw2 & recv2 & db1 & _ & _ & _ & _ & _ & C & H).
  rewrite H in S. unfold storeAfter at 1 in S. cbn [fst] in S. subst db2.
  assert (K1 : receiptsKeyed db1).
  { destruct K as (UI & UT & FK). apply create_outcome in C.
    destruct C as [(-> & -> & G) | (-> & X & -> & EI & ET & VR)]; [now repeat split|].
    unfold receiptsKeyed. simpl transactions_table.
    rewrite !map_app. simpl map. split; [|split].
    - apply NoDup_snoc; [exact UI|].
      replace (Transaction.id tx) with id by now subst tx.
      apply (existsb_false_not_in Transaction.id String.eqb id);
        [apply StringFacts.eqb_eq | exact EI].
    - apply NoDup_snoc; [exact UT|].
      replace (Transaction.trxid tx) with (p_trxid parsed) by now subst tx.
      apply (existsb_false_not_in Transaction.trxid String.eqb);
        [apply StringFacts.eqb_eq | exact ET].
    - apply Forall_app. split; [exact FK|].
      constructor; [|constructor]. subst tx. exact VR. }
  pose proof (keepsKeys_verifyIncomingTransaction now (Transaction.id tx) db1)
    as (E1 & E2 & _).
  destruct K1 as (UI & UT & FK). unfold receiptsKeyed. rewrite E1.
  split; [exact UI|]. split; [exact UT|].
  revert FK. apply Forall_impl. intros y.
  unfold ReceiversService.isValidReceiver, ReceiversService.getByPhone. now rewrite E2.
Qed.

(** Redelivery is idempotent: after an accepted delivery, the same body
    delivered again, at any time and with any fresh id, leaves the store as
    it is, makes no call and answers with the same receipt, [is_new] false,
    one result counted and none verified. *)
Theorem webhook_redelivery_idempotent
        (raw recv : option string) (id : string) (now : Z) (db : DB)
        (isNew : bool) (tx : Transaction.t) (parsed : ParsedSMS) (a v : nat) :
  receiptsKeyed db ->
  valueOf (handleWebhookSMS amountCents eventTime raw recv id now db)
  = WebhookAccepted isNew tx parsed a v ->
  forall id' now',
    handleWebhookSMS amountCents eventTime raw recv id' now'
      (storeAfter (handleWebhookSMS amountCents eventTime raw recv id now db))
    = (storeAfter (handleWebhookSMS amountCents eventTime raw recv id now db), [],
       WebhookAccepted false tx parsed 1 0).
Proof.
  intros K A id' now'.
  destruct (webhook_accepted_store _ _ _ _ _ _ _ _ _ _ K A)
    as (raw' & recv' & db2 & OR & OV & P & POS & S & V & GI & GT & TX & D & _).
  rewrite S. unfold handleWebhookSMS. rewrite OR, OV, V, P. cbn [negb].
  destruct (Z.leb_spec (p_amount_cents parsed) 0) as [|_]; [lia|].
  rewrite (create_known _ tx id' now' db2) by exact GT.
  unfold verifyIncomingTransaction. rewrite GI.
  destruct (parseBkashSMS_reference _ _ _ _ P) as (_ & NT).
  cbv zeta. rewrite TX, NT, D. reflexivity.
Qed.

End Webhook.

Lemma webhook_accepted_receipt_witness :
  TransactionsService.getByTrxID
    "CJU0PZQ3U6"
    (storeAfter
       (handleWebhookSMS
          (fun _ => Value 100000) (fun _ => Value (Sample.t0 + 60000))
          (Some "You have received Tk 1,000.00 from 01533817247. Fee Tk 0.00. Balance Tk 1,000.00. TrxID CJU0PZQ3U6 at 30/10/2025 15:01")
          (Some "01785863769") "TX1" (Sample.t0 + 61000)
          (mkDB [Sample.receiver] []
                [Sample.session "S1" 100000 (Some "CJU0PZQ3U6") submitted_trx None None])))
  = Some (Transaction.mk "TX1" "CJU0PZQ3U6" 100000 "01785863769" (Some "01533817247")
                         (Sample.t0 + 60000) (Sample.t0 + 61000)).
Proof.
  refine (proj1 (proj2 (proj2 (proj2
            (webhook_accepted_receipt
               (fun _ => Value 100000) (fun _ => Value (Sample.t0 + 60000))
               (Some "You have received Tk 1,000.00 from 01533817247. Fee Tk 0.00. Balance Tk 1,000.00. TrxID CJU0PZQ3U6 at 30/10/2025 15:01")
               (Some "01785863769") "TX1" (Sample.t0 + 61000)
               (mkDB [Sample.receiver] []
                     [Sample.session "S1" 100000 (Some "CJU0PZQ3U6") submitted_trx None None])
               true
               (Transaction.mk "TX1" "CJU0PZQ3U6" 100000 "01785863769" (Some "01533817247")
                               (Sample.t0 + 60000) (Sample.t0 + 61000))
               (mkParsedSMS 100000 "CJU0PZQ3U6" "01533817247" (Sample.t0 + 60000))
               1%nat 1%nat _ _))))).
  - unfold receiptsKeyed. simpl. repeat constructor.
  - vm_compute. reflexivity.
Defined.

Lemma webhook_redelivery_idempotent_witness :
  valueOf
    (handleWebhookSMS
       (fun _ => Value 100000) (fun _ => Value (Sample.t0 + 60000))
       (Some "You have received Tk 1,000.00 from 01533817247. Fee Tk 0.00. Balance Tk 1,000.00. TrxID CJU0PZQ3U6 at 30/10/2025 15:01")
       (Some "01785863769") "TX2" (Sample.t0 + 90000)
       (storeAfter
          (handleWebhookSMS
             (fun _ => Value 100000) (fun _ => Value (Sample.t0 + 60000))
             (Some "You have received Tk 1,000.00 from 01533817247. Fee Tk 0.00. Balance Tk 1,000.00. TrxID CJU0PZQ3U6 at 30/10/2025 15:01")
             (Some "01785863769") "TX1" (Sample.t0 + 61000)
             (mkDB [Sample.receiver] []
                   [Sample.session "S1" 100000 (Some "CJU0PZQ3U6") submitted_trx None None]))))
  = WebhookAccepted false
      (Transaction.mk "TX1" "CJU0PZQ3U6" 100000 "01785863769" (Some "01533817247")
                      (Sample.t0 + 60000) (Sample.t0 + 61000))
      (mkParsedSMS 100000 "CJU0PZQ3U6" "01533817247" (Sample.t0 + 60000)) 1 0.
Proof.
  rewrite (webhook_redelivery_idempotent
             (fun _ => Value 100000) (fun _ => Value (Sample.t0 + 60000))
             (Some "You have received Tk 1,000.00 from 01533817247. Fee Tk 0.00. Balance Tk 1,000.00. TrxID CJU0PZQ3U6 at 30/10/2025 15:01")
             (Some "01785863769") "TX1" (Sample.t0 + 61000)
             (mkDB [Sample.receiver] []
                   [Sample.session "S1" 100000 (Some "CJU0PZQ3U6") submitted_trx None None])
             true
             (Transaction.mk "TX1" "CJU0PZQ3U6" 100000 "01785863769" (Some "01533817247")
                             (Sample.t0 + 60000) (Sample.t0 + 61000))
             (mkParsedSMS 100000 "CJU0PZQ3U6" "01533817247" (Sample.t0 + 60000))
             1%nat 1%nat).
  - reflexivity.
  - unfold receiptsKeyed. simpl. repeat constructor.
  - vm_compute. reflexivity.
Defined.

(** * The session route *)

Section TrackProperties.

Variable stringify : CustomerInfo -> string.

Lemma tracking_create_inr data id now db db' t :
  TrackingService.create data id now db = inr (db', t) ->
  TrackingService.getByID id db = None.
Proof.
  unfold TrackingService.create.
  now destruct (TrackingService.getByID id db).
Qed.

Lemma track_created_inv body origin id now db tid url exp :
  valueOf (createTrackingSession stringify body origin id now db)
  = TrackCreated tid url exp ->
  exists data db' t,
    TrackingService.create data id now db = inr (db', t)
    /\ createTrackingSession stringify body origin id now db
       = (db', [], TrackCreated tid url exp)
    /\ q_payment_amount_cents body = Some (TrackingService.d_payment_amount_cents data)
    /\ 0 < TrackingService.d_payment_amount_cents data
    /\ TrackingService.d_offered_receivers data
       = map Receiver.phone (ReceiversService.getActive db)
    /\ ReceiversService.getActive db <> []
    /\ tid = Tracking.tracking_id t
    /\ url = (origin ++ "/bkash-personal/" ++ Tracking.tracking_id t)%string
    /\ exp = Tracking.expires_at t.
Proof.
  unfold createTrackingSession.
  destruct (JS.orNull (q_item_code body)) as [item|]; [|discriminate].
  destruct (q_payment_amount_cents body) as [amount|]; [|discriminate].
  destruct (Z.eqb_spec amount 0) as [|NZ]; [discriminate|].
  destruct (Z.leb_spec amount 0) as [|POS]; [discriminate|].
  cbn [orb].
  destruct (q_customer_info body) as [ci|]; [|discriminate].
  destruct (JS.orNull (c_name ci)); [|discriminate].
  destruct (JS.orNull (c_phone ci)); [|discriminate].
  destruct (JS.orNull (c_email ci)); [|discriminate].
  destruct (JS.orNull (q_ticket_choice body)) as [ticket|]; [|discriminate].
  cbv zeta.
  destruct (ReceiversService.getActive db) as [|r l] eqn:A; [discriminate|].
  cbn [List.length Nat.eqb].
  match goal with
  | |- context [TrackingService.create ?d id now db] =>
      destruct (TrackingService.create d id now db) as [e|[db' t]] eqn:C;
      [discriminate|]; unfold valueOf; cbn [snd]; intros [= <- <- <-];
      exists d, db', t
  end.
  split; [exact C|]. split; [reflexivity|]. split; [reflexivity|].
  split; [exact POS|]. split; [reflexivity|]. split; [discriminate|].
  now repeat split.
Qed.

Lemma getActive_phones db p :
  In p (map Receiver.phone (ReceiversService.getActive db))
  <-> exists r, In r (receivers_table db) /\ Receiver.phone r = p
                /\ Receiver.status r = active.
Proof.
  unfold ReceiversService.getActive. rewrite in_map_iff. split.
  - intros (r & E & I). apply filter_In in I. destruct I as [I S].
    exists r. repeat split; [exact I | exact E|]. now destruct (Receiver.status r).
  - intros (r & I & E & S). exists r. split; [exact E|].
    apply filter_In. split; [exact I|]. now rewrite S.
Qed.

(** The session a 201 answer stands for. *)
Lemma track_created_session body origin id now db tid url exp :
  valueOf (createTrackingSession stringify body origin id now db)
  = TrackCreated tid url exp ->
  tid = id
  /\ url = (origin ++ "/bkash-personal/" ++ id)%string
  /\ exp = now + 3600000
  /\ callsOf (createTrackingSession stringify body origin id now db) = []
  /\ TrackingService.getByID id db = None
  /\ exists t,
       TrackingService.getByID
         id (storeAfter (createTrackingSession stringify body origin id now db)) = Some t
       /\ Tracking.status t = pending
       /\ Tracking.user_entered_trxid t = None
       /\ Tracking.matched_transaction_id t = None
       /\ q_payment_amount_cents body = Some (Tracking.payment_amount_cents t)
       /\ 0 < Tracking.payment_amount_cents t
       /\ Tracking.created_at t = now
       /\ Tracking.expires_at t = now + 3600000
       /\ Tracking.offered_receivers t
          = map Receiver.phone (ReceiversService.getActive db)
       /\ Tracking.offered_receivers t <> []
       /\ (forall id', id' <> id ->
             TrackingService.getByID
               id' (storeAfter (createTrackingSession stringify body origin id now db))
             = TrackingService.getByID id' db)
       /\ (uniqueTrackingIDs db ->
           uniqueTrackingIDs
             (storeAfter (createTrackingSession stringify body origin id now db)))
       /\ transactions_table
            (storeAfter (createTrackingSession stringify body origin id now db))
          = transactions_table db
       /\ receivers_table
            (storeAfter (createTrackingSession stringify body origin id now db))
          = receivers_table db.
Proof.
  intros R.
  destruct (track_created_inv _ _ _ _ _ _ _ _ R)
    as (data & db' & t & C & H & QA & POS & OF & NA & -> & -> & ->).
  pose proof (tracking_create_inr _ _ _ _ _ _ C) as N.
  destruct (tracking_created data id now db N)
    as (db'' & t' & C' & G & S & UE & MT & NT & CA & EA & OR & PA & FR & UN & TT & RT).
  rewrite C in C'. injection C' as <- <-.
  rewrite H. unfold storeAfter, callsOf. cbn [fst snd].
  assert (TI : Tracking.tracking_id t = id).
  { unfold TrackingService.getByID in G. apply find_some in G.
    now apply StringFacts.eqb_eq. }
  rewrite TI. split; [reflexivity|]. split; [reflexivity|]. split; [exact EA|].
  split; [reflexivity|]. split; [exact N|].
  exists t. split; [exact G|]. split; [exact S|]. split; [exact UE|].
  split; [exact MT|]. split; [now rewrite PA|]. split; [now rewrite PA|].
  split; [exact CA|]. split; [exact EA|]. split; [now rewrite OR|].
  split.
  { rewrite OR, OF. intros E. apply map_eq_nil in E. now apply NA. }
  split; [exact FR|]. split; [exact UN|]. now split.
Qed.

(** A 201 answer of the session route stands for one new session: its id
    is the fresh one, which no session had; the redirect goes to its
    payment page; it starts pending with no reference and no receipt, for
    the requested amount, which is positive, expires one hour after its
    creation, and offers exactly the phones of the receivers that are
    active at that moment, of which there is at least one.  Every other
    session, the receipts and the receivers are as before. *)
Theorem track_creates_pending_session
        (body : TrackRequest) (origin id : string) (now : Z) (db : DB)
        (tid url : string) (exp : Z) :
  valueOf (createTrackingSession stringify body origin id now db)
  = TrackCreated tid url exp ->
  tid = id
  /\ url = (origin ++ "/bkash-personal/" ++ id)%string
  /\ exp = now + 3600000
  /\ callsOf (createTrackingSession stringify body origin id now db) = []
  /\ TrackingService.getByID id db = None
  /\ exists t,
       TrackingService.getByID
         id (storeAfter (createTrackingSession stringify body origin id now db)) = Some t
       /\ Tracking.status t = pending
       /\ Tracking.user_entered_trxid t = None
       /\ Tracking.matched_transaction_id t = None
       /\ q_payment_amount_cents body = Some (Tracking.payment_amount_cents t)
       /\ 0 < Tracking.payment_amount_cents t
       /\ Tracking.expires_at t = now + 3600000
       /\ Tracking.offered_receivers t <> []
       /\ (forall p,
             In p (Tracking.offered_receivers t)
             <-> exists r, In r (receivers_table db) /\ Receiver.phone r = p
                           /\ Receiver.status r = active)
       /\ (forall id', id' <> id ->
             TrackingService.getByID
               id' (storeAfter (createTrackingSession stringify body origin id now db))
             = TrackingService.getByID id' db)
       /\ transactions_table
            (storeAfter (createTrackingSession stringify body origin id now db))
          = transactions_table db
       /\ receivers_table
            (storeAfter (createTrackingSession stringify body origin id now db))
          = receivers_table db.
Proof.
  intros R.
  destruct (track_created_session _ _ _ _ _ _ _ _ R)
    as (E1 & E2 & E3 & CL & N & t & G & S & UE & MT & QA & POS & CA & EA & OR & NO
        & FR & UN & TT & RT).
  split; [exact E1|]. split; [exact E2|]. split; [exact E3|]. split; [exact CL|].
  split; [exact N|].
  exists t. split; [exact G|]. split; [exact S|]. split; [exact UE|].
  split; [exact MT|]. split; [exact QA|]. split; [exact POS|]. split; [exact EA|].
  split; [exact NO|].
  split; [intros p; rewrite OR; apply getActive_phones|].
  split; [exact FR|]. now split.
Qed.

(** Every answer of the session route other than the 201 leaves the store
    as it was.  An amount that is missing, zero or negative is a 400.  The
    503 is given only when no receiver is active, and then no session is
    created whatever the body; the store answering, the 500 arises only
    when the fresh id is already taken. *)
Theorem track_rejects_without_writing
        (body : TrackRequest) (origin id : string) (now : Z) (db : DB) :
  match valueOf (createTrackingSession stringify body origin id now db) with
  | TrackCreated _ _ _ => True
  | _ =>
      storeAfter (createTrackingSession stringify body origin id now db) = db
      /\ callsOf (createTrackingSession stringify body origin id now db) = []
  end
  /\ ((forall a, q_payment_amount_cents body = Some a -> a <= 0) ->
      exists e, valueOf (createTrackingSession stringify body origin id now db)
                = TrackBadRequest e)
  /\ (valueOf (createTrackingSession stringify body origin id now db) = TrackUnavailable ->
      ReceiversService.getActive db = [])
  /\ (ReceiversService.getActive db = [] ->
      forall tid url exp,
        valueOf (createTrackingSession stringify body origin id now db)
        <> TrackCreated tid url exp)
  /\ (valueOf (createTrackingSession stringify body origin id now db) = TrackServerError ->
      TrackingService.getByID id db <> None).
Proof.
  split; [|split; [|split; [|split]]].
  - unfold createTrackingSession.
    destruct (JS.orNull (q_item_code body)) as [item|]; [|now split].
    destruct (q_payment_amount_cents body) as [amount|]; [|now split].
    destruct ((amount =? 0) || (amount <=? 0)); [now split|].
    destruct (q_customer_info body) as [ci|]; [|now split].
    destruct (JS.orNull (c_name ci)); [|now split].
    destruct (JS.orNull (c_phone ci)); [|now split].
    destruct (JS.orNull (c_email ci)); [|now split].
    destruct (JS.orNull (q_ticket_choice body)) as [ticket|]; [|now split].
    cbv zeta. destruct (List.length _ =? 0)%nat; [now split|].
    destruct (TrackingService.create _ id now db) as [e|[db' t]]; [now split|].
    exact I.
  - intros A. unfold createTrackingSession.
    destruct (JS.orNull (q_item_code body)) as [item|]; [|eexists; reflexivity].
    destruct (q_payment_amount_cents body) as [amount|]; [|eexists; reflexivity].
    specialize (A amount eq_refl).
    destruct (Z.eqb_spec amount 0); [eexists; reflexivity|].
    destruct (Z.leb_spec amount 0); [eexists; reflexivity | lia].
  - unfold createTrackingSession.
    destruct (JS.orNull (q_item_code body)) as [item|]; [|discriminate].
    destruct (q_payment_amount_cents body) as [amount|]; [|discriminate].
    destruct ((amount =? 0) || (amount <=? 0)); [discriminate|].
    destruct (q_customer_info body) as [ci|]; [|discriminate].
    destruct (JS.orNull (c_name ci)); [|discriminate].
    destruct (JS.orNull (c_phone ci)); [|discriminate].
    destruct (JS.orNull (c_email ci)); [|discriminate].
    destruct (JS.orNull (q_ticket_choice body)) as [ticket|]; [|discriminate].
    cbv zeta. destruct (ReceiversService.getActive db) as [|r l]; [reflexivity|].
    cbn [List.length Nat.eqb].
    destruct (TrackingService.create _ id now db) as [e|[db' t]]; discriminate.
  - intros A tid url exp R.
    destruct (track_created_inv _ _ _ _ _ _ _ _ R) as (_ & _ & _ & _ & _ & _ & _ & _ & NA & _).
    now apply NA.
  - unfold createTrackingSession.
    destruct (JS.orNull (q_item_code body)) as [item|]; [|discriminate].
    destruct (q_payment_amount_cents body) as [amount|]; [|discriminate].
    destruct ((amount =? 0) || (amount <=? 0)); [discriminate|].
    destruct (q_customer_info body) as [ci|]; [|discriminate].
    destruct (JS.orNull (c_name ci)); [|discriminate].
    destruct (JS.orNull (c_phone ci)); [|discriminate].
    destruct (JS.orNull (c_email ci)); [|discriminate].
    destruct (JS.orNull (q_ticket_choice body)) as [ticket|]; [|discriminate].
    cbv zeta. destruct (List.length _ =? 0)%nat; [discriminate|].
    unfold TrackingService.create.
    destruct (TrackingService.getByID id db); [intros _; discriminate | discriminate].
Qed.

End TrackProperties.

Lemma track_creates_pending_session_witness :
  exists t,
    TrackingService.getByID
      "S9"
      (storeAfter
         (createTrackingSession
            (fun _ => "{}")
            (mkTrackRequest (Some "TICKET_VIP") (Some 100000)
               (Some (mkCustomerInfo (Some "A") (Some "01700000000") (Some "a@b.c")))
               None (Some "VIP Premium Pass") None)
            "https://pay.example" "S9" Sample.t0 Sample.happyPath)) = Some t
    /\ Tracking.status t = pending
    /\ Tracking.offered_receivers t <> [].
Proof.
  destruct (track_creates_pending_session
              (fun _ => "{}")
              (mkTrackRequest (Some "TICKET_VIP") (Some 100000)
                 (Some (mkCustomerInfo (Some "A") (Some "01700000000") (Some "a@b.c")))
                 None (Some "VIP Premium Pass") None)
              "https://pay.example" "S9" Sample.t0 Sample.happyPath
              "S9" "https://pay.example/bkash-personal/S9" (Sample.t0 + 3600000)
              eq_refl)
    as (_ & _ & _ & _ & _ & t & G & S & _ & _ & _ & _ & _ & NO & _).
  exists t. now repeat split.
Defined.

(** * From the session to the verified payment *)

Section EndToEnd.

Variable stringify : CustomerInfo -> string.
Variable amountCents eventTime : string -> Parsed Z.

Lemma receiptsKeyed_same_tables db db' :
  transactions_table db' = transactions_table db ->
  receivers_table db' = receivers_table db ->
  receiptsKeyed db -> receiptsKeyed db'.
Proof.
  intros T R (UI & UT & FK). unfold receiptsKeyed. rewrite T.
  split; [exact UI|]. split; [exact UT|].
  revert FK. apply Forall_impl. intros y.
  unfold ReceiversService.isValidReceiver, ReceiversService.getByPhone. now rewrite R.
Qed.

(** The three routes in sequence.  A session is created by the session
    route; a receipt for the session's amount, paid to a receiver that
    was active when the session was created, with an event time from one
    hour before the creation to fifteen minutes after the expiry, is then
    accepted by the webhook; the customer then submits the receipt's
    reference, in any letter case and with white space around it, no later
    than the expiry.  The submission is answered as verified, and the
    session ends verified with that receipt as its matched receipt. *)
Theorem tracked_payment_verifies
        (db : DB) (body : TrackRequest) (origin id : string) (now0 : Z)
        (tid url : string) (exp : Z)
        (raw recv : option string) (txid : string) (now1 : Z)
        (isNew : bool) (tx : Transaction.t) (parsed : ParsedSMS) (a v : nat)
        (u : string) (now2 : Z) :
  uniqueTrackingIDs db ->
  receiptsKeyed db ->
  id <> "" ->
  valueOf (createTrackingSession stringify body origin id now0 db)
  = TrackCreated tid url exp ->
  valueOf (handleWebhookSMS amountCents eventTime raw recv txid now1
             (storeAfter (createTrackingSession stringify body origin id now0 db)))
  = WebhookAccepted isNew tx parsed a v ->
  q_payment_amount_cents body = Some (Transaction.amount_cents tx) ->
  (exists r, In r (receivers_table db)
             /\ Receiver.phone r = Transaction.receiver_phone tx
             /\ Receiver.status r = active) ->
  now0 - 3600000 <= Transaction.received_at tx <= exp + 900000 ->
  normalizeTrxID u = p_trxid parsed ->
  now2 <= exp ->
  valueOf (submitTrxID id (Some u) now2
             (storeAfter
                (handleWebhookSMS amountCents eventTime raw recv txid now1
                   (storeAfter (createTrackingSession stringify body origin id now0 db)))))
  = Verified
  /\ exists t',
       TrackingService.getByID
         id
         (storeAfter
            (submitTrxID id (Some u) now2
               (storeAfter
                  (handleWebhookSMS amountCents eventTime raw recv txid now1
                     (storeAfter
                        (createTrackingSession stringify body origin id now0 db))))))
       = Some t'
       /\ Tracking.status t' = verified
       /\ Tracking.matched_transaction_id t' = JS.orNull (Some (Transaction.id tx)).
Proof.
  intros U K NI R A QA RA [W1 W2] NU LE.
  destruct (track_created_session stringify _ _ _ _ _ _ _ _ R)
    as (_ & _ & -> & _ & _ & t & G & S & UE & _ & QA' & _ & CA & EA & OR & _
        & _ & UN & TT & RT).
  set (db1 := storeAfter (createTrackingSession stringify body origin id now0 db)) in *.
  assert (K1 : receiptsKeyed db1) by now apply (receiptsKeyed_same_tables db).
  specialize (UN U).
  destruct (webhook_accepted_store amountCents eventTime _ _ _ _ _ _ _ _ _ _ K1 A)
    as (raw' & recv' & db2 & _ & _ & P & _ & S2 & _ & _ & GT & _).
  destruct (webhook_accepted_inv amountCents eventTime _ _ _ _ _ _ _ _ _ _ A)
    as (_ & recv2 & db1' & _ & _ & _ & _ & _ & C & H).
  destruct (created_receipt _ _ _ _ _ _ _ K1 C) as (_ & _ & _ & _ & ST).
  assert (G2 : TrackingService.getByID id db2 = Some t).
  { rewrite <- S2, H. unfold storeAfter at 1. cbn [fst].
    apply verifyIncomingTransaction_frame_other.
    - unfold uniqueTrackingIDs. now rewrite ST.
    - unfold TrackingService.getByID. now rewrite ST.
    - intros x _. rewrite UE. discriminate. }
  rewrite S2.
  destruct (parseBkashSMS_reference _ _ _ _ P) as (NE & _).
  destruct (submit_accepted_core id u t now2 db2 NI) as (t' & G' & _ & M).
  - now rewrite NU.
  - exact G2.
  - lia.
  - rewrite S. discriminate.
  - rewrite S. discriminate.
  - rewrite NU, GT in M. cbv zeta in M.
    assert (OK : Rules.amount t tx && Rules.receiver t tx && Rules.timeWindow t tx = true).
    { rewrite !andb_true_iff. repeat split.
      - unfold Rules.amount. rewrite QA in QA'. injection QA' as <-. apply Z.eqb_refl.
      - apply receiver_in_offered. rewrite OR. now apply getActive_phones.
      - unfold Rules.timeWindow. rewrite CA, EA.
        apply andb_true_iff. split; apply Z.leb_le; lia. }
    rewrite OK in M. destruct M as (V & SV & MV & _).
    split; [exact V|]. exists t'. now repeat split.
Qed.

End EndToEnd.

Lemma tracked_payment_verifies_witness :
  valueOf
    (submitTrxID "S9" (Some " cju0pzq3u6 ") (Sample.t0 + 120000)
       (storeAfter
          (handleWebhookSMS
             (fun _ => Value 100000) (fun _ => Value (Sample.t0 + 60000))
             (Some "You have received Tk 1,000.00 from 01533817247. Fee Tk 0.00. Balance Tk 1,000.00. TrxID CJU0PZQ3U6 at 30/10/2025 15:01")
             (Some "01785863769") "TX9" (Sample.t0 + 61000)
             (storeAfter
                (createTrackingSession
                   (fun _ => "{}")
                   (mkTrackRequest (Some "TICKET_VIP") (Some 100000)
                      (Some (mkCustomerInfo (Some "A") (Some "01700000000") (Some "a@b.c")))
                      None (Some "VIP Premium Pass") None)
                   "https://pay.example" "S9" Sample.t0 Sample.happyPath)))))
  = Verified.
Proof.
  refine (proj1
            (tracked_payment_verifies
               (fun _ => "{}")
               (fun _ => Value 100000) (fun _ => Value (Sample.t0 + 60000))
               Sample.happyPath
               (mkTrackRequest (Some "TICKET_VIP") (Some 100000)
                  (Some (mkCustomerInfo (Some "A") (Some "01700000000") (Some "a@b.c")))
                  None (Some "VIP Premium Pass") None)
               "https://pay.example" "S9" Sample.t0
               "S9" "https://pay.example/bkash-personal/S9" (Sample.t0 + 3600000)
               (Some "You have received Tk 1,000.00 from 01533817247. Fee Tk 0.00. Balance Tk 1,000.00. TrxID CJU0PZQ3U6 at 30/10/2025 15:01")
               (Some "01785863769") "TX9" (Sample.t0 + 61000)
               true
               (Transaction.mk "TX9" "CJU0PZQ3U6" 100000 "01785863769" (Some "01533817247")
                               (Sample.t0 + 60000) (Sample.t0 + 61000))
               (mkParsedSMS 100000 "CJU0PZQ3U6" "01533817247" (Sample.t0 + 60000))
               1%nat 0%nat
               " cju0pzq3u6 " (Sample.t0 + 120000)
               _ _ _ _ _ _ _ _ _ _)).
  - unfold uniqueTrackingIDs. simpl. repeat constructor; simpl; intuition discriminate.
  - unfold receiptsKeyed. simpl. repeat constructor; simpl; intuition discriminate.
  - discriminate.
  - reflexivity.
  - vm_compute. reflexivity.
  - reflexivity.
  - exists Sample.receiver. simpl. intuition.
  - simpl. unfold Sample.t0. lia.
  - reflexivity.
  - unfold Sample.t0. lia.
Defined.

(** * What a sweep leaves behind *)

Section SweepAgain.

Lemma Forall2_In_r {A B} (R : A -> B -> Prop) l l' b :
  Forall2 R l l' -> In b l' -> exists a, In a l /\ R a b.
Proof.
  induction 1 as [|x y l l' H F IH]; simpl; [contradiction|].
  intros [<- | I].
  - exists x. split; [now left | exact H].
  - destruct (IH I) as (a & Ia & Ra). exists a. split; [now right | exact Ra].
Qed.

Lemma filter_none {A} (f : A -> bool) l :
  Forall (fun x => f x = false) l -> filter f l = [].
Proof.
  induction 1 as [|x l H F IH]; simpl; [reflexivity|]. now rewrite H.
Qed.

Lemma retry_attempt_frame now id id' db0 :
  id' <> id ->
  TrackingService.getByID
    id (storeAfter (let '(db', calls, result) := attemptVerification id' now db0 in
                    (db', calls, @inr Exn VerificationResult result)))
  = TrackingService.getByID id db0.
Proof.
  intros D. pose proof (attemptVerification_frame now id id' db0 D) as F.
  destruct (attemptVerification id' now db0) as [[db' calls] result]. exact F.
Qed.

Lemma retry_attempt_keepsKeys now id db0 :
  keepsKeys db0
    (storeAfter (let '(db', calls, result) := attemptVerification id now db0 in
                 (db', calls, @inr Exn VerificationResult result))).
Proof.
  pose proof (keepsKeys_attemptVerification now id db0) as K.
  destruct (attemptVerification id now db0) as [[db' calls] result]. exact K.
Qed.

(** The retry loop settles every selected session whose receipt is
    stored. *)
Lemma retry_settles_resolvable now db c s u x :
  uniqueTrackingIDs db ->
  In s (TrackingService.findPendingVerification db) ->
  Tracking.user_entered_trxid s = Some u -> u <> "" ->
  TransactionsService.getByTrxID (normalizeTrxID u) db = Some x ->
  exists t',
    TrackingService.getByID
      (Tracking.tracking_id s)
      (storeAfter
         (retryLoop (fun trackingId db0 =>
                       let '(db', calls, result) := attemptVerification trackingId now db0 in
                       (db', calls, @inr Exn VerificationResult result))
                    (TrackingService.findPendingVerification db) db c)) = Some t'
    /\ settled t'.
Proof.
  intros U I E NE G.
  assert (ND : NoDup (map Tracking.tracking_id (TrackingService.findPendingVerification db)))
    by now apply NoDup_map_filter.
  assert (IS : In s (tracking_table db) /\ Tracking.status s = submitted_trx).
  { apply filter_In in I. destruct I as [I W]. split; [exact I|].
    apply andb_true_iff in W. destruct W as [W _]. now apply TrackingStatus_eqb_eq. }
  destruct IS as [IT SS].
  destruct (in_split _ _ I) as (l1 & l2 & EL). rewrite EL in ND |- *.
  rewrite map_app in ND. simpl in ND.
  pose proof (NoDup_remove_2 _ _ _ ND) as NI.
  rewrite retryLoop_app. cbv zeta. unfold storeAfter at 1. cbn [fst].
  set (att := fun trackingId db0 =>
                let '(db', calls, result) := attemptVerification trackingId now db0 in
                (db', calls, @inr Exn VerificationResult result)) in *.
  set (o1 := retryLoop att l1 db c).
  assert (G1 : TrackingService.getByID (Tracking.tracking_id s) (storeAfter o1) = Some s).
  { unfold o1. rewrite retryLoop_frame.
    - now apply getByID_unique.
    - intros id' db0 D. now apply retry_attempt_frame.
    - apply Forall_forall. intros r Ir Er. apply NI. apply in_or_app. left.
      rewrite <- Er. now apply in_map. }
  assert (K1 : keepsKeys db (storeAfter o1)).
  { unfold o1. apply keepsKeys_retryLoop. intros. apply retry_attempt_keepsKeys. }
  assert (T1 : TransactionsService.getByTrxID (normalizeTrxID u) (storeAfter o1) = Some x).
  { destruct K1 as (K1 & _). unfold TransactionsService.getByTrxID in *. now rewrite K1. }
  cbn [retryLoop]. unfold retryStep.
  destruct (attemptVerification_resolved now (Tracking.tracking_id s) u s x (storeAfter o1)
              G1 E NE) as (_ & _ & _ & _ & t' & G' & S' & _); [rewrite SS; discriminate | exact T1 |].
  unfold att.
  destruct (attemptVerification (Tracking.tracking_id s) now (storeAfter o1))
    as [[dbA callsA] resA].
  unfold storeAfter at 1 in G'. cbn [fst] in G'. cbv beta iota.
  match goal with
  | |- context [retryLoop ?a l2 dbA ?c1] =>
      pose proof (retryLoop_frame a (Tracking.tracking_id s) l2 dbA c1) as F;
      destruct (retryLoop a l2 dbA c1) as [[dbB callsB] cB]
  end.
  unfold storeAfter in *. cbn [fst] in *.
  exists t'. split.
  - rewrite F; [exact G' | |].
    + intros id' db0 D. now apply retry_attempt_frame.
    + apply Forall_forall. intros r Ir Er. apply NI. apply in_or_app. right.
      rewrite <- Er. now apply in_map.
  - unfold settled. rewrite S'. now destruct (_ && _).
Qed.

(** After a sweep that went through, a submitted session has no stored
    receipt for its reference. *)
Lemma sweep_leaves_unmatched now db r u :
  uniqueTrackingIDs db ->
  (List.length (TrackingService.findExpired now db) < 100)%nat ->
  In r (tracking_table (storeAfter (scheduledHandler now db))) ->
  Tracking.status r = submitted_trx ->
  JS.orNull (Tracking.user_entered_trxid r) = Some u ->
  TransactionsService.getByTrxID (normalizeTrxID u) (storeAfter (scheduledHandler now db))
  = None.
Proof.
  intros U B I S E.
  pose proof (keepsKeys_scheduledHandler now db) as (KT & _ & KI).
  assert (U2 : uniqueTrackingIDs (storeAfter (scheduledHandler now db))).
  { unfold uniqueTrackingIDs. now rewrite KI. }
  pose proof (getByID_unique _ _ U2 I) as GR.
  revert I GR KT. sweep_cases now db; [lia|].
  set (db1 := match TrackingService.findExpired now db with
              | [] => db
              | _ => TrackingService.expireRows _ now db
              end).
  assert (U1 : uniqueTrackingIDs db1).
  { unfold uniqueTrackingIDs, db1. destruct (TrackingService.findExpired now db); [exact U|].
    now rewrite ids_expireRows. }
  assert (T1 : transactions_table db1 = transactions_table db).
  { unfold db1. destruct (TrackingService.findExpired now db); [reflexivity|].
    apply (keepsKeys_expireRows now). }
  clearbody db1.
  pose proof (settles_retry_phase now db1 (mkCounters 0 0 0)) as St.
  pose proof (fun s u x => retry_settles_resolvable now db1 (mkCounters 0 0 0) s u x U1) as RS.
  destruct (retryLoop _ (TrackingService.findPendingVerification db1) db1 _)
    as [[db2 calls] c].
  unfold storeAfter in *. cbn [fst] in *.
  intros I GR KT.
  destruct (TransactionsService.getByTrxID (normalizeTrxID u) db2) as [x|] eqn:G;
    [|reflexivity].
  exfalso.
  destruct (Forall2_In_r _ _ _ _ St I) as (r0 & I0 & _ & [-> | SD]).
  2:{ unfold settled in SD. rewrite S in SD. discriminate. }
  apply orNull_Some in E. destruct E as [E NE].
  destruct (RS r0 u x) as (t' & G' & SD); try assumption.
  - apply filter_In. split; [exact I0|]. rewrite S, E. reflexivity.
  - unfold TransactionsService.getByTrxID in *. now rewrite T1, <- KT.
  - rewrite GR in G'. injection G' as <-. unfold settled in SD. rewrite S in SD.
    discriminate.
Qed.

(** The retry loop over submitted sessions none of which has a stored
    receipt writes nothing and counts each as still pending. *)
Lemma retryLoop_idle now db sessions c :
  uniqueTrackingIDs db ->
  (forall r u, In r (tracking_table db) ->
               Tracking.status r = submitted_trx ->
               JS.orNull (Tracking.user_entered_trxid r) = Some u ->
               TransactionsService.getByTrxID (normalizeTrxID u) db = None) ->
  Forall (fun s => In s (tracking_table db) /\ Tracking.status s = submitted_trx)
         sessions ->
  retryLoop (fun trackingId db0 =>
               let '(db', calls, result) := attemptVerification trackingId now db0 in
               (db', calls, @inr Exn VerificationResult result))
            sessions db c
  = (db, [],
     mkCounters (verifiedCount c) (failedCount c)
                (stillPendingCount c + List.length sessions)).
Proof.
  intros U Q F. revert c. induction F as [|s l [I S] F IH]; intros c.
  - simpl. destruct c. simpl. now rewrite Nat.add_0_r.
  - cbn [retryLoop]. unfold retryStep, attemptVerification.
    rewrite (getByID_unique _ _ U I).
    destruct (JS.orNull (Tracking.user_entered_trxid s)) as [u|] eqn:E.
    + rewrite S. cbn [TrackingStatus_eqb]. rewrite (Q s u I S E).
      cbn [success status]. rewrite IH. cbn [app verifiedCount failedCount stillPendingCount].
      cbn [List.length]. now rewrite Nat.add_succ_r.
    + cbn [success status]. rewrite IH.
      cbn [app verifiedCount failedCount stillPendingCount].
      cbn [List.length]. now rewrite Nat.add_succ_r.
Qed.

(** A sweep settles all it can.  Under the primary key and with fewer
    than 100 sessions overdue (so that D1 accepts the UPDATE of the expiry
    step), after a sweep no submitted session has a stored receipt for its
    reference and no open session is past its expiry; and a further sweep,
    at a time by which no open session has passed its expiry (the time of
    the first sweep is one), leaves the store as it is, makes no call, and
    reports nothing expired, verified or failed, with every submitted
    session counted as still pending. *)
Theorem sweep_settles_what_it_can (now : Z) (db : DB) :
  uniqueTrackingIDs db ->
  (List.length (TrackingService.findExpired now db) < 100)%nat ->
  (forall r u,
      In r (tracking_table (storeAfter (scheduledHandler now db))) ->
      Tracking.status r = submitted_trx ->
      JS.orNull (Tracking.user_entered_trxid r) = Some u ->
      TransactionsService.getByTrxID (normalizeTrxID u)
                                     (storeAfter (scheduledHandler now db)) = None)
  /\ (forall now',
        Forall (fun r => TrackingService.awaiting (Tracking.status r) = true ->
                         now' <= Tracking.expires_at r)
               (tracking_table (storeAfter (scheduledHandler now db))) ->
        scheduledHandler now' (storeAfter (scheduledHandler now db))
        = (storeAfter (scheduledHandler now db), [],
           inr (mkReport 0 0 0
                  (List.length (TrackingService.findPendingVerification
                                  (storeAfter (scheduledHandler now db))))
                  (List.length (TrackingService.findPendingVerification
                                  (storeAfter (scheduledHandler now db)))))))
  /\ Forall (fun r => TrackingService.awaiting (Tracking.status r) = true ->
                      now <= Tracking.expires_at r)
            (tracking_table (storeAfter (scheduledHandler now db))).
Proof.
  intros U B.
  assert (Q : forall r u,
             In r (tracking_table (storeAfter (scheduledHandler now db))) ->
             Tracking.status r = submitted_trx ->
             JS.orNull (Tracking.user_entered_trxid r) = Some u ->
             TransactionsService.getByTrxID (normalizeTrxID u)
                                            (storeAfter (scheduledHandler now db)) = None).
  { intros r u. now apply sweep_leaves_unmatched. }
  split; [exact Q|]. split; [|now apply sweep_clears_overdue].
  intros now' C.
  pose proof (keepsKeys_scheduledHandler now db) as (_ & _ & KI).
  assert (U2 : uniqueTrackingIDs (storeAfter (scheduledHandler now db))).
  { unfold uniqueTrackingIDs. now rewrite KI. }
  set (db2 := storeAfter (scheduledHandler now db)) in *.
  assert (X : TrackingService.findExpired now' db2 = []).
  { unfold TrackingService.findExpired. apply filter_none.
    revert C. apply Forall_impl. intros r H.
    destruct (TrackingService.awaiting (Tracking.status r)); [|reflexivity].
    simpl. apply Z.ltb_ge. now apply H. }
  unfold scheduledHandler at 1. unfold sweepWith. rewrite X. cbv beta iota zeta.
  rewrite (retryLoop_idle now' db2 _ (mkCounters 0 0 0) U2 Q).
  - reflexivity.
  - apply Forall_forall. intros s I. apply filter_In in I. destruct I as [I W].
    split; [exact I|]. apply andb_true_iff in W. destruct W as [W _].
    now apply TrackingStatus_eqb_eq.
Qed.

End SweepAgain.

Lemma sweep_settles_what_it_can_witness :
  List.length
    (TrackingService.findPendingVerification
       (storeAfter (scheduledHandler (Sample.t0 + 120000) Sample.batch))) = 2%nat
  /\ valueOf (scheduledHandler (Sample.t0 + 120000)
                (storeAfter (scheduledHandler (Sample.t0 + 120000) Sample.batch)))
     = inr (mkReport 0 0 0 2 2).
Proof.
  destruct (sweep_settles_what_it_can (Sample.t0 + 120000) Sample.batch) as (_ & R & C).
  - unfold uniqueTrackingIDs. simpl. repeat constructor; simpl; intuition discriminate.
  - vm_compute. lia.
  - split; [reflexivity|]. rewrite (R (Sample.t0 + 120000) C). reflexivity.
Defined.

(** * The text handed to the arithmetic of the amount and of the date *)

Section Captures.

Variable amountCents eventTime : string -> Parsed Z.

Lemma char_eq x c : Regex.char x c = true -> c = N_of_ascii x.
Proof. unfold Regex.char, Regex.unit. apply N.eqb_eq. Qed.

(** What the search for the amount pattern captures. *)
Lemma amount_captured sms caps :
  Regex.search SMS_PATTERNS.amount sms = Some caps ->
  exists w d,
    caps = [(w ++ "." ++ d)%string]
    /\ w <> ""
    /\ RegexSpec.all (fun c => Regex.digit c || Regex.char "," c) w = true
    /\ String.length d = 2%nat /\ RegexSpec.all Regex.digit d = true.
Proof.
  intros S. apply search_sound in S. destruct S as (pre & m & s' & _ & M).
  apply captured_word in M.
  - destruct M as (g & s1 & -> & M). simpl in M.
    destruct M as (s2 & c2 & (w & NW & AW & E1 & _) & s3 & c3 & (c & E2 & C & _)
                   & d & LD & AD & E3 & _).
    apply char_eq in C. cbn in C. subst c s3 s2.
    exists w, d. repeat split; try assumption.
    f_equal. apply (append_cancel_r _ _ s1). rewrite E1.
    now rewrite !append_assoc'.
  - apply lit_matches_caps.
  - intros s s0 c c'. simpl.
    intros (s2 & c2 & (w & _ & _ & _ & ->) & s3 & c3 & (x & _ & _ & ->)
            & d & _ & _ & _ & ->). reflexivity.
Qed.

Lemma all_app p (a b : string) :
  RegexSpec.all p (a ++ b) = RegexSpec.all p a && RegexSpec.all p b.
Proof.
  induction a as [|c a IH]; simpl; [reflexivity|]. now rewrite IH, andb_assoc.
Qed.

(** What the search for the timestamp pattern captures. *)
Lemma timestamp_captured sms caps :
  Regex.search SMS_PATTERNS.timestamp sms = Some caps ->
  exists dd mm yyyy ws hh mi,
    caps = [(dd ++ "/" ++ mm ++ "/" ++ yyyy ++ ws ++ hh ++ ":" ++ mi)%string]
    /\ (String.length dd = 2 /\ String.length mm = 2 /\ String.length yyyy = 4
        /\ String.length hh = 2 /\ String.length mi = 2)%nat
    /\ RegexSpec.all Regex.digit (dd ++ mm ++ yyyy ++ hh ++ mi) = true
    /\ ws <> "" /\ RegexSpec.all Regex.space ws = true.
Proof.
  intros S. apply search_sound in S. destruct S as (pre & m & s' & _ & M).
  apply captured_word in M.
  - destruct M as (g & s1 & -> & M). simpl in M.
    destruct M as (s2 & c2 & (dd & Ldd & Add & E1 & _)
                   & s3 & c3 & (x1 & E2 & X1 & _)
                   & s4 & c4 & (mm & Lmm & Amm & E3 & _)
                   & s5 & c5 & (x2 & E4 & X2 & _)
                   & s6 & c6 & (yyyy & Ly & Ay & E5 & _)
                   & s7 & c7 & (ws & NW & AW & E6 & _)
                   & s8 & c8 & (hh & Lhh & Ahh & E7 & _)
                   & s9 & c9 & (x3 & E8 & X3 & _)
                   & mi & Lmi & Ami & E9 & _).
    apply char_eq in X1, X2, X3. cbn in X1, X2, X3. subst x1 x2 x3 s9 s8 s7 s6 s5 s4 s3 s2.
    exists dd, mm, yyyy, ws, hh, mi. split; [|split; [now repeat split|split]].
    + f_equal. apply (append_cancel_r _ _ s1). rewrite E1.
      now rewrite !append_assoc'.
    + rewrite !all_app, Add, Amm, Ay, Ahh, Ami. reflexivity.
    + now split.
  - apply lit_matches_caps.
  - intros s s0 c c'. simpl.
    intros (s2 & c2 & (? & _ & _ & _ & ->)
            & s3 & c3 & (? & _ & _ & ->)
            & s4 & c4 & (? & _ & _ & _ & ->)
            & s5 & c5 & (? & _ & _ & ->)
            & s6 & c6 & (? & _ & _ & _ & ->)
            & s7 & c7 & (? & _ & _ & _ & ->)
            & s8 & c8 & (? & _ & _ & _ & ->)
            & s9 & c9 & (? & _ & _ & ->)
            & ? & _ & _ & _ & ->). reflexivity.
Qed.

(** [parseAmount] and [parseTimestamp] either report that the field was
    not found or hand the matched text to the arithmetic, and that text
    always has the shape of the pattern: for the amount, digits and
    commas, a point and two digits; for the time, [dd/mm/yyyy], white
    space and [hh:mm], all digits.  A text that contains [Tk], white space
    and such an amount, or [at], white space and such a time, is never
    reported as not found. *)
Theorem arithmetic_receives_matched_text (sms : string) :
  (parseAmount amountCents sms = Failure "Amount not found in SMS"
   \/ exists w d,
        parseAmount amountCents sms = amountCents (w ++ "." ++ d)
        /\ w <> ""
        /\ RegexSpec.all (fun c => Regex.digit c || Regex.char "," c) w = true
        /\ String.length d = 2%nat /\ RegexSpec.all Regex.digit d = true)
  /\ (parseTimestamp eventTime sms = Failure "Timestamp not found in SMS"
      \/ exists dd mm yyyy ws hh mi,
           parseTimestamp eventTime sms
           = eventTime (dd ++ "/" ++ mm ++ "/" ++ yyyy ++ ws ++ hh ++ ":" ++ mi)
           /\ (String.length dd = 2 /\ String.length mm = 2 /\ String.length yyyy = 4
               /\ String.length hh = 2 /\ String.length mi = 2)%nat
           /\ RegexSpec.all Regex.digit (dd ++ mm ++ yyyy ++ hh ++ mi) = true
           /\ ws <> "" /\ RegexSpec.all Regex.space ws = true)
  /\ (forall pre ws w d rest,
        sms = (pre ++ "Tk" ++ ws ++ w ++ "." ++ d ++ rest)%string ->
        ws <> "" -> RegexSpec.all Regex.space ws = true ->
        w <> "" -> RegexSpec.all (fun c => Regex.digit c || Regex.char "," c) w = true ->
        String.length d = 2%nat -> RegexSpec.all Regex.digit d = true ->
        exists g, parseAmount amountCents sms = amountCents g)
  /\ (forall pre ws dd mm yyyy ws' hh mi rest,
        sms = (pre ++ "at" ++ ws ++ dd ++ "/" ++ mm ++ "/" ++ yyyy ++ ws' ++ hh ++ ":"
                   ++ mi ++ rest)%string ->
        ws <> "" -> RegexSpec.all Regex.space ws = true ->
        (String.length dd = 2 /\ String.length mm = 2 /\ String.length yyyy = 4
         /\ String.length hh = 2 /\ String.length mi = 2)%nat ->
        RegexSpec.all Regex.digit dd = true -> RegexSpec.all Regex.digit mm = true ->
        RegexSpec.all Regex.digit yyyy = true ->
        RegexSpec.all Regex.digit hh = true -> RegexSpec.all Regex.digit mi = true ->
        ws' <> "" -> RegexSpec.all Regex.space ws' = true ->
        exists g, parseTimestamp eventTime sms = eventTime g).
Proof.
  split; [|split; [|split]].
  - unfold parseAmount.
    destruct (Regex.search SMS_PATTERNS.amount sms) as [caps|] eqn:S; [|now left].
    right. destruct (amount_captured sms caps S) as (w & d & -> & H).
    exists w, d. split; [reflexivity | exact H].
  - unfold parseTimestamp.
    destruct (Regex.search SMS_PATTERNS.timestamp sms) as [caps|] eqn:S; [|now left].
    right. destruct (timestamp_captured sms caps S) as (dd & mm & yyyy & ws & hh & mi & -> & H).
    exists dd, mm, yyyy, ws, hh, mi. split; [reflexivity | exact H].
  - intros pre ws w d rest -> NW AW NE A L D.
    assert (S : Regex.search SMS_PATTERNS.amount
                             (pre ++ "Tk" ++ ws ++ w ++ "." ++ d ++ rest) <> None).
    { apply search_complete with (s' := rest) (caps := [(w ++ "." ++ d)%string]).
      unfold SMS_PATTERNS.amount. simpl RegexSpec.matches.
      exists (ws ++ w ++ "." ++ d ++ rest)%string, [].
      split; [apply (lit_matches "Tk")|].
      exists (w ++ "." ++ d ++ rest)%string, []. split; [now exists ws|].
      exists (w ++ "." ++ d)%string, []. split; [now rewrite !append_assoc'|].
      split; [|reflexivity].
      exists ("." ++ d ++ rest)%string, []. split; [now exists w|].
      exists (d ++ rest)%string, []. split; [now exists 46%N|]. now exists d. }
    unfold parseAmount.
    destruct (Regex.search SMS_PATTERNS.amount _) as [caps|]; [|now elim S].
    eexists. reflexivity.
  - intros pre ws dd mm yyyy ws' hh mi rest -> NW AW (Ldd & Lmm & Ly & Lhh & Lmi)
           Add Amm Ay Ahh Ami NW' AW'.
    assert (S : Regex.search SMS_PATTERNS.timestamp
                  (pre ++ "at" ++ ws ++ dd ++ "/" ++ mm ++ "/" ++ yyyy ++ ws' ++ hh ++ ":"
                       ++ mi ++ rest) <> None).
    { apply search_complete
        with (s' := rest)
             (caps := [(dd ++ "/" ++ mm ++ "/" ++ yyyy ++ ws' ++ hh ++ ":" ++ mi)%string]).
      unfold SMS_PATTERNS.timestamp. simpl RegexSpec.matches.
      eexists _, []. split; [apply (lit_matches "at")|].
      eexists _, []. split; [now exists ws|].
      eexists _, []. split; [|split; [|reflexivity]].
      { repeat (rewrite append_assoc'; simpl). reflexivity. }
      eexists _, []. split; [now exists dd|].
      eexists _, []. split; [now exists 47%N|].
      eexists _, []. split; [now exists mm|].
      eexists _, []. split; [now exists 47%N|].
      eexists _, []. split; [now exists yyyy|].
      eexists _, []. split; [now exists ws'|].
      eexists _, []. split; [now exists hh|].
      eexists _, []. split; [now exists 58%N|].
      now exists mi. }
    unfold parseTimestamp.
    destruct (Regex.search SMS_PATTERNS.timestamp _) as [caps|]; [|now elim S].
    eexists. reflexivity.
Qed.

End Captures.

Lemma arithmetic_receives_matched_text_witness :
  exists g,
    parseAmount (fun text => Failure text)
                ("You have received " ++ "Tk" ++ " " ++ "1,000" ++ "." ++ "00"
                 ++ " from 01533817247")
    = Failure g.
Proof.
  destruct (arithmetic_receives_matched_text
              (fun text => Failure text) (fun text => Failure text)
              ("You have received " ++ "Tk" ++ " " ++ "1,000" ++ "." ++ "00"
               ++ " from 01533817247"))
    as (_ & _ & A & _).
  apply (A "You have received " " " "1,000" "00" " from 01533817247");
    try reflexivity; discriminate.
Defined.

(** * The stores the worker reaches *)

Section Reachability.

Variable now : Z.

Lemma receiptBacked_receipts db db' t :
  transactions_table db' = transactions_table db ->
  receiptBacked db t -> receiptBacked db' t.
Proof.
  intros E B V. destruct (B V) as (u & D & G). exists u. split; [exact D|].
  unfold TransactionsService.getByTrxID in *. now rewrite E.
Qed.

Lemma backed_updateStatus id st m n db :
  Forall (receiptBacked db) (tracking_table db) ->
  (st = verified ->
   forall r, In r (tracking_table db) -> Tracking.tracking_id r = id ->
             exists u, Tracking.user_entered_trxid r = Some u
                       /\ TransactionsService.getByTrxID (normalizeTrxID u) db <> None) ->
  Forall (receiptBacked (TrackingService.updateStatus id st m n now db))
         (tracking_table (TrackingService.updateStatus id st m n now db)).
Proof.
  intros F H.
  apply Forall_impl with (P := receiptBacked db).
  { intros r. now apply receiptBacked_receipts. }
  unfold TrackingService.updateStatus. apply Forall_updateWhereID; [exact F|].
  intros r I E V. cbn in V. cbn. now apply (H V r).
Qed.

Lemma backed_applyResult id result db :
  Forall (receiptBacked db) (tracking_table db) ->
  (forall r, In r (tracking_table db) -> Tracking.tracking_id r = id ->
             exists u, Tracking.user_entered_trxid r = Some u
                       /\ TransactionsService.getByTrxID (normalizeTrxID u) db <> None) ->
  Forall (receiptBacked (fst (applyResult id result now db)))
         (tracking_table (fst (applyResult id result now db))).
Proof.
  intros F H. unfold applyResult. destruct (success result); cbn [fst].
  - apply backed_updateStatus; [exact F | intros _; exact H].
  - destruct (status result); cbn [fst]; try exact F.
    apply backed_updateStatus; [exact F | discriminate].
Qed.

(** A status write keeps the id and the declared reference of every row. *)
Lemma applyResult_rows id result db r' :
  In r' (tracking_table (fst (applyResult id result now db))) ->
  exists r, In r (tracking_table db)
            /\ Tracking.tracking_id r' = Tracking.tracking_id r
            /\ Tracking.user_entered_trxid r' = Tracking.user_entered_trxid r.
Proof.
  assert (W : forall st m n,
             In r' (tracking_table (TrackingService.updateStatus id st m n now db)) ->
             exists r, In r (tracking_table db)
                       /\ Tracking.tracking_id r' = Tracking.tracking_id r
                       /\ Tracking.user_entered_trxid r' = Tracking.user_entered_trxid r).
  { intros st m n I. unfold TrackingService.updateStatus, TrackingService.updateWhereID in I.
    simpl tracking_table in I. apply in_map_iff in I. destruct I as (r & <- & I).
    exists r. split; [exact I|]. now destruct (_ =? _)%string. }
  unfold applyResult. destruct (success result); cbn [fst]; [apply W|].
  destruct (status result); cbn [fst]; try apply W; intros I; exists r'; now repeat split.
Qed.

Lemma verifiedBacked_keys db db' :
  keepsKeys db db' ->
  uniqueTrackingIDs db /\ receiptsNormalised db ->
  uniqueTrackingIDs db' /\ receiptsNormalised db'.
Proof.
  intros (K1 & _ & K3) [U N]. unfold uniqueTrackingIDs, receiptsNormalised.
  now rewrite K1, K3.
Qed.

Lemma verifiedBacked_attemptVerification id db :
  verifiedBacked db -> verifiedBacked (storeAfter (attemptVerification id now db)).
Proof.
  intros (U & N & F).
  destruct (verifiedBacked_keys _ _ (keepsKeys_attemptVerification now id db) (conj U N))
    as [U' N'].
  split; [exact U'|]. split; [exact N'|]. clear U' N'.
  unfold attemptVerification.
  destruct (TrackingService.getByID id db) as [t|] eqn:G; [|exact F].
  destruct (JS.orNull _) as [u|] eqn:O; [|exact F].
  destruct (TrackingStatus_eqb _ verified); [exact F|].
  destruct (TransactionsService.getByTrxID _ db) as [x|] eqn:L; [|exact F].
  pose proof (backed_applyResult id (verifyPayment t x db) db F) as A.
  destruct (applyResult _ _ _ _) as [db' writes]. apply A.
  intros r I E.
  assert (r = t).
  { apply (getByID_unique db r U) in I. rewrite E in I. congruence. }
  subst r. apply orNull_Some in O. destruct O as [O _].
  exists u. split; [exact O|]. rewrite L. discriminate.
Qed.

Lemma backed_verifyEach x u sessions db :
  TransactionsService.getByTrxID (normalizeTrxID u) db <> None ->
  (forall s r, In s sessions -> In r (tracking_table db) ->
               Tracking.tracking_id r = Tracking.tracking_id s ->
               Tracking.user_entered_trxid r = Some u) ->
  Forall (receiptBacked db) (tracking_table db) ->
  Forall (receiptBacked (storeAfter (verifyEach sessions x now db)))
         (tracking_table (storeAfter (verifyEach sessions x now db))).
Proof.
  revert db. induction sessions as [|s l IH]; intros db L H F; [exact F|].
  cbn [verifyEach].
  pose proof (backed_applyResult (Tracking.tracking_id s) (verifyPayment s x db) db F) as A.
  pose proof (keepsKeys_applyResult now (Tracking.tracking_id s) (verifyPayment s x db) db)
    as (K1 & _ & _).
  pose proof (applyResult_rows (Tracking.tracking_id s) (verifyPayment s x db) db) as R.
  destruct (applyResult _ _ _ _) as [db1 writes]. cbn [fst] in A, K1, R.
  assert (F1 : Forall (receiptBacked db1) (tracking_table db1)).
  { apply A. intros r I E. exists u. split; [|exact L].
    apply (H s r); [now left | exact I | exact E]. }
  assert (L1 : TransactionsService.getByTrxID (normalizeTrxID u) db1 <> None).
  { unfold TransactionsService.getByTrxID in *. now rewrite K1. }
  assert (H1 : forall s' r, In s' l -> In r (tracking_table db1) ->
                            Tracking.tracking_id r = Tracking.tracking_id s' ->
                            Tracking.user_entered_trxid r = Some u).
  { intros s' r1 Is I1 E. destruct (R r1 I1) as (r & I & E1 & E2).
    rewrite E2. apply (H s' r); [now right | exact I | congruence]. }
  specialize (IH db1 L1 H1 F1).
  destruct (verifyEach l x now db1) as [[db2 calls] results]. exact IH.
Qed.

Lemma verifiedBacked_verifyIncomingTransaction transactionId db :
  verifiedBacked db ->
  verifiedBacked (storeAfter (verifyIncomingTransaction transactionId now db)).
Proof.
  intros (U & N & F).
  destruct (verifiedBacked_keys _ _ (keepsKeys_verifyIncomingTransaction now transactionId db)
                                (conj U N)) as [U' N'].
  split; [exact U'|]. split; [exact N'|]. clear U' N'.
  unfold verifyIncomingTransaction.
  destruct (TransactionsService.getByID transactionId db) as [x|] eqn:G; [|exact F].
  destruct (TrackingService.findByTrxID _ db) as [|s0 l0] eqn:S; [exact F|].
  rewrite <- S.
  apply (backed_verifyEach x (normalizeTrxID (Transaction.trxid x))); [| |exact F].
  - apply transactions_getByID_found in G. destruct G as [I _].
    rewrite normalizeTrxID_idem.
    unfold receiptsNormalised in N. rewrite Forall_forall in N. rewrite (N x I).
    unfold TransactionsService.getByTrxID. intros E.
    apply (find_none _ _ E) in I. rewrite StringFacts.eqb_refl in I. discriminate.
  - intros s r Is Ir E. apply filter_In in Is. destruct Is as [Is W].
    assert (r = s) by (now apply (unique_same_id db)). subst r.
    apply andb_true_iff in W. destruct W as [W _].
    destruct (Tracking.user_entered_trxid s) as [v|]; [|discriminate].
    apply StringFacts.eqb_eq in W. now subst v.
Qed.

Lemma verifiedBacked_submit id trxid db :
  verifiedBacked db -> verifiedBacked (storeAfter (submitTrxID id trxid now db)).
Proof.
  intros B. unfold submitTrxID.
  destruct (id =? "")%string; [exact B|].
  destruct (JS.orNull trxid) as [u|]; [|exact B].
  destruct (normalizeTrxID u =? "")%string; [exact B|].
  destruct (TrackingService.getByID id db) as [t|] eqn:G; [|exact B].
  destruct (now >? _); [exact B|].
  destruct (TrackingStatus_eqb _ verified); [exact B|].
  destruct (_ && _); [exact B|].
  assert (B1 : verifiedBacked (TrackingService.submitTrxID id (normalizeTrxID u) now db)).
  { destruct B as (U & N & F).
    destruct (verifiedBacked_keys _ _ (keepsKeys_submitTrxID now id (normalizeTrxID u) db)
                                  (conj U N)) as [U' N'].
    split; [exact U'|]. split; [exact N'|].
    apply Forall_impl with (P := receiptBacked db).
    { intros r. now apply receiptBacked_receipts. }
    unfold TrackingService.submitTrxID. apply Forall_updateWhereID; [exact F|].
    intros r _ _ V. cbn in V. discriminate. }
  pose proof (verifiedBacked_attemptVerification id _ B1) as A.
  destruct (attemptVerification _ _ _) as [[db2 calls] r]. exact A.
Qed.

Lemma verifiedBacked_expireRows ids db :
  verifiedBacked db -> verifiedBacked (TrackingService.expireRows ids now db).
Proof.
  intros (U & N & F).
  destruct (verifiedBacked_keys _ _ (keepsKeys_expireRows now ids db) (conj U N)) as [U' N'].
  split; [exact U'|]. split; [exact N'|].
  apply Forall_impl with (P := receiptBacked db).
  { intros r. apply receiptBacked_receipts. now destruct ids. }
  rewrite expireRows_table.
  apply Forall_forall. intros r' I. apply in_map_iff in I. destruct I as (r & <- & I).
  rewrite Forall_forall in F.
  destruct (existsb _ _); [|now apply F].
  intros V. cbn in V. discriminate.
Qed.

Lemma verifiedBacked_scheduledHandler db :
  verifiedBacked db -> verifiedBacked (storeAfter (scheduledHandler now db)).
Proof.
  intros B. sweep_cases now db; [exact B|].
  set (db1 := match TrackingService.findExpired now db with
              | [] => db
              | _ => TrackingService.expireRows _ now db
              end).
  assert (B1 : verifiedBacked db1).
  { unfold db1. destruct (TrackingService.findExpired now db);
      [exact B | now apply verifiedBacked_expireRows]. }
  clearbody db1.
  assert (L : forall sessions d c,
             verifiedBacked d ->
             verifiedBacked
               (storeAfter
                  (retryLoop (fun trackingId db0 =>
                                let '(db', calls, result) :=
                                  attemptVerification trackingId now db0 in
                                (db', calls, @inr Exn VerificationResult result))
                             sessions d c))).
  { induction sessions as [|s l IH]; intros d c Bd; [exact Bd|].
    cbn [retryLoop]. unfold retryStep.
    pose proof (verifiedBacked_attemptVerification (Tracking.tracking_id s) d Bd) as A.
    destruct (attemptVerification _ now d) as [[d1 calls1] r1].
    match goal with
    | |- context [retryLoop ?a l d1 ?c1] =>
        specialize (IH d1 c1 A); destruct (retryLoop a l d1 c1) as [[d2 calls2] c2]
    end.
    exact IH. }
  specialize (L (TrackingService.findPendingVerification db1) db1 (mkCounters 0 0 0) B1).
  destruct (retryLoop _ _ db1 _) as [[db2 calls] c]. exact L.
Qed.

Lemma verifiedBacked_tracking_create data id db db' t :
  verifiedBacked db ->
  TrackingService.create data id now db = inr (db', t) ->
  verifiedBacked db'.
Proof.
  intros (U & N & F). unfold TrackingService.create.
  destruct (TrackingService.getByID id db) eqn:G; [discriminate|].
  intros [= <- <-]. split; [|split; [exact N|]].
  - unfold uniqueTrackingIDs. simpl tracking_table. rewrite map_app. simpl map.
    apply NoDup_snoc; [exact U|].
    intros I. apply in_map_iff in I. destruct I as (r & E & I).
    unfold TrackingService.getByID in G.
    apply (find_none _ _ G) in I. rewrite E, StringFacts.eqb_refl in I. discriminate.
  - simpl tracking_table. apply Forall_app. split.
    + eapply Forall_impl; [|exact F]. intros r. now apply receiptBacked_receipts.
    + constructor; [|constructor]. intros V. cbn in V. discriminate.
Qed.

Lemma verifiedBacked_track stringify body origin id db :
  verifiedBacked db ->
  verifiedBacked (storeAfter (createTrackingSession stringify body origin id now db)).
Proof.
  intros B. unfold createTrackingSession.
  destruct (JS.orNull (q_item_code body)) as [item|]; [|exact B].
  destruct (q_payment_amount_cents body) as [amount|]; [|exact B].
  destruct (_ || _); [exact B|].
  destruct (q_customer_info body) as [ci|]; [|exact B].
  destruct (JS.orNull (c_name ci)); [|exact B].
  destruct (JS.orNull (c_phone ci)); [|exact B].
  destruct (JS.orNull (c_email ci)); [|exact B].
  destruct (JS.orNull (q_ticket_choice body)) as [ticket|]; [|exact B].
  cbv zeta.
  destruct (_ =? 0)%nat; [exact B|].
  match goal with
  | |- context [TrackingService.create ?d id now db] =>
      destruct (TrackingService.create d id now db) as [e|[db' t]] eqn:C; [exact B|]
  end.
  now apply (verifiedBacked_tracking_create _ _ _ _ _ B C).
Qed.

Lemma verifiedBacked_transactions_create data id db db1 x isNew :
  normalizeTrxID (TransactionsService.d_trxid data) = TransactionsService.d_trxid data ->
  verifiedBacked db ->
  TransactionsService.create data id now db = inr (db1, x, isNew) ->
  verifiedBacked db1.
Proof.
  intros E (U & N & F) C. apply create_outcome in C.
  destruct C as [(-> & -> & G) | (-> & X & -> & _)]; [now repeat split|].
  split; [exact U|]. split.
  - unfold receiptsNormalised. simpl transactions_table. apply Forall_app.
    split; [exact N|]. constructor; [|constructor]. now subst x.
  - simpl tracking_table. eapply Forall_impl; [|exact F].
    intros r R V. destruct (R V) as (u & D & L). exists u. split; [exact D|].
    unfold TransactionsService.getByTrxID in *. simpl transactions_table.
    destruct (find _ (transactions_table db)) as [y|] eqn:Y; [|now elim L].
    intros W. apply find_some in Y. destruct Y as [I Q].
    pose proof (find_none _ _ W y (in_or_app _ _ _ (or_introl I))) as W1.
    cbv beta in W1. rewrite Q in W1. discriminate.
Qed.

Lemma verifiedBacked_webhook amountCents eventTime raw recv id db :
  verifiedBacked db ->
  verifiedBacked
    (storeAfter (handleWebhookSMS amountCents eventTime raw recv id now db)).
Proof.
  intros B. unfold handleWebhookSMS.
  destruct (JS.orNull raw) as [raw'|]; [|exact B].
  destruct (JS.orNull recv) as [recv'|]; [|exact B].
  destruct (negb _); [exact B|].
  destruct (parseBkashSMS amountCents eventTime raw') as [p|] eqn:P; [|exact B].
  destruct (_ <=? 0); [exact B|].
  destruct (TransactionsService.create _ id now db) as [e|[[db1 x] n]] eqn:C; [exact B|].
  apply verifiedBacked_transactions_create in C;
    [|exact (proj2 (parseBkashSMS_reference _ _ _ _ P)) | exact B].
  pose proof (verifiedBacked_verifyIncomingTransaction (Transaction.id x) db1 C) as A.
  destruct (verifyIncomingTransaction _ now db1) as [[db2 calls] rs]. exact A.
Qed.

End Reachability.

Lemma Reachable_verifiedBacked db : Reachable db -> verifiedBacked db.
Proof.
  induction 1 as [receivers| | | |].
  - split; [constructor|]. split; constructor.
  - now apply verifiedBacked_track.
  - now apply verifiedBacked_submit.
  - now apply verifiedBacked_webhook.
  - now apply verifiedBacked_scheduledHandler.
Qed.

(** In a store the worker reaches, a session whose declared reference has
    no receipt is not verified. *)
Lemma unbacked_not_verified id u t db :
  Reachable db ->
  TrackingService.getByID id db = Some t ->
  Tracking.user_entered_trxid t = Some u ->
  TransactionsService.getByTrxID (normalizeTrxID u) db = None ->
  Tracking.status t <> verified.
Proof.
  intros R G D L V. apply Reachable_verifiedBacked in R. destruct R as (_ & _ & F).
  rewrite Forall_forall in F. apply getByID_In in G. destruct G as [I _].
  destruct (F t I V) as (u' & D' & L'). rewrite D in D'. injection D' as <-.
  now apply L'.
Qed.

(** ** No receipt yet *)

(** C7. When no receipt carries the reference a session has declared,
    [attemptVerification] returns a pending result, not a success and not a
    failure, and neither writes nor calls anything: the store is as
    before, so the session's status, matched_transaction_id and notes are
    unchanged and no failed status is written, and the rule chain is not
    evaluated.  The pending result is for every store the worker reaches;
    the rest holds in any store. *)
Theorem no_receipt_is_inconclusive
        (now : Z) (id u : string) (t : Tracking.t) (db : DB) :
  TrackingService.getByID id db = Some t ->
  Tracking.user_entered_trxid t = Some u ->
  TransactionsService.getByTrxID (normalizeTrxID u) db = None ->
  let o := attemptVerification id now db in
  (Reachable db ->
   status (valueOf o) = r_pending /\ success (valueOf o) = false)
  /\ storeAfter o = db
  /\ TrackingService.getByID id (storeAfter o) = Some t
  /\ callsOf o = []
  /\ status (valueOf o) <> r_failed
  /\ (Tracking.status t <> verified ->
      status (valueOf o) = r_pending /\ success (valueOf o) = false).
Proof.
  intros G D N o.
  assert (P : storeAfter o = db /\ callsOf o = [] /\ status (valueOf o) <> r_failed
              /\ (Tracking.status t <> verified ->
                  status (valueOf o) = r_pending /\ success (valueOf o) = false)).
  { unfold o, attemptVerification. rewrite G, D.
    unfold JS.orNull.
    destruct (StringFacts.eqb_spec u "") as [->|_].
    - split; [reflexivity|]. split; [reflexivity|]. split; [discriminate|]. now split.
    - destruct (TrackingStatus_eqb (Tracking.status t) verified) eqn:S.
      + apply TrackingStatus_eqb_eq in S.
        split; [reflexivity|]. split; [reflexivity|]. split; [discriminate|].
        intros X. now elim X.
      + rewrite N.
        split; [reflexivity|]. split; [reflexivity|]. split; [discriminate|]. now split. }
  destruct P as (P1 & P2 & P3 & P4).
  split; [|split; [exact P1|split; [now rewrite P1|split; [exact P2|split; [exact P3|exact P4]]]]].
  intros R. apply P4. now apply (unbacked_not_verified id u t db).
Qed.

Lemma no_receipt_is_inconclusive_witness :
  Reachable declaredFirst
  /\ statusOf "S9" declaredFirst = Some submitted_trx
  /\ status (valueOf (attemptVerification "S9" (Sample.t0 + 300000) declaredFirst))
     = r_pending
  /\ storeAfter (attemptVerification "S9" (Sample.t0 + 300000) declaredFirst)
     = declaredFirst.
Proof.
  assert (R : Reachable declaredFirst).
  { unfold declaredFirst. apply reach_submit, reach_track, reach_migrated. }
  split; [exact R|]. split; [reflexivity|].
  destruct (no_receipt_is_inconclusive
              (Sample.t0 + 300000) "S9" "CJU0PZQ3U6"
              (Tracking.mk "S9" "TICKET_VIP" 100000 ["01785863769"] (Some "CJU0PZQ3U6")
                           "{}" (Some "{}") "VIP Premium Pass" auto submitted_trx None
                           Sample.t0 (Sample.t0 + 120000) (Sample.t0 + 3600000) None)
              declaredFirst)
    as (A & B & _).
  - vm_compute. reflexivity.
  - reflexivity.
  - vm_compute. reflexivity.
  - split; [now apply A | exact B].
Defined.
